(** * banana-site: the per-user storage backend (server/index.js)

    A shallow embedding of the token check, the quota accountant, the
    favorites materializer, the favorites collection store and the
    protected file route of [server/index.js], with the properties the
    specification states about them.

    Conventions.
    - JavaScript strings are [string] (a sequence of bytes, UTF-8).
    - A [Buffer] is a [list Z] of bytes, each in [0, 256).
    - Byte counts and epoch milliseconds are [Z]: whole numbers, which
      the doubles of the code hold and add exactly up to [2^53].  The
      arguments that the code screens with [Number.isFinite] are
      [jsnum].
    - A header value is a [string] of latin1 characters, one byte
      each.
    - Node built-ins that are not code of this repository (HMAC-SHA256,
      JSON.parse, the HTTP client, the clock, the random generator, the
      URL resolver) are fields of a [Platform] record.
    - A handler is a function from the world before the request to its
      answer and the world after it; requests are handled one at a time.

    Left out: the [updatedAt] stamps, the failures of [writeFile] and
    [stat] that the code does not handle itself, the directories outside
    the two galleries, and the routes that none of the properties is
    about.  [JSON.parse(JSON.stringify(item))]
    is the identity on a parsed body, and the entries of an object are
    listed in the order of [Object.keys]. *)

From Stdlib Require Import ZArith List String Ascii Bool Lia Sorted.
From stdpp Require Import base tactics option list gmap strings pretty.

Local Open Scope string_scope.
Local Open Scope Z_scope.

(** ** Strings *)

Module Str.

(** [s.startsWith(p)] *)
Fixpoint startsWith (s p : string) {struct p} : bool :=
  match p, s with
  | EmptyString, _ => true
  | String a p', String b s' => Ascii.eqb a b && startsWith s' p'
  | String _ _, EmptyString => false
  end.

(** [s.includes(p)] *)
Fixpoint includes (s p : string) : bool :=
  startsWith s p ||
  match s with
  | EmptyString => false
  | String _ s' => includes s' p
  end.

(** The rest of [s] after the prefix [p]; [s.replace(p, '')] where [s]
    starts with [p]. *)
Fixpoint dropPrefix (s p : string) {struct p} : string :=
  match p, s with
  | String _ p', String _ s' => dropPrefix s' p'
  | _, _ => s
  end.

(** [s.split(c)] for a one-character separator. *)
Fixpoint split (c : ascii) (s : string) : list string :=
  match s with
  | EmptyString => [EmptyString]
  | String a s' =>
      if Ascii.eqb a c then EmptyString :: split c s'
      else match split c s' with
           | hd :: tl => String a hd :: tl
           | [] => [String a EmptyString]
           end
  end.

(** [l.join(sep)] *)
Fixpoint join (sep : string) (l : list string) : string :=
  match l with
  | [] => EmptyString
  | [x] => x
  | x :: tl => x +:+ sep +:+ join sep tl
  end.

Definition lowerAscii (a : ascii) : ascii :=
  let n := Z.of_N (N_of_ascii a) in
  if (65 <=? n) && (n <=? 90) then ascii_of_N (Z.to_N (n + 32)) else a.

(** [s.toLowerCase()], on the ASCII letters. *)
Fixpoint toLowerCase (s : string) : string :=
  match s with
  | EmptyString => EmptyString
  | String a s' => String (lowerAscii a) (toLowerCase s')
  end.

Definition isSpace (a : ascii) : bool :=
  let n := Z.of_N (N_of_ascii a) in
  ((9 <=? n) && (n <=? 13)) || (n =? 32).

Fixpoint trimStart (s : string) : string :=
  match s with
  | String a s' => if isSpace a then trimStart s' else s
  | EmptyString => EmptyString
  end.

Fixpoint rev_string (s acc : string) : string :=
  match s with
  | EmptyString => acc
  | String a s' => rev_string s' (String a acc)
  end.

(** [s.trim()], on the ASCII white space. *)
Definition trim (s : string) : string :=
  rev_string (trimStart (rev_string (trimStart s) EmptyString)) EmptyString.

Definition nonEmpty (s : string) : bool :=
  match s with EmptyString => false | _ => true end.

(** The bytes of a string, as [Buffer.from(s)] gives them. *)
Fixpoint bytes (s : string) : list Z :=
  match s with
  | EmptyString => []
  | String a s' => Z.of_N (N_of_ascii a) :: bytes s'
  end.

End Str.

(** ** Further string methods *)

Module Text.

Definition byte (a : ascii) : Z := Z.of_N (N_of_ascii a).

Definition rev (s : string) : string := Str.rev_string s EmptyString.

(** [s.endsWith(p)] *)
Definition endsWith (s p : string) : bool := Str.startsWith (rev s) (rev p).

(** For [idx = s.indexOf(c)]: [s.slice(0, idx)] and [s.slice(idx + 1)];
    [None] when [idx] is -1. *)
Fixpoint cut (c : ascii) (s : string) : option (string * string) :=
  match s with
  | EmptyString => None
  | String a s' =>
      if Ascii.eqb a c then Some (EmptyString, s')
      else match cut c s' with
           | Some (k, v) => Some (String a k, v)
           | None => None
           end
  end.

(** [s.slice(0, -1)] *)
Definition dropLast (s : string) : string :=
  match rev s with
  | String _ r => rev r
  | EmptyString => EmptyString
  end.

(** [s.slice(1, -1)] *)
Definition slice1m1 (s : string) : string :=
  match s with
  | String _ s' => dropLast s'
  | EmptyString => EmptyString
  end.

(** The white space and line terminators of ECMAScript, in UTF-8: one,
    two and three bytes. *)
Definition space1 (x : Z) : bool := ((9 <=? x) && (x <=? 13)) || (x =? 32).

Definition space2 (x y : Z) : bool := (x =? 194) && (y =? 160).   (* U+00A0 *)

Definition space3 (x y z : Z) : bool :=
  ((x =? 225) && (y =? 154) && (z =? 128))                        (* U+1680 *)
  || ((x =? 226) && (y =? 128) &&
      (((128 <=? z) && (z <=? 138))                               (* U+2000..U+200A *)
       || (z =? 168) || (z =? 169) || (z =? 175)))                (* U+2028 U+2029 U+202F *)
  || ((x =? 226) && (y =? 129) && (z =? 159))                     (* U+205F *)
  || ((x =? 227) && (y =? 128) && (z =? 128))                     (* U+3000 *)
  || ((x =? 239) && (y =? 187) && (z =? 191)).                    (* U+FEFF *)

(** [s.trimStart()] *)
Fixpoint trimStart (s : string) : string :=
  match s with
  | String a s1 =>
      if space1 (byte a) then trimStart s1
      else match s1 with
           | String b s2 =>
               if space2 (byte a) (byte b) then trimStart s2
               else match s2 with
                    | String c s3 =>
                        if space3 (byte a) (byte b) (byte c) then trimStart s3
                        else s
                    | EmptyString => s
                    end
           | EmptyString => s
           end
  | EmptyString => EmptyString
  end.

(** The same on the reversed text: the last byte comes first. *)
Fixpoint trimStartRev (s : string) : string :=
  match s with
  | String a s1 =>
      if space1 (byte a) then trimStartRev s1
      else match s1 with
           | String b s2 =>
               if space2 (byte b) (byte a) then trimStartRev s2
               else match s2 with
                    | String c s3 =>
                        if space3 (byte c) (byte b) (byte a) then trimStartRev s3
                        else s
                    | EmptyString => s
                    end
           | EmptyString => s
           end
  | EmptyString => EmptyString
  end.

(** [s.trim()] *)
Definition trim (s : string) : string := rev (trimStartRev (rev (trimStart s))).

(** A header value is latin1, one byte a character: its white space is
    that of one byte and U+00A0. *)
Definition headerSpace (a : ascii) : bool := space1 (byte a) || (byte a =? 160).

Fixpoint trimStartBy (p : ascii -> bool) (s : string) : string :=
  match s with
  | String a s' => if p a then trimStartBy p s' else s
  | EmptyString => EmptyString
  end.

(** [s.trim()] on a header value. *)
Definition trimHeader (s : string) : string :=
  rev (trimStartBy headerSpace (rev (trimStartBy headerSpace s))).

(** [s.toLowerCase()] on a header value: the letters of ASCII and of
    latin1, of which the capitals are [U+00C0] to [U+00DE] without the
    multiplication sign. *)
Definition lowerLatin1 (a : ascii) : ascii :=
  let n := byte a in
  if ((65 <=? n) && (n <=? 90)) || ((192 <=? n) && (n <=? 222) && negb (n =? 215))
  then ascii_of_N (Z.to_N (n + 32))
  else a.

Fixpoint toLowerHeader (s : string) : string :=
  match s with
  | EmptyString => EmptyString
  | String a s' => String (lowerLatin1 a) (toLowerHeader s')
  end.

(** [text.split(/\r?\n/)] *)
Fixpoint splitLines (s : string) : list string :=
  match s with
  | EmptyString => [EmptyString]
  | String a s' =>
      if Ascii.eqb a "010"%char then EmptyString :: splitLines s'
      else
        match s' with
        | String b s'' =>
            if Ascii.eqb a "013"%char && Ascii.eqb b "010"%char
            then EmptyString :: splitLines s''
            else match splitLines s' with
                 | hd :: tl => String a hd :: tl
                 | [] => [String a EmptyString]
                 end
        | EmptyString => [String a EmptyString]
        end
  end.

End Text.

(** ** Base64, as [Buffer] implements it

    [buf.toString('base64')] is the padded standard alphabet.
    [Buffer.from(s, 'base64')] is Node's lenient decoder: it reads up to
    the first [=], accepts both the standard and the URL-safe alphabet
    and skips every other character. *)

Module Base64.

Definition alphabet : string :=
  "ABCDEFGHIJKLMNOPQRSTUVWXYZabcdefghijklmnopqrstuvwxyz0123456789+/".

Definition char (n : Z) : ascii :=
  match String.get (Z.to_nat n) alphabet with
  | Some c => c
  | None => "="%char
  end.

Definition unbase64 (c : ascii) : option Z :=
  let n := Z.of_N (N_of_ascii c) in
  if (65 <=? n) && (n <=? 90) then Some (n - 65)
  else if (97 <=? n) && (n <=? 122) then Some (n - 71)
  else if (48 <=? n) && (n <=? 57) then Some (n + 4)
  else if (n =? 43) || (n =? 45) then Some 62
  else if (n =? 47) || (n =? 95) then Some 63
  else None.

Definition isByte (b : Z) : Prop := 0 <= b < 256.

Fixpoint encode (bs : list Z) : string :=
  match bs with
  | [] => EmptyString
  | [a] =>
      String (char (a / 4)) (String (char (a mod 4 * 16)) "==")
  | [a; b] =>
      String (char (a / 4))
        (String (char (a mod 4 * 16 + b / 16))
           (String (char (b mod 16 * 4)) "="))
  | a :: b :: c :: rest =>
      String (char (a / 4))
        (String (char (a mod 4 * 16 + b / 16))
           (String (char (b mod 16 * 4 + c / 64))
              (String (char (c mod 64)) (encode rest))))
  end.

(** The six-bit values read from a string: stop at [=], skip what is
    not in either alphabet. *)
Fixpoint sextets (s : string) : list Z :=
  match s with
  | EmptyString => []
  | String c s' =>
      if Ascii.eqb c "="%char then []
      else match unbase64 c with
           | Some v => v :: sextets s'
           | None => sextets s'
           end
  end.

Fixpoint pack (l : list Z) : list Z :=
  match l with
  | s1 :: s2 :: s3 :: s4 :: rest =>
      (s1 * 4 + s2 / 16) mod 256
      :: (s2 mod 16 * 16 + s3 / 4) mod 256
      :: (s3 mod 4 * 64 + s4) mod 256
      :: pack rest
  | [s1; s2; s3] =>
      [(s1 * 4 + s2 / 16) mod 256; (s2 mod 16 * 16 + s3 / 4) mod 256]
  | [s1; s2] => [(s1 * 4 + s2 / 16) mod 256]
  | _ => []
  end.

Definition decode (s : string) : list Z := pack (sextets s).

(** [s] is the canonical base64 text of some bytes. *)
Definition canonical (s : string) : Prop :=
  exists bs, Forall isByte bs /\ s = encode bs.

(** The characters of a canonical text are base64 characters or [=]:
    none of them is a line terminator. *)
Definition plainChar (c : ascii) : bool :=
  match unbase64 c with Some _ => true | None => Ascii.eqb c "="%char end.

Fixpoint allChars (p : ascii -> bool) (s : string) : bool :=
  match s with
  | EmptyString => true
  | String c s' => p c && allChars p s'
  end.

End Base64.

(** ** [node:path] on POSIX, and the URI component codec *)

Module Path.

Definition isDot (s : string) : bool := String.eqb s ".".
Definition isDotDot (s : string) : bool := String.eqb s "..".

(** [normalizeString]: [res] is the stack of kept segments, last
    segment first. *)
Fixpoint normalizeSegs (allowAboveRoot : bool) (segs res : list string)
  : list string :=
  match segs with
  | [] => rev res
  | seg :: rest =>
      if negb (Str.nonEmpty seg) || isDot seg then
        normalizeSegs allowAboveRoot rest res
      else if isDotDot seg then
        match res with
        | last :: res' =>
            if isDotDot last then
              normalizeSegs allowAboveRoot rest
                (if allowAboveRoot then seg :: res else res)
            else normalizeSegs allowAboveRoot rest res'
        | [] =>
            normalizeSegs allowAboveRoot rest
              (if allowAboveRoot then [seg] else [])
        end
      else normalizeSegs allowAboveRoot rest (seg :: res)
  end.

Fixpoint endsWithSlash (s : string) : bool :=
  match s with
  | EmptyString => false
  | String a EmptyString => Ascii.eqb a "/"%char
  | String _ s' => endsWithSlash s'
  end.

(** [path.normalize(p)] *)
Definition normalize (p : string) : string :=
  if negb (Str.nonEmpty p) then "."
  else
    let isAbsolute := Str.startsWith p "/" in
    let trailing := endsWithSlash p in
    let body :=
      Str.join "/" (normalizeSegs (negb isAbsolute) (Str.split "/"%char p) []) in
    let body := if negb (Str.nonEmpty body) && negb isAbsolute then "." else body in
    let body := if Str.nonEmpty body && trailing then body +:+ "/" else body in
    if isAbsolute then "/" +:+ body else body.

(** [path.join(...args)] *)
Definition join (args : list string) : string :=
  match List.filter Str.nonEmpty args with
  | [] => "."
  | parts => normalize (Str.join "/" parts)
  end.

Fixpoint lastSegment (segs : list string) : string :=
  match segs with
  | [] => EmptyString
  | [x] => x
  | _ :: tl => lastSegment tl
  end.

(** The text of [s] from its last dot on, when that dot is not its
    first character. *)
Fixpoint fromLastDot (s : string) : option string :=
  match s with
  | EmptyString => None
  | String a s' =>
      match fromLastDot s' with
      | Some e => Some e
      | None => if Ascii.eqb a "."%char then Some s else None
      end
  end.

(** [path.extname(p)] *)
Definition extname (p : string) : string :=
  let base := lastSegment (List.filter Str.nonEmpty (Str.split "/"%char p)) in
  if isDotDot base then EmptyString
  else match base with
       | EmptyString => EmptyString
       | String a rest =>
           match fromLastDot rest with
           | Some e => e
           | None => EmptyString
           end
       end.

(** A segment that [normalizeString] keeps as it is. *)
Definition properSeg (s : string) : Prop :=
  Str.nonEmpty s = true /\ isDot s = false /\ isDotDot s = false /\
  Str.split "/"%char s = [s].

End Path.

Module Uri.

Definition hexDigit (n : Z) : ascii :=
  match String.get (Z.to_nat n) "0123456789ABCDEF" with
  | Some c => c
  | None => "0"%char
  end.

(** The characters [encodeURIComponent] leaves alone. *)
Definition unreserved (a : ascii) : bool :=
  let n := Z.of_N (N_of_ascii a) in
  ((65 <=? n) && (n <=? 90)) || ((97 <=? n) && (n <=? 122)) ||
  ((48 <=? n) && (n <=? 57)) ||
  (n =? 45) || (n =? 95) || (n =? 46) || (n =? 33) || (n =? 126) ||
  (n =? 42) || (n =? 39) || (n =? 40) || (n =? 41).

Fixpoint encodeURIComponent (s : string) : string :=
  match s with
  | EmptyString => EmptyString
  | String a s' =>
      let n := Z.of_N (N_of_ascii a) in
      if unreserved a then String a (encodeURIComponent s')
      else String "%"%char
             (String (hexDigit (n / 16))
                (String (hexDigit (n mod 16)) (encodeURIComponent s')))
  end.

End Uri.

(** ** JavaScript values *)

(** A number argument as [Number.isFinite] sees it. *)
Inductive jsnum : Type :=
| Fin (z : Z)
| NaN
| PosInf
| NegInf.

Definition isFinite (x : jsnum) : bool :=
  match x with Fin _ => true | _ => false end.

(** The numbers of a JSON text.  The server tests them for truthiness,
    prints them and compares them with the clock, and nothing else. *)
Class JsNumber (num : Type) := {
  num_of_Z : Z -> num;
  num_is_zero : num -> bool;
  num_to_string : num -> string;
  num_ltb : num -> num -> bool;
  (** [Number(s)] on a string; [None] is NaN. *)
  num_of_string : string -> option num;
}.

Section Json.

Context {num : Type}.

Unset Elimination Schemes.
Inductive json : Type :=
| JNull
| JBool (b : bool)
| JNum (n : num)
| JStr (s : string)
| JArr (xs : list json)
| JObj (kvs : list (string * json)).
Set Elimination Schemes.

Section Induction.
Variable P : json -> Prop.
Hypothesis HNull : P JNull.
Hypothesis HBool : forall b, P (JBool b).
Hypothesis HNum : forall n, P (JNum n).
Hypothesis HStr : forall s, P (JStr s).
Hypothesis HArr : forall xs, Forall P xs -> P (JArr xs).
Hypothesis HObj : forall kvs, Forall (fun kv => P (snd kv)) kvs -> P (JObj kvs).

Fixpoint json_ind (j : json) : P j :=
  match j with
  | JNull => HNull
  | JBool b => HBool b
  | JNum n => HNum n
  | JStr s => HStr s
  | JArr xs =>
      HArr xs
        ((fix go (l : list json) : Forall P l :=
            match l with
            | [] => List.Forall_nil P
            | x :: l' => @List.Forall_cons _ P x l' (json_ind x) (go l')
            end) xs)
  | JObj kvs =>
      HObj kvs
        ((fix go (l : list (string * json)) : Forall (fun kv => P (snd kv)) l :=
            match l with
            | [] => List.Forall_nil _
            | kv :: l' => @List.Forall_cons _ (fun kv => P (snd kv)) kv l' (json_ind (snd kv)) (go l')
            end) kvs)
  end.
End Induction.

(** Own-property lookup in an object's entries. *)
Fixpoint assoc (k : string) (kvs : list (string * json)) : option json :=
  match kvs with
  | [] => None
  | (k', v) :: rest => if String.eqb k k' then Some v else assoc k rest
  end.

(** [o[k] = v]: in place when the key exists, appended otherwise. *)
Fixpoint objSet (k : string) (v : json) (kvs : list (string * json))
  : list (string * json) :=
  match kvs with
  | [] => [(k, v)]
  | (k', v') :: rest =>
      if String.eqb k k' then (k', v) :: rest else (k', v') :: objSet k v rest
  end.

(** [delete o[k]] *)
Fixpoint objDelete (k : string) (kvs : list (string * json))
  : list (string * json) :=
  match kvs with
  | [] => []
  | (k', v') :: rest =>
      if String.eqb k k' then objDelete k rest else (k', v') :: objDelete k rest
  end.

(** [j.k] and [j?.k] for the keys the server reads; [None] is
    [undefined].  Only an object has such a property. *)
Definition prop (j : json) (k : string) : option json :=
  match j with
  | JObj kvs => assoc k kvs
  | _ => None
  end.

Definition optProp (o : option json) (k : string) : option json :=
  match o with
  | Some j => prop j k
  | None => None
  end.

Context `{!JsNumber num}.

(** ToBoolean *)
Definition truthy (j : json) : bool :=
  match j with
  | JNull => false
  | JBool b => b
  | JNum n => negb (num_is_zero n)
  | JStr s => Str.nonEmpty s
  | JArr _ | JObj _ => true
  end.

Definition truthyOpt (o : option json) : bool :=
  match o with
  | Some j => truthy j
  | None => false
  end.

(** [a || b] *)
Definition orElse (a b : option json) : option json :=
  if truthyOpt a then a else b.

(** ToString, as [String(v)] and a template literal apply it. *)
Fixpoint toString (j : json) : string :=
  match j with
  | JNull => "null"
  | JBool true => "true"
  | JBool false => "false"
  | JNum n => num_to_string n
  | JStr s => s
  | JArr xs =>
      Str.join ","
        (List.map (fun x => match x with
                            | JNull => EmptyString
                            | _ => toString x
                            end) xs)
  | JObj _ => "[object Object]"
  end.

Definition toStringOpt (o : option json) : string :=
  match o with
  | Some j => toString j
  | None => "undefined"
  end.

(** ToNumber; [None] is NaN. *)
Definition toNumber (j : json) : option num :=
  match j with
  | JNull => Some (num_of_Z 0)
  | JBool b => Some (num_of_Z (if b then 1 else 0))
  | JNum n => Some n
  | JStr s => num_of_string s
  | JArr _ | JObj _ => num_of_string (toString j)
  end.

(** [now > v] for the integer [now]. *)
Definition gtNow (now : Z) (v : json) : bool :=
  match toNumber v with
  | Some n => num_ltb n (num_of_Z now)
  | None => false
  end.

(** [typeof v === 'string' && v]: the string when it is a non-empty one. *)
Definition nonEmptyString (o : option json) : option string :=
  match o with
  | Some (JStr s) => if Str.nonEmpty s then Some s else None
  | _ => None
  end.

End Json.

Arguments json : clear implicits.

(** ** Errors, the platform and the world *)

(** What the server throws, by throw site. *)
Inductive exn : Type :=
| HttpStatus (status : Z)        (* fetchUrlBuffer: [HTTP <status>] *)
| DownloadTooLarge               (* fetchUrlBuffer: over the byte cap *)
| QuotaExceeded (leftBytes quota : Z) (* assertGalleryHasSpace *)
| PlatformError (msg : string).  (* raised by a Node built-in *)

Inductive outcome (A : Type) : Type :=
| Ok (a : A)
| Throw (e : exn).
Arguments Ok {A} a.
Arguments Throw {A} e.

(** [e.statusCode], when the error carries one. *)
Definition statusCode (e : exn) : option Z :=
  match e with
  | HttpStatus s => Some s
  | DownloadTooLarge => Some 413
  | QuotaExceeded _ _ => Some 507
  | PlatformError _ => None
  end.

Record http_response := {
  resp_status : Z;                   (* r.statusCode || 0 *)
  resp_location : option string;     (* r.headers.location *)
  resp_contentType : option string;  (* r.headers['content-type'] *)
  resp_chunks : list (list Z);       (* the 'data' events *)
}.

Inductive http_result : Type :=
| HttpError (msg : string)           (* the request emits 'error' *)
| HttpResponse (r : http_response).

(** Entries of a directory, as [readdir] with file types and [stat] show
    them. *)
Unset Elimination Schemes.
Inductive dirent : Type :=
| DFile (size : N)
| DDir (entries : list (string * dirent))
| DOther.
Set Elimination Schemes.

(** [usage.json] *)
Record Usage := {
  uploadsBytes : Z;
  generatedBytes : Z;
}.

Section World.

Context {num : Type} `{!JsNumber num}.

(** The Node built-ins the server calls. *)
Class Platform := {
  hmac_sha256 : string -> string -> list Z;
  JSON_parse : string -> option (json num);   (* [None]: SyntaxError *)
  JSON_stringify : json num -> string;
  decodeURIComponent : string -> option string; (* [None]: URIError *)
  url_valid : string -> bool;                 (* [new URL(s)] returns *)
  url_resolve : string -> string -> string;   (* [new URL(loc, u).toString()] *)
  http_get : string -> http_result;
  date_now : nat -> Z;                        (* [Date.now()], by draw *)
  random_hex6 : nat -> string;                (* [crypto.randomBytes(6).toString('hex')] *)
  USERS_ROOT : string;                        (* [path.join(ROOT, 'data', 'users')] *)
}.

(** A user's directory under [USERS_ROOT]. *)
Record UserDir := {
  ud_isAdmin : bool;                  (* [!!meta?.isAdmin] of meta.json *)
  ud_quota : jsnum;                   (* [Number(quota?.galleryBytes)] of quota.json *)
  ud_usage : option Usage;            (* usage.json, when it parses *)
  ud_uploads : option (list (string * dirent));
  ud_generated : option (list (string * dirent));
  ud_favorites : gmap string (json num); (* favorites/<type>.json, when it parses *)
}.

Definition emptyDir : UserDir :=
  {| ud_isAdmin := false; ud_quota := NaN; ud_usage := None;
     ud_uploads := None; ud_generated := None; ud_favorites := ∅ |}.

Record World := {
  w_tick : nat;                       (* clock and random draws so far *)
  w_users : gmap string UserDir;
  w_files : list (string * list Z);   (* binary files by absolute path, last written first *)
}.

Definition userDir (w : World) (u : string) : UserDir :=
  default emptyDir (w_users w !! u).

Definition setUserDir (u : string) (d : UserDir) (w : World) : World :=
  {| w_tick := w_tick w; w_users := <[u := d]> (w_users w); w_files := w_files w |}.

Fixpoint readFile (p : string) (fs : list (string * list Z)) : option (list Z) :=
  match fs with
  | [] => None
  | (p', bs) :: rest => if String.eqb p p' then Some bs else readFile p rest
  end.

End World.

Arguments Platform : clear implicits.
Arguments UserDir : clear implicits.
Arguments World : clear implicits.

(** State and exceptions: what was written before a throw stays
    written. *)
Definition St (S A : Type) : Type := S -> outcome A * S.

Definition ret {S A} (a : A) : St S A := fun s => (Ok a, s).
Definition throw {S A} (e : exn) : St S A := fun s => (Throw e, s).
Definition bind {S A B} (m : St S A) (k : A -> St S B) : St S B :=
  fun s => match m s with
           | (Ok a, s') => k a s'
           | (Throw e, s') => (Throw e, s')
           end.
Definition gets {S A} (f : S -> A) : St S A := fun s => (Ok (f s), s).
Definition modify {S} (f : S -> S) : St S unit := fun s => (Ok tt, f s).

(** The server's effects on the world. *)
Definition M (num A : Type) : Type := St (World num) A.

Declare Scope js_scope.
Delimit Scope js_scope with js.
Notation "'let*' x := c1 'in' c2" := (bind c1 (fun x => c2))
  (at level 10, x name, c1 at level 100, c2 at level 200) : js_scope.
Notation "c1 ;; c2" := (bind c1 (fun _ => c2))
  (at level 100, c2 at level 200, right associativity) : js_scope.
Local Open Scope js_scope.

(** ** Token auth *)

Section Token.

Context {num : Type} `{!JsNumber num} `{!Platform num}.

(** [buf.toString('utf8')] *)
Definition ofBytes (bs : list Z) : string :=
  fold_right (fun b s => String (ascii_of_N (Z.to_N b)) s) EmptyString bs.

(** The three [replace] calls of [base64urlEncode]. *)
Fixpoint urlSafe (s : string) : string :=
  match s with
  | EmptyString => EmptyString
  | String c s' =>
      if Ascii.eqb c "="%char then urlSafe s'
      else if Ascii.eqb c "+"%char then String "-"%char (urlSafe s')
      else if Ascii.eqb c "/"%char then String "_"%char (urlSafe s')
      else String c (urlSafe s')
  end.

Definition base64urlEncode (buf : list Z) : string :=
  urlSafe (Base64.encode buf).

(** The two [replace] calls of [base64urlDecodeToBuffer]. *)
Fixpoint urlUnsafe (s : string) : string :=
  match s with
  | EmptyString => EmptyString
  | String c s' =>
      if Ascii.eqb c "-"%char then String "+"%char (urlUnsafe s')
      else if Ascii.eqb c "_"%char then String "/"%char (urlUnsafe s')
      else String c (urlUnsafe s')
  end.

Fixpoint repeatChar (c : ascii) (n : nat) : string :=
  match n with
  | O => EmptyString
  | S n' => String c (repeatChar c n')
  end.

Definition base64urlDecodeToBuffer (str : string) : list Z :=
  let s := urlUnsafe str in
  let r := (String.length s mod 4)%nat in
  let pad := if Nat.eqb r 0 then EmptyString else repeatChar "="%char (4 - r) in
  Base64.decode (s +:+ pad).

Definition signToken (secret payloadB64 : string) : string :=
  base64urlEncode (hmac_sha256 secret payloadB64).

Definition createToken (secret : string) (payload : json num) : string :=
  let payloadB64 := base64urlEncode (Str.bytes (JSON_stringify payload)) in
  let sig := signToken secret payloadB64 in
  payloadB64 +:+ "." +:+ sig.

(** [crypto.timingSafeEqual] on two buffers of one length. *)
Fixpoint timingSafeEqual (a b : list Z) : bool :=
  match a, b with
  | [], [] => true
  | x :: a', y :: b' => (x =? y) && timingSafeEqual a' b'
  | _, _ => false
  end.

(** The body of the [try] block of [verifyToken]: [JSON.parse] throws on
    a text that is not JSON, and reading [payload.exp] throws when the
    text is [null]. *)
Definition verifyPayload (now : Z) (payloadB64 : string)
  : outcome (option (json num)) :=
  match JSON_parse (ofBytes (base64urlDecodeToBuffer payloadB64)) with
  | None => Throw (PlatformError "SyntaxError")
  | Some JNull => Throw (PlatformError "TypeError")
  | Some payload =>
      if truthyOpt (prop payload "exp") &&
         match prop payload "exp" with
         | Some e => gtNow now e
         | None => false
         end
      then Ok None
      else if negb (truthyOpt (prop payload "u")) then Ok None
      else Ok (Some payload)
  end.

(** [verifyToken(secret, token)] at the instant [now]; [None] is [null]. *)
Definition verifyToken (secret token : string) (now : Z)
  : outcome (option (json num)) :=
  if negb (Str.nonEmpty token) then Ok None
  else
    match Str.split "."%char token with
    | [payloadB64; sig] =>
        let expected := signToken secret payloadB64 in
        let a := Str.bytes sig in
        let b := Str.bytes expected in
        if negb (Nat.eqb (length a) (length b)) then Ok None
        else if negb (timingSafeEqual a b) then Ok None
        else match verifyPayload now payloadB64 with
             | Ok r => Ok r
             | Throw _ => Ok None          (* catch { return null } *)
             end
    | _ => Ok None
    end.

End Token.

(** ** Quota accountant *)

Section Quota.

Context {num : Type} `{!JsNumber num}.

Definition DEFAULT_GALLERY_QUOTA_BYTES : Z := 1024 * 1024 * 1024.

(** [['uploads', 'generated'].includes(kind)] *)
Definition isGalleryKind (kind : string) : bool :=
  String.eqb kind "uploads" || String.eqb kind "generated".

(** [readUsage]: a missing or unparseable file reads as zeros. *)
Definition readUsage (username : string) : M num Usage :=
  gets (fun w =>
    match ud_usage (userDir w username) with
    | Some u => u
    | None => {| uploadsBytes := 0; generatedBytes := 0 |}
    end).

Definition writeUsage (username : string) (usage : Usage) : M num unit :=
  modify (fun w =>
    let d := userDir w username in
    setUserDir username
      {| ud_isAdmin := ud_isAdmin d; ud_quota := ud_quota d;
         ud_usage := Some usage;
         ud_uploads := ud_uploads d; ud_generated := ud_generated d;
         ud_favorites := ud_favorites d |} w).

(** [statDirBytesRecursive] on the entries of a directory. *)
Fixpoint entryBytes (e : dirent) : Z :=
  match e with
  | DFile size => Z.of_N size
  | DDir entries =>
      (fix sum (l : list (string * dirent)) : Z :=
         match l with
         | [] => 0
         | (_, e') :: l' => entryBytes e' + sum l'
         end) entries
  | DOther => 0
  end.

(** [statDirBytesRecursive(dirPath)]; a missing directory counts 0. *)
Definition statDirBytesRecursive (dir : option (list (string * dirent))) : Z :=
  match dir with
  | Some entries => entryBytes (DDir entries)
  | None => 0
  end.

Definition recomputeUsage (username : string) : M num Usage :=
  let* uploads := gets (fun w => statDirBytesRecursive (ud_uploads (userDir w username))) in
  let* generated := gets (fun w => statDirBytesRecursive (ud_generated (userDir w username))) in
  let usage := {| uploadsBytes := uploads; generatedBytes := generated |} in
  writeUsage username usage ;;
  ret usage.

(** [getQuotaBytes]; [None] is [null], the unlimited quota of an admin. *)
Definition getQuotaBytes (username : string) : M num (option Z) :=
  let* d := gets (fun w => userDir w username) in
  if ud_isAdmin d then ret None
  else match ud_quota d with
       | Fin q => if 0 <? q then ret (Some q) else ret (Some DEFAULT_GALLERY_QUOTA_BYTES)
       | _ => ret (Some DEFAULT_GALLERY_QUOTA_BYTES)
       end.

(** [Number.isFinite(x) ? Math.max(0, x) : 0] *)
Definition clampBytes (x : jsnum) : Z :=
  match x with
  | Fin z => Z.max 0 z
  | _ => 0
  end.

Definition assertGalleryHasSpace (username kind : string) (incomingBytes : jsnum)
  : M num unit :=
  if negb (isGalleryKind kind) then ret tt
  else
    let* quotaBytes := getQuotaBytes username in
    match quotaBytes with
    | None => ret tt
    | Some quotaBytes =>
        let inc := clampBytes incomingBytes in
        let* usage := readUsage username in
        let used := uploadsBytes usage + generatedBytes usage in
        if used + inc <=? quotaBytes then ret tt
        else
          let* usage := recomputeUsage username in
          let used2 := uploadsBytes usage + generatedBytes usage in
          if used2 + inc <=? quotaBytes then ret tt
          else
            let leftBytes := Z.max 0 (quotaBytes - used2) in
            throw (QuotaExceeded leftBytes quotaBytes)
    end.

(** [addUsage]; the sum is that of the code while it stays within
    [2^53]. *)
Definition addUsage (username kind : string) (bytes : jsnum) : M num unit :=
  if negb (isGalleryKind kind) then ret tt
  else
    let* usage := readUsage username in
    let b := clampBytes bytes in
    let usage :=
      if String.eqb kind "uploads"
      then {| uploadsBytes := uploadsBytes usage + b; generatedBytes := generatedBytes usage |}
      else usage in
    let usage :=
      if String.eqb kind "generated"
      then {| uploadsBytes := uploadsBytes usage; generatedBytes := generatedBytes usage + b |}
      else usage in
    writeUsage username usage.

(** [changeUsage]; the sum is that of the code while it stays within
    [2^53]. *)
Definition changeUsage (username kind : string) (deltaBytes : jsnum) : M num unit :=
  if negb (isGalleryKind kind) then ret tt
  else
    let* usage := readUsage username in
    let d := match deltaBytes with Fin z => z | _ => 0 end in
    let usage :=
      if String.eqb kind "uploads"
      then {| uploadsBytes := Z.max 0 (uploadsBytes usage + d);
              generatedBytes := generatedBytes usage |}
      else usage in
    let usage :=
      if String.eqb kind "generated"
      then {| uploadsBytes := uploadsBytes usage;
              generatedBytes := Z.max 0 (generatedBytes usage + d) |}
      else usage in
    writeUsage username usage.

(** [x.toFixed(2)] of a byte count in GiB, [0 <= bytes]. *)
Definition toFixed2GB (bytes : Z) : string :=
  let n := (bytes * 200 + 2 ^ 30) / 2 ^ 31 in
  let frac := n mod 100 in
  pretty (n / 100) +:+ "." +:+ pretty (frac / 10) +:+ pretty (frac mod 10).

(** [e.message] *)
Definition message (e : exn) : string :=
  match e with
  | HttpStatus s => "HTTP " +:+ pretty s
  | DownloadTooLarge => "Download too large"
  | QuotaExceeded leftBytes quota =>
      "图库容量不足：剩余 " +:+ toFixed2GB leftBytes +:+ "GB / 总 " +:+
      toFixed2GB quota +:+ "GB"
  | PlatformError msg => msg
  end.

End Quota.

(** ** Media materializer *)

Section Materializer.

Context {num : Type} `{!JsNumber num} `{!Platform num}.

Definition MAX_DOWNLOAD_BYTES : Z := 50 * 1024 * 1024.

(** No character that [.] of a regular expression refuses: LF, CR,
    U+2028, U+2029. *)
Definition noLineTerminator (s : string) : bool :=
  Base64.allChars (fun c => negb (Ascii.eqb c "010"%char || Ascii.eqb c "013"%char)) s
  && negb (Str.includes s (String "226"%char (String "128"%char (String "168"%char EmptyString))))
  && negb (Str.includes s (String "226"%char (String "128"%char (String "169"%char EmptyString)))).

(** The longest prefix without [;], and the rest. *)
Fixpoint untilSemicolon (s : string) : string * string :=
  match s with
  | EmptyString => (EmptyString, EmptyString)
  | String c s' =>
      if Ascii.eqb c ";"%char then (EmptyString, s)
      else let (a, b) := untilSemicolon s' in (String c a, b)
  end.

(** [parseDataUrl]: the match of [/^data:([^;]+);base64,(.+)$/]. *)
Definition parseDataUrl (dataUrl : string) : option (string * list Z) :=
  if Str.startsWith dataUrl "data:" then
    let (mime, tail) := untilSemicolon (Str.dropPrefix dataUrl "data:") in
    if Str.nonEmpty mime && Str.startsWith tail ";base64," then
      let b64 := Str.dropPrefix tail ";base64," in
      if Str.nonEmpty b64 && noLineTerminator b64
      then Some (mime, Base64.decode b64)
      else None
    else None
  else None.

Definition mimeToExt (mime : string) : string :=
  let m := Str.toLowerCase mime in
  if String.eqb m "image/jpeg" then "jpg"
  else if String.eqb m "image/jpg" then "jpg"
  else if String.eqb m "image/png" then "png"
  else if String.eqb m "image/webp" then "webp"
  else if String.eqb m "image/gif" then "gif"
  else "bin".

Definition isHttpUrl (u : string) : bool :=
  Str.startsWith u "http://" || Str.startsWith u "https://".

Definition isRedirect (status : Z) : bool :=
  (status =? 301) || (status =? 302) || (status =? 303) ||
  (status =? 307) || (status =? 308).

(** The ['data'] handler: the chunks are kept until the running total
    passes the cap. *)
Fixpoint readChunks (maxBytes total : Z) (chunks : list (list Z))
  : outcome (list Z) :=
  match chunks with
  | [] => Ok []
  | chunk :: rest =>
      let total := total + Z.of_nat (length chunk) in
      if maxBytes <? total then Throw DownloadTooLarge
      else match readChunks maxBytes total rest with
           | Ok buf => Ok (chunk ++ buf)%list
           | Throw e => Throw e
           end
  end.

Definition readResponse (maxBytes : Z) (r : http_response)
  : outcome (list Z * string) :=
  let status := resp_status r in
  if (status <? 200) || (300 <=? status) then Throw (HttpStatus status)
  else match readChunks maxBytes 0 (resp_chunks r) with
       | Ok buf => Ok (buf, default EmptyString (resp_contentType r))
       | Throw e => Throw e
       end.

(** [fetchUrlBuffer(urlStr, maxBytes, redirectsLeft)]; a rejected promise
    is a [Throw]. *)
Fixpoint fetchUrlBuffer (redirectsLeft : nat) (maxBytes : Z) (urlStr : string)
  : outcome (list Z * string) :=
  if negb (url_valid urlStr) then Throw (PlatformError "Invalid URL")
  else match http_get urlStr with
       | HttpError msg => Throw (PlatformError msg)
       | HttpResponse r =>
           match redirectsLeft, resp_location r with
           | S n, Some loc =>
               if isRedirect (resp_status r) && Str.nonEmpty loc
               then fetchUrlBuffer n maxBytes (url_resolve loc urlStr)
               else readResponse maxBytes r
           | _, _ => readResponse maxBytes r
           end
       end.

(** What the handler of [/api/favorites/add] closes over. *)
Record FavCtx := {
  fc_user : string;       (* auth.u *)
  fc_type : string;
  fc_id : string;         (* favoriteId *)
  fc_dir : string;        (* favDir *)
}.

(** The world together with the two maps of one materialize call. *)
Record MatState := {
  ms_world : World num;
  ms_dataUrlMap : gmap string string;
  ms_remoteUrlMap : gmap string string;
}.

Definition liftW {A} (m : M num A) : St MatState A :=
  fun s => match m (ms_world s) with
           | (r, w') =>
               (r, {| ms_world := w';
                      ms_dataUrlMap := ms_dataUrlMap s;
                      ms_remoteUrlMap := ms_remoteUrlMap s |})
           end.

Definition setDataUrl (k v : string) : St MatState unit :=
  modify (fun s => {| ms_world := ms_world s;
                      ms_dataUrlMap := <[k := v]> (ms_dataUrlMap s);
                      ms_remoteUrlMap := ms_remoteUrlMap s |}).

Definition setRemoteUrl (k v : string) : St MatState unit :=
  modify (fun s => {| ms_world := ms_world s;
                      ms_dataUrlMap := ms_dataUrlMap s;
                      ms_remoteUrlMap := <[k := v]> (ms_remoteUrlMap s) |}).

(** [`${Date.now()}_${crypto.randomBytes(6).toString('hex')}`] *)
Definition freshStem : M num string :=
  fun w =>
    let n := w_tick w in
    (Ok (pretty (date_now n) +:+ "_" +:+ random_hex6 n),
     {| w_tick := S n; w_users := w_users w; w_files := w_files w |}).

(** [fsp.writeFile(absPath, buf)] *)
Definition writeFile (absPath : string) (buf : list Z) : M num unit :=
  modify (fun w => {| w_tick := w_tick w; w_users := w_users w;
                      w_files := (absPath, buf) :: w_files w |}).

(** [copyFileIfExists(src, dst)]: [fsp.copyFile] throws on a missing
    source. *)
Definition copyFileIfExists (src dst : string) : M num unit :=
  let* content := gets (fun w => readFile src (w_files w)) in
  match content with
  | Some buf => writeFile dst buf
  | None => throw (PlatformError "ENOENT")
  end.

Definition favFileUri (c : FavCtx) (fileName : string) : string :=
  "/files/" +:+ Uri.encodeURIComponent (fc_user c) +:+ "/favorites/" +:+
  fc_type c +:+ "/" +:+ Uri.encodeURIComponent (fc_id c) +:+ "/" +:+
  Uri.encodeURIComponent fileName.

Definition materializeDataUrl (c : FavCtx) (dataUrl : string)
  : St MatState string :=
  let* cached := gets (fun s => ms_dataUrlMap s !! dataUrl) in
  match cached with
  | Some fileUri => ret fileUri
  | None =>
      match parseDataUrl dataUrl with
      | None => ret dataUrl
      | Some (mime, buf) =>
          let ext := mimeToExt mime in
          let* stem := liftW freshStem in
          let fileName := stem +:+ "." +:+ ext in
          let absPath := Path.join [fc_dir c; fileName] in
          liftW (writeFile absPath buf) ;;
          let fileUri := favFileUri c fileName in
          setDataUrl dataUrl fileUri ;;
          ret fileUri
      end
  end.

(** [(String(contentType).split(';')[0] || '').trim().toLowerCase()];
    the content type is a header value. *)
Definition contentMime (contentType : string) : string :=
  Text.toLowerHeader (Text.trimHeader (fst (untilSemicolon contentType))).

Definition materializeRemoteUrl (c : FavCtx) (remoteUrl : string)
  : St MatState string :=
  let* cached := gets (fun s => ms_remoteUrlMap s !! remoteUrl) in
  match cached with
  | Some fileUri => ret fileUri
  | None =>
      if negb (isHttpUrl remoteUrl) then ret remoteUrl
      else
        match fetchUrlBuffer 3 MAX_DOWNLOAD_BYTES remoteUrl with
        | Throw e => throw e
        | Ok (buf, contentType) =>
            let mime := contentMime contentType in
            if negb (Str.startsWith mime "image/") then ret remoteUrl
            else
              let ext := mimeToExt mime in
              let* stem := liftW freshStem in
              let fileName := stem +:+ "." +:+ ext in
              let absPath := Path.join [fc_dir c; fileName] in
              liftW (writeFile absPath buf) ;;
              let fileUri := favFileUri c fileName in
              setRemoteUrl remoteUrl fileUri ;;
              ret fileUri
        end
  end.

Definition userPrefix (c : FavCtx) : string := "/files/" +:+ fc_user c +:+ "/".

Definition snapshotFileUri (c : FavCtx) (fileUri : string)
  : St MatState string :=
  if negb (Str.startsWith fileUri (userPrefix c)) then ret fileUri
  else
    match decodeURIComponent (Str.dropPrefix fileUri (userPrefix c)) with
    | None => throw (PlatformError "URI malformed")
    | Some rel =>
        let src := Path.join [USERS_ROOT; fc_user c; rel] in
        let ext := Path.extname rel in
        let* stem := liftW freshStem in
        let fileName := stem +:+ ext in
        let dst := Path.join [fc_dir c; fileName] in
        liftW (copyFileIfExists src dst) ;;
        ret (favFileUri c fileName)
    end.

(** [convertInlineDataToDataUrl(o)]; [None] is [null]. *)
Definition convertInlineDataToDataUrl (o : json num) : option string :=
  let inline :=
    orElse (orElse (prop o "inline_data") (prop o "inlineData"))
           (prop o "inLineData") in
  match inline with
  | Some i =>
      if negb (truthy i) || negb (truthyOpt (prop i "data")) then None
      else
        let mime :=
          orElse (orElse (prop i "mime_type") (prop i "mimeType"))
                 (Some (JStr "image/png")) in
        let data := toStringOpt (prop i "data") in
        Some ("data:" +:+ toStringOpt mime +:+ ";base64," +:+ data)
  | None => None
  end.

(** The MIME type the rewritten part carries. *)
Definition inlineMime (node : json num) : json num :=
  let m :=
    orElse (orElse (orElse (orElse (orElse
      (optProp (prop node "inline_data") "mime_type")
      (optProp (prop node "inlineData") "mime_type"))
      (optProp (prop node "inlineData") "mimeType"))
      (optProp (prop node "inLineData") "mime_type"))
      (optProp (prop node "inLineData") "mimeType"))
      (Some (JStr "image/png")) in
  default (JStr "image/png") m.

(** The packed-asset test of [traverseAndMaterialize]: the data URL to
    materialize when the object is [{ mime | mime_type, data }] without a
    file reference yet. *)
Definition packedAsset (node : json num) : option string :=
  let assetMime :=
    match nonEmptyString (prop node "mime") with
    | Some m => Some m
    | None => nonEmptyString (prop node "mime_type")
    end in
  let assetData := nonEmptyString (prop node "data") in
  match assetMime, assetData with
  | Some m, Some d =>
      if Str.startsWith m "image/"
         && negb (truthyOpt (prop node "file_uri"))
         && negb (truthyOpt (prop node "fileUri"))
      then Some ("data:" +:+ m +:+ ";base64," +:+ d)
      else None
  | _, _ => None
  end.

Definition materializeString (c : FavCtx) (s : string) : St MatState string :=
  if Str.startsWith s "data:image/" && Str.includes s ";base64,"
  then materializeDataUrl c s
  else if Str.startsWith s (userPrefix c) then snapshotFileUri c s
  else if isHttpUrl s then materializeRemoteUrl c s
  else ret s.

Fixpoint traverseAndMaterialize (c : FavCtx) (node : json num)
  : St MatState (json num) :=
  match node with
  | JArr xs =>
      let* xs' :=
        (fix each (l : list (json num)) : St MatState (list (json num)) :=
           match l with
           | [] => ret []
           | x :: l' =>
               let* x' := traverseAndMaterialize c x in
               let* l'' := each l' in
               ret (x' :: l'')
           end) xs in
      ret (JArr xs')
  | JObj kvs =>
      match packedAsset node with
      | Some dataUrl =>
          let* fileUri := materializeDataUrl c dataUrl in
          ret (JObj (objDelete "data" (objSet "file_uri" (JStr fileUri) kvs)))
      | None =>
          match convertInlineDataToDataUrl node with
          | Some dataUrl =>
              let* fileUri := materializeDataUrl c dataUrl in
              ret (JObj [("file_data",
                          JObj [("mime_type", inlineMime node);
                                ("file_uri", JStr fileUri)])])
          | None =>
              let* kvs' :=
                (fix each (l : list (string * json num))
                   : St MatState (list (string * json num)) :=
                   match l with
                   | [] => ret []
                   | (k, v) :: l' =>
                       let* v' := traverseAndMaterialize c v in
                       let* l'' := each l' in
                       ret ((k, v') :: l'')
                   end) kvs in
              ret (JObj kvs')
          end
      end
  | JStr s =>
      let* s' := materializeString c s in
      ret (JStr s')
  | _ => ret node
  end.

End Materializer.

Arguments MatState : clear implicits.

(** ** The gallery directories as trees

    What [stat], [mkdir], [writeFile] and [unlink] do to the entries of
    a directory, by the segments of the path below it. *)

Inductive fsError : Type := ENOENT | ENOTDIR | EISDIR | EEXIST.

Definition errorCode (e : fsError) : string :=
  match e with
  | ENOENT => "ENOENT"
  | ENOTDIR => "ENOTDIR"
  | EISDIR => "EISDIR"
  | EEXIST => "EEXIST"
  end.

Inductive fsResult (A : Type) : Type :=
| FsOk (a : A)
| FsErr (e : fsError).
Arguments FsOk {A} a.
Arguments FsErr {A} e.

Fixpoint entryOf (name : string) (entries : list (string * dirent)) : option dirent :=
  match entries with
  | [] => None
  | (n, e) :: rest => if String.eqb n name then Some e else entryOf name rest
  end.

(** The entry [name] replaced where it stands, or added at the end. *)
Fixpoint setEntry (name : string) (e : dirent) (entries : list (string * dirent))
  : list (string * dirent) :=
  match entries with
  | [] => [(name, e)]
  | (n, e') :: rest =>
      if String.eqb n name then (n, e) :: rest else (n, e') :: setEntry name e rest
  end.

Fixpoint removeEntry (name : string) (entries : list (string * dirent))
  : list (string * dirent) :=
  match entries with
  | [] => []
  | (n, e') :: rest =>
      if String.eqb n name then rest else (n, e') :: removeEntry name rest
  end.

(** The bytes below an entry of a directory, 0 when it is not there. *)
Definition bytesAt (name : string) (entries : list (string * dirent)) : Z :=
  match entryOf name entries with
  | Some e => entryBytes e
  | None => 0
  end.

(** The entries of the directory [name], none when it is not there. *)
Definition dirAt (name : string) (entries : list (string * dirent))
  : list (string * dirent) :=
  match entryOf name entries with
  | Some (DDir sub) => sub
  | _ => []
  end.

(** [fsp.stat] *)
Fixpoint statAt (segs : list string) (e : dirent) : fsResult dirent :=
  match segs with
  | [] => FsOk e
  | name :: rest =>
      match e with
      | DDir entries =>
          match entryOf name entries with
          | Some e' => statAt rest e'
          | None => FsErr ENOENT
          end
      | _ => FsErr ENOTDIR
      end
  end.

(** [fsp.mkdir(dir, { recursive: true })] *)
Fixpoint mkdirAt (segs : list string) (entries : list (string * dirent))
  : fsResult (list (string * dirent)) :=
  match segs with
  | [] => FsOk entries
  | name :: rest =>
      match entryOf name entries with
      | None =>
          match mkdirAt rest [] with
          | FsOk sub => FsOk (setEntry name (DDir sub) entries)
          | FsErr e => FsErr e
          end
      | Some (DDir sub) =>
          match mkdirAt rest sub with
          | FsOk sub' => FsOk (setEntry name (DDir sub') entries)
          | FsErr e => FsErr e
          end
      | Some _ => FsErr (match rest with [] => EEXIST | _ => ENOTDIR end)
      end
  end.


(** [fsp.unlink] *)
Fixpoint unlinkAt (segs : list string) (entries : list (string * dirent))
  : fsResult (list (string * dirent)) :=
  match segs with
  | [] => FsErr EISDIR
  | [name] =>
      match entryOf name entries with
      | None => FsErr ENOENT
      | Some (DDir _) => FsErr EISDIR
      | Some _ => FsOk (removeEntry name entries)
      end
  | name :: rest =>
      match entryOf name entries with
      | Some (DDir sub) =>
          match unlinkAt rest sub with
          | FsOk sub' => FsOk (setEntry name (DDir sub') entries)
          | FsErr e => FsErr e
          end
      | Some _ => FsErr ENOTDIR
      | None => FsErr ENOENT
      end
  end.

(** Where an absolute path points. *)
Inductive place : Type :=
| InGallery (username kind : string) (segs : list string)
    (* USERS_ROOT/<username>/<uploads|generated>/<segs> *)
| UserRoot (username : string)                    (* USERS_ROOT/<username> *)
| Elsewhere.                                      (* a path of the flat store *)

Section Disk.

Context {num : Type} `{!JsNumber num} `{!Platform num}.

Definition locate (p : string) : place :=
  if Str.startsWith p (USERS_ROOT +:+ "/") then
    match List.filter Str.nonEmpty
            (Str.split "/"%char (Str.dropPrefix p (USERS_ROOT +:+ "/"))) with
    | [u] => UserRoot u
    | u :: kind :: segs => if isGalleryKind kind then InGallery u kind segs else Elsewhere
    | [] => Elsewhere
    end
  else Elsewhere.

Definition galleryOf (d : UserDir num) (kind : string)
  : option (list (string * dirent)) :=
  if String.eqb kind "uploads" then ud_uploads d else ud_generated d.

Definition putGallery (username kind : string) (entries : list (string * dirent))
  (w : World num) : World num :=
  let d := userDir w username in
  setUserDir username
    {| ud_isAdmin := ud_isAdmin d; ud_quota := ud_quota d; ud_usage := ud_usage d;
       ud_uploads := if String.eqb kind "uploads" then Some entries else ud_uploads d;
       ud_generated := if String.eqb kind "uploads" then ud_generated d else Some entries;
       ud_favorites := ud_favorites d |} w.

Definition fsThrow {A} (e : fsError) : M num A := throw (PlatformError (errorCode e)).

(** [fsp.stat(absPath)] *)
Definition fsStat (absPath : string) : M num (fsResult dirent) :=
  gets (fun w =>
    match locate absPath with
    | InGallery u kind segs =>
        match galleryOf (userDir w u) kind with
        | Some entries => statAt segs (DDir entries)
        | None => FsErr ENOENT
        end
    | UserRoot u =>
        match w_users w !! u with
        | Some _ => FsOk (DDir [])
        | None => FsErr ENOENT
        end
    | Elsewhere =>
        match readFile absPath (w_files w) with
        | Some buf => FsOk (DFile (N.of_nat (length buf)))
        | None => FsErr ENOENT
        end
    end).

(** [safeStatSize(absPath)] *)
Definition safeStatSize (absPath : string) : M num Z :=
  let* s := fsStat absPath in
  match s with
  | FsOk (DFile size) => ret (Z.of_N size)
  | FsOk _ => ret 0
  | FsErr ENOENT => ret 0
  | FsErr e => fsThrow e
  end.

Definition forget (absPath : string) (w : World num) : World num :=
  {| w_tick := w_tick w; w_users := w_users w;
     w_files :=
       List.filter (fun pf => negb (String.eqb (fst pf) absPath)) (w_files w) |}.

(** [fsp.unlink(absPath)] *)
Definition fsUnlink (absPath : string) : M num (fsResult unit) :=
  fun w =>
    match locate absPath with
    | InGallery u kind segs =>
        match galleryOf (userDir w u) kind with
        | Some entries =>
            match unlinkAt segs entries with
            | FsOk entries' => (Ok (FsOk tt), forget absPath (putGallery u kind entries' w))
            | FsErr e => (Ok (FsErr e), w)
            end
        | None => (Ok (FsErr ENOENT), w)
        end
    | UserRoot u =>
        match w_users w !! u with
        | Some _ => (Ok (FsErr EISDIR), w)
        | None => (Ok (FsErr ENOENT), w)
        end
    | Elsewhere =>
        match readFile absPath (w_files w) with
        | Some _ => (Ok (FsOk tt), forget absPath w)
        | None => (Ok (FsErr ENOENT), w)
        end
    end.

(** [safeUnlink(absPath)] *)
Definition safeUnlink (absPath : string) : M num bool :=
  let* r := fsUnlink absPath in
  match r with
  | FsOk _ => ret true
  | FsErr ENOENT => ret false
  | FsErr e => fsThrow e
  end.

(** [ensureDir(dirPath)].  In a gallery the directories are made in
    its tree, and a file in the way makes [mkdir] throw.  Outside the
    galleries the world holds files and records only: a directory made
    there is not kept, and nothing is seen to be in its way. *)
Definition ensureDir (dirPath : string) : M num unit :=
  fun w =>
    match locate dirPath with
    | InGallery u kind segs =>
        match mkdirAt segs (default [] (galleryOf (userDir w u) kind)) with
        | FsOk entries' => (Ok tt, putGallery u kind entries' w)
        | FsErr e => fsThrow e w
        end
    | UserRoot u => (Ok tt, setUserDir u (userDir w u) w)
    | Elsewhere => (Ok tt, w)
    end.


End Disk.

(** ** Request handlers

    Every handler that needs a session starts with
    [requireAuth(secret, req)].  The handlers below are given from the
    token on, the value of the [banana_token] cookie; [withCookies],
    further down, gives a handler from the [Cookie] header on, with the
    error that [parseCookies] throws on a malformed cookie. *)

Section Handlers.

Context {num : Type} `{!JsNumber num} `{!Platform num}.

(** What a handler sends. *)
Inductive response : Type :=
| SendJson (status : Z) (body : json num)
| SendText (status : Z) (text : string)
| ServeFile (filePath : string).   (* the file route goes on to stat and stream it *)

(** [e.statusCode || 500] and [e.message || 'Internal error'] of the
    [catch] around every handler. *)
Definition catchStatus (e : exn) : Z :=
  match statusCode e with
  | Some s => if s =? 0 then 500 else s
  | None => 500
  end.

Definition catchMessage (e : exn) : string :=
  if Str.nonEmpty (message e) then message e else "Internal error".

Definition runApi (h : M num response) (w : World num) : response * World num :=
  match h w with
  | (Ok r, w') => (r, w')
  | (Throw e, w') =>
      (SendJson (catchStatus e) (JObj [("error", JStr (catchMessage e))]), w')
  end.

Definition runText (h : M num response) (w : World num) : response * World num :=
  match h w with
  | (Ok r, w') => (r, w')
  | (Throw e, w') => (SendText (catchStatus e) (catchMessage e), w')
  end.

(** [requireAuth] from the token on: [token] is
    [cookies.banana_token || ''] of the cookies that [parseCookies]
    returned.  The whole of it, from the [Cookie] header on and with the
    error of [parseCookies], is [requireAuthReq] below. *)
Definition requireAuth (secret token : string) (now : Z)
  : M num (option (json num)) :=
  match verifyToken secret token now with
  | Ok r => ret r
  | Throw e => throw e
  end.

(** [auth.u] where the code passes it to [path.join], which throws on
    anything but a string. *)
Definition authUser (auth : json num) : M num string :=
  match prop auth "u" with
  | Some (JStr u) => ret u
  | _ => throw (PlatformError "TypeError")
  end.

Definition isFavType (type : string) : bool :=
  String.eqb type "presets" || String.eqb type "chats" ||
  String.eqb type "collections".

(** [Date.now()] *)
Definition dateNow : M num Z :=
  fun w => (Ok (date_now (w_tick w)),
            {| w_tick := S (w_tick w); w_users := w_users w; w_files := w_files w |}).

(** [readJson(favPath, [])] *)
Definition readFavorites (username type : string) : M num (json num) :=
  gets (fun w => default (JArr []) (ud_favorites (userDir w username) !! type)).

(** [writeJsonAtomic(favPath, value)] *)
Definition writeFavorites (username type : string) (value : json num) : M num unit :=
  modify (fun w =>
    let d := userDir w username in
    setUserDir username
      {| ud_isAdmin := ud_isAdmin d; ud_quota := ud_quota d;
         ud_usage := ud_usage d;
         ud_uploads := ud_uploads d; ud_generated := ud_generated d;
         ud_favorites := <[type := value]> (ud_favorites d) |} w).

(** One materialize call: both maps start empty. *)
Definition materialize (c : FavCtx) (item : json num) : M num (json num) :=
  fun w =>
    match traverseAndMaterialize c item
            {| ms_world := w; ms_dataUrlMap := ∅; ms_remoteUrlMap := ∅ |} with
    | (r, s') => (r, ms_world s')
    end.

Definition errorBody (msg : string) : json num := JObj [("error", JStr msg)].

(** POST /api/favorites/add, with the parsed JSON body.  [item.id] goes
    into [favDir] as it comes: with [..] in it, [favDir] is any directory
    of the disk, and [ensureDir] and the files of the materializer go
    there.  The materializer's files are kept in the flat list of
    files, also when [favDir] lies in a gallery, whose tree does not
    show them; and a directory made at the path of a record of the
    user, [usage.json] for one, is not kept. *)
Definition favoritesAddBody (secret token : string) (now : Z) (body : json num)
  : M num response :=
  let* auth := requireAuth secret token now in
  match auth with
  | None => ret (SendJson 401 (errorBody "Unauthorized"))
  | Some auth =>
      match body with
      | JNull => throw (PlatformError "TypeError")
      | _ =>
          let type :=
            Str.toLowerCase
              (toStringOpt (orElse (prop body "type") (Some (JStr EmptyString)))) in
          if negb (isFavType type) then ret (SendJson 400 (errorBody "Invalid type"))
          else
            match prop body "item" with
            | Some ((JObj _ | JArr _) as item) =>
                let* favoriteId :=
                  if truthyOpt (prop item "id") then ret (toStringOpt (prop item "id"))
                  else let* t := dateNow in ret (pretty t) in
                let* u := authUser auth in
                let favDir := Path.join [USERS_ROOT; u; "favorites"; type; favoriteId] in
                ensureDir favDir ;;
                let c := {| fc_user := u; fc_type := type;
                            fc_id := favoriteId; fc_dir := favDir |} in
                let* storedWithFiles := materialize c item in
                let* list := readFavorites u type in
                match list with
                | JArr l =>
                    writeFavorites u type (JArr (storedWithFiles :: l)) ;;
                    ret (SendJson 200
                           (JObj [("ok", JBool true); ("item", storedWithFiles)]))
                | _ => throw (PlatformError "TypeError")
                end
            | _ => ret (SendJson 400 (errorBody "Invalid item"))
            end
      end
  end.

Definition favoritesAdd (secret token : string) (now : Z) (body : json num)
  (w : World num) : response * World num :=
  runApi (favoritesAddBody secret token now body) w.

(** [pathname.split('/').filter(Boolean)] *)
Definition pathParts (pathname : string) : list string :=
  List.filter Str.nonEmpty (Str.split "/"%char pathname).

(** The filter of the remove handler: [String(x?.id) !== String(id)]. *)
Definition keepsFavorite (id : option string) (x : json num) : bool :=
  negb (String.eqb (toStringOpt (prop x "id")) (default "undefined" id)).

(** DELETE /api/favorites/<type>/<id> *)
Definition favoritesRemoveBody (secret token : string) (now : Z) (pathname : string)
  : M num response :=
  let* auth := requireAuth secret token now in
  match auth with
  | None => ret (SendJson 401 (errorBody "Unauthorized"))
  | Some auth =>
      let parts := pathParts pathname in
      let type := parts !! 2%nat in
      let id := parts !! 3%nat in
      match type with
      | Some type =>
          if negb (isFavType type) then ret (SendJson 400 (errorBody "Invalid type"))
          else
            let* u := authUser auth in
            let* list := readFavorites u type in
            match list with
            | JArr l =>
                let next := List.filter (keepsFavorite id) l in
                writeFavorites u type (JArr next) ;;
                ret (SendJson 200 (JObj [("ok", JBool true)]))
            | _ => throw (PlatformError "TypeError")
            end
      | None => ret (SendJson 400 (errorBody "Invalid type"))
      end
  end.

Definition favoritesRemove (secret token : string) (now : Z) (pathname : string)
  (w : World num) : response * World num :=
  runApi (favoritesRemoveBody secret token now pathname) w.

(** [ensureUserOwnsPath(auth, username)] *)
Definition ensureUserOwnsPath (auth : json num) (username : option string) : bool :=
  match prop auth "u", username with
  | Some (JStr u), Some name => String.eqb u name
  | _, _ => false
  end
  || match prop auth "a" with
     | Some (JBool true) => true
     | _ => false
     end.

(** GET /files/<username>/<rel>, from the token on and up to the point
    where the file is opened; from the [Cookie] header on it is
    [filesRequest] below. *)
Definition filesRouteBody (secret token : string) (now : Z) (pathname : string)
  : M num response :=
  let parts := pathParts pathname in
  let username := parts !! 1%nat in
  let rel := Str.join "/" (drop 2 parts) in
  let* auth := requireAuth secret token now in
  match auth with
  | None => ret (SendText 401 "Unauthorized")
  | Some auth =>
      if negb (ensureUserOwnsPath auth username) then ret (SendText 403 "Forbidden")
      else
        match username with
        | None => throw (PlatformError "TypeError")
        | Some username =>
            let userRoot := Path.join [USERS_ROOT; username] in
            let filePath := Path.join [userRoot; rel] in
            if negb (Str.startsWith filePath userRoot) then ret (SendText 400 "Bad path")
            else ret (ServeFile filePath)
        end
  end.

Definition filesRoute (secret token : string) (now : Z) (pathname : string)
  (w : World num) : response * World num :=
  runText (filesRouteBody secret token now pathname) w.

End Handlers.

Arguments response : clear implicits.

(** ** Vocabulary of the properties *)

Section Vocabulary.

Context {num : Type} `{!JsNumber num} `{!Platform num}.

(** The ways a token is refused at the instant [now]. *)
Inductive invalidToken (secret : string) (now : Z) : string -> Prop :=
| TokenMissing :
    invalidToken secret now EmptyString
| TokenMalformed token :
    length (Str.split "."%char token) <> 2%nat ->
    invalidToken secret now token
| TokenBadSignature token payloadB64 sig :
    Str.split "."%char token = [payloadB64; sig] ->
    sig <> signToken secret payloadB64 ->
    invalidToken secret now token
| TokenUnparseable token payloadB64 sig :
    Str.split "."%char token = [payloadB64; sig] ->
    JSON_parse (ofBytes (base64urlDecodeToBuffer payloadB64)) = None ->
    invalidToken secret now token
| TokenNoUser token payloadB64 sig payload :
    Str.split "."%char token = [payloadB64; sig] ->
    JSON_parse (ofBytes (base64urlDecodeToBuffer payloadB64)) = Some payload ->
    truthyOpt (prop payload "u") = false ->
    invalidToken secret now token
| TokenExpired token payloadB64 sig payload e :
    Str.split "."%char token = [payloadB64; sig] ->
    JSON_parse (ofBytes (base64urlDecodeToBuffer payloadB64)) = Some payload ->
    prop payload "exp" = Some e ->
    truthy e = true ->
    gtNow now e = true ->
    invalidToken secret now token.

(** The usage record of a user as [readUsage] returns it. *)
Definition usageOf (w : World num) (username : string) : Usage :=
  match ud_usage (userDir w username) with
  | Some u => u
  | None => {| uploadsBytes := 0; generatedBytes := 0 |}
  end.

(** A byte count that is negative, zero or not finite. *)
Definition notPositive (x : jsnum) : Prop :=
  match x with
  | Fin z => z <= 0
  | _ => True
  end.

(** [Number.isFinite(x) ? x : 0] *)
Definition finiteOrZero (x : jsnum) : Z :=
  match x with
  | Fin z => z
  | _ => 0
  end.

(** The total of the cached usage record of a user. *)
Definition cachedUsage (w : World num) (username : string) : Z :=
  match ud_usage (userDir w username) with
  | Some u => uploadsBytes u + generatedBytes u
  | None => 0
  end.

(** The bytes really on disk in the two galleries of a user. *)
Definition diskUsage (w : World num) (username : string) : Z :=
  statDirBytesRecursive (ud_uploads (userDir w username)) +
  statDirBytesRecursive (ud_generated (userDir w username)).

(** The quota of a user that is not an admin. *)
Definition quotaOf (w : World num) (username : string) : Z :=
  match ud_quota (userDir w username) with
  | Fin q => if 0 <? q then q else DEFAULT_GALLERY_QUOTA_BYTES
  | _ => DEFAULT_GALLERY_QUOTA_BYTES
  end.

(** The number that a text of decimal digits denotes; [None] when the
    text is empty or holds another character. *)
Definition digitValue (a : ascii) : option Z :=
  let n := Z.of_N (N_of_ascii a) in
  if (48 <=? n) && (n <=? 57) then Some (n - 48) else None.

Fixpoint digitsFrom (acc : Z) (s : string) : option Z :=
  match s with
  | EmptyString => Some acc
  | String a s' =>
      match digitValue a with
      | Some d => digitsFrom (10 * acc + d) s'
      | None => None
      end
  end.

Definition decimal (s : string) : option Z :=
  if Str.nonEmpty s then digitsFrom 0 s else None.

(** The hundredths that a text [<digits>.<digit><digit>] denotes. *)
Definition hundredths (text : string) : option Z :=
  match Text.cut "."%char text with
  | Some (whole, String a (String b EmptyString)) =>
      match decimal whole, digitValue a, digitValue b with
      | Some i, Some x, Some y => Some (100 * i + 10 * x + y)
      | _, _, _ => None
      end
  | _ => None
  end.

(** The world after [recomputeUsage] for a user. *)
Definition recomputed (w : World num) (username : string) : World num :=
  snd (recomputeUsage username w).

(** The calls that touch the usage records, and what happens to the
    galleries between them. *)
Inductive usageOp : Type :=
| OpAdd (username kind : string) (bytes : jsnum)
| OpChange (username kind : string) (deltaBytes : jsnum)
| OpRecompute (username : string)
| OpGallery (username : string) (uploads generated : option (list (string * dirent))).

Definition setGallery (username : string)
  (uploads generated : option (list (string * dirent))) (w : World num) : World num :=
  let d := userDir w username in
  setUserDir username
    {| ud_isAdmin := ud_isAdmin d; ud_quota := ud_quota d; ud_usage := ud_usage d;
       ud_uploads := uploads; ud_generated := generated;
       ud_favorites := ud_favorites d |} w.

Definition runOp (op : usageOp) (w : World num) : World num :=
  match op with
  | OpAdd u k b => snd (addUsage u k b w)
  | OpChange u k d => snd (changeUsage u k d w)
  | OpRecompute u => snd (recomputeUsage u w)
  | OpGallery u up gen => setGallery u up gen w
  end.

Definition runOps (ops : list usageOp) (w : World num) : World num :=
  fold_left (fun w op => runOp op w) ops w.

Definition usageNonneg (u : Usage) : Prop :=
  0 <= uploadsBytes u /\ 0 <= generatedBytes u.

(** Every usage record on disk is non-negative. *)
Definition usageOk (w : World num) : Prop :=
  forall username d u,
    w_users w !! username = Some d -> ud_usage d = Some u -> usageNonneg u.

(** Every usage record on disk is the zero record of registration. *)
Definition usageZero (w : World num) : Prop :=
  forall username d u,
    w_users w !! username = Some d -> ud_usage d = Some u ->
    uploadsBytes u = 0 /\ generatedBytes u = 0.

End Vocabulary.

(** ** Vocabulary of the materializer's properties *)

(** The loop [for (...) x[i] = await f(x[i])]. *)
Fixpoint mapM {S A B : Type} (f : A -> St S B) (l : list A) : St S (list B) :=
  match l with
  | [] => ret []
  | x :: l' =>
      let* x' := f x in
      let* l'' := mapM f l' in
      ret (x' :: l'')
  end.

(** The error of a run, when it throws. *)
Definition thrown {A} (o : outcome A) : option exn :=
  match o with
  | Ok _ => None
  | Throw e => Some e
  end.

(** Every run of [m] satisfies [Post]: start state, error if any, end
    state. *)
Definition has {S A} (Post : S -> option exn -> S -> Prop) (m : St S A) : Prop :=
  forall s, Post s (thrown (fst (m s))) (snd (m s)).

Section TraversalVocabulary.

Context {num : Type} `{!JsNumber num} `{!Platform num}.

Definition traverseField (c : FavCtx) (kv : string * json num)
  : St (MatState num) (string * json num) :=
  let* v' := traverseAndMaterialize c (snd kv) in
  ret (fst kv, v').

(** The part a provider inline image is rewritten to. *)
Definition fileDataPart (mime : json num) (fileUri : string) : json num :=
  JObj [("file_data", JObj [("mime_type", mime); ("file_uri", JStr fileUri)])].

(** The part [{inline_data: {mime_type: "image/png", data: d}}]. *)
Definition inlinePngPart (d : string) : json num :=
  JObj [("inline_data", JObj [("mime_type", JStr "image/png"); ("data", JStr d)])].

(** A JSON value with a hole. *)
Inductive ctx : Type :=
| CHole
| CArr (before : list (json num)) (inner : ctx) (after : list (json num))
| CObj (before : list (string * json num)) (key : string) (inner : ctx)
       (after : list (string * json num)).

Fixpoint plug (C : ctx) (j : json num) : json num :=
  match C with
  | CHole => j
  | CArr before inner after => JArr (before ++ plug inner j :: after)
  | CObj before key inner after =>
      JObj (before ++ (key, plug inner j) :: after)
  end.

(** The position of the hole: indices and keys from the root. *)
Fixpoint holePath (C : ctx) : list (nat + string) :=
  match C with
  | CHole => []
  | CArr before inner _ => inl (length before) :: holePath inner
  | CObj _ key inner _ => inr key :: holePath inner
  end.

(** The traversal gets to the hole of [C] filled with [j]: no object on
    the way is itself rewritten as a packed asset or as an inline
    image. *)
Fixpoint reaches (C : ctx) (j : json num) : bool :=
  match C with
  | CHole => true
  | CArr _ inner _ => reaches inner j
  | CObj _ _ inner _ =>
      match packedAsset (plug C j), convertInlineDataToDataUrl (plug C j) with
      | None, None => reaches inner j
      | _, _ => false
      end
  end.

(** [k] is a key of some object in [j]. *)
Fixpoint hasKey (k : string) (j : json num) : bool :=
  match j with
  | JArr xs => existsb (hasKey k) xs
  | JObj kvs =>
      existsb (fun kv => String.eqb k (fst kv) || hasKey k (snd kv)) kvs
  | _ => false
  end.

(** [k] is a key of some object of the context itself. *)
Fixpoint ctxHasKey (k : string) (C : ctx) : bool :=
  match C with
  | CHole => false
  | CArr before inner after =>
      existsb (hasKey k) before || ctxHasKey k inner || existsb (hasKey k) after
  | CObj before key inner after =>
      existsb (fun kv => String.eqb k (fst kv) || hasKey k (snd kv)) before
      || String.eqb k key || ctxHasKey k inner
      || existsb (fun kv => String.eqb k (fst kv) || hasKey k (snd kv)) after
  end.

(** The strings that the traversal copies with [snapshotFileUri]. *)
Fixpoint snapshotCount (c : FavCtx) (j : json num) : nat :=
  match j with
  | JStr s =>
      if Str.startsWith s "data:image/" && Str.includes s ";base64,"
      then 0
      else if Str.startsWith s (userPrefix c) then 1 else 0
  | JArr xs => list_sum (List.map (snapshotCount c) xs)
  | JObj kvs =>
      match packedAsset j, convertInlineDataToDataUrl j with
      | None, None => list_sum (List.map (fun kv => snapshotCount c (snd kv)) kvs)
      | _, _ => 0
      end
  | _ => 0
  end%nat.

(** No string that the traversal reaches is a file reference of the user
    or a remote URL: nothing is copied and nothing is fetched. *)
Fixpoint quiet (c : FavCtx) (j : json num) : bool :=
  match j with
  | JStr s =>
      (Str.startsWith s "data:image/" && Str.includes s ";base64,")
      || negb (Str.startsWith s (userPrefix c) || isHttpUrl s)
  | JArr xs => forallb (quiet c) xs
  | JObj kvs =>
      match packedAsset j, convertInlineDataToDataUrl j with
      | None, None => forallb (fun kv => quiet c (snd kv)) kvs
      | _, _ => true
      end
  | _ => true
  end.



(** The data URL of a position where the traversal calls
    [materializeDataUrl], and what the result holds there. *)
Definition heldAt (m : gmap string string) (url : string) : string :=
  default url (m !! url).

(** [res] is [item] with every position where the traversal calls
    [materializeDataUrl] holding what the map [m] gives for the data URL
    of that position. *)
Unset Elimination Schemes.
Inductive rewrittenBy (m : gmap string string) : json num -> json num -> Prop :=
| RwNull : rewrittenBy m JNull JNull
| RwBool b : rewrittenBy m (JBool b) (JBool b)
| RwNum n : rewrittenBy m (JNum n) (JNum n)
| RwDataUrl s :
    Str.startsWith s "data:image/" && Str.includes s ";base64," = true ->
    rewrittenBy m (JStr s) (JStr (heldAt m s))
| RwString s s' :
    Str.startsWith s "data:image/" && Str.includes s ";base64," = false ->
    rewrittenBy m (JStr s) (JStr s')
| RwPacked kvs url :
    packedAsset (JObj kvs) = Some url ->
    rewrittenBy m (JObj kvs)
      (JObj (objDelete "data" (objSet "file_uri" (JStr (heldAt m url)) kvs)))
| RwInline kvs url :
    packedAsset (JObj kvs) = None ->
    convertInlineDataToDataUrl (JObj kvs) = Some url ->
    rewrittenBy m (JObj kvs) (fileDataPart (inlineMime (JObj kvs)) (heldAt m url))
| RwArr xs xs' :
    Forall2 (rewrittenBy m) xs xs' ->
    rewrittenBy m (JArr xs) (JArr xs')
| RwObj kvs kvs' :
    packedAsset (JObj kvs) = None ->
    convertInlineDataToDataUrl (JObj kvs) = None ->
    Forall2 (fun kv kv' => fst kv = fst kv' /\ rewrittenBy m (snd kv) (snd kv')) kvs kvs' ->
    rewrittenBy m (JObj kvs) (JObj kvs').
Set Elimination Schemes.

(** The data URLs for which the traversal calls [materializeDataUrl]. *)
Fixpoint dataUrlCalls (j : json num) : list string :=
  match j with
  | JStr s =>
      if Str.startsWith s "data:image/" && Str.includes s ";base64," then [s] else []
  | JArr xs => concat (List.map dataUrlCalls xs)
  | JObj kvs =>
      match packedAsset j with
      | Some url => [url]
      | None =>
          match convertInlineDataToDataUrl j with
          | Some url => [url]
          | None => concat (List.map (fun kv => dataUrlCalls (snd kv)) kvs)
          end
      end
  | _ => []
  end.

(** Every entry of the data-URL map names a file of the favorite's
    directory that was written with the bytes of that data URL. *)
Definition mapBacked (c : FavCtx) (s : MatState num) : Prop :=
  forall url uri,
    ms_dataUrlMap s !! url = Some uri ->
    exists mime buf fileName,
      parseDataUrl url = Some (mime, buf) /\
      uri = favFileUri c fileName /\
      In (Path.join [fc_dir c; fileName], buf) (w_files (ms_world s)).

(** A run leaves the user directories as they are and throws no quota
    error. *)
Definition unmetered (s : MatState num) (r : option exn) (s' : MatState num) : Prop :=
  w_users (ms_world s') = w_users (ms_world s) /\
  forall l q, r <> Some (QuotaExceeded l q).

(** A run only adds: both maps keep their entries, the files written
    before stay in the list, and the data-URL map stays backed by
    files. *)
Definition grows (c : FavCtx) (s : MatState num) (r : option exn) (s' : MatState num)
  : Prop :=
  ms_dataUrlMap s ⊆ ms_dataUrlMap s' /\
  ms_remoteUrlMap s ⊆ ms_remoteUrlMap s' /\
  (exists new, w_files (ms_world s') = (new ++ w_files (ms_world s))%list) /\
  (mapBacked c s -> mapBacked c s').

End TraversalVocabulary.

(** * The rest of the server

    The functions of [server/index.js] around the ones above: the
    environment loader, the cookie and body readers, the name check, the
    content types, the gallery page, the routes that list, clear and
    measure, and the routes that save and delete an image, with the
    directories of the galleries as trees. *)

(** ** The environment files *)

Section Env.

(** One line of a [.env] file: the variable it names and the value,
    when it is neither blank nor a comment and has a name before [=]. *)
Definition unquote (value : string) : string :=
  if (Str.startsWith value (String "034"%char EmptyString)
      && Text.endsWith value (String "034"%char EmptyString))
     || (Str.startsWith value "'" && Text.endsWith value "'")
  then Text.slice1m1 value
  else value.

Definition envLine (line : string) : option (string * string) :=
  let trimmed := Text.trim line in
  if negb (Str.nonEmpty trimmed) || Str.startsWith trimmed "#" then None
  else
    match Text.cut "="%char trimmed with
    | None => None
    | Some (k, v) =>
        let key := Text.trim k in
        let value := Text.trim v in
        if negb (Str.nonEmpty key) then None
        else Some (key, unquote value)
    end.

(** The names that [process.env], as every object, inherits from
    [Object.prototype]: for them [process.env[key]] is a function or an
    object, and not [undefined], also when the environment has no such
    variable. *)
Definition inheritedNames : list string :=
  ["constructor"; "hasOwnProperty"; "isPrototypeOf"; "propertyIsEnumerable";
   "toLocaleString"; "toString"; "valueOf"; "__proto__";
   "__defineGetter__"; "__defineSetter__"; "__lookupGetter__"; "__lookupSetter__"].

Definition inherited (key : string) : bool :=
  existsb (String.eqb key) inheritedNames.

(** The body of the [forEach]: [env] is the variables of the
    environment, and [process.env[key] === undefined] holds of a name
    that is neither a variable nor inherited; only then is the variable
    set. *)
Definition envStep (env : gmap string string) (line : string) : gmap string string :=
  match envLine line with
  | Some (key, value) =>
      match env !! key with
      | None => if inherited key then env else <[key := value]> env
      | Some _ => env
      end
  | None => env
  end.

(** [loadEnvFileIfPresent(filePath)] on the text of the file; [None] is
    a file that is not there or cannot be read. *)
Definition loadEnvFileIfPresent (file : option string) (env : gmap string string)
  : gmap string string :=
  match file with
  | None => env
  | Some text => fold_left envStep (Text.splitLines text) env
  end.

(** The two calls at start-up: [server/.env], then the root [.env]. *)
Definition loadEnvFiles (serverEnv rootEnv : option string) (env : gmap string string)
  : gmap string string :=
  loadEnvFileIfPresent rootEnv (loadEnvFileIfPresent serverEnv env).

(** The variables a text assigns, in the order of its lines. *)
Definition envKeys (text : string) : list string :=
  omap (fun line => fst <$> envLine line) (Text.splitLines text).

(** The value of the first line of a text that assigns [key]. *)
Definition envFirst (text key : string) : option string :=
  snd <$> List.find (fun kv => String.eqb (fst kv) key)
            (omap envLine (Text.splitLines text)).

End Env.

(** ** Cookies, bodies and names *)

(** The characters of a URL-safe base64 text: [[A-Za-z0-9_-]]. *)
Definition base64urlChar (a : ascii) : bool :=
  let n := Text.byte a in
  ((65 <=? n) && (n <=? 90)) || ((97 <=? n) && (n <=? 122)) ||
  ((48 <=? n) && (n <=? 57)) || (n =? 45) || (n =? 95).

Section Requests.

Context {num : Type} `{!JsNumber num} `{!Platform num}.

(** One chunk of the [Cookie] header: the name and the raw value. *)
Definition cookieChunk (chunk : string) : option (string * string) :=
  match Text.cut "="%char chunk with
  | None => None
  | Some (k, v) =>
      let k := Text.trimHeader k in
      let v := Text.trimHeader v in
      if negb (Str.nonEmpty k) then None else Some (k, v)
  end.

(** The [forEach] of [parseCookies] over the chunks.  [out] is a plain
    object: a string assigned to [__proto__] is dropped, and
    [decodeURIComponent] throws on a malformed escape. *)
Fixpoint parseChunks (chunks : list string) (out : gmap string string)
  : outcome (gmap string string) :=
  match chunks with
  | [] => Ok out
  | chunk :: rest =>
      match cookieChunk chunk with
      | None => parseChunks rest out
      | Some (k, v) =>
          match decodeURIComponent v with
          | None => Throw (PlatformError "URI malformed")
          | Some d =>
              parseChunks rest
                (if String.eqb k "__proto__" then out else <[k := d]> out)
          end
      end
  end.

(** [parseCookies(req)]; [header] is [req.headers.cookie || '']. *)
Definition parseCookies (header : string) : outcome (gmap string string) :=
  parseChunks (Str.split ";"%char header) ∅.


(** [cookies.banana_token || ''] *)
Definition bananaToken (cookies : gmap string string) : string :=
  default EmptyString (cookies !! "banana_token").

(** A handler that starts with [requireAuth(secret, req)], from the
    [Cookie] header on: [h] is the handler from the token on, and what
    [parseCookies] throws goes to the [catch] of the request. *)
Definition withCookies {A} (header : string) (h : string -> M num A) : M num A :=
  match parseCookies header with
  | Ok cookies => h (bananaToken cookies)
  | Throw e => throw e
  end.

(** A route under [/api/] from the [Cookie] header on. *)
Definition apiRequest (header : string) (h : string -> M num (response num))
  (w : World num) : response num * World num :=
  runApi (withCookies header h) w.

(** GET /files/<username>/<rel> of a request with the [Cookie] header
    [header], empty when the request has none. *)
Definition filesRequest (secret header : string) (now : Z) (pathname : string)
  (w : World num) : response num * World num :=
  runText (withCookies header (fun token => filesRouteBody secret token now pathname)) w.

(** Some cookie of the header has a value that [decodeURIComponent]
    refuses. *)
Definition malformedCookie (header : string) : Prop :=
  exists chunk k v,
    In chunk (Str.split ";"%char header) /\ cookieChunk chunk = Some (k, v) /\
    decodeURIComponent v = None.

(** [isRequestSecure(req)]: the socket, then the two proxy headers. *)
Definition isRequestSecure (encrypted : bool) (xForwardedProto xScheme : string) : bool :=
  encrypted
  || String.eqb (Str.toLowerCase xForwardedProto) "https"
  || String.eqb (Str.toLowerCase xScheme) "https".

(** The first part of the [Set-Cookie] value of [setAuthCookie]. *)
Definition cookiePair (token : string) : string :=
  "banana_token=" +:+ Uri.encodeURIComponent token.

(** [setAuthCookie(req, res, token)]: the [Set-Cookie] value;
    [nodeEnv] is [process.env.NODE_ENV || '']. *)
Definition setAuthCookie (nodeEnv : string) (secure : bool) (token : string) : string :=
  let isProd := String.eqb (Str.toLowerCase nodeEnv) "production" in
  let shouldSecure := if isProd then secure else false in
  Str.join "; "
    ([cookiePair token; "Path=/"; "HttpOnly"; "SameSite=Lax"]
       ++ (if shouldSecure then ["Secure"] else []))%list.

(** [clearAuthCookie(res)] *)
Definition clearAuthCookie : string :=
  Str.join "; " ["banana_token="; "Path=/"; "HttpOnly"; "SameSite=Lax"; "Max-Age=0"].

Definition MAX_BODY_BYTES : Z := 50 * 1024 * 1024.

(** What [readJsonBody] throws: 413 and 400. *)
Inductive bodyError : Type :=
| BodyTooLarge
| InvalidJson.

(** The ['data'] handler of [readBody]; [None] is the rejection. *)
Fixpoint readBodyChunks (total : Z) (chunks : list (list Z)) : option (list Z) :=
  match chunks with
  | [] => Some []
  | chunk :: rest =>
      let total := total + Z.of_nat (length chunk) in
      if MAX_BODY_BYTES <? total then None
      else match readBodyChunks total rest with
           | Some buf => Some (chunk ++ buf)%list
           | None => None
           end
  end.

Definition readBody (chunks : list (list Z)) : option (list Z) :=
  readBodyChunks 0 chunks.

(** [readJsonBody(req)] *)
Definition readJsonBody (chunks : list (list Z)) : bodyError + json num :=
  match readBody chunks with
  | None => inl BodyTooLarge
  | Some raw =>
      let text := ofBytes raw in
      match JSON_parse (if Str.nonEmpty text then text else "{}") with
      | Some body => inr body
      | None => inl InvalidJson
      end
  end.

(** [[a-zA-Z0-9_-]] *)
Definition usernameChar (a : ascii) : bool :=
  let n := Text.byte a in
  ((97 <=? n) && (n <=? 122)) || ((65 <=? n) && (n <=? 90)) ||
  ((48 <=? n) && (n <=? 57)) || (n =? 95) || (n =? 45).

(** [sanitizeUsername(username)]; [None] is [null]. *)
Definition sanitizeUsername (username : option (json num)) : option string :=
  let u := Text.trim (toStringOpt (orElse username (Some (JStr EmptyString)))) in
  if Base64.allChars usernameChar u
     && (3 <=? String.length u)%nat && (String.length u <=? 32)%nat
  then Some u
  else None.

End Requests.

(** ** Content types *)

Section ContentTypes.

Definition guessContentTypeByExt (p : string) : string :=
  let ext := Str.toLowerCase (Path.extname p) in
  if String.eqb ext ".png" then "image/png"
  else if String.eqb ext ".jpg" || String.eqb ext ".jpeg" then "image/jpeg"
  else if String.eqb ext ".webp" then "image/webp"
  else if String.eqb ext ".gif" then "image/gif"
  else if String.eqb ext ".svg" then "image/svg+xml"
  else if String.eqb ext ".css" then "text/css; charset=utf-8"
  else if String.eqb ext ".js" then "text/javascript; charset=utf-8"
  else if String.eqb ext ".html" then "text/html; charset=utf-8"
  else "application/octet-stream".

Definition cacheControlForStatic (filePath : string) : string :=
  let ext := Str.toLowerCase (Path.extname filePath) in
  if String.eqb ext ".html" then "no-store"
  else if String.eqb ext ".js" || String.eqb ext ".css"
  then "public, max-age=0, must-revalidate"
  else "public, max-age=3600".

(** The type a stored image is served with, by the type it was saved
    under. *)
Definition servedType (mime : string) : string :=
  let m := Str.toLowerCase mime in
  if String.eqb m "image/jpeg" || String.eqb m "image/jpg" then "image/jpeg"
  else if String.eqb m "image/png" || String.eqb m "image/webp"
          || String.eqb m "image/gif" then m
  else "application/octet-stream".

End ContentTypes.

(** ** [walkAndReplace] *)

Section Walk.

Context {num : Type}.

(** [walkAndReplace(obj, replacer)]: every string, at any depth, is
    replaced by what [replacer] returns for it. *)
Fixpoint walkAndReplace (replacer : string -> json num) (obj : json num) : json num :=
  match obj with
  | JArr xs => JArr (List.map (walkAndReplace replacer) xs)
  | JObj kvs =>
      JObj (List.map (fun kv => (fst kv, walkAndReplace replacer (snd kv))) kvs)
  | JStr s => replacer s
  | _ => obj
  end.

(** The strings of a value, left to right. *)
Fixpoint strings (j : json num) : list string :=
  match j with
  | JStr s => [s]
  | JArr xs => concat (List.map strings xs)
  | JObj kvs => concat (List.map (fun kv => strings (snd kv)) kvs)
  | _ => []
  end.

End Walk.

(** ** The gallery: sizes, clearing and pages *)

(** What [stat] shows of a listed file. *)
Record FileStat := {
  fs_name : string;
  fs_mtimeMs : Z;
  fs_size : Z;
}.

(** An entry of a gallery directory: its name, whether [readdir] shows a
    file, and the time and size that [stat] returns, [None] when [stat]
    throws. *)
Record ImageEntry := {
  ie_name : string;
  ie_isFile : bool;
  ie_stat : option (Z * Z);
}.

Section Gallery.

(** [statDirBytes(dirPath)]: the files of the directory itself. *)
Definition statDirBytes (dir : option (list (string * dirent))) : Z :=
  match dir with
  | Some entries =>
      fold_right Z.add 0
        (List.map (fun e => match snd e with DFile size => Z.of_N size | _ => 0 end)
           entries)
  | None => 0
  end.

(** What [removeDirContentsRecursive] and the [rmdir] after it leave of
    an entry: a file is unlinked, a directory is emptied and then removed
    when nothing stays in it, anything else is not touched. *)
Fixpoint leftOf (e : dirent) : option dirent :=
  match e with
  | DFile _ => None
  | DDir entries =>
      match
        (fix each (l : list (string * dirent)) : list (string * dirent) :=
           match l with
           | [] => []
           | (name, e') :: l' =>
               match leftOf e' with
               | Some e'' => (name, e'') :: each l'
               | None => each l'
               end
           end) entries
      with
      | [] => None
      | kept => Some (DDir kept)
      end
  | DOther => Some DOther
  end.

(** [removeDirContentsRecursive(dirPath)] on the entries of the
    directory. *)
Definition removeDirContentsRecursive (entries : list (string * dirent))
  : list (string * dirent) :=
  match leftOf (DDir entries) with
  | Some (DDir kept) => kept
  | _ => []
  end.

(** The regular files of a directory tree. *)
Fixpoint fileCount (e : dirent) : nat :=
  match e with
  | DFile _ => 1
  | DDir entries =>
      (fix sum (l : list (string * dirent)) : nat :=
         match l with
         | [] => 0
         | (_, e') :: l' => fileCount e' + sum l'
         end) entries
  | DOther => 0
  end%nat.

(** The places, by the names from the directory down, of the entries
    that are neither files nor directories. *)
Fixpoint otherPaths (e : dirent) : list (list string) :=
  match e with
  | DFile _ => []
  | DDir entries =>
      (fix each (l : list (string * dirent)) : list (list string) :=
         match l with
         | [] => []
         | (name, e') :: l' => (List.map (cons name) (otherPaths e') ++ each l')%list
         end) entries
  | DOther => [[]]
  end.

(** A tree with nothing to remove: no file in it, and no directory
    that is empty. *)
Fixpoint bare (e : dirent) : bool :=
  match e with
  | DFile _ => false
  | DDir entries =>
      match entries with [] => false | _ => true end
      && (fix all (l : list (string * dirent)) : bool :=
            match l with
            | [] => true
            | (_, e') :: l' => bare e' && all l'
            end) entries
  | DOther => true
  end.

(** The loop of [listUserImages] over the entries: files only, and only
    those that [stat] finds. *)
Definition statFiles (entries : list ImageEntry) : list FileStat :=
  omap (fun e =>
          if ie_isFile e
          then (fun st => {| fs_name := ie_name e; fs_mtimeMs := fst st;
                             fs_size := snd st |}) <$> ie_stat e
          else None) entries.

(** [files.sort((a, b) => b.mtimeMs - a.mtimeMs)]: newest first, files
    of one instant in the order they had. *)
Fixpoint insertNewest (f : FileStat) (l : list FileStat) : list FileStat :=
  match l with
  | [] => [f]
  | g :: l' =>
      if fs_mtimeMs f <? fs_mtimeMs g then g :: insertNewest f l' else f :: l
  end.

Definition sortNewest (l : list FileStat) : list FileStat :=
  fold_right insertNewest [] l.

(** [Number.isFinite(limit) ? Math.max(1, Math.min(1000, limit)) : 200] *)
Definition safeLimit (limit : jsnum) : Z :=
  match limit with
  | Fin z => Z.max 1 (Z.min 1000 z)
  | _ => 200
  end.

(** [files.findIndex((f) => f.name === cursor)]; [None] is -1. *)
Fixpoint findIndex (cursor : string) (files : list FileStat) : option nat :=
  match files with
  | [] => None
  | f :: rest =>
      if String.eqb (fs_name f) cursor then Some O
      else S <$> findIndex cursor rest
  end.

(** [listUserImages(username, kind, limit, cursor)] on the entries of
    the gallery directory: the page and the next cursor. *)
Definition listUserImages (entries : list ImageEntry) (limit : jsnum)
  (cursor : option string) : list FileStat * option string :=
  let files := sortNewest (statFiles entries) in
  let startIdx :=
    match cursor with
    | Some c =>
        if Str.nonEmpty c then
          match findIndex c files with
          | Some idx => S idx
          | None => O
          end
        else O
    | None => O
    end in
  let page := take (Z.to_nat (safeLimit limit)) (drop startIdx files) in
  (page, fs_name <$> last page).

(** A client that asks for page after page, each time with the cursor
    of the answer before, until the cursor is [null]. *)
Fixpoint allPages (calls : nat) (entries : list ImageEntry) (limit : jsnum)
  (cursor : option string) : list FileStat :=
  match calls with
  | O => []
  | S n =>
      let (page, next) := listUserImages entries limit cursor in
      (page ++ match next with
               | Some c => allPages n entries limit (Some c)
               | None => []
               end)%list
  end.

End Gallery.

(** ** The routes that list, clear and measure *)

Section MoreHandlers.

Context {num : Type} `{!JsNumber num} `{!Platform num}.

(** GET /api/favorites/<type> *)
Definition favoritesListBody (secret token : string) (now : Z) (pathname : string)
  : M num (response num) :=
  let* auth := requireAuth secret token now in
  match auth with
  | None => ret (SendJson 401 (errorBody "Unauthorized"))
  | Some auth =>
      let type := Str.toLowerCase (Str.dropPrefix pathname "/api/favorites/") in
      if negb (isFavType type) then ret (SendJson 400 (errorBody "Invalid type"))
      else
        let* u := authUser auth in
        let* list := readFavorites u type in
        ret (SendJson 200 (JObj [("items", list)]))
  end.

Definition favoritesList (secret token : string) (now : Z) (pathname : string)
  (w : World num) : response num * World num :=
  runApi (favoritesListBody secret token now pathname) w.

(** The usage record in an answer. *)
Definition usageJson (usage : Usage) : json num :=
  JObj [("uploadsBytes", JNum (num_of_Z (uploadsBytes usage)));
        ("generatedBytes", JNum (num_of_Z (generatedBytes usage)))].

(** [p] lies below the directory [dir]. *)
Definition below (dir p : string) : bool := Str.startsWith p (dir +:+ "/").

(** The three steps of the clear loop for one gallery: [ensureDir],
    [removeDirContentsRecursive], [ensureDir]. *)
Definition clearGallery (username kind : string) : M num unit :=
  modify (fun w =>
    let d := userDir w username in
    let targetDir := Path.join [Path.join [USERS_ROOT; username]; kind] in
    let cleared dir := Some (removeDirContentsRecursive (default [] dir)) in
    {| w_tick := w_tick w;
       w_users :=
         <[username :=
             {| ud_isAdmin := ud_isAdmin d; ud_quota := ud_quota d;
                ud_usage := ud_usage d;
                ud_uploads :=
                  if String.eqb kind "uploads" then cleared (ud_uploads d)
                  else ud_uploads d;
                ud_generated :=
                  if String.eqb kind "generated" then cleared (ud_generated d)
                  else ud_generated d;
                ud_favorites := ud_favorites d |}]> (w_users w);
       w_files :=
         List.filter (fun pf => negb (below targetDir (fst pf))) (w_files w) |}).

Fixpoint forEach {S A} (f : A -> St S unit) (l : list A) : St S unit :=
  match l with
  | [] => ret tt
  | x :: l' => f x ;; forEach f l'
  end.

(** POST /api/images/clear, with the parsed JSON body. *)
Definition imagesClearBody (secret token : string) (now : Z) (body : json num)
  : M num (response num) :=
  let* auth := requireAuth secret token now in
  match auth with
  | None => ret (SendJson 401 (errorBody "Unauthorized"))
  | Some auth =>
      match body with
      | JNull => throw (PlatformError "TypeError")
      | _ =>
          let kindRaw :=
            Str.toLowerCase
              (toStringOpt (orElse (prop body "kind") (Some (JStr EmptyString)))) in
          let kinds :=
            if String.eqb kindRaw "all" then ["uploads"; "generated"] else [kindRaw] in
          if negb (forallb isGalleryKind kinds)
          then ret (SendJson 400 (errorBody "Invalid kind"))
          else
            let* u := authUser auth in
            forEach (clearGallery u) kinds ;;
            let* usage := recomputeUsage u in
            ret (SendJson 200 (JObj [("ok", JBool true); ("usage", usageJson usage)]))
      end
  end.

Definition imagesClear (secret token : string) (now : Z) (body : json num)
  (w : World num) : response num * World num :=
  runApi (imagesClearBody secret token now body) w.

(** GET /api/storage/usage *)
Definition storageUsageBody (secret token : string) (now : Z)
  : M num (response num) :=
  let* auth := requireAuth secret token now in
  match auth with
  | None => ret (SendJson 401 (errorBody "Unauthorized"))
  | Some auth =>
      let* u := authUser auth in
      let* quotaBytes := getQuotaBytes u in
      let* usage := readUsage u in
      let* usage :=
        if uploadsBytes usage + generatedBytes usage =? 0 then
          let* hasAny :=
            gets (fun w =>
                    (0 <? statDirBytes (ud_uploads (userDir w u)))
                    || (0 <? statDirBytes (ud_generated (userDir w u)))) in
          if hasAny : bool then recomputeUsage u else ret usage
        else ret usage in
      let usedBytes := uploadsBytes usage + generatedBytes usage in
      ret (SendJson 200
             (JObj [("quotaBytes",
                     match quotaBytes with
                     | Some q => JNum (num_of_Z q)
                     | None => JNull
                     end);
                    ("usedBytes", JNum (num_of_Z usedBytes));
                    ("uploadsBytes", JNum (num_of_Z (uploadsBytes usage)));
                    ("generatedBytes", JNum (num_of_Z (generatedBytes usage)))]))
  end.

Definition storageUsage (secret token : string) (now : Z) (w : World num)
  : response num * World num :=
  runApi (storageUsageBody secret token now) w.

End MoreHandlers.

(** ** [path.dirname] and [path.basename] *)

Module NodePath.

(** [s.slice(0, n)] *)
Fixpoint takeChars (n : nat) (s : string) : string :=
  match n, s with
  | S n', String a s' => String a (takeChars n' s')
  | _, _ => EmptyString
  end.

(** [path.dirname(p)]: the loop runs from the last character down to
    the second, passes the slashes at the end and stops at the next
    one. *)
Definition dirname (p : string) : string :=
  match p with
  | EmptyString => "."
  | String c0 rest =>
      let hasRoot := Ascii.eqb c0 "/"%char in
      let afterSlashes :=
        Text.trimStartBy (fun a => Ascii.eqb a "/"%char) (Text.rev rest) in
      match Text.cut "/"%char afterSlashes with
      | None => if hasRoot then "/" else "."
      | Some (_, before) =>
          if hasRoot && negb (Str.nonEmpty before) then "//"
          else String c0 (Text.rev before)
      end
  end.

(** [path.basename(p, suffix)]; [path.basename(p)] is the case of the
    empty suffix. *)
Definition basename (p suffix : string) : string :=
  let base := Path.lastSegment (List.filter Str.nonEmpty (Str.split "/"%char p)) in
  if Str.nonEmpty suffix && (String.length suffix <=? String.length p)%nat then
    if String.eqb suffix p then EmptyString
    else if Text.endsWith base suffix && negb (String.eqb base suffix)
         then takeChars (String.length base - String.length suffix) base
         else base
  else base.

End NodePath.

(** [getThumbPathForImagePath(imagePath)] *)
Definition getThumbPathForImagePath (imagePath : string) : string :=
  let dir := NodePath.dirname imagePath in
  let base := NodePath.basename imagePath (Path.extname imagePath) in
  Path.join [dir; "thumbs"; base +:+ ".webp"].

(** ** The routes that save and delete an image *)

Section ImageHandlers.

Context {num : Type} `{!JsNumber num} `{!Platform num}.




(** [fileUri.match(/^\/files\/([^/]+)\/(uploads|generated)\/([^/?#]+)$/)]:
    the three groups. *)
Definition matchFileUri (fileUri : string) : option (string * string * string) :=
  match Str.split "/"%char fileUri with
  | [lead; files; user; kind; name] =>
      if negb (Str.nonEmpty lead) && String.eqb files "files" && Str.nonEmpty user
         && isGalleryKind kind && Str.nonEmpty name
         && Base64.allChars
              (fun a => negb (Ascii.eqb a "?"%char || Ascii.eqb a "#"%char)) name
      then Some (user, kind, name)
      else None
  | _ => None
  end.

(** [userFromUri !== auth.u] *)
Definition isUser (auth : json num) (user : string) : bool :=
  match prop auth "u" with
  | Some (JStr u) => String.eqb u user
  | _ => false
  end.

(** [safeStatSize], [safeUnlink] and the correction of the usage, for
    the image and again for its thumbnail. *)
Definition removeCounted (username kind absPath : string) : M num unit :=
  let* removedBytes := safeStatSize absPath in
  let* existed := safeUnlink absPath in
  if (existed : bool) && negb (removedBytes =? 0)
  then changeUsage username kind (Fin (- removedBytes))
  else ret tt.

(** POST /api/images/delete, with the parsed JSON body. *)
Definition imagesDeleteBody (secret token : string) (now : Z) (body : json num)
  : M num (response num) :=
  let* auth := requireAuth secret token now in
  match auth with
  | None => ret (SendJson 401 (errorBody "Unauthorized"))
  | Some auth =>
      match body with
      | JNull => throw (PlatformError "TypeError")
      | _ =>
          let fileUri :=
            toStringOpt (orElse (prop body "fileUri") (Some (JStr EmptyString))) in
          match matchFileUri fileUri with
          | None => ret (SendJson 400 (errorBody "Invalid fileUri"))
          | Some (m1, kind, m3) =>
              match decodeURIComponent m1, decodeURIComponent m3 with
              | Some userFromUri, Some fileName =>
                  if negb (isUser auth userFromUri)
                  then ret (SendJson 403 (errorBody "Forbidden"))
                  else if Str.includes fileName "/" || Str.includes fileName "\"
                  then ret (SendJson 400 (errorBody "Bad filename"))
                  else if Text.endsWith (Str.toLowerCase fileName) ".webp"
                          && Str.includes fileUri "/thumbs/"
                  then ret (SendJson 400 (errorBody "Bad target"))
                  else
                    (* [auth.u] is [userFromUri] from here on *)
                    let baseDir := Path.join [USERS_ROOT; userFromUri] in
                    let absPath := Path.join [baseDir; kind; fileName] in
                    if negb (Str.startsWith absPath baseDir)
                    then ret (SendJson 400 (errorBody "Bad path"))
                    else
                      removeCounted userFromUri kind absPath ;;
                      removeCounted userFromUri kind (getThumbPathForImagePath absPath) ;;
                      ret (SendJson 200 (JObj [("ok", JBool true)]))
              | _, _ => throw (PlatformError "URI malformed")
              end
          end
      end
  end.

Definition imagesDelete (secret token : string) (now : Z) (body : json num)
  (w : World num) : response num * World num :=
  runApi (imagesDeleteBody secret token now body) w.

End ImageHandlers.

(** ** The usage record against the disk *)

Section Accounting.

Context {num : Type} `{!JsNumber num} `{!Platform num}.

Definition kindBytes (usage : Usage) (kind : string) : Z :=
  if String.eqb kind "uploads" then uploadsBytes usage else generatedBytes usage.

(** [Number.MAX_SAFE_INTEGER + 1]: the counters are doubles, and the
    sum of two whole numbers is the double of [+] as long as it stays
    within this bound; beyond it the sum is rounded. *)
Definition EXACT_BYTES : Z := 2 ^ 53.

(** The record of a gallery is what [statDirBytesRecursive] finds in
    its directory. *)
Definition synced (w : World num) (username kind : string) : Prop :=
  kindBytes (usageOf w username) kind
    = statDirBytesRecursive (galleryOf (userDir w username) kind).

End Accounting.
(** ** A concrete platform, for running the server on examples

    Integer JSON numbers, a clock that advances by one millisecond per
    draw, a counter in place of the random generator, a three-page
    network and a keyed digest that is not SHA-256 but, like it, depends
    on every byte of the key and of the message. *)

Module Demo.

Definition quote : string := String "034"%char EmptyString.

Fixpoint digitsValue (s : string) (acc : Z) : option Z :=
  match s with
  | EmptyString => Some acc
  | String c s' =>
      let n := Z.of_N (N_of_ascii c) in
      if (48 <=? n) && (n <=? 57) then digitsValue s' (acc * 10 + (n - 48))
      else None
  end.

#[export] Instance zNumber : JsNumber Z := {|
  num_of_Z := fun z => z;
  num_is_zero := fun z => z =? 0;
  num_to_string := fun z => pretty z;
  num_ltb := Z.ltb;
  num_of_string := fun s => digitsValue (Str.trim s) 0;
|}.

(** [JSON.stringify] without indentation, for strings that need no
    escape. *)
Fixpoint stringify (j : json Z) : string :=
  match j with
  | JNull => "null"
  | JBool true => "true"
  | JBool false => "false"
  | JNum n => pretty n
  | JStr s => quote +:+ s +:+ quote
  | JArr xs => "[" +:+ Str.join "," (List.map stringify xs) +:+ "]"
  | JObj kvs =>
      "{" +:+
      Str.join ","
        (List.map (fun kv => quote +:+ fst kv +:+ quote +:+ ":" +:+ stringify (snd kv)) kvs)
      +:+ "}"
  end.

(** The JSON texts the examples parse. *)
Definition texts : list (json Z) :=
  [ JObj [("u", JStr "alice"); ("a", JBool false); ("exp", JNum 2000)];
    JObj [("u", JStr "alice"); ("a", JBool false); ("exp", JNum 0)];
    JObj [("u", JStr "bob"); ("a", JBool false); ("exp", JNum 2000)];
    JObj [("u", JStr "root"); ("a", JBool true); ("exp", JNum 2000)];
    JObj [("a", JBool false); ("exp", JNum 2000)];
    JNull ].

Definition parse (s : string) : option (json Z) :=
  List.find (fun j => String.eqb (stringify j) s) texts.

(** The digest of the examples: key, separator, message. *)
Definition digest (key msg : string) : list Z :=
  Str.bytes key ++ [0] ++ Str.bytes msg.

Definition page (url : string) : http_result :=
  if String.eqb url "http://img.test/cat.png" then
    HttpResponse {| resp_status := 200; resp_location := None;
                    resp_contentType := Some "image/png";
                    resp_chunks := [[137; 80]; [78; 71]] |}
  else if String.eqb url "http://img.test/page" then
    HttpResponse {| resp_status := 200; resp_location := None;
                    resp_contentType := Some "text/html; charset=utf-8";
                    resp_chunks := [[60; 112; 62]] |}
  else if String.eqb url "http://img.test/odd.png" then
    HttpResponse {| resp_status := 200; resp_location := None;
                    resp_contentType :=
                      Some (String "160"%char "Image/PNG ; q=1");
                    resp_chunks := [[137; 80; 78; 71]] |}
  else if String.eqb url "http://img.test/gone.png" then
    HttpResponse {| resp_status := 404; resp_location := None;
                    resp_contentType := Some "text/plain";
                    resp_chunks := [] |}
  else HttpError "ECONNREFUSED".

Definition hex2 (n : Z) : string :=
  String (Uri.hexDigit (n / 16 mod 16)) (String (Uri.hexDigit (n mod 16)) EmptyString).

#[export] Instance platform : Platform Z := {|
  hmac_sha256 := digest;
  JSON_parse := parse;
  JSON_stringify := stringify;
  decodeURIComponent := fun s => if Str.includes s "%" then None else Some s;
  url_valid := fun _ => true;
  url_resolve := fun loc _ => loc;
  http_get := page;
  date_now := fun n => 1000 + Z.of_nat n;
  random_hex6 := fun n => "0000000000" +:+ hex2 (Z.of_nat n);
  USERS_ROOT := "/srv/banana/data/users";
|}.

Definition secret : string := "s3cret".

(** A registered non-admin user with an empty gallery. *)
Definition newUser : UserDir Z :=
  {| ud_isAdmin := false; ud_quota := NaN;
     ud_usage := Some {| uploadsBytes := 0; generatedBytes := 0 |};
     ud_uploads := Some []; ud_generated := Some [];
     ud_favorites := ∅ |}.

Definition world0 : World Z :=
  {| w_tick := 0; w_users := {[ "alice" := newUser ]}; w_files := [] |}.

(** Alice with a quota of 100 bytes, 90 of them used, on disk as in the
    record. *)
Definition quotaWorld : World Z :=
  {| w_tick := 0;
     w_users :=
       {[ "alice" :=
            {| ud_isAdmin := false; ud_quota := Fin 100;
               ud_usage := Some {| uploadsBytes := 90; generatedBytes := 0 |};
               ud_uploads :=
                 Some [("a.png", DFile 88); ("thumbs", DDir [("a.webp", DFile 2)])];
               ud_generated := Some [];
               ud_favorites := ∅ |} ]};
     w_files := [] |}.

(** Alice with a quota of 50 bytes and 100 bytes on disk, after
    [usage.json] was deleted. *)
Definition resetWorld : World Z :=
  {| w_tick := 0;
     w_users :=
       {[ "alice" :=
            {| ud_isAdmin := false; ud_quota := Fin 50;
               ud_usage := None;
               ud_uploads :=
                 Some [("a.png", DFile 70); ("thumbs", DDir [("a.webp", DFile 30)])];
               ud_generated := Some [];
               ud_favorites := ∅ |} ]};
     w_files := [] |}.

Definition aliceToken : string :=
  createToken secret (JObj [("u", JStr "alice"); ("a", JBool false); ("exp", JNum 2000)]).

Definition bobToken : string :=
  createToken secret (JObj [("u", JStr "bob"); ("a", JBool false); ("exp", JNum 2000)]).

(** Alice with three stored chats. *)
Definition storedChats : list (json Z) :=
  [ JObj [("id", JNum 1); ("title", JStr "first")];
    JObj [("id", JStr "2"); ("title", JStr "second")];
    JObj [("title", JStr "no id")] ].

Definition favWorld : World Z :=
  {| w_tick := 0;
     w_users :=
       {[ "alice" :=
            {| ud_isAdmin := false; ud_quota := NaN;
               ud_usage := Some {| uploadsBytes := 0; generatedBytes := 0 |};
               ud_uploads := Some []; ud_generated := Some [];
               ud_favorites := {[ "chats" := JArr storedChats ]} |} ]};
     w_files := [] |}.

(** The closure of a save of the chat 1 of alice. *)
Definition chatCtx : FavCtx :=
  {| fc_user := "alice"; fc_type := "chats"; fc_id := "1";
     fc_dir := "/srv/banana/data/users/alice/favorites/chats/1" |}.

Definition start (w : World Z) : MatState Z :=
  {| ms_world := w; ms_dataUrlMap := ∅; ms_remoteUrlMap := ∅ |}.


(** A chat with links: an embedded image, a link to an HTML page and a
    plain word. *)
Definition linkAround : ctx (num := Z) :=
  CObj [("id", JNum 1)] "links"
    (CArr [JStr "data:image/png;base64,iVBORw=="] CHole [JStr "plain"])
    [].

Definition linkItem : json Z := plug linkAround (JStr "http://img.test/page").

Definition linkBody : json Z :=
  JObj [("type", JStr "chats"); ("item", linkItem)].

Definition linkStored : json Z :=
  plug (CObj [("id", JNum 1)] "links"
          (CArr [JStr "/files/alice/favorites/chats/1/1000_000000000000.png"]
             CHole [JStr "plain"])
          [])
    (JStr "http://img.test/page").


(** A favorite whose [id] leads from the directory of the favorite to
    the usage record of the user. *)
Definition escapingBody : json Z :=
  JObj [("type", JStr "chats");
        ("item", JObj [("id", JStr "../../usage.json");
                       ("cover", JStr "data:image/png;base64,iVBORw==")])].

(** The first bytes of a PNG file and their base64 text. *)
Definition pngBytes : list Z := [137; 80; 78; 71].
Definition pngText : string := "iVBORw==".

(** The chat of the end-to-end scenario, around its inline image. *)
Definition chatAround : ctx (num := Z) :=
  CObj [("id", JNum 1)] "messages"
    (CArr []
       (CObj [("role", JStr "model")] "parts" (CArr [] CHole []) [])
       [])
    [].

Definition chatItem : json Z := plug chatAround (inlinePngPart pngText).

Definition chatBody : json Z :=
  JObj [("type", JStr "chats"); ("item", chatItem)].

Definition chatStored : json Z :=
  plug chatAround
    (fileDataPart (JStr "image/png")
       "/files/alice/favorites/chats/1/1000_000000000000.png").

(** An asset that carries its own image and, below it, an inline part. *)
Definition assetAround : ctx (num := Z) :=
  CObj [("id", JNum 1); ("mime", JStr "image/png"); ("data", JStr "AAAA")]
    "preview" CHole [].

Definition assetBody : json Z :=
  JObj [("type", JStr "chats"); ("item", plug assetAround (inlinePngPart pngText))].

(** The same inline image twice, the second time below an asset. *)
Definition twiceBelowAsset : json Z :=
  JObj [("id", JNum 1);
        ("a", inlinePngPart pngText);
        ("b", JObj [("mime", JStr "image/png"); ("data", JStr "AAAA");
                    ("thumb", inlinePngPart pngText)])].

Definition twiceBelowAssetBody : json Z :=
  JObj [("type", JStr "chats"); ("item", twiceBelowAsset)].

(** The same image three times where the traversal gets: two inline
    parts and a data URL. *)
Definition thrice : json Z :=
  JObj [("id", JNum 1);
        ("parts", JArr [inlinePngPart pngText;
                        JStr "data:image/png;base64,iVBORw==";
                        inlinePngPart pngText])].

Definition thriceStored : json Z :=
  JObj [("id", JNum 1);
        ("parts",
         JArr [fileDataPart (JStr "image/png")
                 "/files/alice/favorites/chats/1/1000_000000000000.png";
               JStr "/files/alice/favorites/chats/1/1000_000000000000.png";
               fileDataPart (JStr "image/png")
                 "/files/alice/favorites/chats/1/1000_000000000000.png"])].

Definition thriceRun : outcome (json Z) * MatState Z :=
  traverseAndMaterialize chatCtx thrice (start world0).

Definition chatRun : outcome (json Z) * MatState Z :=
  traverseAndMaterialize chatCtx chatItem (start world0).

(** The payload of alice's token. *)
Definition alicePayload : json Z :=
  JObj [("u", JStr "alice"); ("a", JBool false); ("exp", JNum 2000)].

(** The segments of the users' root. *)
Definition rootSegs : list string := ["srv"; "banana"; "data"; "users"].

(** A network where one address redirects to itself. *)
Definition loopPage (url : string) : http_result :=
  if String.eqb url "http://img.test/loop" then
    HttpResponse {| resp_status := 302; resp_location := Some "http://img.test/loop";
                    resp_contentType := None; resp_chunks := [] |}
  else page url.

Definition loopPlatform : Platform Z := {|
  hmac_sha256 := digest;
  JSON_parse := parse;
  JSON_stringify := stringify;
  decodeURIComponent := fun s => if Str.includes s "%" then None else Some s;
  url_valid := fun _ => true;
  url_resolve := fun loc _ => loc;
  http_get := loopPage;
  date_now := fun n => 1000 + Z.of_nat n;
  random_hex6 := fun n => "0000000000" +:+ hex2 (Z.of_nat n);
  USERS_ROOT := "/srv/banana/data/users";
|}.

(** A buffer whose base64 text has [+], [/] and padding. *)
Definition oddBytes : list Z := [251; 255; 190; 7].

(** The lines of a [server/.env] and of a root [.env]. *)
Definition serverEnvText : string :=
  "# server settings" +:+ String "010"%char
    ("BANANA_SECRET = 'from-server' " +:+ String "013"%char (String "010"%char
       ("PORT=8080" +:+ String "010"%char "not a line"))).

Definition rootEnvText : string :=
  "PORT=3000" +:+ String "010"%char ("NODE_ENV=" +:+ quote +:+ "production" +:+ quote).

(** A file that names two inherited names next to a variable it
    assigns twice. *)
Definition oddEnvText : string :=
  "constructor=x" +:+ String "010"%char
    ("A=1" +:+ String "010"%char ("toString=y" +:+ String "010"%char "A=2")).

(** A directory with a file, a link, a directory of thumbnails, a
    directory that holds a link two levels down, and an empty one. *)
Definition mixedTree : list (string * dirent) :=
  [ ("a.png", DFile 100);
    ("latest", DOther);
    ("thumbs", DDir [("a.webp", DFile 10); ("b.webp", DFile 20)]);
    ("old", DDir [("x.png", DFile 5); ("deep", DDir [("link", DOther); ("y.png", DFile 7)])]);
    ("empty", DDir []) ].

(** A gallery of three files, two of one instant, and a directory. *)
Definition someEntries : list ImageEntry :=
  [ {| ie_name := "a.png"; ie_isFile := true; ie_stat := Some (10, 100) |};
    {| ie_name := "thumbs"; ie_isFile := false; ie_stat := Some (40, 4096) |};
    {| ie_name := "b.png"; ie_isFile := true; ie_stat := Some (30, 200) |};
    {| ie_name := "c.png"; ie_isFile := true; ie_stat := Some (30, 300) |};
    {| ie_name := "gone.png"; ie_isFile := true; ie_stat := None |} ].

(** The root user, an admin. *)
Definition rootToken : string :=
  createToken secret (JObj [("u", JStr "root"); ("a", JBool true); ("exp", JNum 2000)]).

Definition adminWorld : World Z :=
  {| w_tick := 0;
     w_users :=
       {[ "root" :=
            {| ud_isAdmin := true; ud_quota := Fin 10;
               ud_usage := Some {| uploadsBytes := 500; generatedBytes := 0 |};
               ud_uploads := Some [("big.png", DFile 500)];
               ud_generated := Some [];
               ud_favorites := ∅ |} ]};
     w_files := [] |}.

(** Bob's account file, next to alice's directory. *)
Definition bobWorld : World Z :=
  {| w_tick := 0;
     w_users := {[ "alice" := newUser; "bob" := newUser ]};
     w_files := [("/srv/banana/data/users/bob/meta.json", [123; 125])] |}.



Definition deleteBody (fileUri : string) : json Z := JObj [("fileUri", JStr fileUri)].

End Demo.

(** * Properties *)

(** ** Strings and base64 *)

Section StrFacts.
Import Str.

Lemma startsWith_app s t : startsWith (s +:+ t) s = true.
Proof.
  induction s as [|a s IH]; simpl; [done|].
  by rewrite Ascii.eqb_refl, IH.
Qed.

Lemma dropPrefix_app s t : dropPrefix (s +:+ t) s = t.
Proof. induction s as [|a s IH]; simpl; [by destruct t|done]. Qed.

Lemma startsWith_spec s p :
  startsWith s p = true <-> exists t, s = p +:+ t.
Proof.
  split.
  - revert s. induction p as [|a p IH]; intros s H; simpl in *.
    + by exists s.
    + destruct s as [|b s]; [done|].
      apply andb_prop in H as [Hab H]. apply Ascii.eqb_eq in Hab as ->.
      destruct (IH _ H) as [t ->]. by exists t.
  - intros [t ->]. apply startsWith_app.
Qed.

End StrFacts.

Section Base64Facts.
Import Base64.

Lemma unbase64_char n :
  0 <= n < 64 ->
  unbase64 (char n) = Some n /\ Ascii.eqb (char n) "="%char = false.
Proof.
  intros Hn.
  assert (Hall : forallb (fun k =>
            match unbase64 (char k) with
            | Some v => (v =? k) && negb (Ascii.eqb (char k) "="%char)
            | None => false
            end) (seqZ 0 64) = true) by (vm_compute; reflexivity).
  rewrite forallb_forall in Hall.
  assert (Hin : In n (seqZ 0 64)).
  { apply list_elem_of_In, elem_of_seqZ. lia. }
  specialize (Hall n Hin).
  destruct (unbase64 (char n)) as [v|]; [|done].
  apply andb_prop in Hall as [Hv Hne].
  apply Z.eqb_eq in Hv as ->.
  by apply negb_true_iff in Hne.
Qed.

Lemma sextets_cons n s :
  0 <= n < 64 -> sextets (String (char n) s) = n :: sextets s.
Proof.
  intros Hn. destruct (unbase64_char n Hn) as [Hu He].
  simpl. by rewrite He, Hu.
Qed.

Ltac sextet_range := unfold isByte in *; Z.div_mod_to_equations; lia.

(** Decoding the canonical text of a buffer gives the buffer back. *)
Lemma decode_encode bs : Forall isByte bs -> decode (encode bs) = bs.
Proof.
  unfold decode.
  revert bs.
  fix IH 1.
  intros [|a [|b [|c rest]]] Hbs.
  - done.
  - apply Forall_cons_1 in Hbs as [Ha _].
    simpl encode.
    rewrite !sextets_cons by sextet_range. simpl.
    f_equal. sextet_range.
  - apply Forall_cons_1 in Hbs as [Ha Hbs].
    apply Forall_cons_1 in Hbs as [Hb _].
    simpl encode.
    rewrite !sextets_cons by sextet_range. simpl.
    f_equal; [sextet_range|]. f_equal. sextet_range.
  - apply Forall_cons_1 in Hbs as [Ha Hbs].
    apply Forall_cons_1 in Hbs as [Hb Hbs].
    apply Forall_cons_1 in Hbs as [Hc Hbs].
    simpl encode.
    rewrite !sextets_cons by sextet_range.
    cbn [pack]. rewrite (IH rest Hbs).
    f_equal; [sextet_range|]. f_equal; [sextet_range|].
    f_equal. sextet_range.
Qed.

Lemma encode_nonempty bs : bs <> [] -> encode bs <> EmptyString.
Proof. by destruct bs as [|a [|b [|c rest]]]. Qed.

Lemma plainChar_char n : 0 <= n < 64 -> plainChar (char n) = true.
Proof.
  intros Hn. unfold plainChar.
  by destruct (unbase64_char n Hn) as [-> _].
Qed.

Lemma encode_plain bs : Forall isByte bs -> allChars plainChar (encode bs) = true.
Proof.
  revert bs. fix IH 1.
  intros [|a [|b [|c rest]]] Hbs.
  - done.
  - apply Forall_cons_1 in Hbs as [Ha _]. simpl.
    rewrite !plainChar_char by sextet_range. done.
  - apply Forall_cons_1 in Hbs as [Ha Hbs].
    apply Forall_cons_1 in Hbs as [Hb _]. simpl.
    rewrite !plainChar_char by sextet_range. done.
  - apply Forall_cons_1 in Hbs as [Ha Hbs].
    apply Forall_cons_1 in Hbs as [Hb Hbs].
    apply Forall_cons_1 in Hbs as [Hc Hbs].
    simpl. rewrite !plainChar_char by sextet_range.
    rewrite (IH rest Hbs). done.
Qed.

End Base64Facts.

(** ** Token auth *)

Section TokenFacts.

Context {num : Type} `{!JsNumber num} `{!Platform num}.

Lemma bytes_inj s t : Str.bytes s = Str.bytes t -> s = t.
Proof.
  revert t. induction s as [|a s IH]; intros [|b t] Heq; simpl in Heq; try done.
  injection Heq as Hab Hst.
  apply N2Z.inj in Hab.
  f_equal; [|by apply IH].
  rewrite <- (ascii_N_embedding a), <- (ascii_N_embedding b). by rewrite Hab.
Qed.

Lemma timingSafeEqual_eq a b : timingSafeEqual a b = true -> a = b.
Proof.
  revert b. induction a as [|x a IH]; intros [|y b] Heq; simpl in Heq; try done.
  apply andb_prop in Heq as [Hxy Hab].
  apply Z.eqb_eq in Hxy as ->. f_equal. by apply IH.
Qed.

Lemma timingSafeEqual_refl a : timingSafeEqual a a = true.
Proof. induction a as [|x a IH]; simpl; [done|]. by rewrite Z.eqb_refl, IH. Qed.

(** A signature other than the expected one never passes the two
    comparisons. *)
Lemma signature_mismatch secret token now payloadB64 sig :
  Str.split "."%char token = [payloadB64; sig] ->
  sig <> signToken secret payloadB64 ->
  verifyToken secret token now = Ok None.
Proof.
  intros Hsplit Hsig. unfold verifyToken. rewrite Hsplit.
  destruct (Str.nonEmpty token); [simpl|done].
  destruct (Nat.eqb _ _); [simpl|done].
  destruct (timingSafeEqual _ _) eqn:Heq; [|done].
  apply timingSafeEqual_eq, bytes_inj in Heq. done.
Qed.

(** [verifyToken] never throws. *)
Lemma verifyToken_returns secret token now :
  exists r, verifyToken secret token now = Ok r.
Proof.
  unfold verifyToken.
  destruct (negb (Str.nonEmpty token)); [by eexists|].
  destruct (Str.split "."%char token) as [|p [|sig [|x rest]]]; try by eexists.
  destruct (negb _); [by eexists|].
  destruct (negb _); [by eexists|].
  destruct (verifyPayload now p); by eexists.
Qed.

(** With the expected signature the verdict is that of the payload. *)
Lemma verifyToken_signed secret token now payloadB64 :
  Str.split "."%char token = [payloadB64; signToken secret payloadB64] ->
  verifyToken secret token now =
    match verifyPayload now payloadB64 with
    | Ok r => Ok r
    | Throw _ => Ok None
    end.
Proof.
  intros Hsplit. unfold verifyToken. rewrite Hsplit.
  destruct (Str.nonEmpty token) eqn:Hne; simpl.
  - by rewrite Nat.eqb_refl, timingSafeEqual_refl.
  - destruct token; [done|discriminate Hne].
Qed.

(** C7 (as amended): [verifyToken] never throws, and it returns [null]
    when the token is missing, is not made of exactly two dot-separated
    parts, carries a signature other than the expected one, has a payload
    that does not parse, has no (truthy) [u], or has an [exp] that is
    truthy (for a number: not zero) and smaller than the clock, whether
    or not the signature is the expected one. *)
Theorem verifyToken_rejects secret token now :
  invalidToken secret now token ->
  verifyToken secret token now = Ok None /\
  forall token', exists r, verifyToken secret token' now = Ok r.
Proof.
  intros Hbad. split; [|intros; apply verifyToken_returns].
  destruct Hbad as [ | token Hlen | token p sig Hs Hsig | token p sig Hs Hparse
                   | token p sig payload Hs Hparse Hu
                   | token p sig payload e Hs Hparse Hexp Htr Hgt ].
  - done.
  - unfold verifyToken. destruct (negb _); [done|].
    destruct (Str.split "."%char token) as [|x [|y [|z rest]]]; try done.
  - by eapply signature_mismatch.
  - destruct (decide (sig = signToken secret p)) as [->|Hne];
      [|by eapply signature_mismatch].
    rewrite (verifyToken_signed _ _ _ _ Hs). unfold verifyPayload. by rewrite Hparse.
  - destruct (decide (sig = signToken secret p)) as [->|Hne];
      [|by eapply signature_mismatch].
    rewrite (verifyToken_signed _ _ _ _ Hs). unfold verifyPayload. rewrite Hparse.
    destruct payload; try done; simpl in *; rewrite ?Hu;
      by repeat (destruct (_ && _) || simpl).
  - destruct (decide (sig = signToken secret p)) as [->|Hne];
      [|by eapply signature_mismatch].
    rewrite (verifyToken_signed _ _ _ _ Hs). unfold verifyPayload. rewrite Hparse.
    destruct payload; try done; simpl in *; try discriminate Hexp.
    rewrite Hexp. simpl. by rewrite Htr, Hgt.
Qed.

End TokenFacts.

(** ** Quota accountant *)

Section QuotaFacts.

Context {num : Type} `{!JsNumber num}.

Lemma userDir_set_eq (w : World num) u d : userDir (setUserDir u d w) u = d.
Proof. unfold userDir, setUserDir. simpl. by rewrite lookup_insert_eq. Qed.

Lemma userDir_set_ne (w : World num) u u' d :
  u <> u' -> userDir (setUserDir u d w) u' = userDir w u'.
Proof. intros Hne. unfold userDir, setUserDir. simpl. by rewrite lookup_insert_ne. Qed.

Lemma getQuotaBytes_user (w : World num) u :
  ud_isAdmin (userDir w u) = false ->
  getQuotaBytes u w = (Ok (Some (quotaOf w u)), w).
Proof.
  intros Hadm. unfold getQuotaBytes, quotaOf, bind, gets. simpl. rewrite Hadm.
  destruct (ud_quota (userDir w u)) as [q| | |]; try done.
  by destruct (0 <? q).
Qed.

Lemma getQuotaBytes_admin (w : World num) u :
  ud_isAdmin (userDir w u) = true ->
  getQuotaBytes u w = (Ok None, w).
Proof. intros Hadm. unfold getQuotaBytes, bind, gets. simpl. by rewrite Hadm. Qed.

Lemma quotaOf_pos (w : World num) u : 0 < quotaOf w u.
Proof.
  unfold quotaOf, DEFAULT_GALLERY_QUOTA_BYTES.
  destruct (ud_quota (userDir w u)) as [q| | |]; try lia.
  destruct (0 <? q) eqn:Hq; [|lia]. by apply Z.ltb_lt.
Qed.

Lemma readUsage_total (w : World num) u :
  exists us, readUsage u w = (Ok us, w) /\
             uploadsBytes us + generatedBytes us = cachedUsage w u.
Proof.
  unfold readUsage, gets, cachedUsage.
  destruct (ud_usage (userDir w u)) as [us|]; eexists; split; done.
Qed.

(** [recomputeUsage] stores the recursive sizes of the two galleries. *)
Lemma recomputeUsage_spec (w : World num) u :
  let us := {| uploadsBytes := statDirBytesRecursive (ud_uploads (userDir w u));
               generatedBytes := statDirBytesRecursive (ud_generated (userDir w u)) |} in
  recomputeUsage u w = (Ok us, recomputed w u) /\
  ud_usage (userDir (recomputed w u) u) = Some us /\
  cachedUsage (recomputed w u) u = diskUsage w u.
Proof.
  unfold recomputed, recomputeUsage, writeUsage, bind, gets, modify, ret, cachedUsage, diskUsage.
  simpl. rewrite userDir_set_eq. simpl. done.
Qed.

(** The check of [assertGalleryHasSpace], step by step, for a user that
    is not an admin and a gallery kind. *)
Lemma assertGalleryHasSpace_spec (w : World num) u kind n :
  isGalleryKind kind = true ->
  ud_isAdmin (userDir w u) = false ->
  0 <= n ->
  assertGalleryHasSpace u kind (Fin n) w =
    if cachedUsage w u + n <=? quotaOf w u then (Ok tt, w)
    else if diskUsage w u + n <=? quotaOf w u then (Ok tt, recomputed w u)
    else (Throw (QuotaExceeded (Z.max 0 (quotaOf w u - diskUsage w u)) (quotaOf w u)),
          recomputed w u).
Proof.
  intros Hkind Hadm Hn. unfold assertGalleryHasSpace. rewrite Hkind. simpl.
  unfold bind at 1. rewrite (getQuotaBytes_user _ _ Hadm).
  unfold bind at 1. destruct (readUsage_total w u) as (us & -> & Hus).
  unfold clampBytes. rewrite Z.max_r by done. rewrite Hus.
  destruct (cachedUsage w u + n <=? quotaOf w u); [done|].
  unfold bind. destruct (recomputeUsage_spec w u) as (-> & _ & _).
  simpl. fold (diskUsage w u).
  by destruct (diskUsage w u + n <=? quotaOf w u).
Qed.

Lemma addUsage_total (w : World num) u kind n :
  isGalleryKind kind = true ->
  0 <= n ->
  exists w', addUsage u kind (Fin n) w = (Ok tt, w') /\
             cachedUsage w' u = cachedUsage w u + n.
Proof.
  intros Hkind Hn. unfold addUsage. rewrite Hkind. simpl.
  unfold bind, readUsage, gets, writeUsage, modify, clampBytes.
  rewrite Z.max_r by done.
  eexists; split; [reflexivity|].
  unfold cachedUsage. rewrite userDir_set_eq. simpl.
  unfold isGalleryKind in Hkind.
  destruct (String.eqb kind "uploads") eqn:Hup.
  - apply String.eqb_eq in Hup as ->. simpl.
    destruct (ud_usage (userDir w u)); simpl; lia.
  - simpl in Hkind. rewrite Hkind.
    destruct (ud_usage (userDir w u)); simpl; lia.
Qed.

(** C5 (as amended): for a user that is not an admin and a gallery kind,
    when [usage.json] is missing or holds zeros the check reads the
    usage as 0: a write of at most the quota passes and nothing is
    recomputed; a larger one makes the check recompute the usage as the
    recursive sizes of [uploads/] and [generated/], store it, and decide
    on that value. *)
Theorem quota_check_after_reset (w : World num) u kind n :
  isGalleryKind kind = true ->
  ud_isAdmin (userDir w u) = false ->
  0 <= n ->
  (ud_usage (userDir w u) = None \/
   ud_usage (userDir w u) = Some {| uploadsBytes := 0; generatedBytes := 0 |}) ->
  let Q := quotaOf w u in
  (n <= Q -> assertGalleryHasSpace u kind (Fin n) w = (Ok tt, w)) /\
  (Q < n ->
     let w' := recomputed w u in
     ud_usage (userDir w' u) =
       Some {| uploadsBytes := statDirBytesRecursive (ud_uploads (userDir w u));
               generatedBytes := statDirBytesRecursive (ud_generated (userDir w u)) |} /\
     assertGalleryHasSpace u kind (Fin n) w =
       (if diskUsage w u + n <=? Q then Ok tt
        else Throw (QuotaExceeded (Z.max 0 (Q - diskUsage w u)) Q), w')).
Proof.
  intros Hkind Hadm Hn Hreset Q.
  assert (Hcache : cachedUsage w u = 0).
  { unfold cachedUsage. by destruct Hreset as [-> | ->]. }
  rewrite (assertGalleryHasSpace_spec _ _ _ _ Hkind Hadm Hn), Hcache. fold Q.
  split.
  - intros Hle. by rewrite (proj2 (Z.leb_le _ _)) by lia.
  - intros Hgt. rewrite (proj2 (Z.leb_gt _ _)) by lia.
    destruct (recomputeUsage_spec w u) as (_ & Hus & _). split; [exact Hus|].
    by destruct (diskUsage w u + n <=? Q).
Qed.

(** The recursive size counts what is inside sub-directories, [thumbs/]
    among them. *)
Lemma statDirBytesRecursive_subdir name sub entries :
  statDirBytesRecursive (Some ((name, DDir sub) :: entries)) =
  statDirBytesRecursive (Some sub) + statDirBytesRecursive (Some entries).
Proof. reflexivity. Qed.

Lemma statDirBytesRecursive_file name size entries :
  statDirBytesRecursive (Some ((name, DFile size) :: entries)) =
  Z.of_N size + statDirBytesRecursive (Some entries).
Proof. reflexivity. Qed.

Lemma entryBytes_nonneg e : 0 <= entryBytes e.
Proof.
  revert e. fix IH 1. intros [size|entries|]; simpl; [lia| |lia].
  induction entries as [|[name e] entries IHl]; [lia|].
  specialize (IH e). lia.
Qed.

Lemma statDirBytesRecursive_nonneg dir : 0 <= statDirBytesRecursive dir.
Proof. destruct dir as [entries|]; [apply (entryBytes_nonneg (DDir entries))|done]. Qed.

End QuotaFacts.

Section UsageInvariant.

Context {num : Type} `{!JsNumber num}.

Lemma usageOf_nonneg (w : World num) u : usageOk w -> usageNonneg (usageOf w u).
Proof.
  intros Hok. unfold usageOf, userDir.
  destruct (w_users w !! u) as [d|] eqn:Hd; simpl.
  - destruct (ud_usage d) as [us|] eqn:Hus; [by eapply Hok|]. split; simpl; lia.
  - split; simpl; lia.
Qed.

Lemma writeUsage_ok (w : World num) u us :
  usageOk w -> usageNonneg us -> usageOk (snd (writeUsage u us w)).
Proof.
  intros Hok Hus u' d' us'. unfold writeUsage, modify, setUserDir. simpl.
  destruct (decide (u = u')) as [->|Hne].
  - rewrite lookup_insert_eq. intros [= <-]. simpl. by intros [= <-].
  - rewrite lookup_insert_ne by done. apply Hok.
Qed.

Lemma addUsage_stores (w : World num) u kind b :
  isGalleryKind kind = true ->
  addUsage u kind b w =
    writeUsage u
      {| uploadsBytes := uploadsBytes (usageOf w u) +
                         (if String.eqb kind "uploads" then clampBytes b else 0);
         generatedBytes := generatedBytes (usageOf w u) +
                           (if String.eqb kind "generated" then clampBytes b else 0) |} w.
Proof.
  intros Hkind. unfold addUsage. rewrite Hkind. simpl.
  unfold bind, readUsage, gets. fold (usageOf w u).
  destruct (usageOf w u) as [up gen]. simpl.
  destruct (String.eqb kind "uploads") eqn:Hup;
    destruct (String.eqb kind "generated") eqn:Hgen; simpl;
    rewrite ?Z.add_0_r; done.
Qed.

Lemma changeUsage_stores (w : World num) u kind d :
  isGalleryKind kind = true ->
  changeUsage u kind d w =
    writeUsage u
      {| uploadsBytes :=
           if String.eqb kind "uploads"
           then Z.max 0 (uploadsBytes (usageOf w u) + finiteOrZero d)
           else uploadsBytes (usageOf w u);
         generatedBytes :=
           if String.eqb kind "generated"
           then Z.max 0 (generatedBytes (usageOf w u) + finiteOrZero d)
           else generatedBytes (usageOf w u) |} w.
Proof.
  intros Hkind. unfold changeUsage. rewrite Hkind. simpl.
  unfold bind, readUsage, gets. fold (usageOf w u). fold (finiteOrZero d).
  destruct (usageOf w u) as [up gen]. simpl.
  destruct (String.eqb kind "uploads") eqn:Hup;
    destruct (String.eqb kind "generated") eqn:Hgen; simpl; done.
Qed.

Lemma usageOf_writeUsage (w : World num) u us :
  usageOf (snd (writeUsage u us w)) u = us.
Proof. unfold writeUsage, modify, usageOf. simpl. by rewrite userDir_set_eq. Qed.

Lemma clampBytes_nonneg b : 0 <= clampBytes b.
Proof. destruct b; simpl; lia. Qed.

Lemma clampBytes_notPositive b : notPositive b -> clampBytes b = 0.
Proof. destruct b; simpl; lia. Qed.

(** Each call keeps every usage record non-negative. *)
Lemma runOp_ok (w : World num) op : usageOk w -> usageOk (runOp op w).
Proof.
  intros Hok. destruct op as [u kind b|u kind d|u|u up gen]; simpl.
  - destruct (isGalleryKind kind) eqn:Hkind.
    + rewrite (addUsage_stores _ _ _ _ Hkind). apply writeUsage_ok; [done|].
      destruct (usageOf_nonneg w u Hok) as [H1 H2].
      pose proof (clampBytes_nonneg b).
      split; simpl; repeat case_match; lia.
    + unfold addUsage. by rewrite Hkind.
  - destruct (isGalleryKind kind) eqn:Hkind.
    + rewrite (changeUsage_stores _ _ _ _ Hkind). apply writeUsage_ok; [done|].
      destruct (usageOf_nonneg w u Hok) as [H1 H2].
      split; simpl; repeat case_match; lia.
    + unfold changeUsage. by rewrite Hkind.
  - unfold recomputeUsage, bind, gets. simpl.
    apply writeUsage_ok; [done|].
    split; simpl; apply statDirBytesRecursive_nonneg.
  - intros u' d' us'. unfold setGallery, setUserDir. simpl.
    destruct (decide (u = u')) as [->|Hne].
    + rewrite lookup_insert_eq. intros [= <-]. simpl.
      intros Hus. pose proof (usageOf_nonneg w u' Hok) as Hn.
      unfold usageOf in Hn. by rewrite Hus in Hn.
    + rewrite lookup_insert_ne by done. apply Hok.
Qed.

Lemma runOps_ok ops (w : World num) : usageOk w -> usageOk (runOps ops w).
Proof.
  revert w. induction ops as [|op ops IH]; intros w Hok; [done|].
  simpl. apply IH. by apply runOp_ok.
Qed.

(** C10: from usage records that are all zero, any sequence of
    [addUsage], [changeUsage] and [recomputeUsage] calls, with any finite
    or non-finite arguments and any change of the galleries in between,
    leaves every stored record with [uploadsBytes >= 0] and
    [generatedBytes >= 0].  [changeUsage] stores [max 0] of the sum, and
    [addUsage] stores the record it read when the byte count is
    negative, zero or not finite. *)
Theorem usage_never_negative (w : World num) ops :
  usageZero w ->
  usageOk (runOps ops w) /\
  (forall (w1 : World num) u kind d, isGalleryKind kind = true ->
     let us := usageOf (snd (changeUsage u kind d w1)) u in
     uploadsBytes us =
       (if String.eqb kind "uploads"
        then Z.max 0 (uploadsBytes (usageOf w1 u) + finiteOrZero d)
        else uploadsBytes (usageOf w1 u)) /\
     generatedBytes us =
       (if String.eqb kind "generated"
        then Z.max 0 (generatedBytes (usageOf w1 u) + finiteOrZero d)
        else generatedBytes (usageOf w1 u))) /\
  (forall (w1 : World num) u kind b, notPositive b ->
     usageOf (snd (addUsage u kind b w1)) u = usageOf w1 u).
Proof.
  intros Hzero. split; [|split].
  - apply runOps_ok. intros u d us Hd Hus.
    destruct (Hzero u d us Hd Hus) as [H1 H2]. split; lia.
  - intros w1 u kind d Hkind. rewrite (changeUsage_stores _ _ _ _ Hkind).
    rewrite usageOf_writeUsage. done.
  - intros w1 u kind b Hb. destruct (isGalleryKind kind) eqn:Hkind.
    + rewrite (addUsage_stores _ _ _ _ Hkind), (clampBytes_notPositive _ Hb).
      rewrite usageOf_writeUsage.
      destruct (usageOf w1 u) as [up gen]. simpl.
      f_equal; repeat case_match; lia.
    + unfold addUsage. by rewrite Hkind.
Qed.

End UsageInvariant.

(** ** Paths *)

Section PathFacts.

Import Str.

Lemma sapp_cons a s t : String a s +:+ t = String a (s +:+ t).
Proof. reflexivity. Qed.

Lemma sapp_nil_l t : EmptyString +:+ t = t.
Proof. reflexivity. Qed.

Lemma sapp_assoc s t u : (s +:+ t) +:+ u = s +:+ t +:+ u.
Proof. induction s as [|a s IH]; [done|]. by rewrite !sapp_cons, IH. Qed.

Lemma startsWith_app_both r x y : startsWith (r +:+ x) (r +:+ y) = startsWith x y.
Proof.
  induction r as [|a r IH]; [done|].
  rewrite !sapp_cons. simpl. by rewrite Ascii.eqb_refl, IH.
Qed.

Lemma split_nonnil c s : split c s <> [].
Proof.
  destruct s as [|a s]; simpl; [done|].
  destruct (Ascii.eqb a c); [done|]. by destruct (split c s).
Qed.

Lemma split_app c s t :
  split c (s +:+ String c t) = (split c s ++ split c t)%list.
Proof.
  induction s as [|a s IH].
  - rewrite sapp_nil_l. simpl. by rewrite Ascii.eqb_refl.
  - rewrite sapp_cons. simpl. rewrite IH.
    destruct (Ascii.eqb a c); [done|].
    pose proof (split_nonnil c s). by destruct (split c s).
Qed.

Lemma join_cons2 sep x y l : join sep (x :: y :: l) = x +:+ sep +:+ join sep (y :: l).
Proof. reflexivity. Qed.

Lemma join_app sep l1 l2 :
  l1 <> [] -> l2 <> [] ->
  join sep (l1 ++ l2) = join sep l1 +:+ sep +:+ join sep l2.
Proof.
  intros H1 H2. induction l1 as [|x [|y l1] IH]; [done| |].
  - destruct l2 as [|z l2]; [done|]. reflexivity.
  - change ((x :: y :: l1) ++ l2)%list with (x :: y :: (l1 ++ l2))%list.
    rewrite !join_cons2.
    change (y :: (l1 ++ l2))%list with ((y :: l1) ++ l2)%list.
    rewrite IH by done. by rewrite !sapp_assoc.
Qed.

Lemma split_join l :
  l <> [] ->
  Forall (fun s => split "/"%char s = [s]) l ->
  split "/"%char (join "/" l) = l.
Proof.
  intros Hne Hall. induction l as [|x [|y l] IH]; [done| |].
  - by apply Forall_cons_1 in Hall as [Hx _].
  - apply Forall_cons_1 in Hall as [Hx Hall].
    rewrite join_cons2.
    change (x +:+ "/" +:+ join "/" (y :: l))
      with (x +:+ String "/"%char (join "/" (y :: l))).
    rewrite split_app, Hx, IH by done. done.
Qed.

Lemma endsWithSlash_app s t :
  nonEmpty t = true -> Path.endsWithSlash (s +:+ t) = Path.endsWithSlash t.
Proof.
  intros Ht. induction s as [|a s IH]; [done|].
  rewrite sapp_cons. simpl. rewrite IH.
  destruct (s +:+ t) eqn:Hst; [|done].
  destruct s; [|done]. rewrite sapp_nil_l in Hst. by subst.
Qed.

Lemma normalizeSegs_proper b l rest res :
  Forall Path.properSeg l ->
  Path.normalizeSegs b (l ++ rest) res = Path.normalizeSegs b rest (rev l ++ res).
Proof.
  intros Hl. revert res. induction Hl as [|seg l (Hne & Hdot & Hdd & _) _ IH]; intros res.
  - done.
  - simpl. rewrite Hne, Hdot, Hdd. simpl. rewrite IH.
    by rewrite <- List.app_assoc.
Qed.

(** [path.normalize] of an absolute path that does not end in a slash. *)
Lemma normalize_absolute l :
  l <> [] ->
  Forall (fun s => split "/"%char s = [s]) l ->
  Path.endsWithSlash ("/" +:+ join "/" l) = false ->
  Path.normalize ("/" +:+ join "/" l) =
    "/" +:+ join "/" (Path.normalizeSegs false l []).
Proof.
  intros Hne Hall Hend. unfold Path.normalize. rewrite Hend.
  change ("/" +:+ join "/" l) with (String "/"%char (join "/" l)).
  cbn [nonEmpty negb startsWith Ascii.eqb Bool.eqb andb].
  cbn [split Ascii.eqb Bool.eqb]. rewrite split_join by done.
  cbn [Path.normalizeSegs nonEmpty negb orb].
  by rewrite !andb_false_r.
Qed.

Lemma properSeg_split l :
  Forall Path.properSeg l -> Forall (fun s => split "/"%char s = [s]) l.
Proof. intros H. eapply Forall_impl; [exact H|]. by intros s (_ & _ & _ & Hs). Qed.

Lemma Forall_app_intro {A} (P : A -> Prop) l1 l2 :
  Forall P l1 -> Forall P l2 -> Forall P (l1 ++ l2).
Proof. intros. by apply Forall_app. Qed.

(** Under a normalized absolute root, [alice]'s directory and what
    [../bob/secret.png] resolves to from there. *)
Lemma join_alice_bob root segs :
  segs <> [] ->
  Forall Path.properSeg segs ->
  root = "/" +:+ join "/" segs ->
  Path.join [root; "alice"] = root +:+ "/alice" /\
  Path.join [Path.join [root; "alice"]; "../bob/secret.png"] =
    root +:+ "/bob/secret.png".
Proof.
  intros Hne Hsegs ->.
  assert (Hroot : nonEmpty ("/" +:+ join "/" segs) = true) by done.
  assert (H1 : Path.join ["/" +:+ join "/" segs; "alice"] =
               ("/" +:+ join "/" segs) +:+ "/alice").
  { unfold Path.join. cbn [List.filter]. rewrite Hroot.
    cbn [nonEmpty]. rewrite join_cons2.
    change (join "/" ["alice"]) with "alice".
    replace (("/" +:+ join "/" segs) +:+ "/" +:+ "alice")
      with ("/" +:+ join "/" (segs ++ ["alice"])).
    2:{ rewrite join_app by done. by rewrite !sapp_assoc. }
    rewrite normalize_absolute.
    - rewrite (normalizeSegs_proper false segs ["alice"] []) by done.
      cbn. rewrite app_nil_r, rev_involutive.
      rewrite join_app by done. by rewrite !sapp_assoc.
    - by destruct segs.
    - apply Forall_app_intro; [by apply properSeg_split|].
      by repeat constructor.
    - rewrite join_app by done.
      rewrite <- !sapp_assoc. by rewrite endsWithSlash_app. }
  split; [exact H1|]. rewrite H1.
  unfold Path.join. cbn [List.filter].
  assert (Hroot' : nonEmpty (("/" +:+ join "/" segs) +:+ "/alice") = true) by done.
  rewrite Hroot'. cbn [nonEmpty]. rewrite join_cons2.
  change (join "/" ["../bob/secret.png"]) with (join "/" [".."; "bob"; "secret.png"]).
  replace ((("/" +:+ join "/" segs) +:+ "/alice") +:+ "/" +:+
           join "/" [".."; "bob"; "secret.png"])
    with ("/" +:+ join "/" (segs ++ ["alice"; ".."; "bob"; "secret.png"])).
  2:{ rewrite (join_app "/" segs) by done.
      change (join "/" ["alice"; ".."; "bob"; "secret.png"])
        with ("alice" +:+ "/" +:+ join "/" [".."; "bob"; "secret.png"]).
      by rewrite !sapp_assoc. }
  rewrite normalize_absolute.
  - rewrite (normalizeSegs_proper false segs) by done.
    cbn. rewrite rev_app_distr, rev_involutive. cbn.
    rewrite <- List.app_assoc. cbn [app].
    rewrite join_app by done. by rewrite !sapp_assoc.
  - by destruct segs.
  - apply Forall_app_intro; [by apply properSeg_split|].
    by repeat constructor.
  - rewrite join_app by done.
    change (join "/" ["alice"; ".."; "bob"; "secret.png"])
      with ("alice/../bob/" +:+ "secret.png").
    rewrite <- !sapp_assoc. by rewrite endsWithSlash_app.
Qed.

End PathFacts.

(** ** The file route and the collections store *)

Section HandlerFacts.

Context {num : Type} `{!JsNumber num} `{!Platform num}.

Lemma requireAuth_run secret token now (w : World num) :
  exists r, verifyToken secret token now = Ok r /\
            requireAuth secret token now w = (Ok r, w).
Proof.
  destruct (verifyToken_returns secret token now) as [r Hr].
  exists r. split; [done|]. unfold requireAuth. by rewrite Hr.
Qed.

Lemma filesRoute_traversal secret token now (w : World num) segs :
  segs <> [] ->
  Forall Path.properSeg segs ->
  USERS_ROOT = "/" +:+ Str.join "/" segs ->
  filesRouteBody secret token now "/files/alice/../bob/secret.png" w =
    (Ok match verifyToken secret token now with
        | Ok (Some auth) =>
            if ensureUserOwnsPath auth (Some "alice")
            then SendText 400 "Bad path"
            else SendText 403 "Forbidden"
        | _ => SendText 401 "Unauthorized"
        end, w).
Proof.
  intros Hne Hsegs Hroot.
  unfold filesRouteBody.
  change (pathParts "/files/alice/../bob/secret.png")
    with ["files"; "alice"; ".."; "bob"; "secret.png"].
  cbn [lookup list_lookup drop].
  change (Str.join "/" [".."; "bob"; "secret.png"]) with "../bob/secret.png".
  unfold bind at 1.
  destruct (requireAuth_run secret token now w) as (r & -> & ->).
  destruct r as [auth|]; [|done].
  destruct (ensureUserOwnsPath auth (Some "alice")); [|done].
  cbn [negb].
  destruct (join_alice_bob USERS_ROOT segs Hne Hsegs Hroot) as [-> ->].
  rewrite startsWith_app_both. done.
Qed.

Lemma parseChunks_throws chunks out e :
  parseChunks chunks out = Throw e ->
  e = PlatformError "URI malformed" /\
  exists chunk k v,
    In chunk chunks /\ cookieChunk chunk = Some (k, v) /\ decodeURIComponent v = None.
Proof.
  revert out. induction chunks as [|chunk chunks IH]; intros out Hrun; [done|].
  cbn [parseChunks] in Hrun.
  destruct (cookieChunk chunk) as [[k v]|] eqn:Hchunk.
  - destruct (decodeURIComponent v) as [d|] eqn:Hv.
    + destruct (IH _ Hrun) as (-> & chunk' & k' & v' & Hin & Hc & Hd).
      split; [done|]. exists chunk', k', v'. by repeat split; [right|..].
    + injection Hrun as <-. split; [done|]. exists chunk, k, v. by repeat split; [left|..].
  - destruct (IH _ Hrun) as (-> & chunk' & k' & v' & Hin & Hc & Hd).
    split; [done|]. exists chunk', k', v'. by repeat split; [right|..].
Qed.

Lemma parseChunks_returns chunks out cookies :
  parseChunks chunks out = Ok cookies ->
  forall chunk k v,
    In chunk chunks -> cookieChunk chunk = Some (k, v) -> decodeURIComponent v <> None.
Proof.
  revert out. induction chunks as [|chunk chunks IH]; intros out Hrun c k v Hin Hc; [done|].
  cbn [parseChunks] in Hrun. destruct Hin as [->|Hin].
  - rewrite Hc in Hrun. by destruct (decodeURIComponent v).
  - destruct (cookieChunk chunk) as [[k' v']|]; [|by eapply IH].
    destruct (decodeURIComponent v'); [by eapply IH|done].
Qed.

(** A route from the [Cookie] header on is the route from the token on
    when the cookies parse, and the answer 500 of the [catch]
    otherwise. *)
Lemma apiRequest_cookies header (h : string -> M num (response num)) (w : World num) :
  apiRequest header h w =
    match parseCookies header with
    | Ok cookies => runApi (h (bananaToken cookies)) w
    | Throw _ => (SendJson 500 (errorBody "URI malformed"), w)
    end.
Proof.
  unfold apiRequest, runApi, withCookies.
  destruct (parseCookies header) as [cookies|e] eqn:Hparse; [done|].
  by apply parseChunks_throws in Hparse as [-> _].
Qed.

(** C6 (as amended): a GET request whose decoded path is
    [/files/alice/../bob/secret.png] is answered 500 when a cookie of
    the request has a value with a malformed escape, and otherwise 401
    without a valid token, 403 with the token of a user that is neither
    [alice] nor an admin, and 400 with the token of [alice] or of an
    admin: the resolved path leaves [alice]'s root.  Nothing is
    written. *)
Theorem files_traversal_answer secret header now (w : World num) segs :
  segs <> [] ->
  Forall Path.properSeg segs ->
  USERS_ROOT = "/" +:+ Str.join "/" segs ->
  filesRequest secret header now "/files/alice/../bob/secret.png" w =
    (match parseCookies header with
     | Throw _ => SendText 500 "URI malformed"
     | Ok cookies =>
         match verifyToken secret (bananaToken cookies) now with
         | Ok (Some auth) =>
             if ensureUserOwnsPath auth (Some "alice")
             then SendText 400 "Bad path"
             else SendText 403 "Forbidden"
         | _ => SendText 401 "Unauthorized"
         end
     end, w) /\
  ((exists e, parseCookies header = Throw e) <-> malformedCookie header).
Proof.
  intros Hne Hsegs Hroot. split.
  - unfold filesRequest, runText, withCookies.
    destruct (parseCookies header) as [cookies|e] eqn:Hparse.
    + by rewrite (filesRoute_traversal _ _ _ _ segs Hne Hsegs Hroot).
    + apply parseChunks_throws in Hparse as [-> _]. done.
  - unfold malformedCookie, parseCookies. split.
    + intros [e He]. by apply parseChunks_throws in He as [_ He].
    + intros (chunk & k & v & Hin & Hc & Hd).
      destruct (parseChunks _ _) as [cookies|e] eqn:Hparse; [|by eexists].
      by destruct (parseChunks_returns _ _ _ Hparse _ _ _ Hin Hc).
Qed.

Lemma filter_all {A} (f : A -> bool) l :
  (forall x, In x l -> f x = true) -> List.filter f l = l.
Proof.
  induction l as [|x l IH]; intros Hall; [done|]. simpl.
  rewrite (Hall x) by (by left). f_equal. apply IH. intros y Hy. apply Hall. by right.
Qed.

Lemma readFavorites_write (w : World num) u type value :
  fst (readFavorites u type (snd (writeFavorites u type value w))) = Ok value.
Proof.
  unfold readFavorites, writeFavorites, gets, modify. simpl.
  rewrite userDir_set_eq. simpl. by rewrite lookup_insert_eq.
Qed.

(** C8: for an authenticated user, a favorite type and an id, the remove
    handler stores exactly the elements whose [String(x?.id)] differs
    from [String(id)] and answers 200; when no element matches, the list
    read back is the list that was there. *)
Theorem favorites_remove_filters secret token now pathname (w : World num)
    auth u type l :
  verifyToken secret token now = Ok (Some auth) ->
  prop auth "u" = Some (JStr u) ->
  pathParts pathname !! 2%nat = Some type ->
  isFavType type = true ->
  fst (readFavorites u type w) = Ok (JArr l) ->
  let id := pathParts pathname !! 3%nat in
  let w' := snd (favoritesRemove secret token now pathname w) in
  fst (favoritesRemove secret token now pathname w)
    = SendJson 200 (JObj [("ok", JBool true)]) /\
  fst (readFavorites u type w') = Ok (JArr (List.filter (keepsFavorite id) l)) /\
  (forall x, In x (List.filter (keepsFavorite id) l) <->
             In x l /\ toStringOpt (prop x "id") <> default "undefined" id) /\
  ((forall x, In x l -> toStringOpt (prop x "id") <> default "undefined" id) ->
   fst (readFavorites u type w') = Ok (JArr l)).
Proof.
  intros Hauth Hu Htype Hfav Hlist id w'.
  assert (Hrun : favoritesRemove secret token now pathname w =
                 (SendJson 200 (JObj [("ok", JBool true)]),
                  snd (writeFavorites u type
                         (JArr (List.filter (keepsFavorite id) l)) w))).
  { unfold favoritesRemove, runApi, favoritesRemoveBody.
    unfold bind at 1. unfold requireAuth. rewrite Hauth. unfold ret at 1.
    rewrite Htype, Hfav. cbn [negb].
    unfold bind at 1. unfold authUser. rewrite Hu. unfold ret at 1.
    unfold bind at 1.
    unfold readFavorites, gets in Hlist |- *. simpl in Hlist. injection Hlist as ->.
    unfold bind, writeFavorites, modify, ret. done. }
  assert (Hkeep : forall x, keepsFavorite id x = true <->
                            toStringOpt (prop x "id") <> default "undefined" id).
  { intros x. unfold keepsFavorite. rewrite negb_true_iff.
    split.
    - intros Hf Heq. rewrite Heq, String.eqb_refl in Hf. done.
    - intros Hneq. by apply String.eqb_neq. }
  subst w'. rewrite Hrun. cbn [fst snd].
  split; [done|]. split; [apply readFavorites_write|]. split.
  - intros x. rewrite filter_In. by rewrite Hkeep.
  - intros Hnone. rewrite readFavorites_write. do 2 f_equal.
    apply filter_all. intros x Hx. apply Hkeep. by apply Hnone.
Qed.

End HandlerFacts.

(** ** The materializer: equations and a proof rule *)

Section MonadFacts.

Context {S : Type}.

Lemma bind_ok_inv {A B} (m : St S A) (k : A -> St S B) s b s' :
  bind m k s = (Ok b, s') ->
  exists a s1, m s = (Ok a, s1) /\ k a s1 = (Ok b, s').
Proof.
  unfold bind. destruct (m s) as [[a|e] s1]; [|done]. intros Hk. by exists a, s1.
Qed.

Lemma bind_ok {A B} (m : St S A) (k : A -> St S B) s a s1 :
  m s = (Ok a, s1) -> bind m k s = k a s1.
Proof. unfold bind. by intros ->. Qed.


Lemma bind_assoc_run {A B C} (m : St S A) (f : A -> St S B) (g : B -> St S C) s :
  bind (bind m f) g s = bind m (fun a => bind (f a) g) s.
Proof. unfold bind. by destruct (m s) as [[a|e] s1]. Qed.

Lemma bind_ext_run {A B} (m : St S A) (k1 k2 : A -> St S B) s :
  (forall a s1, k1 a s1 = k2 a s1) -> bind m k1 s = bind m k2 s.
Proof. intros Hk. unfold bind. destruct (m s) as [[a|e] s1]; [apply Hk|done]. Qed.

Lemma bind_cong_run {A B} (m1 m2 : St S A) (k : A -> St S B) s :
  m1 s = m2 s -> bind m1 k s = bind m2 k s.
Proof. unfold bind. by intros ->. Qed.

Lemma mapM_cons_ok_inv {A B} (f : A -> St S B) x l s r s' :
  mapM f (x :: l) s = (Ok r, s') ->
  exists x' l' s1,
    f x s = (Ok x', s1) /\ mapM f l s1 = (Ok l', s') /\ r = x' :: l'.
Proof.
  simpl. intros H.
  apply bind_ok_inv in H as (x' & s1 & Hx & H).
  apply bind_ok_inv in H as (l' & s2 & Hl & H).
  unfold ret in H. injection H as <- <-. by exists x', l', s1.
Qed.

(** A property of runs that holds of [ret], composes along [bind] and
    lets a throw through holds of every loop over steps that have it. *)
Section Rule.

Variable Post : S -> option exn -> S -> Prop.
Hypothesis Post_ret : forall s, Post s None s.
Hypothesis Post_seq :
  forall s s1 r s2, Post s None s1 -> Post s1 r s2 -> Post s r s2.

Lemma has_ret {A} (a : A) : has Post (ret a).
Proof. intros s. apply Post_ret. Qed.

Lemma has_bind {A B} (m : St S A) (k : A -> St S B) :
  has Post m -> (forall a, has Post (k a)) -> has Post (bind m k).
Proof.
  intros Hm Hk s. unfold bind. specialize (Hm s).
  destruct (m s) as [[a|e] s1]; simpl in *; [|done].
  eapply Post_seq; [exact Hm|]. apply Hk.
Qed.

Lemma has_mapM {A B} (f : A -> St S B) l :
  Forall (fun x => has Post (f x)) l -> has Post (mapM f l).
Proof.
  induction 1 as [|x l Hx _ IH]; simpl; [apply has_ret|].
  apply has_bind; [done|]. intros x'.
  apply has_bind; [done|]. intros l'. apply has_ret.
Qed.

End Rule.

End MonadFacts.

Section TraversalFacts.

Context {num : Type} `{!JsNumber num} `{!Platform num}.

Lemma traverse_arr c xs s :
  traverseAndMaterialize c (JArr xs) s =
  (let* xs' := mapM (traverseAndMaterialize c) xs in ret (JArr xs')) s.
Proof.
  simpl. f_equal.
  induction xs as [|x xs IH]; [done|]. simpl. by rewrite IH.
Qed.

Lemma traverse_fields c (kvs : list (string * json num)) s :
  (fix each (l : list (string * json num))
     : St (MatState num) (list (string * json num)) :=
     match l with
     | [] => ret []
     | (k, v) :: l' =>
         let* v' := traverseAndMaterialize c v in
         let* l'' := each l' in
         ret ((k, v') :: l'')
     end) kvs s
  = mapM (traverseField c) kvs s.
Proof.
  revert s. induction kvs as [|[k v] kvs IH]; intros s; [done|].
  cbn [mapM]. unfold traverseField at 1. cbn [fst snd].
  rewrite bind_assoc_run. apply bind_ext_run. intros v' s1.
  transitivity (bind (mapM (traverseField c) kvs)
                  (fun l'' => ret ((k, v') :: l'')) s1);
    [apply bind_cong_run, IH | reflexivity].
Qed.

Lemma traverse_obj c kvs s :
  traverseAndMaterialize c (JObj kvs) s =
  match packedAsset (JObj kvs) with
  | Some dataUrl =>
      (let* fileUri := materializeDataUrl c dataUrl in
       ret (JObj (objDelete "data" (objSet "file_uri" (JStr fileUri) kvs)))) s
  | None =>
      match convertInlineDataToDataUrl (JObj kvs) with
      | Some dataUrl =>
          (let* fileUri := materializeDataUrl c dataUrl in
           ret (fileDataPart (inlineMime (JObj kvs)) fileUri)) s
      | None =>
          (let* kvs' := mapM (traverseField c) kvs in ret (JObj kvs')) s
      end
  end.
Proof.
  cbn [traverseAndMaterialize].
  destruct (packedAsset (JObj kvs)); [done|].
  destruct (convertInlineDataToDataUrl (JObj kvs)); [done|].
  apply bind_cong_run, traverse_fields.
Qed.

Lemma traverse_str c str s :
  traverseAndMaterialize c (JStr str) s =
  (let* s' := materializeString c str in ret (JStr s')) s.
Proof. reflexivity. Qed.

End TraversalFacts.

Section TraverseRule.

Context {num : Type} `{!JsNumber num} `{!Platform num}.

Variable c : FavCtx.
Variable Post : MatState num -> option exn -> MatState num -> Prop.
Hypothesis Post_ret : forall s, Post s None s.
Hypothesis Post_seq :
  forall s s1 r s2, Post s None s1 -> Post s1 r s2 -> Post s r s2.
Hypothesis Post_data : forall url, has Post (materializeDataUrl c url).
Hypothesis Post_string : forall str, has Post (materializeString c str).

(** What holds of the two materializing steps holds of the traversal. *)
Lemma has_traverse node : has Post (traverseAndMaterialize c node).
Proof.
  induction node as [| b | n | str | xs IH | kvs IH] using json_ind; intros s.
  - apply Post_ret.
  - apply Post_ret.
  - apply Post_ret.
  - rewrite traverse_str. apply has_bind; auto.
  - rewrite traverse_arr. apply has_bind; auto. by apply has_mapM.
  - rewrite traverse_obj.
    destruct (packedAsset (JObj kvs)); [apply has_bind; auto|].
    destruct (convertInlineDataToDataUrl (JObj kvs)); [apply has_bind; auto|].
    apply has_bind; auto.
    apply has_mapM; auto.
    eapply Forall_impl; [exact IH|]. intros [k v] Hv. simpl in Hv.
    unfold traverseField. apply has_bind; auto.
Qed.

End TraverseRule.


(** ** The materializer, the user records and the quota error *)

Section Unmetered.

Context {num : Type} `{!JsNumber num} `{!Platform num}.

Variable c : FavCtx.

Lemma unmetered_ret (s : MatState num) : unmetered s None s.
Proof. by split. Qed.

Lemma unmetered_seq (s s1 : MatState num) r s2 :
  unmetered s None s1 -> unmetered s1 r s2 -> unmetered s r s2.
Proof. intros [H1 _] [H2 Hr]. split; [congruence|done]. Qed.

Lemma readChunks_no_quota maxBytes total chunks e :
  readChunks maxBytes total chunks = Throw e -> e = DownloadTooLarge.
Proof.
  revert total. induction chunks as [|chunk chunks IH]; intros total; simpl; [done|].
  destruct (maxBytes <? _); [by intros [= <-]|].
  destruct (readChunks _ _ chunks) eqn:Hr; [done|].
  intros [= <-]. by eapply IH.
Qed.

Lemma fetchUrlBuffer_no_quota n maxBytes url e :
  fetchUrlBuffer n maxBytes url = Throw e -> forall l q, e <> QuotaExceeded l q.
Proof.
  assert (Hresp : forall r, readResponse maxBytes r = Throw e ->
                            forall l q, e <> QuotaExceeded l q).
  { intros r. unfold readResponse.
    destruct (_ || _); [by intros [= <-]|].
    destruct (readChunks _ _ _) eqn:Hr; [done|].
    intros [= <-]. by rewrite (readChunks_no_quota _ _ _ _ Hr). }
  revert url. induction n as [|n IH]; intros url; simpl;
    (destruct (url_valid url); simpl; [|by intros [= <-]]);
    (destruct (http_get url) as [msg|r]; [by intros [= <-]|]).
  - apply Hresp.
  - destruct (resp_location r) as [loc|]; [|apply Hresp].
    destruct (_ && _); [apply IH|apply Hresp].
Qed.

Lemma unmetered_liftW {A} (m : M num A) :
  (forall w, w_users (snd (m w)) = w_users w /\
             forall l q, thrown (fst (m w)) <> Some (QuotaExceeded l q)) ->
  has unmetered (liftW m).
Proof.
  intros Hm s. unfold liftW. specialize (Hm (ms_world s)).
  by destruct (m (ms_world s)) as [r w'].
Qed.

Lemma unmetered_freshStem : has unmetered (liftW freshStem).
Proof. apply unmetered_liftW. by intros w. Qed.

Lemma unmetered_writeFile p buf : has (@unmetered num) (liftW (writeFile p buf)).
Proof. apply unmetered_liftW. by intros w. Qed.

Lemma unmetered_copyFile src dst :
  has (@unmetered num) (liftW (copyFileIfExists src dst)).
Proof.
  apply unmetered_liftW. intros w. unfold copyFileIfExists, bind, gets.
  by destruct (readFile src (w_files w)).
Qed.

Lemma unmetered_gets {A} (f : MatState num -> A) : has unmetered (gets f).
Proof. by intros s. Qed.

Local Ltac unmetered_steps :=
  repeat first
    [ apply has_bind; [exact unmetered_seq| |intros ?]
    | apply has_ret; exact unmetered_ret
    | apply unmetered_gets
    | apply unmetered_freshStem
    | apply unmetered_writeFile
    | apply unmetered_copyFile
    | by intros ? ].

Lemma unmetered_data url : has unmetered (materializeDataUrl c url).
Proof.
  unfold materializeDataUrl. unmetered_steps.
  destruct a as [uri|]; [unmetered_steps|].
  destruct (parseDataUrl url) as [[mime buf]|]; unmetered_steps.
Qed.

Lemma unmetered_remote url : has unmetered (materializeRemoteUrl c url).
Proof.
  unfold materializeRemoteUrl. unmetered_steps.
  destruct a as [uri|]; [unmetered_steps|].
  destruct (negb (isHttpUrl url)); [unmetered_steps|].
  destruct (fetchUrlBuffer 3 MAX_DOWNLOAD_BYTES url) as [[buf ct]|e] eqn:Hfetch.
  - destruct (negb _); unmetered_steps.
  - intros s. split; [done|]. simpl. intros l q [= ->].
    by eapply fetchUrlBuffer_no_quota.
Qed.

Lemma unmetered_snapshot str : has unmetered (snapshotFileUri c str).
Proof.
  unfold snapshotFileUri.
  destruct (negb _); [unmetered_steps|].
  destruct (decodeURIComponent _) as [rel|]; unmetered_steps.
Qed.

Lemma unmetered_string str : has unmetered (materializeString c str).
Proof.
  unfold materializeString.
  destruct (_ && _); [apply unmetered_data|].
  destruct (Str.startsWith str (userPrefix c)); [apply unmetered_snapshot|].
  destruct (isHttpUrl str); [apply unmetered_remote|].
  apply has_ret, unmetered_ret.
Qed.

Lemma unmetered_traverse node : has unmetered (traverseAndMaterialize c node).
Proof.
  apply has_traverse.
  - exact unmetered_ret.
  - exact unmetered_seq.
  - exact unmetered_data.
  - exact unmetered_string.
Qed.

End Unmetered.

(** ** Remote URLs *)

Section RemoteFacts.

Context {num : Type} `{!JsNumber num} `{!Platform num}.

Lemma isHttpUrl_not_data url :
  isHttpUrl url = true ->
  Str.startsWith url "data:image/" = false.
Proof.
  unfold isHttpUrl. destruct url as [|a url]; [done|].
  cbn [Str.startsWith].
  destruct (Ascii.eqb_spec "h"%char a) as [<-|Hne]; [done|].
  intros Hf. discriminate Hf.
Qed.

Lemma isHttpUrl_not_file c url :
  isHttpUrl url = true ->
  Str.startsWith url (userPrefix c) = false.
Proof.
  unfold isHttpUrl, userPrefix. destruct url as [|a url]; [done|].
  change ("/files/" +:+ fc_user c +:+ "/")
    with (String "/"%char ("files/" +:+ fc_user c +:+ "/")).
  cbn [Str.startsWith].
  destruct (Ascii.eqb_spec "h"%char a) as [<-|Hne]; [done|].
  intros Hf. discriminate Hf.
Qed.

(** On an http(s) leaf the traversal is [materializeRemoteUrl]. *)
Lemma materializeString_http c url (s : MatState num) :
  isHttpUrl url = true ->
  materializeString c url s = materializeRemoteUrl c url s.
Proof.
  intros Hhttp. unfold materializeString.
  by rewrite (isHttpUrl_not_data _ Hhttp), (isHttpUrl_not_file c _ Hhttp), Hhttp.
Qed.

(** A fetch that fails makes the leaf, and with it the traversal, throw
    the error of the fetch. *)
Lemma remote_fetch_error_propagates c url (s : MatState num) e :
  isHttpUrl url = true ->
  ms_remoteUrlMap s !! url = None ->
  fetchUrlBuffer 3 MAX_DOWNLOAD_BYTES url = Throw e ->
  traverseAndMaterialize c (JStr url) s = (Throw e, s).
Proof.
  intros Hhttp Hmiss Hfetch.
  rewrite traverse_str. unfold bind. rewrite (materializeString_http _ _ _ Hhttp).
  unfold materializeRemoteUrl, bind, gets. rewrite Hmiss, Hhttp, Hfetch. done.
Qed.

End RemoteFacts.

(** ** The materializer only adds *)

Section Grows.

Context {num : Type} `{!JsNumber num} `{!Platform num}.

Variable c : FavCtx.

(** What one call of [materializeDataUrl] does. *)
Lemma materializeDataUrl_run url (s : MatState num) :
  materializeDataUrl c url s =
    match ms_dataUrlMap s !! url with
    | Some fileUri => (Ok fileUri, s)
    | None =>
        match parseDataUrl url with
        | None => (Ok url, s)
        | Some (mime, buf) =>
            let n := w_tick (ms_world s) in
            let fileName :=
              (pretty (date_now n) +:+ "_" +:+ random_hex6 n) +:+ "." +:+ mimeToExt mime in
            (Ok (favFileUri c fileName),
             {| ms_world :=
                  {| w_tick := S n;
                     w_users := w_users (ms_world s);
                     w_files := (Path.join [fc_dir c; fileName], buf)
                                :: w_files (ms_world s) |};
                ms_dataUrlMap := <[url := favFileUri c fileName]> (ms_dataUrlMap s);
                ms_remoteUrlMap := ms_remoteUrlMap s |})
        end
    end.
Proof.
  unfold materializeDataUrl, bind, gets. simpl.
  destruct (ms_dataUrlMap s !! url); [done|].
  destruct (parseDataUrl url) as [[mime buf]|]; [|done].
  destruct s as [[n users files] dm rm]. reflexivity.
Qed.

(** What one call of [materializeRemoteUrl] does on a URL that is not in
    the map yet. *)
Lemma materializeRemoteUrl_run url (s : MatState num) :
  materializeRemoteUrl c url s =
    match ms_remoteUrlMap s !! url with
    | Some fileUri => (Ok fileUri, s)
    | None =>
        if negb (isHttpUrl url) then (Ok url, s)
        else
          match fetchUrlBuffer 3 MAX_DOWNLOAD_BYTES url with
          | Throw e => (Throw e, s)
          | Ok (buf, contentType) =>
              let mime := contentMime contentType in
              if negb (Str.startsWith mime "image/") then (Ok url, s)
              else
                let n := w_tick (ms_world s) in
                let fileName :=
                  (pretty (date_now n) +:+ "_" +:+ random_hex6 n) +:+ "." +:+ mimeToExt mime in
                (Ok (favFileUri c fileName),
                 {| ms_world :=
                      {| w_tick := S n;
                         w_users := w_users (ms_world s);
                         w_files := (Path.join [fc_dir c; fileName], buf)
                                    :: w_files (ms_world s) |};
                    ms_dataUrlMap := ms_dataUrlMap s;
                    ms_remoteUrlMap := <[url := favFileUri c fileName]> (ms_remoteUrlMap s) |})
          end
    end.
Proof.
  unfold materializeRemoteUrl, bind, gets. cbv beta iota.
  destruct (ms_remoteUrlMap s !! url); [done|].
  destruct (negb (isHttpUrl url)); [done|].
  destruct (fetchUrlBuffer 3 MAX_DOWNLOAD_BYTES url) as [[buf ct]|e]; [|done].
  destruct (negb _); [done|].
  destruct s as [[n users files] dm rm]. reflexivity.
Qed.

(** What one call of [snapshotFileUri] does on a string with the prefix
    of the user. *)
Lemma snapshotFileUri_run str (s : MatState num) :
  Str.startsWith str (userPrefix c) = true ->
  snapshotFileUri c str s =
    match decodeURIComponent (Str.dropPrefix str (userPrefix c)) with
    | None => (Throw (PlatformError "URI malformed"), s)
    | Some rel =>
        let n := w_tick (ms_world s) in
        let fileName := (pretty (date_now n) +:+ "_" +:+ random_hex6 n) +:+ Path.extname rel in
        let ticked :=
          {| ms_world := {| w_tick := S n; w_users := w_users (ms_world s);
                            w_files := w_files (ms_world s) |};
             ms_dataUrlMap := ms_dataUrlMap s;
             ms_remoteUrlMap := ms_remoteUrlMap s |} in
        match readFile (Path.join [USERS_ROOT; fc_user c; rel]) (w_files (ms_world s)) with
        | None => (Throw (PlatformError "ENOENT"), ticked)
        | Some buf =>
            (Ok (favFileUri c fileName),
             {| ms_world :=
                  {| w_tick := S n; w_users := w_users (ms_world s);
                     w_files := (Path.join [fc_dir c; fileName], buf)
                                :: w_files (ms_world s) |};
                ms_dataUrlMap := ms_dataUrlMap s;
                ms_remoteUrlMap := ms_remoteUrlMap s |})
        end
    end.
Proof.
  intros Hpre. unfold snapshotFileUri. rewrite Hpre. cbn [negb].
  destruct (decodeURIComponent _) as [rel|]; [|done].
  unfold copyFileIfExists.
  unfold bind, liftW, freshStem, gets, writeFile, modify, throw, ret.
  destruct s as [[n users files] dm rm]. cbn.
  by destruct (readFile _ files).
Qed.

Lemma mapBacked_files (s s' : MatState num) :
  ms_dataUrlMap s' = ms_dataUrlMap s ->
  (forall e, In e (w_files (ms_world s)) -> In e (w_files (ms_world s'))) ->
  mapBacked c s -> mapBacked c s'.
Proof.
  intros Hmap Hfiles Hb url uri Hlook. rewrite Hmap in Hlook.
  destruct (Hb url uri Hlook) as (mime & buf & fileName & Hp & Hu & Hin).
  exists mime, buf, fileName. auto.
Qed.

Lemma grows_ret (s : MatState num) : grows c s None s.
Proof. repeat split; [done|done|by exists []|done]. Qed.

Lemma grows_seq (s s1 : MatState num) r s2 :
  grows c s None s1 -> grows c s1 r s2 -> grows c s r s2.
Proof.
  intros (Hd1 & Hr1 & [n1 Hf1] & Hb1) (Hd2 & Hr2 & [n2 Hf2] & Hb2).
  repeat split.
  - by etrans.
  - by etrans.
  - exists (n2 ++ n1)%list. by rewrite Hf2, Hf1, List.app_assoc.
  - auto.
Qed.

Lemma grows_data url : has (grows c) (materializeDataUrl c url).
Proof.
  intros s. rewrite materializeDataUrl_run.
  destruct (ms_dataUrlMap s !! url) as [uri|] eqn:Hlook; [apply grows_ret|].
  destruct (parseDataUrl url) as [[mime buf]|] eqn:Hparse; [|apply grows_ret].
  cbn. repeat split; cbn.
  - by apply insert_subseteq.
  - done.
  - by eexists [_].
  - intros Hb url' uri'. cbn. destruct (decide (url = url')) as [<-|Hne].
    + rewrite lookup_insert_eq. intros [= <-].
      eexists mime, buf, _. split; [done|]. split; [done|]. by left.
    + rewrite lookup_insert_ne by done. intros Hlook'.
      destruct (Hb url' uri' Hlook') as (mime' & buf' & fileName' & Hp & Hu & Hin).
      exists mime', buf', fileName'. split; [done|]. split; [done|]. by right.
Qed.

Lemma grows_remote url : has (grows c) (materializeRemoteUrl c url).
Proof.
  intros s. rewrite materializeRemoteUrl_run.
  destruct (ms_remoteUrlMap s !! url) as [uri|] eqn:Hlook; [apply grows_ret|].
  destruct (negb (isHttpUrl url)); [apply grows_ret|].
  destruct (fetchUrlBuffer 3 MAX_DOWNLOAD_BYTES url) as [[buf ct]|e].
  2:{ cbn. repeat split; [done|done|by exists []|done]. }
  cbv zeta.
  destruct (negb (Str.startsWith (contentMime ct) "image/")); [apply grows_ret|].
  cbn. repeat split; cbn.
  - done.
  - by apply insert_subseteq.
  - by eexists [_].
  - apply mapBacked_files; [done|]. intros e He. by right.
Qed.

Lemma grows_string str : has (grows c) (materializeString c str).
Proof.
  unfold materializeString.
  destruct (_ && _); [apply grows_data|].
  destruct (Str.startsWith str (userPrefix c)) eqn:Hpre.
  { intros s. rewrite (snapshotFileUri_run _ _ Hpre).
    destruct (decodeURIComponent _) as [rel|].
    2:{ cbn. repeat split; [done|done|by exists []|done]. }
    cbn. destruct (readFile _ _); cbn; repeat split; cbn; try done.
    - by eexists [_].
    - apply mapBacked_files; [done|]. intros e He. by right.
    - by exists []. }
  destruct (isHttpUrl str); [apply grows_remote|].
  apply has_ret, grows_ret.
Qed.

Lemma grows_traverse node : has (grows c) (traverseAndMaterialize c node).
Proof.
  apply has_traverse.
  - exact grows_ret.
  - exact grows_seq.
  - exact grows_data.
  - exact grows_string.
Qed.

Lemma grows_mapM {A B} (f : A -> St (MatState num) B) l :
  (forall x, has (grows c) (f x)) -> has (grows c) (mapM f l).
Proof.
  intros Hf. apply has_mapM; [exact grows_ret|exact grows_seq|].
  apply Forall_forall. auto.
Qed.

Lemma grows_field kv : has (grows c) (traverseField c kv).
Proof.
  unfold traverseField. apply has_bind; [exact grows_seq|apply grows_traverse|].
  intros v. apply has_ret, grows_ret.
Qed.

End Grows.

(** ** Deduplication *)

Section Dedup.

Context {num : Type} `{!JsNumber num} `{!Platform num}.

Variable c : FavCtx.

Lemma ret_ok_inv {S A} (a b : A) (s s' : S) :
  ret a s = (Ok b, s') -> b = a /\ s' = s.
Proof. unfold ret. by intros [= <- <-]. Qed.

Lemma materializeDataUrl_returns url (s0 : MatState num) :
  exists r s1, materializeDataUrl c url s0 = (Ok r, s1).
Proof.
  rewrite materializeDataUrl_run.
  destruct (ms_dataUrlMap s0 !! url); [by eexists _, _|].
  destruct (parseDataUrl url) as [[mime buf]|]; by eexists _, _.
Qed.

(** The materializer never throws on embedded content: a value without
    file references and remote URLs is traversed to the end. *)
Lemma traverse_returns node :
  forall s0 : MatState num,
    quiet c node = true ->
    exists res s1, traverseAndMaterialize c node s0 = (Ok res, s1).
Proof.
  induction node as [| b | n | str | xs IH | kvs IH] using json_ind;
    intros s0 Hquiet; try by eexists _, _.
  - rewrite traverse_str. unfold materializeString. cbn [quiet] in Hquiet.
    destruct (_ && _).
    { destruct (materializeDataUrl_returns str s0) as (r & s1 & Hr).
      rewrite (bind_ok _ _ _ _ _ Hr). by eexists _, _. }
    cbn [orb] in Hquiet. apply negb_true_iff, orb_false_elim in Hquiet as [-> ->].
    by eexists _, _.
  - rewrite traverse_arr. cbn [quiet] in Hquiet.
    assert (Hmap : exists xs' s1, mapM (traverseAndMaterialize c) xs s0 = (Ok xs', s1)).
    { revert s0 Hquiet. induction IH as [|x xs Hx _ IHxs]; intros s0 Hquiet.
      - by eexists _, _.
      - cbn [forallb] in Hquiet. apply andb_prop in Hquiet as [Hh Ht].
        destruct (Hx s0 Hh) as (x' & sa & Hrunx).
        destruct (IHxs sa Ht) as (l' & s1 & Hrest).
        exists (x' :: l'), s1. cbn [mapM].
        by rewrite (bind_ok _ _ _ _ _ Hrunx), (bind_ok _ _ _ _ _ Hrest). }
    destruct Hmap as (xs' & s1 & Hmap). rewrite (bind_ok _ _ _ _ _ Hmap).
    by eexists _, _.
  - rewrite traverse_obj. cbn [quiet] in Hquiet.
    destruct (packedAsset (JObj kvs)) as [url|].
    { destruct (materializeDataUrl_returns url s0) as (r & s1 & Hr).
      rewrite (bind_ok _ _ _ _ _ Hr). by eexists _, _. }
    destruct (convertInlineDataToDataUrl (JObj kvs)) as [url|].
    { destruct (materializeDataUrl_returns url s0) as (r & s1 & Hr).
      rewrite (bind_ok _ _ _ _ _ Hr). by eexists _, _. }
    assert (Hmap : exists kvs' s1, mapM (traverseField c) kvs s0 = (Ok kvs', s1)).
    { revert s0 Hquiet. induction IH as [|[k v] kvs Hv _ IHkvs]; intros s0 Hquiet.
      - by eexists _, _.
      - cbn [forallb snd] in Hquiet. apply andb_prop in Hquiet as [Hh Ht].
        cbn [snd] in Hv. destruct (Hv s0 Hh) as (v' & sa & Hrunv).
        destruct (IHkvs sa Ht) as (l' & s1 & Hrest).
        exists ((k, v') :: l'), s1. cbn [mapM]. unfold traverseField at 1.
        cbn [fst snd]. rewrite bind_assoc_run, (bind_ok _ _ _ _ _ Hrunv).
        change (bind (ret (k, v')) ?f sa) with (f (k, v') sa). cbv beta.
        by rewrite (bind_ok _ _ _ _ _ Hrest). }
    destruct Hmap as (kvs' & s1 & Hmap). rewrite (bind_ok _ _ _ _ _ Hmap).
    by eexists _, _.
Qed.

(** The two maps and the files after a run that returns. *)
Lemma traverse_grows node (s0 : MatState num) res s1 :
  traverseAndMaterialize c node s0 = (Ok res, s1) -> grows c s0 None s1.
Proof. intros Hrun. pose proof (grows_traverse c node s0) as H. by rewrite Hrun in H. Qed.

Lemma mapM_grows {A B} (f : A -> St (MatState num) B) l (s0 : MatState num) res s1 :
  (forall x, has (grows c) (f x)) ->
  mapM f l s0 = (Ok res, s1) -> grows c s0 None s1.
Proof.
  intros Hf Hrun. pose proof (grows_mapM c f l Hf s0) as H. by rewrite Hrun in H.
Qed.

(** What a call of [materializeDataUrl] returns is what the final map
    gives for its data URL. *)
Lemma data_held url (s0 : MatState num) r s1 m :
  materializeDataUrl c url s0 = (Ok r, s1) ->
  ms_dataUrlMap s1 ⊆ m ->
  (forall k v, m !! k = Some v -> parseDataUrl k <> None) ->
  r = heldAt m url.
Proof.
  rewrite materializeDataUrl_run. intros Hrun Hsub Hkeys. unfold heldAt.
  destruct (ms_dataUrlMap s0 !! url) as [uri|] eqn:Hlook.
  - injection Hrun as <- <-. by rewrite (lookup_weaken _ _ _ _ Hlook Hsub).
  - destruct (parseDataUrl url) as [[mime buf]|] eqn:Hparse.
    + injection Hrun as <- <-. cbn in Hsub.
      by rewrite (lookup_weaken _ m url _ (lookup_insert_eq _ _ _) Hsub).
    + injection Hrun as <- <-.
      destruct (m !! url) as [v|] eqn:Hm; [|done].
      by destruct (Hkeys url v Hm).
Qed.

Lemma data_in_map url (s0 : MatState num) r s1 :
  materializeDataUrl c url s0 = (Ok r, s1) ->
  parseDataUrl url <> None ->
  is_Some (ms_dataUrlMap s1 !! url).
Proof.
  rewrite materializeDataUrl_run. intros Hrun Hparse.
  destruct (ms_dataUrlMap s0 !! url) as [uri|] eqn:Hlook.
  - injection Hrun as <- <-. by rewrite Hlook.
  - destruct (parseDataUrl url) as [[mime buf]|]; [|done].
    injection Hrun as <- <-. cbn. by rewrite lookup_insert_eq.
Qed.

(** Every position where the traversal materializes a data URL holds
    what the final map gives for that data URL. *)
Lemma traverse_rewritten node :
  forall (s0 : MatState num) res s1 m,
    traverseAndMaterialize c node s0 = (Ok res, s1) ->
    ms_dataUrlMap s1 ⊆ m ->
    (forall k v, m !! k = Some v -> parseDataUrl k <> None) ->
    rewrittenBy m node res.
Proof.
  induction node as [| b | n | str | xs IH | kvs IH] using json_ind;
    intros s0 res s1 m Hrun Hsub Hkeys.
  - injection Hrun as <- <-. constructor.
  - injection Hrun as <- <-. constructor.
  - injection Hrun as <- <-. constructor.
  - rewrite traverse_str in Hrun.
    apply bind_ok_inv in Hrun as (str' & s' & Hstr & Hret).
    apply ret_ok_inv in Hret as [-> ->].
    unfold materializeString in Hstr.
    destruct (_ && _) eqn:Hdata.
    + rewrite (data_held _ _ _ _ _ Hstr Hsub Hkeys). by constructor.
    + by apply RwString.
  - rewrite traverse_arr in Hrun.
    apply bind_ok_inv in Hrun as (xs' & s' & Hmap & Hret).
    apply ret_ok_inv in Hret as [-> ->].
    constructor.
    revert s0 xs' Hmap. induction IH as [|x xs Hx _ IHxs]; intros s0 xs' Hmap.
    + injection Hmap as <- <-. constructor.
    + apply mapM_cons_ok_inv in Hmap as (x' & l' & sa & Hrunx & Hrest & ->).
      constructor; [|by eapply IHxs].
      eapply Hx; [exact Hrunx| |exact Hkeys].
      destruct (mapM_grows _ _ _ _ _ (grows_traverse c) Hrest) as (Hd & _).
      by etrans.
  - rewrite traverse_obj in Hrun.
    destruct (packedAsset (JObj kvs)) as [url|] eqn:Hpacked.
    { apply bind_ok_inv in Hrun as (uri & s' & Hdata & Hret).
      apply ret_ok_inv in Hret as [-> ->].
      rewrite (data_held _ _ _ _ _ Hdata Hsub Hkeys). by constructor. }
    destruct (convertInlineDataToDataUrl (JObj kvs)) as [url|] eqn:Hinline.
    { apply bind_ok_inv in Hrun as (uri & s' & Hdata & Hret).
      apply ret_ok_inv in Hret as [-> ->].
      rewrite (data_held _ _ _ _ _ Hdata Hsub Hkeys). by constructor. }
    apply bind_ok_inv in Hrun as (kvs' & s' & Hmap & Hret).
    apply ret_ok_inv in Hret as [-> ->].
    apply RwObj; [done|done|].
    clear Hpacked Hinline.
    revert s0 kvs' Hmap. induction IH as [|[k v] kvs Hv _ IHkvs]; intros s0 kvs' Hmap.
    + injection Hmap as <- <-. constructor.
    + apply mapM_cons_ok_inv in Hmap as ([k' v'] & l' & sa & Hrunkv & Hrest & ->).
      unfold traverseField in Hrunkv. cbn [fst snd] in Hrunkv.
      apply bind_ok_inv in Hrunkv as (v'' & sb & Hrunv & Hret).
      apply ret_ok_inv in Hret as [[= -> ->] ->].
      constructor; [|by eapply IHkvs].
      split; [done|]. cbn [snd] in Hv |- *.
      eapply Hv; [exact Hrunv| |exact Hkeys].
      destruct (mapM_grows _ _ _ _ _ (grows_field c) Hrest) as (Hd & _).
      by etrans.
Qed.

(** Every data URL the traversal materializes, when it parses, is in the
    map at the end. *)
Lemma traverse_calls_in_map node :
  forall (s0 : MatState num) res s1 url,
    traverseAndMaterialize c node s0 = (Ok res, s1) ->
    In url (dataUrlCalls node) ->
    parseDataUrl url <> None ->
    is_Some (ms_dataUrlMap s1 !! url).
Proof.
  induction node as [| b | n | str | xs IH | kvs IH] using json_ind;
    intros s0 res s1 url Hrun Hin Hparse; try done.
  - rewrite traverse_str in Hrun.
    apply bind_ok_inv in Hrun as (str' & s' & Hstr & Hret).
    apply ret_ok_inv in Hret as [-> ->].
    unfold materializeString in Hstr. cbn [dataUrlCalls] in Hin.
    destruct (_ && _); [|done].
    destruct Hin as [<-|[]]. by eapply data_in_map.
  - rewrite traverse_arr in Hrun.
    apply bind_ok_inv in Hrun as (xs' & s' & Hmap & Hret).
    apply ret_ok_inv in Hret as [-> ->].
    cbn [dataUrlCalls] in Hin.
    revert s0 xs' Hmap Hin. induction IH as [|x xs Hx _ IHxs]; intros s0 xs' Hmap Hin;
      [done|].
    apply mapM_cons_ok_inv in Hmap as (x' & l' & sa & Hrunx & Hrest & ->).
    cbn [List.map concat] in Hin. apply in_app_or in Hin as [Hin|Hin].
    + destruct (Hx _ _ _ _ Hrunx Hin Hparse) as [uri Huri].
      destruct (mapM_grows _ _ _ _ _ (grows_traverse c) Hrest) as (Hd & _).
      exists uri. by eapply lookup_weaken.
    + by eapply IHxs.
  - rewrite traverse_obj in Hrun. cbn [dataUrlCalls] in Hin.
    destruct (packedAsset (JObj kvs)) as [url'|] eqn:Hpacked.
    { apply bind_ok_inv in Hrun as (uri & s' & Hdata & Hret).
      apply ret_ok_inv in Hret as [-> ->].
      destruct Hin as [<-|[]]. by eapply data_in_map. }
    destruct (convertInlineDataToDataUrl (JObj kvs)) as [url'|] eqn:Hinline.
    { apply bind_ok_inv in Hrun as (uri & s' & Hdata & Hret).
      apply ret_ok_inv in Hret as [-> ->].
      destruct Hin as [<-|[]]. by eapply data_in_map. }
    apply bind_ok_inv in Hrun as (kvs' & s' & Hmap & Hret).
    apply ret_ok_inv in Hret as [-> ->].
    clear Hpacked Hinline.
    revert s0 kvs' Hmap Hin.
    induction IH as [|[k v] kvs Hv _ IHkvs]; intros s0 kvs' Hmap Hin; [done|].
    apply mapM_cons_ok_inv in Hmap as ([k' v'] & l' & sa & Hrunkv & Hrest & ->).
    unfold traverseField in Hrunkv. cbn [fst snd] in Hrunkv.
    apply bind_ok_inv in Hrunkv as (v'' & sb & Hrunv & Hret).
    apply ret_ok_inv in Hret as [[= -> ->] ->].
    cbn [List.map concat snd] in Hin. apply in_app_or in Hin as [Hin|Hin].
    + cbn [snd] in Hv. destruct (Hv _ _ _ _ Hrunv Hin Hparse) as [uri Huri].
      destruct (mapM_grows _ _ _ _ _ (grows_field c) Hrest) as (Hd & _).
      exists uri. by eapply lookup_weaken.
    + by eapply IHkvs.
Qed.

(** The files a run writes: one for each new entry of either map and
    one for each snapshot. *)
Lemma data_tally url (s0 : MatState num) r s1 :
  materializeDataUrl c url s0 = (Ok r, s1) ->
  (length (w_files (ms_world s1)) + size (ms_dataUrlMap s0) + size (ms_remoteUrlMap s0)
   = length (w_files (ms_world s0)) + size (ms_dataUrlMap s1) + size (ms_remoteUrlMap s1))%nat.
Proof.
  rewrite materializeDataUrl_run. intros Hrun.
  destruct (ms_dataUrlMap s0 !! url) as [uri|] eqn:Hlook.
  - by injection Hrun as <- <-.
  - destruct (parseDataUrl url) as [[mime buf]|].
    + injection Hrun as <- <-. cbn. rewrite map_size_insert_None by done. lia.
    + by injection Hrun as <- <-.
Qed.

Lemma string_tally str (s0 : MatState num) r s1 :
  materializeString c str s0 = (Ok r, s1) ->
  (length (w_files (ms_world s1)) + size (ms_dataUrlMap s0) + size (ms_remoteUrlMap s0)
   = length (w_files (ms_world s0)) + size (ms_dataUrlMap s1) + size (ms_remoteUrlMap s1)
     + snapshotCount c (JStr str))%nat.
Proof.
  unfold materializeString. cbn [snapshotCount].
  destruct (_ && _).
  { intros Hrun. rewrite (data_tally _ _ _ _ Hrun). lia. }
  destruct (Str.startsWith str (userPrefix c)) eqn:Hpre.
  { rewrite (snapshotFileUri_run _ _ _ Hpre).
    destruct (decodeURIComponent _) as [rel|]; [|done]. cbv zeta.
    destruct (readFile _ _); [|done].
    intros [= <- <-]. cbn. lia. }
  destruct (isHttpUrl str) eqn:Hhttp.
  2:{ intros Hrun. apply ret_ok_inv in Hrun as [-> ->]. lia. }
  rewrite materializeRemoteUrl_run.
  destruct (ms_remoteUrlMap s0 !! str) as [uri|] eqn:Hlook.
  { intros [= <- <-]. lia. }
  rewrite Hhttp. cbn [negb].
  destruct (fetchUrlBuffer 3 MAX_DOWNLOAD_BYTES str) as [[buf ct]|e]; [|done].
  cbv zeta. destruct (negb (Str.startsWith (contentMime ct) "image/")).
  { intros [= <- <-]. lia. }
  intros [= <- <-]. cbn. rewrite map_size_insert_None by done. lia.
Qed.

Lemma traverse_tally node :
  forall (s0 : MatState num) res s1,
    traverseAndMaterialize c node s0 = (Ok res, s1) ->
    (length (w_files (ms_world s1)) + size (ms_dataUrlMap s0) + size (ms_remoteUrlMap s0)
     = length (w_files (ms_world s0)) + size (ms_dataUrlMap s1) + size (ms_remoteUrlMap s1)
       + snapshotCount c node)%nat.
Proof.
  induction node as [| b | n | str | xs IH | kvs IH] using json_ind;
    intros s0 res s1 Hrun.
  - injection Hrun as <- <-. cbn. lia.
  - injection Hrun as <- <-. cbn. lia.
  - injection Hrun as <- <-. cbn. lia.
  - rewrite traverse_str in Hrun.
    apply bind_ok_inv in Hrun as (str' & s' & Hstr & Hret).
    apply ret_ok_inv in Hret as [-> ->]. by apply string_tally in Hstr.
  - rewrite traverse_arr in Hrun.
    apply bind_ok_inv in Hrun as (xs' & s' & Hmap & Hret).
    apply ret_ok_inv in Hret as [-> ->].
    cbn [snapshotCount].
    revert s0 xs' Hmap. induction IH as [|x xs Hx _ IHxs]; intros s0 xs' Hmap.
    + injection Hmap as <- <-. cbn. lia.
    + apply mapM_cons_ok_inv in Hmap as (x' & l' & sa & Hrunx & Hrest & ->).
      specialize (Hx _ _ _ Hrunx). specialize (IHxs _ _ Hrest).
      change (list_sum (List.map (snapshotCount c) (x :: xs)))
        with (snapshotCount c x + list_sum (List.map (snapshotCount c) xs))%nat.
      lia.
  - rewrite traverse_obj in Hrun. cbn [snapshotCount].
    destruct (packedAsset (JObj kvs)) as [url'|] eqn:Hpacked.
    { apply bind_ok_inv in Hrun as (uri & s' & Hdata & Hret).
      apply ret_ok_inv in Hret as [-> ->].
      rewrite (data_tally _ _ _ _ Hdata). lia. }
    destruct (convertInlineDataToDataUrl (JObj kvs)) as [url'|] eqn:Hinline.
    { apply bind_ok_inv in Hrun as (uri & s' & Hdata & Hret).
      apply ret_ok_inv in Hret as [-> ->].
      rewrite (data_tally _ _ _ _ Hdata). lia. }
    apply bind_ok_inv in Hrun as (kvs' & s' & Hmap & Hret).
    apply ret_ok_inv in Hret as [-> ->].
    clear Hpacked Hinline.
    revert s0 kvs' Hmap.
    induction IH as [|[k v] kvs Hv _ IHkvs]; intros s0 kvs' Hmap.
    + injection Hmap as <- <-. cbn. lia.
    + apply mapM_cons_ok_inv in Hmap as ([k' v'] & l' & sa & Hrunkv & Hrest & ->).
      unfold traverseField in Hrunkv. cbn [fst snd] in Hrunkv.
      apply bind_ok_inv in Hrunkv as (v'' & sb & Hrunv & Hret).
      apply ret_ok_inv in Hret as [[= -> ->] ->].
      cbn [snd] in Hv. specialize (Hv _ _ _ Hrunv). specialize (IHkvs _ _ Hrest).
      change (list_sum (List.map (fun kv => snapshotCount c (snd kv)) ((k, v) :: kvs)))
        with (snapshotCount c v +
              list_sum (List.map (fun kv => snapshotCount c (snd kv)) kvs))%nat.
      lia.
Qed.

End Dedup.

(** ** Inline images *)

Section InlineFacts.

Context {num : Type} `{!JsNumber num} `{!Platform num}.

Lemma untilSemicolon_app m t :
  Base64.allChars (fun a => negb (Ascii.eqb a ";"%char)) m = true ->
  untilSemicolon (m +:+ String ";"%char t) = (m, String ";"%char t).
Proof.
  induction m as [|a m IH]; intros Hm.
  - reflexivity.
  - simpl in Hm. apply andb_prop in Hm as [Ha Hm].
    rewrite sapp_cons. cbn [untilSemicolon].
    apply negb_true_iff in Ha. rewrite Ha, (IH Hm). done.
Qed.

Lemma allChars_impl (p q : ascii -> bool) s :
  (forall a, p a = true -> q a = true) ->
  Base64.allChars p s = true -> Base64.allChars q s = true.
Proof.
  intros Hpq. induction s as [|a s IH]; [done|]. simpl.
  intros [Ha Hs]%andb_prop. by rewrite (Hpq a Ha), (IH Hs).
Qed.

Lemma allChars_not_includes (p : ascii -> bool) s a pat :
  p a = false ->
  Base64.allChars p s = true ->
  Str.includes s (String a pat) = false.
Proof.
  intros Hpa. induction s as [|b s IH]; [done|].
  cbn [Base64.allChars Str.includes Str.startsWith].
  intros [Hb Hs]%andb_prop. rewrite (IH Hs), orb_false_r.
  destruct (Ascii.eqb_spec a b) as [->|Hne]; [congruence|done].
Qed.

Lemma plainChar_cases a :
  Base64.plainChar a = true ->
  negb (Ascii.eqb a "010"%char || Ascii.eqb a "013"%char) = true /\
  a <> "226"%char.
Proof.
  intros Ha. split.
  - destruct (Ascii.eqb_spec a "010"%char) as [->|_]; [done|].
    by destruct (Ascii.eqb_spec a "013"%char) as [->|_].
  - by intros ->.
Qed.

(** The canonical text of a buffer has no line terminator. *)
Lemma noLineTerminator_encode bs :
  Forall Base64.isByte bs -> noLineTerminator (Base64.encode bs) = true.
Proof.
  intros Hbs. pose proof (encode_plain bs Hbs) as Hplain.
  unfold noLineTerminator.
  rewrite (allChars_impl _ _ _ (fun a Ha => proj1 (plainChar_cases a Ha)) Hplain).
  rewrite !(allChars_not_includes Base64.plainChar) by done. done.
Qed.

(** [parseDataUrl] on the data URL rebuilt from a PNG part. *)
Lemma parseDataUrl_png bs :
  Forall Base64.isByte bs -> bs <> [] ->
  parseDataUrl ("data:" +:+ "image/png" +:+ ";base64," +:+ Base64.encode bs)
    = Some ("image/png", bs).
Proof.
  intros Hbs Hne. unfold parseDataUrl.
  rewrite startsWith_app, dropPrefix_app.
  change (";base64," +:+ Base64.encode bs)
    with (String ";"%char ("base64," +:+ Base64.encode bs)).
  rewrite untilSemicolon_app by done.
  change (String ";"%char ("base64," +:+ Base64.encode bs))
    with (";base64," +:+ Base64.encode bs).
  rewrite startsWith_app, dropPrefix_app.
  rewrite (noLineTerminator_encode _ Hbs), (decode_encode _ Hbs).
  pose proof (encode_nonempty bs Hne).
  by destruct (Base64.encode bs).
Qed.

(** The three tests of the traversal on the part
    [{inline_data: {mime_type: "image/png", data: d}}]. *)
Lemma inlinePngPart_tests d :
  Str.nonEmpty d = true ->
  packedAsset (inlinePngPart d : json num) = None /\
  convertInlineDataToDataUrl (inlinePngPart d : json num)
    = Some ("data:" +:+ "image/png" +:+ ";base64," +:+ d) /\
  inlineMime (inlinePngPart d : json num) = JStr "image/png".
Proof.
  intros Hd. split; [done|]. split; [|done].
  unfold convertInlineDataToDataUrl, inlinePngPart. cbn. by rewrite Hd.
Qed.

Lemma readFile_NoDup p b fs :
  NoDup (List.map fst fs) -> In (p, b) fs -> readFile p fs = Some b.
Proof.
  induction fs as [|[p' b'] fs IH]; [done|].
  cbn [List.map fst readFile]. intros Hnd Hin.
  apply NoDup_cons in Hnd as [Hnotin Hnd].
  destruct Hin as [[= -> ->]|Hin].
  - by rewrite String.eqb_refl.
  - destruct (String.eqb_spec p p') as [->|Hne]; [|by apply IH].
    destruct Hnotin. apply list_elem_of_In, in_map_iff. by exists (p', b).
Qed.

End InlineFacts.

Section KeyFacts.

Context {num : Type} `{!JsNumber num} `{!Platform num}.

Variable c : FavCtx.
Variable k : string.
Hypothesis k_file_uri : String.eqb k "file_uri" = false.
Hypothesis k_file_data : String.eqb k "file_data" = false.
Hypothesis k_mime_type : String.eqb k "mime_type" = false.

Local Abbreviation fieldHas :=
  (fun kv : string * json num => String.eqb k (fst kv) || hasKey k (snd kv)).

Lemma assoc_hasKey key (kvs : list (string * json num)) v :
  assoc key kvs = Some v -> existsb fieldHas kvs = false -> hasKey k v = false.
Proof.
  induction kvs as [|[k' v'] kvs IH]; [done|]. cbn [assoc existsb fst snd].
  intros Hlook [[_ Hv']%orb_false_elim Hrest]%orb_false_elim.
  destruct (String.eqb key k'); [by injection Hlook as <-|by apply IH].
Qed.

Lemma prop_hasKey (j : json num) key v :
  prop j key = Some v -> hasKey k j = false -> hasKey k v = false.
Proof. destruct j; try done. cbn [prop hasKey]. apply assoc_hasKey. Qed.

Lemma orElse_hasKey (a b : option (json num)) :
  (forall x, a = Some x -> hasKey k x = false) ->
  (forall x, b = Some x -> hasKey k x = false) ->
  forall x, orElse a b = Some x -> hasKey k x = false.
Proof. unfold orElse. destruct (truthyOpt a); eauto. Qed.

Lemma optProp_hasKey (j : json num) key1 key2 :
  hasKey k j = false ->
  forall x, optProp (prop j key1) key2 = Some x -> hasKey k x = false.
Proof.
  intros Hj x. destruct (prop j key1) as [i|] eqn:Hi; [|done]. cbn [optProp].
  intros Hx. eapply prop_hasKey; [exact Hx|]. by eapply prop_hasKey.
Qed.

Lemma inlineMime_hasKey (node : json num) :
  hasKey k node = false -> hasKey k (inlineMime node) = false.
Proof.
  intros Hnode. unfold inlineMime.
  destruct (orElse _ (Some (JStr "image/png"))) as [v|] eqn:Hv; [|done].
  cbn [default]. revert v Hv.
  repeat apply orElse_hasKey; try by apply optProp_hasKey.
  by intros x [= <-].
Qed.

Lemma objSet_hasKey key v (kvs : list (string * json num)) :
  String.eqb k key = false -> hasKey k v = false ->
  existsb fieldHas kvs = false ->
  existsb fieldHas (objSet key v kvs) = false.
Proof.
  intros Hkey Hv. induction kvs as [|[k' v'] kvs IH].
  - intros _. cbn. by rewrite Hkey, Hv.
  - cbn [objSet existsb fst snd].
    intros [[Hk' Hv']%orb_false_elim Hrest]%orb_false_elim.
    destruct (String.eqb key k'); cbn [existsb fst snd].
    + by rewrite Hk', Hv, Hrest.
    + by rewrite Hk', Hv', (IH Hrest).
Qed.

Lemma objDelete_hasKey key (kvs : list (string * json num)) :
  existsb fieldHas kvs = false ->
  existsb fieldHas (objDelete key kvs) = false.
Proof.
  induction kvs as [|[k' v'] kvs IH]; [done|].
  cbn [objDelete existsb fst snd].
  intros [Hhead Hrest]%orb_false_elim.
  destruct (String.eqb key k'); [by apply IH|].
  cbn [existsb fst snd]. by rewrite Hhead, (IH Hrest).
Qed.

(** The traversal brings in no key but [file_uri], [file_data] and
    [mime_type]. *)
Lemma traverse_no_new_key node :
  forall (s0 : MatState num) res s1,
    traverseAndMaterialize c node s0 = (Ok res, s1) ->
    hasKey k node = false -> hasKey k res = false.
Proof.
  induction node as [| b | n | str | xs IH | kvs IH] using json_ind;
    intros s0 res s1 Hrun Hnode.
  - by injection Hrun as <- <-.
  - by injection Hrun as <- <-.
  - by injection Hrun as <- <-.
  - rewrite traverse_str in Hrun.
    apply bind_ok_inv in Hrun as (str' & s' & Hstr & Hret).
    by apply ret_ok_inv in Hret as [-> ->].
  - rewrite traverse_arr in Hrun.
    apply bind_ok_inv in Hrun as (xs' & s' & Hmap & Hret).
    apply ret_ok_inv in Hret as [-> ->].
    cbn [hasKey] in Hnode |- *.
    revert s0 xs' Hmap Hnode.
    induction IH as [|x xs Hx _ IHxs]; intros s0 xs' Hmap Hnode.
    + by injection Hmap as <- <-.
    + apply mapM_cons_ok_inv in Hmap as (x' & l' & sa & Hrunx & Hrest & ->).
      cbn [existsb] in Hnode |- *.
      apply orb_false_elim in Hnode as [Hhead Htail].
      by rewrite (Hx _ _ _ Hrunx Hhead), (IHxs _ _ Hrest Htail).
  - rewrite traverse_obj in Hrun.
    destruct (packedAsset (JObj kvs)) as [url|] eqn:Hpacked.
    { apply bind_ok_inv in Hrun as (uri & s' & Hdata & Hret).
      apply ret_ok_inv in Hret as [-> ->]. cbn [hasKey] in Hnode |- *.
      by apply objDelete_hasKey, objSet_hasKey. }
    destruct (convertInlineDataToDataUrl (JObj kvs)) as [url|] eqn:Hinline.
    { apply bind_ok_inv in Hrun as (uri & s' & Hdata & Hret).
      apply ret_ok_inv in Hret as [-> ->].
      unfold fileDataPart. cbn [hasKey existsb fst snd].
      by rewrite k_file_data, k_mime_type, k_file_uri, (inlineMime_hasKey _ Hnode). }
    apply bind_ok_inv in Hrun as (kvs' & s' & Hmap & Hret).
    apply ret_ok_inv in Hret as [-> ->].
    clear Hpacked Hinline. cbn [hasKey] in Hnode |- *.
    revert s0 kvs' Hmap Hnode.
    induction IH as [|[k0 v] kvs Hv _ IHkvs]; intros s0 kvs' Hmap Hnode.
    + by injection Hmap as <- <-.
    + apply mapM_cons_ok_inv in Hmap as ([k' v'] & l' & sa & Hrunkv & Hrest & ->).
      unfold traverseField in Hrunkv. cbn [fst snd] in Hrunkv.
      apply bind_ok_inv in Hrunkv as (v'' & sb & Hrunv & Hret).
      apply ret_ok_inv in Hret as [[= -> ->] ->].
      cbn [existsb fst snd] in Hnode |- *.
      apply orb_false_elim in Hnode as [[Hk0 Hv0]%orb_false_elim Htail].
      cbn [snd] in Hv.
      by rewrite Hk0, (Hv _ _ _ Hrunv Hv0), (IHkvs _ _ Hrest Htail).
Qed.

End KeyFacts.

Section InlinePart.

Context {num : Type} `{!JsNumber num} `{!Platform num}.

Variable c : FavCtx.

Local Abbreviation fieldHasInline :=
  (fun kv : string * json num =>
     String.eqb "inline_data" (fst kv) || hasKey "inline_data" (snd kv)).

Lemma mapM_app_ok_inv {S A B} (f : A -> St S B) l1 x l2 s r s' :
  mapM f (l1 ++ x :: l2) s = (Ok r, s') ->
  exists l1' x' l2' sa sb,
    mapM f l1 s = (Ok l1', sa) /\ f x sa = (Ok x', sb) /\
    mapM f l2 sb = (Ok l2', s') /\ r = (l1' ++ x' :: l2')%list /\
    length l1' = length l1.
Proof.
  revert s r. induction l1 as [|y l1 IH]; intros s r Hrun.
  - apply mapM_cons_ok_inv in Hrun as (x' & l2' & sb & Hx & Hl2 & ->).
    by exists [], x', l2', s, sb.
  - change ((y :: l1) ++ x :: l2)%list with (y :: (l1 ++ x :: l2))%list in Hrun.
    apply mapM_cons_ok_inv in Hrun as (y' & rest & s1 & Hy & Hrest & ->).
    apply IH in Hrest as (l1' & x' & l2' & sa & sb & Hl1 & Hx & Hl2 & -> & Hlen).
    exists (y' :: l1'), x', l2', sa, sb. repeat split; try done.
    + cbn [mapM]. rewrite (bind_ok _ _ _ _ _ Hy), (bind_ok _ _ _ _ _ Hl1). done.
    + cbn [length]. by rewrite Hlen.
Qed.

Lemma hasKey_plug key (C : ctx) (j : json num) :
  hasKey key (plug C j) = ctxHasKey key C || hasKey key j.
Proof.
  induction C as [|before inner IH after|before k inner IH after]; [done| |].
  - cbn [plug hasKey ctxHasKey]. rewrite existsb_app. cbn [existsb].
    rewrite IH.
    by destruct (existsb _ before), (ctxHasKey key inner), (existsb _ after),
                (hasKey key j).
  - cbn [plug hasKey ctxHasKey]. rewrite existsb_app. cbn [existsb fst snd].
    rewrite IH.
    by destruct (existsb _ before), (String.eqb key k), (ctxHasKey key inner),
                (existsb _ after), (hasKey key j).
Qed.

Lemma mapM_no_inline (l : list (json num)) (s0 : MatState num) l' s1 :
  mapM (traverseAndMaterialize c) l s0 = (Ok l', s1) ->
  existsb (hasKey "inline_data") l = false ->
  existsb (hasKey "inline_data") l' = false.
Proof.
  revert s0 l'. induction l as [|x l IH]; intros s0 l' Hrun Hl.
  - by injection Hrun as <- <-.
  - apply mapM_cons_ok_inv in Hrun as (x' & r & sa & Hx & Hrest & ->).
    cbn [existsb] in Hl |- *. apply orb_false_elim in Hl as [Hhead Htail].
    rewrite (traverse_no_new_key c "inline_data" eq_refl eq_refl eq_refl _ _ _ _ Hx Hhead).
    by rewrite (IH _ _ Hrest Htail).
Qed.

Lemma mapM_fields_no_inline (l : list (string * json num)) (s0 : MatState num) l' s1 :
  mapM (traverseField c) l s0 = (Ok l', s1) ->
  existsb fieldHasInline l = false ->
  existsb fieldHasInline l' = false.
Proof.
  revert s0 l'. induction l as [|[k v] l IH]; intros s0 l' Hrun Hl.
  - by injection Hrun as <- <-.
  - apply mapM_cons_ok_inv in Hrun as ([k' v'] & r & sa & Hkv & Hrest & ->).
    unfold traverseField in Hkv. cbn [fst snd] in Hkv.
    apply bind_ok_inv in Hkv as (v'' & sb & Hv & Hret).
    apply ret_ok_inv in Hret as [[= -> ->] ->].
    cbn [existsb fst snd] in Hl |- *.
    apply orb_false_elim in Hl as [[Hk Hval]%orb_false_elim Htail].
    rewrite Hk, (traverse_no_new_key c "inline_data" eq_refl eq_refl eq_refl _ _ _ _ Hv Hval).
    by rewrite (IH _ _ Hrest Htail).
Qed.

Lemma grows_In (s s' : MatState num) e :
  grows c s None s' -> In e (w_files (ms_world s)) -> In e (w_files (ms_world s')).
Proof. intros (_ & _ & [new ->] & _) Hin. apply in_or_app. by right. Qed.

(** The traversal at the part itself. *)
Lemma inline_part_at_hole bs (s0 : MatState num) res s1 :
  Forall Base64.isByte bs -> bs <> [] ->
  mapBacked c s0 ->
  traverseAndMaterialize c (inlinePngPart (Base64.encode bs)) s0 = (Ok res, s1) ->
  exists fileName,
    res = fileDataPart (JStr "image/png") (favFileUri c fileName) /\
    In (Path.join [fc_dir c; fileName], bs) (w_files (ms_world s1)).
Proof.
  intros Hbs Hne Hback Hrun.
  assert (Hd : Str.nonEmpty (Base64.encode bs) = true).
  { pose proof (encode_nonempty bs Hne). by destruct (Base64.encode bs). }
  destruct (inlinePngPart_tests (Base64.encode bs) Hd) as (Hpacked & Hinline & Hmime).
  unfold inlinePngPart in Hrun. rewrite traverse_obj in Hrun.
  fold (inlinePngPart (num:=num) (Base64.encode bs)) in Hrun.
  rewrite Hpacked, Hinline, Hmime in Hrun.
  apply bind_ok_inv in Hrun as (uri & s' & Hdata & Hret).
  apply ret_ok_inv in Hret as [-> ->].
  rewrite materializeDataUrl_run, (parseDataUrl_png bs Hbs Hne) in Hdata.
  destruct (ms_dataUrlMap s0 !! _) as [uri'|] eqn:Hlook.
  - injection Hdata as <- <-.
    destruct (Hback _ _ Hlook) as (mime & buf & fileName & Hp & -> & Hin).
    rewrite (parseDataUrl_png bs Hbs Hne) in Hp. injection Hp as <- <-.
    by exists fileName.
  - injection Hdata as <- <-. eexists. split; [reflexivity|]. by left.
Qed.

(** The traversal of a value that holds the part at a place it
    reaches. *)
Lemma inline_part_reached bs (C : ctx) :
  Forall Base64.isByte bs -> bs <> [] ->
  forall (s0 : MatState num) res s1,
    reaches C (inlinePngPart (Base64.encode bs)) = true ->
    mapBacked c s0 ->
    traverseAndMaterialize c (plug C (inlinePngPart (Base64.encode bs))) s0
      = (Ok res, s1) ->
    exists C' fileName,
      res = plug C' (fileDataPart (JStr "image/png") (favFileUri c fileName)) /\
      holePath C' = holePath C /\
      (ctxHasKey "inline_data" C = false -> ctxHasKey "inline_data" C' = false) /\
      In (Path.join [fc_dir c; fileName], bs) (w_files (ms_world s1)).
Proof.
  intros Hbs Hne.
  induction C as [|before inner IH after|before k inner IH after];
    intros s0 res s1 Hreach Hback Hrun.
  - destruct (inline_part_at_hole bs s0 res s1 Hbs Hne Hback Hrun)
      as (fileName & -> & Hin).
    by exists CHole, fileName.
  - cbn [plug reaches] in *. rewrite traverse_arr in Hrun.
    apply bind_ok_inv in Hrun as (xs' & s' & Hmap & Hret).
    apply ret_ok_inv in Hret as [-> ->].
    apply mapM_app_ok_inv in Hmap
      as (l1' & x' & l2' & sa & sb & Hl1 & Hx & Hl2 & -> & Hlen).
    pose proof (mapM_grows c _ _ _ _ _ (grows_traverse c) Hl1) as Hg1.
    pose proof (mapM_grows c _ _ _ _ _ (grows_traverse c) Hl2) as Hg2.
    destruct (IH _ _ _ Hreach (proj2 (proj2 (proj2 Hg1)) Hback) Hx)
      as (C' & fileName & -> & Hpath & Hkeys & Hin).
    exists (CArr l1' C' l2'), fileName. repeat split.
    + cbn [holePath]. by rewrite Hlen, Hpath.
    + cbn [ctxHasKey].
      intros [[Hb Hi]%orb_false_elim Ha]%orb_false_elim.
      by rewrite (mapM_no_inline _ _ _ _ Hl1 Hb), (Hkeys Hi),
                 (mapM_no_inline _ _ _ _ Hl2 Ha).
    + by eapply grows_In.
  - cbn [reaches] in Hreach.
    destruct (packedAsset _) eqn:Hpacked; [done|].
    destruct (convertInlineDataToDataUrl _) eqn:Hinline; [done|].
    cbn [plug] in *. rewrite traverse_obj, Hpacked, Hinline in Hrun.
    apply bind_ok_inv in Hrun as (kvs' & s' & Hmap & Hret).
    apply ret_ok_inv in Hret as [-> ->].
    apply mapM_app_ok_inv in Hmap
      as (l1' & [k' x'] & l2' & sa & sb & Hl1 & Hx & Hl2 & -> & Hlen).
    unfold traverseField in Hx. cbn [fst snd] in Hx.
    apply bind_ok_inv in Hx as (v'' & sb' & Hv & Hret).
    apply ret_ok_inv in Hret as [[= -> ->] ->].
    pose proof (mapM_grows c _ _ _ _ _ (grows_field c) Hl1) as Hg1.
    pose proof (mapM_grows c _ _ _ _ _ (grows_field c) Hl2) as Hg2.
    destruct (IH _ _ _ Hreach (proj2 (proj2 (proj2 Hg1)) Hback) Hv)
      as (C' & fileName & -> & Hpath & Hkeys & Hin).
    exists (CObj l1' k C' l2'), fileName. repeat split.
    + cbn [holePath]. by rewrite Hpath.
    + cbn [ctxHasKey].
      intros [[[Hb Hk]%orb_false_elim Hi]%orb_false_elim Ha]%orb_false_elim.
      by rewrite (mapM_fields_no_inline _ _ _ _ Hl1 Hb), Hk, (Hkeys Hi),
                 (mapM_fields_no_inline _ _ _ _ Hl2 Ha).
    + by eapply grows_In.
Qed.

(** C1 (as amended): in a favorite item that holds the part
    [{inline_data: {mime_type: "image/png", data: d}}], [d] the
    canonical base64 text of a non-empty buffer, at a place the
    traversal reaches, a materialize call that returns has replaced the
    part, at its place, with
    [{file_data: {mime_type: "image/png", file_uri: u}}]; the result has
    no [inline_data] key when the rest of the item had none; a file
    named as in [u] was written in the directory of the favorite with
    bytes whose base64 text is [d], and it is what that path holds at
    the end when no file name was used twice. *)
Theorem inline_part_materialized (C : ctx) d bs (s0 : MatState num) res s1 :
  Forall Base64.isByte bs -> bs <> [] -> d = Base64.encode bs ->
  reaches C (inlinePngPart d) = true ->
  ms_dataUrlMap s0 = ∅ ->
  traverseAndMaterialize c (plug C (inlinePngPart d)) s0 = (Ok res, s1) ->
  exists C' fileName stored,
    res = plug C' (fileDataPart (JStr "image/png") (favFileUri c fileName)) /\
    holePath C' = holePath C /\
    (ctxHasKey "inline_data" C = false -> hasKey "inline_data" res = false) /\
    In (Path.join [fc_dir c; fileName], stored) (w_files (ms_world s1)) /\
    Base64.encode stored = d /\
    (NoDup (List.map fst (w_files (ms_world s1))) ->
     readFile (Path.join [fc_dir c; fileName]) (w_files (ms_world s1)) = Some stored).
Proof.
  intros Hbs Hne -> Hreach Hempty Hrun.
  assert (Hback : mapBacked c s0).
  { intros url uri. by rewrite Hempty, lookup_empty. }
  destruct (inline_part_reached bs C Hbs Hne s0 res s1 Hreach Hback Hrun)
    as (C' & fileName & -> & Hpath & Hkeys & Hin).
  exists C', fileName, bs. repeat split; try done.
  - intros HC. rewrite hasKey_plug, (Hkeys HC). done.
  - intros Hnd. by apply readFile_NoDup.
Qed.

(** What the relation says at a place the traversal reaches. *)
Lemma rewrittenBy_plug m (C : ctx) (x res : json num) :
  reaches C x = true ->
  rewrittenBy m (plug C x) res ->
  exists C' x',
    res = plug C' x' /\ holePath C' = holePath C /\ rewrittenBy m x x'.
Proof.
  revert res. induction C as [|before inner IH after|before k inner IH after];
    intros res Hreach Hrw.
  - by exists CHole, res.
  - cbn [plug reaches] in *. inversion Hrw as [| | | | | | |xs xs' Hall|]; subst.
    apply Forall2_app_inv_l in Hall as (k1 & k2' & Hk1 & Hk2 & ->).
    apply Forall2_cons_inv_l in Hk2 as (y & k2 & Hy & Hk2 & ->).
    destruct (IH _ Hreach Hy) as (C' & x' & -> & Hpath & Hx).
    exists (CArr k1 C' k2), x'. split; [done|]. split; [|done].
    cbn [holePath]. by rewrite <- (Forall2_length _ _ _ Hk1), Hpath.
  - cbn [reaches] in Hreach.
    destruct (packedAsset _) eqn:Hpacked; [done|].
    destruct (convertInlineDataToDataUrl _) eqn:Hinline; [done|].
    cbn [plug] in *.
    inversion Hrw as [| | | | |kvs url Hp|kvs url Hp Hi| |kvs kvs' Hp Hi Hall]; subst;
      [congruence|congruence|].
    apply Forall2_app_inv_l in Hall as (k1 & k2' & Hk1 & Hk2 & ->).
    apply Forall2_cons_inv_l in Hk2 as ([k' y] & k2 & [Hk Hy] & Hk2 & ->).
    cbn [fst snd] in Hk, Hy. subst k'.
    destruct (IH _ Hreach Hy) as (C' & x' & -> & Hpath & Hx).
    exists (CObj k1 k C' k2), x'. split; [done|]. split; [|done].
    cbn [holePath]. by rewrite Hpath.
Qed.

(** C2 (as amended): after a materialize call that returns, every place
    where the traversal materializes a data URL holds what the one map
    of the call gives for that data URL: an inline part that the
    traversal reaches has become [{file_data: {mime_type, file_uri}}]
    and a data-URL string has become a string, both with the entry of
    their data URL, so two such places with the same data URL hold the
    same [file_uri]; when the data URL parses, that entry is the URI
    of a file of the favorite's directory written with the decoded
    bytes; and the call has written exactly one file for each entry of
    its two maps and one for each snapshot, however many places share a
    data URL. *)
Theorem dedup_one_file item (s0 : MatState num) res s1 :
  ms_dataUrlMap s0 = ∅ ->
  ms_remoteUrlMap s0 = ∅ ->
  traverseAndMaterialize c item s0 = (Ok res, s1) ->
  let m := ms_dataUrlMap s1 in
  rewrittenBy m item res /\
  (forall C kvs url,
     item = plug C (JObj kvs) -> reaches C (JObj kvs) = true ->
     packedAsset (JObj kvs) = None ->
     convertInlineDataToDataUrl (JObj kvs) = Some url ->
     exists C', res = plug C' (fileDataPart (inlineMime (JObj kvs)) (heldAt m url)) /\
                holePath C' = holePath C) /\
  (forall C str,
     item = plug C (JStr str) -> reaches C (JStr str) = true ->
     Str.startsWith str "data:image/" && Str.includes str ";base64," = true ->
     exists C', res = plug C' (JStr (heldAt m str)) /\ holePath C' = holePath C) /\
  (forall url, In url (dataUrlCalls item) -> parseDataUrl url <> None ->
     exists mime buf fileName,
       parseDataUrl url = Some (mime, buf) /\
       heldAt m url = favFileUri c fileName /\
       In (Path.join [fc_dir c; fileName], buf) (w_files (ms_world s1))) /\
  (length (w_files (ms_world s1)) =
   length (w_files (ms_world s0)) + size m
   + size (ms_remoteUrlMap s1) + snapshotCount c item)%nat.
Proof.
  intros Hd Hr Hrun m.
  assert (Hback0 : mapBacked c s0).
  { intros url uri. by rewrite Hd, lookup_empty. }
  pose proof (traverse_grows c _ _ _ _ Hrun) as (_ & _ & _ & Hback).
  specialize (Hback Hback0).
  assert (Hrw : rewrittenBy m item res).
  { eapply traverse_rewritten; [exact Hrun|done|].
    intros url uri Hlook. destruct (Hback url uri Hlook) as (? & ? & ? & -> & _). done. }
  split; [exact Hrw|]. split; [|split; [|split]].
  - intros C kvs url -> Hreach Hpacked Hinline.
    destruct (rewrittenBy_plug _ _ _ _ Hreach Hrw) as (C' & x' & -> & Hpath & Hx).
    exists C'. split; [|done]. f_equal.
    inversion Hx as [| | | | |kvs0 url0 Hp|kvs0 url0 Hp Hi| |kvs0 kvs' Hp Hi Hall];
      subst; congruence.
  - intros C str -> Hreach Hdata.
    destruct (rewrittenBy_plug _ _ _ _ Hreach Hrw) as (C' & x' & -> & Hpath & Hx).
    exists C'. split; [|done]. f_equal.
    inversion Hx as [| | |str0 Hs|str0 str' Hs| | | |]; subst; [done|congruence].
  - intros url Hin Hparse.
    destruct (traverse_calls_in_map c _ _ _ _ _ Hrun Hin Hparse) as [uri Hlook].
    destruct (Hback url uri Hlook) as (mime & buf & fileName & Hp & -> & Hfile).
    exists mime, buf, fileName. unfold heldAt, m. by rewrite Hlook.
  - pose proof (traverse_tally c _ _ _ _ Hrun) as Htally.
    rewrite Hd, Hr, !map_size_empty in Htally. unfold m. lia.
Qed.

End InlinePart.

(** * Properties of the rest of the server *)

(** ** The token codec *)

Section CodecFacts.

Import Base64.

(** A character of the alphabet is none of the three that
    [base64urlEncode] rewrites to, or drops. *)
Lemma char_url n :
  0 <= n < 64 ->
  Ascii.eqb (char n) "="%char = false /\
  Ascii.eqb (char n) "-"%char = false /\
  Ascii.eqb (char n) "_"%char = false.
Proof.
  intros Hn.
  assert (Hall : forallb (fun k =>
            negb (Ascii.eqb (char k) "="%char)
            && negb (Ascii.eqb (char k) "-"%char)
            && negb (Ascii.eqb (char k) "_"%char)) (seqZ 0 64) = true)
    by (vm_compute; reflexivity).
  rewrite forallb_forall in Hall.
  assert (Hin : In n (seqZ 0 64)).
  { apply list_elem_of_In, elem_of_seqZ. lia. }
  specialize (Hall n Hin).
  apply andb_prop in Hall as [Hall H3]. apply andb_prop in Hall as [H1 H2].
  by rewrite !negb_true_iff in *.
Qed.

Lemma urlUnsafe_urlSafe_char n r :
  0 <= n < 64 ->
  urlUnsafe (urlSafe (String (char n) r)) = String (char n) (urlUnsafe (urlSafe r)).
Proof.
  intros Hn. destruct (char_url n Hn) as (He & Hm & Hu).
  cbn [urlSafe]. rewrite He.
  destruct (Ascii.eqb_spec (char n) "+"%char) as [->|Hp]; [done|].
  destruct (Ascii.eqb_spec (char n) "/"%char) as [->|Hs]; [done|].
  cbn [urlUnsafe]. by rewrite Hm, Hu.
Qed.

Local Ltac sextet_bounds := unfold isByte in *; Z.div_mod_to_equations; lia.

(** The URL-safe text, put back and followed by anything, holds the
    six-bit values of the canonical text. *)
Lemma sextets_url bs t :
  Forall isByte bs ->
  sextets (urlUnsafe (urlSafe (encode bs)) +:+ t) = (sextets (encode bs) ++ sextets t)%list.
Proof.
  revert bs. fix IH 1.
  intros [|a [|b [|c rest]]] Hbs.
  - done.
  - apply Forall_cons_1 in Hbs as [Ha _].
    cbn [encode].
    rewrite !urlUnsafe_urlSafe_char by sextet_bounds.
    rewrite !sapp_cons, !sextets_cons by sextet_bounds. done.
  - apply Forall_cons_1 in Hbs as [Ha Hbs].
    apply Forall_cons_1 in Hbs as [Hb _].
    cbn [encode].
    rewrite !urlUnsafe_urlSafe_char by sextet_bounds.
    rewrite !sapp_cons, !sextets_cons by sextet_bounds. done.
  - apply Forall_cons_1 in Hbs as [Ha Hbs].
    apply Forall_cons_1 in Hbs as [Hb Hbs].
    apply Forall_cons_1 in Hbs as [Hc Hbs].
    cbn [encode].
    rewrite !urlUnsafe_urlSafe_char by sextet_bounds.
    rewrite !sapp_cons, !sextets_cons by sextet_bounds.
    rewrite (IH rest Hbs). done.
Qed.

Lemma sextets_repeat n : sextets (repeatChar "="%char n) = [].
Proof. by destruct n. Qed.

Lemma base64url_decode_encode buf :
  Forall isByte buf -> base64urlDecodeToBuffer (base64urlEncode buf) = buf.
Proof.
  intros Hbuf. unfold base64urlDecodeToBuffer, base64urlEncode, decode.
  rewrite sextets_url by done.
  destruct (Nat.eqb _ 0); [|rewrite sextets_repeat];
    rewrite app_nil_r; by apply decode_encode.
Qed.

(** X1: [base64urlDecodeToBuffer] gives back every buffer that
    [base64urlEncode] has encoded, whatever its length: the padding that
    the encoder drops is not needed to decode. *)
Theorem base64url_round_trip buf :
  Forall isByte buf -> base64urlDecodeToBuffer (base64urlEncode buf) = buf.
Proof. apply base64url_decode_encode. Qed.



(** What [toString('base64')] can write. *)
Local Abbreviation encChar :=
  (fun c : ascii =>
     Ascii.eqb c "="%char || Ascii.eqb c "+"%char || Ascii.eqb c "/"%char
     || base64urlChar c).

Lemma char_total n : encChar (char n) = true.
Proof.
  assert (Hall : forallb (fun k => encChar (char k)) (seqZ 0 64) = true)
    by (vm_compute; reflexivity).
  rewrite forallb_forall in Hall.
  destruct (decide (n < 0)) as [Hneg|Hpos].
  { unfold char. replace (Z.to_nat n) with 0%nat by lia. reflexivity. }
  destruct (decide (n < 64)) as [Hlt|Hge].
  { apply Hall, list_elem_of_In, elem_of_seqZ. lia. }
  unfold char.
  replace (Z.to_nat n) with (64 + Z.to_nat (n - 64))%nat by lia.
  reflexivity.
Qed.

Lemma encode_chars bs : allChars encChar (encode bs) = true.
Proof.
  revert bs. fix IH 1.
  intros [|a [|b [|c rest]]]; cbn [encode allChars];
    rewrite ?char_total, ?IH; reflexivity.
Qed.

Lemma urlSafe_chars s :
  allChars encChar s = true -> allChars base64urlChar (urlSafe s) = true.
Proof.
  induction s as [|c s IH]; [done|].
  cbn [allChars urlSafe]. intros [Hc Hs]%andb_prop.
  destruct (Ascii.eqb_spec c "="%char) as [->|_]; [by apply IH|].
  destruct (Ascii.eqb_spec c "+"%char) as [->|_]; [by cbn; rewrite IH|].
  destruct (Ascii.eqb_spec c "/"%char) as [->|_]; [by cbn; rewrite IH|].
  cbn [allChars]. rewrite IH by done. simpl in Hc. by rewrite Hc.
Qed.

Lemma base64urlEncode_chars buf : allChars base64urlChar (base64urlEncode buf) = true.
Proof. apply urlSafe_chars, encode_chars. Qed.

(** X2: whatever the bytes, [base64urlEncode] writes only letters,
    digits, [-] and [_]: no padding, nothing that a URL, a cookie or
    the dot of a token would take for a separator. *)
Theorem base64urlEncode_alphabet buf :
  allChars base64urlChar (base64urlEncode buf) = true /\
  Str.includes (base64urlEncode buf) "." = false /\
  Str.includes (base64urlEncode buf) "=" = false.
Proof.
  pose proof (base64urlEncode_chars buf) as H.
  split; [done|].
  split; by apply (allChars_not_includes base64urlChar).
Qed.

End CodecFacts.

(** ** Tokens and cookies *)

Section TokenRoundTrip.

Context {num : Type} `{!JsNumber num} `{!Platform num}.

Lemma split_other c s :
  Base64.allChars (fun a => negb (Ascii.eqb a c)) s = true -> Str.split c s = [s].
Proof.
  induction s as [|a s IH]; [done|].
  cbn [Base64.allChars Str.split]. intros [Ha Hs]%andb_prop.
  apply negb_true_iff in Ha. by rewrite Ha, (IH Hs).
Qed.


Lemma join_split c s : Str.join (String c EmptyString) (Str.split c s) = s.
Proof.
  induction s as [|a s IH]; [done|].
  cbn [Str.split]. destruct (Ascii.eqb_spec a c) as [->|Hne].
  - pose proof (split_nonnil c s) as Hnn.
    destruct (Str.split c s) as [|x l]; [done|].
    rewrite join_cons2, IH. reflexivity.
  - pose proof (split_nonnil c s) as Hnn.
    destruct (Str.split c s) as [|x [|y l]]; [done| |].
    + cbn in *. by rewrite IH.
    + rewrite join_cons2 in *. rewrite sapp_cons. by rewrite IH.
Qed.


Lemma createToken_nonEmpty secret (payload : json num) :
  Str.nonEmpty (createToken secret payload) = true.
Proof. unfold createToken. by destruct (base64urlEncode _). Qed.




(** X4: [verifyToken] returns a payload only for a token of the form
    [payloadB64.sig] whose signature is the one that [signToken] gives
    for [payloadB64] under the server's secret, whose payload parses to
    what is returned, has a truthy [u], and has no truthy [exp] that has
    passed. *)
Theorem verifyToken_sound secret token now (payload : json num) :
  verifyToken secret token now = Ok (Some payload) ->
  exists payloadB64,
    token = payloadB64 +:+ "." +:+ signToken secret payloadB64 /\
    JSON_parse (ofBytes (base64urlDecodeToBuffer payloadB64)) = Some payload /\
    truthyOpt (prop payload "u") = true /\
    (forall e, prop payload "exp" = Some e -> truthy e = true -> gtNow now e = false).
Proof.
  unfold verifyToken.
  destruct (negb (Str.nonEmpty token)); [done|].
  destruct (Str.split "."%char token) as [|p [|sig [|x rest]]] eqn:Hsplit; try done.
  destruct (Nat.eqb _ _); [|done]. cbn [negb].
  destruct (timingSafeEqual _ _) eqn:Heq; [|done]. cbn [negb].
  apply timingSafeEqual_eq, bytes_inj in Heq. subst sig.
  intros Hv. exists p. split.
  { rewrite <- (join_split "."%char token), Hsplit. reflexivity. }
  unfold verifyPayload in Hv.
  destruct (JSON_parse _) as [parsed|]; [|done].
  destruct parsed as [| | | | |kvs]; try done.
  all: match type of Hv with
       | context [truthyOpt (prop ?j "exp") && ?g] =>
           destruct (truthyOpt (prop j "exp") && g) eqn:Hexp; [done|];
           destruct (truthyOpt (prop j "u")) eqn:Hu; [|done];
           injection Hv as <-
       end.
  all: split; [done|]; split; [done|].
  all: intros e He Ht; rewrite He in Hexp; cbn [truthyOpt] in Hexp;
       rewrite Ht in Hexp; exact Hexp.
Qed.

(** The characters of a token. *)
Local Abbreviation tokenChar :=
  (fun c : ascii => base64urlChar c || Ascii.eqb c "."%char).

Lemma allChars_app p s t :
  Base64.allChars p (s +:+ t) = Base64.allChars p s && Base64.allChars p t.
Proof.
  induction s as [|a s IH]; [done|].
  rewrite sapp_cons. cbn [Base64.allChars]. by rewrite IH, andb_assoc.
Qed.


Lemma rev_string_app s acc : Str.rev_string s acc = Text.rev s +:+ acc.
Proof.
  unfold Text.rev. revert acc.
  induction s as [|a s IH]; intros acc; [done|].
  cbn [Str.rev_string]. rewrite (IH (String a acc)), (IH (String a EmptyString)).
  by rewrite sapp_assoc.
Qed.

Lemma sapp_nil_r s : s +:+ EmptyString = s.
Proof. induction s as [|a s IH]; [done|]. by rewrite sapp_cons, IH. Qed.

Lemma rev_cons a s : Text.rev (String a s) = Text.rev s +:+ String a EmptyString.
Proof. unfold Text.rev at 1. cbn [Str.rev_string]. apply rev_string_app. Qed.

Lemma rev_app s t : Text.rev (s +:+ t) = Text.rev t +:+ Text.rev s.
Proof.
  induction s as [|a s IH].
  - rewrite sapp_nil_l. by rewrite sapp_nil_r.
  - rewrite sapp_cons, !rev_cons, IH. by rewrite sapp_assoc.
Qed.

Lemma rev_rev s : Text.rev (Text.rev s) = s.
Proof.
  induction s as [|a s IH]; [done|].
  rewrite rev_cons, rev_app, IH. reflexivity.
Qed.

Lemma allChars_rev p s : Base64.allChars p (Text.rev s) = Base64.allChars p s.
Proof.
  induction s as [|a s IH]; [done|].
  rewrite rev_cons, allChars_app, IH. cbn [Base64.allChars].
  by rewrite andb_true_r, andb_comm.
Qed.



Lemma encodeURIComponent_id s :
  Base64.allChars Uri.unreserved s = true -> Uri.encodeURIComponent s = s.
Proof.
  induction s as [|a s IH]; [done|].
  cbn [Base64.allChars Uri.encodeURIComponent]. intros [Ha Hs]%andb_prop.
  by rewrite Ha, (IH Hs).
Qed.

Lemma cut_app c k v :
  Base64.allChars (fun a => negb (Ascii.eqb a c)) k = true ->
  Text.cut c (k +:+ String c v) = Some (k, v).
Proof.
  induction k as [|a k IH].
  - intros _. rewrite sapp_nil_l. cbn [Text.cut]. by rewrite Ascii.eqb_refl.
  - cbn [Base64.allChars]. intros [Ha Hk]%andb_prop.
    apply negb_true_iff in Ha.
    rewrite sapp_cons. cbn [Text.cut]. by rewrite Ha, (IH Hk).
Qed.






End TokenRoundTrip.

(** ** Names *)

Section NameFacts.

Context {num : Type} `{!JsNumber num}.

(** What a character of a name is not. *)
Lemma usernameChar_cases a :
  usernameChar a = true ->
  Text.byte a < 128 /\ Text.space1 (Text.byte a) = false /\
  Uri.unreserved a = true /\
  negb (Ascii.eqb a "/"%char) = true /\ a <> "."%char.
Proof.
  intros Ha.
  assert (Hall : forallb (fun n =>
            let c := ascii_of_N (Z.to_N n) in
            negb (usernameChar c)
            || ((n <? 128) && negb (Text.space1 n) && Uri.unreserved c
                && negb (Ascii.eqb c "/"%char) && negb (Ascii.eqb c "."%char)))
            (seqZ 0 256) = true) by (vm_compute; reflexivity).
  rewrite forallb_forall in Hall.
  assert (Hin : In (Text.byte a) (seqZ 0 256)).
  { apply list_elem_of_In, elem_of_seqZ. unfold Text.byte.
    pose proof (N_ascii_bounded a). lia. }
  specialize (Hall (Text.byte a) Hin). cbv zeta in Hall.
  assert (Hid : ascii_of_N (Z.to_N (Text.byte a)) = a).
  { unfold Text.byte. by rewrite N2Z.id, ascii_N_embedding. }
  rewrite Hid, Ha in Hall. cbn [negb orb] in Hall.
  repeat (apply andb_prop in Hall as [Hall ?]).
  repeat split; try done.
  - lia.
  - by apply negb_true_iff.
  - intros ->. done.
Qed.

Lemma space2_ascii x y : x < 128 -> Text.space2 x y = false.
Proof. intros Hx. unfold Text.space2. destruct (Z.eqb_spec x 194); [lia|done]. Qed.

Lemma space3_ascii x y z : x < 128 -> Text.space3 x y z = false.
Proof.
  intros Hx. unfold Text.space3.
  repeat match goal with
         | |- context [x =? ?k] => destruct (Z.eqb_spec x k); [lia|]
         end.
  reflexivity.
Qed.

Lemma space2_ascii_r x y : y < 128 -> Text.space2 x y = false.
Proof.
  intros Hy. unfold Text.space2.
  destruct (Z.eqb_spec y 160); [lia|]. by rewrite andb_false_r.
Qed.

Lemma space3_ascii_r x y z : z < 128 -> Text.space3 x y z = false.
Proof.
  intros Hz. unfold Text.space3.
  repeat match goal with
         | |- context [z =? ?k] => destruct (Z.eqb_spec z k); [lia|]
         end.
  destruct (Z.leb_spec 128 z); [lia|].
  by rewrite ?andb_false_r.
Qed.

Lemma trimStart_ascii a s :
  Text.byte a < 128 -> Text.space1 (Text.byte a) = false ->
  Text.trimStart (String a s) = String a s.
Proof.
  intros Hlt Hsp. cbn [Text.trimStart]. rewrite Hsp.
  destruct s as [|b [|c s]]; [done| |];
    by rewrite ?space2_ascii, ?space3_ascii by done.
Qed.

Lemma trimStartRev_ascii a s :
  Text.byte a < 128 -> Text.space1 (Text.byte a) = false ->
  Text.trimStartRev (String a s) = String a s.
Proof.
  intros Hlt Hsp. cbn [Text.trimStartRev]. rewrite Hsp.
  destruct s as [|b [|c s]]; [done| |];
    by rewrite ?space2_ascii_r, ?space3_ascii_r by done.
Qed.

(** [trim] leaves a text of name characters as it is. *)
Lemma trim_name u : Base64.allChars usernameChar u = true -> Text.trim u = u.
Proof.
  intros Hu. unfold Text.trim.
  assert (H1 : Text.trimStart u = u).
  { destruct u as [|a u]; [done|].
    cbn [Base64.allChars] in Hu. apply andb_prop in Hu as [Ha _].
    apply trimStart_ascii; by apply usernameChar_cases. }
  rewrite H1.
  assert (H2 : Text.trimStartRev (Text.rev u) = Text.rev u).
  { pose proof (allChars_rev usernameChar u) as Hr. rewrite Hu in Hr.
    destruct (Text.rev u) as [|a r]; [done|].
    cbn [Base64.allChars] in Hr. apply andb_prop in Hr as [Ha _].
    apply trimStartRev_ascii; by apply usernameChar_cases. }
  rewrite H2. apply rev_rev.
Qed.

Lemma name_properSeg u :
  Base64.allChars usernameChar u = true -> Str.nonEmpty u = true -> Path.properSeg u.
Proof.
  intros Hu Hne. unfold Path.properSeg, Path.isDot, Path.isDotDot.
  split; [done|].
  destruct u as [|a u]; [done|].
  pose proof Hu as Hu'. cbn [Base64.allChars] in Hu'. apply andb_prop in Hu' as [Ha _].
  destruct (usernameChar_cases a Ha) as (_ & _ & _ & _ & Hdot).
  split; [|split].
  - destruct (String.eqb_spec (String a u) "."); [congruence|done].
  - destruct (String.eqb_spec (String a u) ".."); [congruence|done].
  - apply split_other. eapply allChars_impl; [|exact Hu].
    intros b Hb. by apply usernameChar_cases.
Qed.

(** X6: a name that [sanitizeUsername] lets through is made of 3 to 32
    characters among letters, digits, [_] and [-]; so it is one path
    segment that [path.join] keeps as it is, [encodeURIComponent] does
    not change it, and checking it again gives the same name. *)
Theorem sanitizeUsername_safe (username : option (json num)) u :
  sanitizeUsername username = Some u ->
  Base64.allChars usernameChar u = true /\
  (3 <= String.length u <= 32)%nat /\
  Path.properSeg u /\
  Uri.encodeURIComponent u = u /\
  sanitizeUsername (Some (JStr u : json num)) = Some u.
Proof.
  unfold sanitizeUsername at 1.
  set (t := Text.trim _). intros H.
  destruct (Base64.allChars usernameChar t) eqn:Hchars; [|done].
  destruct (3 <=? String.length t)%nat eqn:Hlo; [|done].
  destruct (String.length t <=? 32)%nat eqn:Hhi; [|done].
  cbn [andb] in H. injection H as <-.
  apply Nat.leb_le in Hlo, Hhi.
  assert (Hne : Str.nonEmpty t = true) by (destruct t; [simpl in Hlo; lia|done]).
  split; [done|]. split; [lia|]. split; [by apply name_properSeg|]. split.
  - apply encodeURIComponent_id. eapply allChars_impl; [|exact Hchars].
    intros a Ha. by apply usernameChar_cases.
  - unfold sanitizeUsername, orElse. cbn [truthyOpt truthy]. rewrite Hne.
    cbn [toStringOpt toString]. rewrite (trim_name t Hchars), Hchars.
    by rewrite (proj2 (Nat.leb_le _ _) Hlo), (proj2 (Nat.leb_le _ _) Hhi).
Qed.

End NameFacts.

(** ** The environment files *)

Section EnvFacts.

Lemma envStep_mono env line : env ⊆ envStep env line.
Proof.
  unfold envStep. destruct (envLine line) as [[key value]|]; [|done].
  destruct (env !! key) eqn:Hk; [done|].
  destruct (inherited key); [done|]. by apply insert_subseteq.
Qed.

Lemma fold_envStep_mono lines env : env ⊆ fold_left envStep lines env.
Proof.
  revert env. induction lines as [|line lines IH]; intros env; [done|].
  cbn [fold_left]. etrans; [apply envStep_mono|apply IH].
Qed.

Lemma loadEnv_mono file env : env ⊆ loadEnvFileIfPresent file env.
Proof. destruct file; [apply fold_envStep_mono|done]. Qed.

(** X7: loading an environment file never changes a variable that is
    set; so the real environment wins over both files, and what
    [server/.env] sets wins over the root [.env]. *)
Theorem env_precedence serverEnv rootEnv env k v :
  (env !! k = Some v -> loadEnvFiles serverEnv rootEnv env !! k = Some v) /\
  (loadEnvFileIfPresent serverEnv env !! k = Some v ->
   loadEnvFiles serverEnv rootEnv env !! k = Some v).
Proof.
  unfold loadEnvFiles. split; intros Hk.
  - eapply lookup_weaken; [exact Hk|].
    etrans; apply loadEnv_mono.
  - eapply lookup_weaken; [exact Hk|]. apply loadEnv_mono.
Qed.

Lemma fold_envStep_lookup lines env k :
  fold_left envStep lines env !! k =
    match env !! k with
    | Some v => Some v
    | None =>
        if inherited k then None
        else snd <$> List.find (fun kv => String.eqb (fst kv) k) (omap envLine lines)
    end.
Proof.
  revert env. induction lines as [|line lines IH]; intros env.
  { cbn [fold_left omap list_omap List.find].
    destruct (env !! k); [done|]. by destruct (inherited k). }
  cbn [fold_left omap list_omap]. rewrite IH. unfold envStep.
  destruct (envLine line) as [[key value]|]; [|done].
  cbn [List.find fst].
  destruct (String.eqb_spec key k) as [->|Hne].
  - destruct (env !! k) as [v|] eqn:Hk; [by rewrite Hk|].
    destruct (inherited k) eqn:Hin; [by rewrite Hk|].
    by rewrite lookup_insert_eq.
  - destruct (env !! key) eqn:Hkey; [done|].
    destruct (inherited key); [done|]. by rewrite lookup_insert_ne.
Qed.

Lemma envFirst_named text k :
  k ∈ envKeys text -> is_Some (envFirst text k).
Proof.
  unfold envKeys, envFirst. generalize (Text.splitLines text). intros lines.
  induction lines as [|line lines IH]; intros Hin; [by apply elem_of_nil in Hin|].
  cbn [omap list_omap] in *.
  destruct (envLine line) as [[key value]|]; [|by apply IH].
  cbn [fmap option_fmap option_map fst List.find] in *.
  destruct (String.eqb_spec key k) as [->|Hne]; [by eexists|].
  apply IH. apply elem_of_cons in Hin as [->|Hin]; [done|exact Hin].
Qed.

Lemma envStep_same env line :
  (forall k v, envLine line = Some (k, v) -> is_Some (env !! k) \/ inherited k = true) ->
  envStep env line = env.
Proof.
  intros Hset. unfold envStep. destruct (envLine line) as [[k v]|]; [|done].
  destruct (Hset k v eq_refl) as [[x ->]| ->]; [done|]. by destruct (env !! k).
Qed.

Lemma fold_envStep_same lines env :
  (forall line k v, In line lines -> envLine line = Some (k, v) ->
                    is_Some (env !! k) \/ inherited k = true) ->
  fold_left envStep lines env = env.
Proof.
  induction lines as [|l lines IH]; intros Hset; [done|].
  cbn [fold_left].
  rewrite envStep_same by (intros k v; apply Hset; by left).
  apply IH. intros line k v Hin. apply Hset. by right.
Qed.

Lemma envLine_named lines line k v :
  In line lines -> envLine line = Some (k, v) ->
  is_Some (List.find (fun kv => String.eqb (fst kv) k) (omap envLine lines)).
Proof.
  induction lines as [|l lines IH]; intros Hin Hl; [done|].
  cbn [omap list_omap]. destruct Hin as [->|Hin].
  - rewrite Hl. cbn [List.find fst]. rewrite String.eqb_refl. by eexists.
  - destruct (envLine l) as [[key value]|]; [|by apply IH].
    cbn [List.find fst]. destruct (String.eqb key k); [by eexists|by apply IH].
Qed.

(** X8: after [loadEnvFileIfPresent] a variable of the environment
    has the value it had; a name that is neither a variable nor
    inherited from [Object.prototype] has the value of the first line of
    the file that assigns it; an inherited name that is no variable is
    still none.  So every variable that the file names, the inherited
    names apart, is set after the first load, and loading the same file
    a second time changes nothing. *)
Theorem env_load_idempotent file env :
  (forall text k,
     loadEnvFileIfPresent (Some text) env !! k =
       match env !! k with
       | Some v => Some v
       | None => if inherited k then None else envFirst text k
       end) /\
  (forall text k,
     k ∈ envKeys text ->
     if inherited k
     then loadEnvFileIfPresent (Some text) env !! k = env !! k
     else is_Some (loadEnvFileIfPresent (Some text) env !! k)) /\
  loadEnvFileIfPresent None env = env /\
  loadEnvFileIfPresent file (loadEnvFileIfPresent file env)
    = loadEnvFileIfPresent file env.
Proof.
  split; [intros text k; apply fold_envStep_lookup|].
  split.
  { intros text k Hk. cbn [loadEnvFileIfPresent]. rewrite fold_envStep_lookup.
    fold (envFirst text k). destruct (inherited k).
    - by destruct (env !! k).
    - destruct (env !! k); [by eexists|]. by apply envFirst_named. }
  split; [done|].
  destruct file as [text|]; [|done]. cbn [loadEnvFileIfPresent].
  apply fold_envStep_same. intros line k v Hin Hl.
  destruct (inherited k) eqn:Hk; [by right|]. left.
  rewrite fold_envStep_lookup, Hk. destruct (env !! k); [by eexists|].
  destruct (envLine_named _ _ _ _ Hin Hl) as [kv ->]. by eexists.
Qed.

End EnvFacts.

(** ** Bodies and downloads *)

Section SizeFacts.

Context {num : Type} `{!JsNumber num} `{!Platform num}.

Lemma readBodyChunks_spec total chunks buf :
  readBodyChunks total chunks = Some buf <->
  buf = concat chunks /\
  (chunks = [] \/ total + Z.of_nat (length (concat chunks)) <= MAX_BODY_BYTES).
Proof.
  revert total buf. induction chunks as [|chunk rest IH]; intros total buf.
  - cbn. split; [intros [= <-]; auto|by intros [-> _]].
  - cbn [readBodyChunks concat]. rewrite length_app.
    destruct (Z.ltb_spec MAX_BODY_BYTES (total + Z.of_nat (length chunk))) as [Hgt|Hle].
    + split; [done|]. intros [_ [?|Hb]]; [done|lia].
    + destruct (readBodyChunks _ rest) as [b|] eqn:Hrest.
      * apply IH in Hrest as [-> Hb]. split.
        -- intros [= <-]. split; [done|]. right.
           destruct Hb as [->|Hb]; [cbn; lia|lia].
        -- by intros [-> _].
      * split; [done|]. intros [-> [?|Hb]]; [done|].
        assert (Hsome : readBodyChunks (total + Z.of_nat (length chunk)) rest
                        = Some (concat rest)).
        { apply IH. split; [done|]. right. lia. }
        congruence.
Qed.

(** X9: [readBody] accepts a request body exactly when its chunks add
    up to at most 50 MiB, and then returns them joined; anything longer
    is rejected, however it is cut into chunks. *)
Theorem readBody_cap chunks buf :
  readBody chunks = Some buf <->
  buf = concat chunks /\ Z.of_nat (length (concat chunks)) <= MAX_BODY_BYTES.
Proof.
  unfold readBody. rewrite readBodyChunks_spec. split.
  - intros [-> [->|Hb]]; [split; [done|cbn; unfold MAX_BODY_BYTES; lia]|split; [done|lia]].
  - intros [-> Hb]. split; [done|]. right. lia.
Qed.

Lemma readChunks_ok maxBytes total chunks buf :
  readChunks maxBytes total chunks = Ok buf ->
  buf = concat chunks /\
  (chunks = [] \/ total + Z.of_nat (length buf) <= maxBytes).
Proof.
  revert total buf. induction chunks as [|chunk rest IH]; intros total buf.
  - cbn. intros [= <-]. auto.
  - cbn [readChunks concat].
    destruct (Z.ltb_spec maxBytes (total + Z.of_nat (length chunk))) as [Hgt|Hle]; [done|].
    destruct (readChunks _ _ rest) as [b|] eqn:Hrest; [|done].
    apply IH in Hrest as [-> Hb]. intros [= <-]. split; [done|]. right.
    rewrite length_app. destruct Hb as [->|Hb]; [cbn; lia|lia].
Qed.

Lemma readResponse_ok maxBytes r buf contentType :
  0 <= maxBytes ->
  readResponse maxBytes r = Ok (buf, contentType) ->
  200 <= resp_status r < 300 /\
  buf = concat (resp_chunks r) /\
  contentType = default EmptyString (resp_contentType r) /\
  Z.of_nat (length buf) <= maxBytes.
Proof.
  intros Hmax. unfold readResponse.
  destruct (Z.ltb_spec (resp_status r) 200) as [|H200]; [done|].
  destruct (Z.leb_spec 300 (resp_status r)) as [|H300]; [done|].
  cbn [orb]. destruct (readChunks _ _ _) as [b|] eqn:Hread; [|done].
  intros [= <- <-]. apply readChunks_ok in Hread as [-> Hb].
  repeat split; try done; try lia.
  destruct Hb as [->|Hb]; [cbn; lia|lia].
Qed.

(** X10: when [fetchUrlBuffer] resolves, what it returns is the whole
    body of a response with a 2xx status, with the content type of that
    response, and it is never longer than [maxBytes]. *)
Theorem fetchUrlBuffer_ok redirectsLeft maxBytes urlStr buf contentType :
  0 <= maxBytes ->
  fetchUrlBuffer redirectsLeft maxBytes urlStr = Ok (buf, contentType) ->
  Z.of_nat (length buf) <= maxBytes /\
  exists u r,
    http_get u = HttpResponse r /\
    200 <= resp_status r < 300 /\
    buf = concat (resp_chunks r) /\
    contentType = default EmptyString (resp_contentType r).
Proof.
  intros Hmax. revert urlStr.
  induction redirectsLeft as [|n IH]; intros urlStr; cbn [fetchUrlBuffer];
    (destruct (negb (url_valid urlStr)); [done|]);
    destruct (http_get urlStr) as [msg|r] eqn:Hget; try done.
  - intros Hr. apply readResponse_ok in Hr as (Hs & Hb & Hc & Hl); [|done].
    split; [done|]. by exists urlStr, r.
  - destruct (resp_location r) as [loc|].
    + destruct (isRedirect (resp_status r) && Str.nonEmpty loc); [apply IH|].
      intros Hr. apply readResponse_ok in Hr as (Hs & Hb & Hc & Hl); [|done].
      split; [done|]. by exists urlStr, r.
    + intros Hr. apply readResponse_ok in Hr as (Hs & Hb & Hc & Hl); [|done].
      split; [done|]. by exists urlStr, r.
Qed.

Lemma isRedirect_range status : isRedirect status = true -> 300 <= status.
Proof.
  unfold isRedirect. intros H.
  repeat (apply orb_prop in H as [H|H]); apply Z.eqb_eq in H; lia.
Qed.

(** X11: a URL that redirects to itself is given up after the
    redirects that are left: the fetch fails with the status of the
    redirect, whatever the number of redirects it may follow. *)
Theorem fetchUrlBuffer_redirect_loop redirectsLeft maxBytes urlStr r loc :
  url_valid urlStr = true ->
  http_get urlStr = HttpResponse r ->
  isRedirect (resp_status r) = true ->
  resp_location r = Some loc ->
  Str.nonEmpty loc = true ->
  url_resolve loc urlStr = urlStr ->
  fetchUrlBuffer redirectsLeft maxBytes urlStr = Throw (HttpStatus (resp_status r)).
Proof.
  intros Hvalid Hget Hred Hloc Hne Hres.
  assert (Hread : readResponse maxBytes r = Throw (HttpStatus (resp_status r))).
  { unfold readResponse. apply isRedirect_range in Hred.
    destruct (Z.leb_spec 300 (resp_status r)); [|lia]. by rewrite orb_true_r. }
  induction redirectsLeft as [|n IH]; cbn [fetchUrlBuffer];
    rewrite Hvalid, Hget; cbn [negb].
  - exact Hread.
  - by rewrite Hloc, Hred, Hne, Hres.
Qed.

End SizeFacts.

(** ** Data URLs and content types *)

Section MediaFacts.

Context {num : Type} `{!JsNumber num} `{!Platform num}.

(** X12: [parseDataUrl] reads back the MIME type and the bytes of
    every data URL that is written as [data:<mime>;base64,<text>] with a
    non-empty type without [;] and the canonical base64 text of a
    non-empty buffer. *)
Theorem parseDataUrl_round_trip mime bs :
  Str.nonEmpty mime = true ->
  Base64.allChars (fun a => negb (Ascii.eqb a ";"%char)) mime = true ->
  Forall Base64.isByte bs -> bs <> [] ->
  parseDataUrl ("data:" +:+ mime +:+ ";base64," +:+ Base64.encode bs) = Some (mime, bs).
Proof.
  intros Hne Hmime Hbs Hnil. unfold parseDataUrl.
  rewrite startsWith_app, dropPrefix_app.
  change (";base64," +:+ Base64.encode bs)
    with (String ";"%char ("base64," +:+ Base64.encode bs)).
  rewrite untilSemicolon_app by done.
  change (String ";"%char ("base64," +:+ Base64.encode bs))
    with (";base64," +:+ Base64.encode bs).
  rewrite Hne, startsWith_app, dropPrefix_app.
  rewrite (noLineTerminator_encode _ Hbs), (decode_encode _ Hbs).
  pose proof (encode_nonempty bs Hnil).
  by destruct (Base64.encode bs).
Qed.

Lemma fromLastDot_none e :
  Base64.allChars (fun a => negb (Ascii.eqb a "."%char)) e = true ->
  Path.fromLastDot e = None.
Proof.
  induction e as [|a e IH]; [done|].
  cbn [Base64.allChars Path.fromLastDot]. intros [Ha He]%andb_prop.
  apply negb_true_iff in Ha. by rewrite (IH He), Ha.
Qed.

Lemma fromLastDot_ext t e :
  Base64.allChars (fun a => negb (Ascii.eqb a "."%char)) e = true ->
  Path.fromLastDot (t +:+ "." +:+ e) = Some ("." +:+ e).
Proof.
  intros He. induction t as [|a t IH].
  - rewrite sapp_nil_l.
    change ("." +:+ e) with (String "."%char e).
    cbn [Path.fromLastDot]. by rewrite (fromLastDot_none e He).
  - rewrite sapp_cons. cbn [Path.fromLastDot]. by rewrite IH.
Qed.

Lemma lastSegment_snoc l x : Path.lastSegment (l ++ [x]) = x.
Proof.
  induction l as [|y l IH]; [done|].
  cbn [app Path.lastSegment]. destruct (l ++ [x])%list eqn:Hl; [|done].
  by destruct l.
Qed.

(** [path.extname] of a path whose last segment is [stem.ext]. *)
Lemma extname_file dir stem e :
  Str.nonEmpty stem = true ->
  Base64.allChars (fun a => negb (Ascii.eqb a "/"%char)) stem = true ->
  Base64.allChars (fun a => negb (Ascii.eqb a "/"%char)) e = true ->
  Base64.allChars (fun a => negb (Ascii.eqb a "."%char)) e = true ->
  Str.nonEmpty e = true ->
  Path.extname (dir +:+ "/" +:+ stem +:+ "." +:+ e) = "." +:+ e.
Proof.
  intros Hstem Hslash Heslash Hedot Hene. unfold Path.extname.
  change (dir +:+ "/" +:+ stem +:+ "." +:+ e)
    with (dir +:+ String "/"%char (stem +:+ "." +:+ e)).
  rewrite split_app.
  rewrite (split_other "/"%char (stem +:+ "." +:+ e))
    by (rewrite !allChars_app, Hslash, Heslash; done).
  rewrite List.filter_app. cbn [List.filter].
  assert (Hname : Str.nonEmpty (stem +:+ "." +:+ e) = true) by (by destruct stem).
  rewrite Hname, lastSegment_snoc.
  destruct stem as [|a stem]; [done|].
  rewrite sapp_cons.
  assert (Hdd : Path.isDotDot (String a (stem +:+ "." +:+ e)) = false).
  { unfold Path.isDotDot.
    destruct (String.eqb_spec (String a (stem +:+ "." +:+ e)) "..") as [Heq|]; [|done].
    injection Heq as _ Heq. destruct stem as [|b stem].
    - rewrite sapp_nil_l in Heq. injection Heq as Heq.
      rewrite sapp_nil_l in Heq. rewrite Heq in Hene. done.
    - rewrite sapp_cons in Heq. injection Heq as _ Heq. by destruct stem. }
  rewrite Hdd. by rewrite fromLastDot_ext.
Qed.

(** X13: an image that is stored under the extension that [mimeToExt]
    gives for its MIME type is served by [guessContentTypeByExt] with
    that type in lower case when it is PNG, WebP or GIF, as [image/jpeg]
    when it is JPEG under either spelling, and as
    [application/octet-stream] for every other type. *)
Theorem stored_image_content_type dir stem mime :
  Str.nonEmpty stem = true ->
  Base64.allChars (fun a => negb (Ascii.eqb a "/"%char)) stem = true ->
  guessContentTypeByExt (dir +:+ "/" +:+ stem +:+ "." +:+ mimeToExt mime)
    = servedType mime.
Proof.
  intros Hstem Hslash. unfold guessContentTypeByExt, servedType, mimeToExt.
  destruct (String.eqb_spec (Str.toLowerCase mime) "image/jpeg") as [->|_];
    [by rewrite extname_file|].
  destruct (String.eqb_spec (Str.toLowerCase mime) "image/jpg") as [->|_];
    [by rewrite extname_file|].
  destruct (String.eqb_spec (Str.toLowerCase mime) "image/png") as [->|_];
    [by rewrite extname_file|].
  destruct (String.eqb_spec (Str.toLowerCase mime) "image/webp") as [->|_];
    [by rewrite extname_file|].
  destruct (String.eqb_spec (Str.toLowerCase mime) "image/gif") as [->|_];
    [by rewrite extname_file|].
  by rewrite extname_file.
Qed.

End MediaFacts.

(** ** [walkAndReplace] *)

Section WalkFacts.

Context {num : Type}.

Lemma map_ext_Forall {A B} (f g : A -> B) l :
  Forall (fun x => f x = g x) l -> List.map f l = List.map g l.
Proof. induction 1 as [|x l Hx _ IH]; [done|]. cbn. by rewrite Hx, IH. Qed.

Lemma walk_id (x : json num) : walkAndReplace JStr x = x.
Proof.
  induction x as [| | | |xs IH|kvs IH] using json_ind; try done.
  - cbn [walkAndReplace]. f_equal.
    rewrite (map_ext_Forall _ id xs IH). apply List.map_id.
  - cbn [walkAndReplace]. f_equal.
    rewrite (map_ext_Forall _ id kvs); [apply List.map_id|].
    eapply Forall_impl; [exact IH|]. intros [k v] Hv. cbn in *. by rewrite Hv.
Qed.

Lemma walk_compose (f : string -> json num) (g : string -> string) (x : json num) :
  walkAndReplace f (walkAndReplace (fun s => JStr (g s)) x)
    = walkAndReplace (fun s => f (g s)) x.
Proof.
  induction x as [| | | |xs IH|kvs IH] using json_ind; try done.
  - cbn [walkAndReplace]. f_equal. rewrite List.map_map.
    by apply map_ext_Forall.
  - cbn [walkAndReplace]. f_equal. rewrite List.map_map.
    apply map_ext_Forall. eapply Forall_impl; [exact IH|].
    intros [k v] Hv. cbn in *. by rewrite Hv.
Qed.

Lemma walk_strings (g : string -> string) (x : json num) :
  strings (walkAndReplace (fun s => JStr (g s)) x) = List.map g (strings x).
Proof.
  induction x as [| | | |xs IH|kvs IH] using json_ind; try done.
  - cbn [walkAndReplace strings]. rewrite List.map_map, List.concat_map.
    f_equal. rewrite List.map_map. by apply map_ext_Forall.
  - cbn [walkAndReplace strings]. rewrite List.map_map, List.concat_map.
    f_equal. rewrite List.map_map. apply map_ext_Forall.
    eapply Forall_impl; [exact IH|]. by intros [k v] Hv.
Qed.

(** X14: [walkAndReplace] applies the replacer to every string of the
    value, at any depth and in order, and to nothing else: a replacer
    that returns its argument leaves the value as it is, two walks in a
    row are one walk with the two replacers composed, and the strings of
    the result are those of the value, replaced. *)
Theorem walkAndReplace_strings_only
  (f : string -> json num) (g : string -> string) (x : json num) :
  walkAndReplace JStr x = x /\
  walkAndReplace f (walkAndReplace (fun s => JStr (g s)) x)
    = walkAndReplace (fun s => f (g s)) x /\
  strings (walkAndReplace (fun s => JStr (g s)) x) = List.map g (strings x).
Proof. split; [apply walk_id|]. split; [apply walk_compose|apply walk_strings]. Qed.

End WalkFacts.

(** ** Gallery sizes and clearing *)

Section GalleryFacts.

Lemma leftOf_empty e :
  match leftOf e with
  | Some e' => entryBytes e' = 0 /\ fileCount e' = 0%nat
  | None => True
  end.
Proof.
  revert e. fix IH 1. intros [size|entries|]; [done| |done].
  cbn [leftOf].
  set (each := fix each (l : list (string * dirent)) : list (string * dirent) :=
                 match l with
                 | [] => []
                 | (name, e') :: l' =>
                     match leftOf e' with
                     | Some e'' => (name, e'') :: each l'
                     | None => each l'
                     end
                 end).
  assert (Hkept : entryBytes (DDir (each entries)) = 0 /\
                  fileCount (DDir (each entries)) = 0%nat).
  { induction entries as [|[name e] entries IHl]; [done|].
    cbn [each]. specialize (IH e).
    destruct (leftOf e) as [e''|]; [|exact IHl].
    destruct IH as [Hb Hc], IHl as [Hbl Hcl].
    cbn [entryBytes fileCount] in *. rewrite Hb, Hc. split; [lia|].
    cbn [Nat.add]. exact Hcl. }
  by destruct (each entries).
Qed.

Lemma removeContents_empty entries :
  statDirBytesRecursive (Some (removeDirContentsRecursive entries)) = 0 /\
  fileCount (DDir (removeDirContentsRecursive entries)) = 0%nat.
Proof.
  unfold removeDirContentsRecursive, statDirBytesRecursive.
  pose proof (leftOf_empty (DDir entries)) as H.
  destruct (leftOf (DDir entries)) as [[size|kept|]|]; try done.
Qed.

Lemma leftOf_bare e :
  match leftOf e with
  | Some e' => bare e' = true /\ otherPaths e' = otherPaths e
  | None => otherPaths e = []
  end.
Proof.
  revert e. fix IH 1. intros [size|entries|]; [done| |done].
  cbn [leftOf].
  set (each := fix each (l : list (string * dirent)) : list (string * dirent) :=
                 match l with
                 | [] => []
                 | (name, e') :: l' =>
                     match leftOf e' with
                     | Some e'' => (name, e'') :: each l'
                     | None => each l'
                     end
                 end).
  set (all := fix all (l : list (string * dirent)) : bool :=
                match l with
                | [] => true
                | (_, e') :: l' => bare e' && all l'
                end).
  assert (Hkept : all (each entries) = true /\
                  otherPaths (DDir (each entries)) = otherPaths (DDir entries)).
  { induction entries as [|[name e] entries IHl]; [done|].
    cbn [each]. specialize (IH e). destruct IHl as [Hall Hpaths].
    cbn [otherPaths] in *.
    destruct (leftOf e) as [e''|].
    - destruct IH as [Hb Hp]. cbn [all]. rewrite Hb, Hall. split; [done|].
      by rewrite Hp, Hpaths.
    - rewrite IH. cbn [List.map app]. by split. }
  destruct Hkept as [Hall Hpaths].
  destruct (each entries) as [|ne kept] eqn:Heach; [by rewrite <- Hpaths|].
  split; [|exact Hpaths]. cbn [bare andb]. exact Hall.
Qed.

(** X15: after [removeDirContentsRecursive] no regular file is left
    in the directory, at any depth, and what is left counts for zero
    bytes: only entries that are neither files nor directories stay,
    each at its place, with the directories that hold them; every
    directory left without such an entry is removed. *)
Theorem removeDirContentsRecursive_empties entries :
  let kept := removeDirContentsRecursive entries in
  statDirBytesRecursive (Some kept) = 0 /\
  fileCount (DDir kept) = 0%nat /\
  otherPaths (DDir kept) = otherPaths (DDir entries) /\
  Forall (fun ne => bare (snd ne) = true) kept /\
  (otherPaths (DDir entries) = [] -> kept = []).
Proof.
  intros kept.
  destruct (removeContents_empty entries) as [Hbytes Hcount].
  split; [exact Hbytes|]. split; [exact Hcount|].
  subst kept. unfold removeDirContentsRecursive. clear Hbytes Hcount.
  pose proof (leftOf_bare (DDir entries)) as H.
  destruct (leftOf (DDir entries)) as [[size|kept|]|] eqn:Hleft.
  - by destruct H.
  - destruct H as [Hbare Hpaths]. split; [exact Hpaths|]. split.
    + cbn [bare] in Hbare. apply andb_prop in Hbare as [_ Hall]. clear -Hall.
      induction kept as [|[name e] kept IHk]; [constructor|].
      apply andb_prop in Hall as [He Hall]. constructor; [exact He|by apply IHk].
    + intros Hnone. rewrite Hnone in Hpaths. clear -Hbare Hpaths.
      exfalso. revert Hbare Hpaths. generalize (DDir kept). fix IH 1.
      intros [size|l|]; [done| |done].
      cbn [bare otherPaths]. destruct l as [|[name e] l]; [done|].
      cbn [andb]. intros Hall Hp. apply andb_prop in Hall as [He _].
      apply app_eq_nil in Hp as [Hp _].
      apply (IH e He). by destruct (otherPaths e).
  - cbn [leftOf] in Hleft. by destruct
      ((fix each (l : list (string * dirent)) : list (string * dirent) :=
          match l with
          | [] => []
          | (name, e') :: l' =>
              match leftOf e' with
              | Some e'' => (name, e'') :: each l'
              | None => each l'
              end
          end) entries).
  - split; [by rewrite H|]. split; [constructor|done].
Qed.

Lemma statDirBytes_le dir : 0 <= statDirBytes dir <= statDirBytesRecursive dir.
Proof.
  destruct dir as [entries|]; [|done]. unfold statDirBytes, statDirBytesRecursive.
  induction entries as [|[name e] entries IH]; [done|].
  cbn [List.map fold_right snd entryBytes] in *.
  pose proof (entryBytes_nonneg e).
  destruct e as [size|sub|]; cbn [entryBytes] in *; lia.
Qed.

End GalleryFacts.

(** ** The pages of a gallery *)

Section PageFacts.

Lemma insertNewest_perm f l : insertNewest f l ≡ₚ f :: l.
Proof.
  induction l as [|g l IH]; [done|]. cbn [insertNewest].
  destruct (fs_mtimeMs f <? fs_mtimeMs g); [|done].
  rewrite IH. apply Permutation_swap.
Qed.

Lemma sortNewest_perm l : sortNewest l ≡ₚ l.
Proof.
  induction l as [|f l IH]; [done|].
  cbn [sortNewest fold_right]. fold (sortNewest l).
  rewrite insertNewest_perm. by f_equiv.
Qed.

(** Newest first: no file stands before a newer one. *)
Local Abbreviation newestFirst :=
  (StronglySorted (fun a b : FileStat => fs_mtimeMs b <= fs_mtimeMs a)).

Lemma insertNewest_sorted f l : newestFirst l -> newestFirst (insertNewest f l).
Proof.
  induction l as [|g l IH]; intros Hs; [by repeat constructor|].
  cbn [insertNewest]. apply StronglySorted_inv in Hs as [Hl Hg].
  destruct (Z.ltb_spec (fs_mtimeMs f) (fs_mtimeMs g)) as [Hlt|Hge].
  - constructor; [by apply IH|].
    rewrite (insertNewest_perm f l). constructor; [lia|done].
  - constructor; [by constructor|].
    constructor; [lia|]. eapply Forall_impl; [exact Hg|]. cbn. intros x Hx. lia.
Qed.

Lemma sortNewest_sorted l : newestFirst (sortNewest l).
Proof.
  induction l as [|f l IH]; [constructor|].
  cbn [sortNewest fold_right]. fold (sortNewest l). by apply insertNewest_sorted.
Qed.

(** The files of one instant, in the order of the list. *)
Local Abbreviation ofInstant t :=
  (filter (fun f : FileStat => fs_mtimeMs f = t)).

Lemma insertNewest_stable t f l : ofInstant t (insertNewest f l) = ofInstant t (f :: l).
Proof.
  induction l as [|g l IH]; [done|]. cbn [insertNewest].
  destruct (Z.ltb_spec (fs_mtimeMs f) (fs_mtimeMs g)) as [Hlt|Hge]; [|done].
  rewrite (filter_cons _ g), IH, !(filter_cons _ f), (filter_cons _ g).
  repeat case_decide; try done. lia.
Qed.

Lemma sortNewest_stable t l : ofInstant t (sortNewest l) = ofInstant t l.
Proof.
  induction l as [|f l IH]; [done|].
  cbn [sortNewest fold_right]. fold (sortNewest l).
  by rewrite insertNewest_stable, !filter_cons, IH.
Qed.

Lemma statFiles_names entries :
  sublist (fs_name <$> statFiles entries) (ie_name <$> entries).
Proof.
  induction entries as [|e entries IH]; [done|].
  cbn [statFiles omap list_omap fmap list_fmap]. fold (statFiles entries).
  destruct (ie_isFile e); [|by constructor].
  destruct (ie_stat e) as [st|]; cbn; by constructor.
Qed.

Lemma findIndex_lookup L j f :
  NoDup (fs_name <$> L) -> L !! j = Some f -> findIndex (fs_name f) L = Some j.
Proof.
  revert j. induction L as [|g L IH]; intros j Hnd Hj; [done|].
  cbn [findIndex]. destruct j as [|j].
  - injection Hj as ->. by rewrite String.eqb_refl.
  - cbn in Hj. cbn [fmap list_fmap] in Hnd.
    apply NoDup_cons in Hnd as [Hnot Hnd].
    destruct (String.eqb_spec (fs_name g) (fs_name f)) as [Heq|Hne].
    + exfalso. apply Hnot. rewrite Heq.
      apply list_elem_of_fmap_2. by eapply list_elem_of_lookup_2.
    + by rewrite (IH j Hnd Hj).
Qed.

(** The cursor that stands before the file of index [i]: none at the
    start, the name of the file before otherwise. *)
Local Abbreviation cursorAt :=
  (fun (L : list FileStat) (i : nat) =>
     match i with
     | O => None
     | S j => fs_name <$> L !! j
     end).

Lemma safeLimit_range limit : 1 <= safeLimit limit <= 1000.
Proof. destruct limit; cbn; lia. Qed.

Section OneGallery.

Variable entries : list ImageEntry.
Variable limit : jsnum.

Hypothesis names_NoDup : NoDup (ie_name <$> entries).
Hypothesis names_nonEmpty :
  Forall (fun e => Str.nonEmpty (ie_name e) = true) entries.

Local Abbreviation L := (sortNewest (statFiles entries)).
Local Abbreviation k := (Z.to_nat (safeLimit limit)).

Lemma sorted_NoDup : NoDup (fs_name <$> L).
Proof.
  rewrite sortNewest_perm.
  eapply sublist_NoDup; [exact names_NoDup|apply statFiles_names].
Qed.

Lemma sorted_nonEmpty f : f ∈ L -> Str.nonEmpty (fs_name f) = true.
Proof.
  rewrite sortNewest_perm. intros Hf.
  apply (list_elem_of_fmap_2 fs_name) in Hf.
  pose proof (sublist_submseteq _ _ (statFiles_names entries)) as Hsub.
  apply (elem_of_submseteq _ _ _ Hf) in Hsub.
  apply list_elem_of_fmap in Hsub as (e & -> & He).
  rewrite Forall_forall in names_nonEmpty. by apply names_nonEmpty.
Qed.

Lemma page_at i :
  (i <= length L)%nat ->
  listUserImages entries limit (cursorAt L i)
    = (take k (drop i L), fs_name <$> last (take k (drop i L))).
Proof.
  intros Hi. unfold listUserImages. destruct i as [|j]; [done|].
  destruct (L !! j) as [f|] eqn:Hj.
  2:{ apply lookup_ge_None in Hj. lia. }
  cbn [fmap option_fmap option_map].
  rewrite (sorted_nonEmpty f) by (by eapply list_elem_of_lookup_2).
  by rewrite (findIndex_lookup L j f sorted_NoDup Hj).
Qed.

Lemma pages_from calls i :
  (i <= length L)%nat -> (length L - i < calls)%nat ->
  allPages calls entries limit (cursorAt L i) = drop i L.
Proof.
  revert i. induction calls as [|n IH]; intros i Hi Hcalls; [lia|].
  cbn [allPages]. rewrite page_at by done.
  pose proof (safeLimit_range limit) as Hk.
  destruct (drop i L) as [|f rest] eqn:Hdrop.
  { rewrite take_nil. done. }
  set (page := take k (f :: rest)).
  assert (Hlen : length page = (k `min` (length L - i))%nat).
  { unfold page. rewrite length_take, <- Hdrop, length_drop. done. }
  assert (Hpos : (1 <= length page)%nat).
  { rewrite Hlen. assert (length (drop i L) = S (length rest)) by (by rewrite Hdrop).
    rewrite length_drop in H. lia. }
  assert (Hlast : last page = L !! (i + length page - 1)%nat).
  { rewrite last_lookup. unfold page. rewrite lookup_take.
    fold page. destruct (decide _) as [_|Hn].
    - rewrite <- Hdrop, lookup_drop. f_equal. lia.
    - rewrite Hlen in Hn. lia. }
  rewrite Hlast.
  destruct (L !! (i + length page - 1)%nat) as [g|] eqn:Hg.
  2:{ apply lookup_ge_None in Hg. lia. }
  cbn [fmap option_fmap option_map].
  assert (Hnext : Some (fs_name g) = cursorAt L (i + length page)%nat).
  { replace (i + length page)%nat with (S (i + length page - 1)) by lia.
    by rewrite Hg. }
  rewrite Hnext, IH by lia.
  replace (drop (i + length page) L) with (drop (length page) (f :: rest))
    by (by rewrite <- Hdrop, drop_drop).
  unfold page at 1. rewrite <- (take_drop k (f :: rest)) at 3.
  f_equal. fold page.
  destruct (decide (k <= length (f :: rest))%nat) as [Hle|Hgt].
  - f_equal. rewrite Hlen. rewrite <- Hdrop, length_drop in Hle. lia.
  - rewrite !drop_ge; [done|lia|].
    rewrite Hlen. rewrite <- Hdrop, length_drop in Hgt |- *. lia.
Qed.

End OneGallery.

(** X16: a client that calls [listUserImages] with no cursor and then
    with the [nextCursor] of each answer, until that is [null], receives
    every file of the gallery exactly once, newest first, in pages of at
    most 1000 files; the names in a directory are distinct and not
    empty.  What it receives is the listed files that [stat] finds, each
    once, none before a newer one, and those of one instant in the order
    of [readdir]. *)
Theorem listUserImages_pages entries limit calls :
  NoDup (ie_name <$> entries) ->
  Forall (fun e => Str.nonEmpty (ie_name e) = true) entries ->
  (length entries < calls)%nat ->
  let received := allPages calls entries limit None in
  received = sortNewest (statFiles entries) /\
  received ≡ₚ statFiles entries /\
  NoDup (fs_name <$> received) /\
  StronglySorted (fun a b => fs_mtimeMs b <= fs_mtimeMs a) received /\
  (forall t, filter (fun f => fs_mtimeMs f = t) received
             = filter (fun f => fs_mtimeMs f = t) (statFiles entries)) /\
  forall cursor, (length (fst (listUserImages entries limit cursor)) <= 1000)%nat.
Proof.
  intros Hnd Hne Hcalls received.
  assert (Hall : received = sortNewest (statFiles entries)).
  { subst received.
    rewrite (pages_from entries limit Hnd Hne calls 0); [done|lia|].
    rewrite Nat.sub_0_r.
    pose proof (sublist_length _ _ (statFiles_names entries)) as Hlen.
    rewrite !length_fmap in Hlen.
    rewrite (Permutation_length (sortNewest_perm (statFiles entries))). lia. }
  split; [exact Hall|]. rewrite Hall. clear received Hall.
  split; [apply sortNewest_perm|].
  split; [by apply sorted_NoDup|].
  split; [apply sortNewest_sorted|].
  split; [intros t; apply sortNewest_stable|].
  intros cursor. unfold listUserImages. cbn [fst].
  rewrite length_take. pose proof (safeLimit_range limit). lia.
Qed.

End PageFacts.

(** ** The favorites store *)

Section FavoritesFacts.

Context {num : Type} `{!JsNumber num} `{!Platform num}.

Lemma lowerAscii_idem a : Str.lowerAscii (Str.lowerAscii a) = Str.lowerAscii a.
Proof. by destruct a as [[] [] [] [] [] [] [] []]. Qed.

Lemma toLowerCase_idem s : Str.toLowerCase (Str.toLowerCase s) = Str.toLowerCase s.
Proof.
  induction s as [|a s IH]; [done|].
  cbn [Str.toLowerCase]. by rewrite lowerAscii_idem, IH.
Qed.


Lemma readFavorites_same (w w' : World num) u type :
  ud_favorites (userDir w' u) = ud_favorites (userDir w u) ->
  readFavorites u type w' = (fst (readFavorites u type w), w').
Proof. intros Hu. unfold readFavorites, gets. cbn [fst]. by rewrite Hu. Qed.

(** [ensureDir] leaves the collections as they are. *)
Lemma ensureDir_favorites p (w w' : World num) :
  ensureDir p w = (Ok tt, w') ->
  forall u, ud_favorites (userDir w' u) = ud_favorites (userDir w u).
Proof.
  unfold ensureDir. intros Hrun u.
  destruct (locate p) as [v kind segs|v|].
  - destruct (mkdirAt segs _) as [entries'|e]; [|discriminate Hrun].
    injection Hrun as <-. unfold putGallery.
    destruct (decide (u = v)) as [->|Hne].
    + by rewrite userDir_set_eq.
    + by rewrite userDir_set_ne.
  - injection Hrun as <-.
    destruct (decide (u = v)) as [->|Hne].
    + by rewrite userDir_set_eq.
    + by rewrite userDir_set_ne.
  - by injection Hrun as <-.
Qed.

Lemma materialize_users c (item : json num) (w : World num) :
  w_users (snd (materialize c item w)) = w_users w.
Proof.
  unfold materialize.
  pose proof (unmetered_traverse c item
                {| ms_world := w; ms_dataUrlMap := ∅; ms_remoteUrlMap := ∅ |}) as [Hu _].
  by destruct (traverseAndMaterialize c item _) as [r s'].
Qed.

(** A save that answers 200: who saved, where, and what is stored. *)
Lemma favoritesAdd_stored secret token now body (w w' : World num) item' :
  favoritesAdd secret token now body w
    = (SendJson 200 (JObj [("ok", JBool true); ("item", item')]), w') ->
  let type :=
    Str.toLowerCase (toStringOpt (orElse (prop body "type") (Some (JStr EmptyString)))) in
  exists auth u old,
    verifyToken secret token now = Ok (Some auth) /\
    prop auth "u" = Some (JStr u) /\
    isFavType type = true /\
    fst (readFavorites u type w) = Ok (JArr old) /\
    fst (readFavorites u type w') = Ok (JArr (item' :: old)).
Proof.
  intros Hadd type. unfold favoritesAdd, runApi in Hadd.
  destruct (favoritesAddBody secret token now body w) as [[r|e] w1] eqn:Hbody;
    [|discriminate Hadd].
  injection Hadd as -> ->.
  unfold favoritesAddBody in Hbody.
  apply bind_ok_inv in Hbody as (ra & w0 & Hreq & Hbody).
  destruct (requireAuth_run secret token now w) as (ra' & Hver & Hreq').
  rewrite Hreq' in Hreq. injection Hreq as <- <-.
  destruct ra' as [auth|]; [|discriminate Hbody].
  assert (Hrest :
    (if negb (isFavType type) then ret (SendJson 400 (errorBody "Invalid type"))
     else
       match prop body "item" with
       | Some ((JObj _ | JArr _) as item) =>
           let* favoriteId :=
             if truthyOpt (prop item "id") then ret (toStringOpt (prop item "id"))
             else let* t := dateNow in ret (pretty t) in
           let* u := authUser auth in
           let favDir := Path.join [USERS_ROOT; u; "favorites"; type; favoriteId] in
           ensureDir favDir ;;
           let c := {| fc_user := u; fc_type := type;
                       fc_id := favoriteId; fc_dir := favDir |} in
           let* storedWithFiles := materialize c item in
           let* list := readFavorites u type in
           match list with
           | JArr l =>
               writeFavorites u type (JArr (storedWithFiles :: l)) ;;
               ret (SendJson 200
                      (JObj [("ok", JBool true); ("item", storedWithFiles)]))
           | _ => throw (PlatformError "TypeError")
           end
       | _ => ret (SendJson 400 (errorBody "Invalid item"))
       end)%js w
    = (Ok (SendJson 200 (JObj [("ok", JBool true); ("item", item')])), w')).
  { destruct body; try exact Hbody. discriminate Hbody. }
  clear Hbody.
  destruct (isFavType type) eqn:Hfav; [|discriminate Hrest]. cbn [negb] in Hrest.
  destruct (prop body "item") as [item|]; [|discriminate Hrest].
  assert (Hitem :
    (let* favoriteId :=
       if truthyOpt (prop item "id") then ret (toStringOpt (prop item "id"))
       else let* t := dateNow in ret (pretty t) in
     let* u := authUser auth in
     let favDir := Path.join [USERS_ROOT; u; "favorites"; type; favoriteId] in
     ensureDir favDir ;;
     let c := {| fc_user := u; fc_type := type;
                 fc_id := favoriteId; fc_dir := favDir |} in
     let* storedWithFiles := materialize c item in
     let* list := readFavorites u type in
     match list with
     | JArr l =>
         writeFavorites u type (JArr (storedWithFiles :: l)) ;;
         ret (SendJson 200
                (JObj [("ok", JBool true); ("item", storedWithFiles)]))
     | _ => throw (PlatformError "TypeError")
     end)%js w
    = (Ok (SendJson 200 (JObj [("ok", JBool true); ("item", item')])), w')).
  { destruct item; try exact Hrest; discriminate Hrest. }
  clear Hrest.
  apply bind_ok_inv in Hitem as (favoriteId & w1 & Hid & Hitem).
  assert (Hw1 : w_users w1 = w_users w).
  { destruct (truthyOpt (prop item "id")).
    - by injection Hid as _ <-.
    - unfold bind, dateNow, ret in Hid. by injection Hid as _ <-. }
  apply bind_ok_inv in Hitem as (u1 & w2 & Hu & Hitem).
  unfold authUser in Hu.
  destruct (prop auth "u") as [[| | |u| |]|] eqn:Hau; try discriminate Hu.
  injection Hu as <- <-.
  cbv zeta in Hitem.
  apply bind_ok_inv in Hitem as ([] & wd & Hdir & Hitem).
  pose proof (ensureDir_favorites _ _ _ Hdir u) as Hwd.
  apply bind_ok_inv in Hitem as (stored & w3 & Hmat & Hitem).
  assert (Hw3 : ud_favorites (userDir w3 u) = ud_favorites (userDir w u)).
  { pose proof (materialize_users
      {| fc_user := u; fc_type := type; fc_id := favoriteId;
         fc_dir := Path.join [USERS_ROOT; u; "favorites"; type; favoriteId] |}
      item wd) as Hm.
    rewrite Hmat in Hm. cbn [snd] in Hm.
    transitivity (ud_favorites (userDir wd u)); [unfold userDir; by rewrite Hm|].
    rewrite Hwd. unfold userDir. by rewrite Hw1. }
  apply bind_ok_inv in Hitem as (list & w4 & Hread & Hitem).
  rewrite (readFavorites_same w w3) in Hread by done.
  injection Hread as Hread <-.
  destruct list as [| | | |old|]; try discriminate Hitem.
  apply bind_ok_inv in Hitem as ([] & w5 & Hwrite & Hitem).
  injection Hitem as <- <-.
  exists auth, u, old. do 3 (split; [done|]). split.
  { unfold readFavorites, gets. cbn [fst]. by rewrite Hread. }
  unfold writeFavorites, modify in Hwrite. injection Hwrite as <-.
  unfold readFavorites, gets. cbn [fst].
  rewrite userDir_set_eq. cbn. by rewrite lookup_insert_eq.
Qed.

Lemma favoritesList_run secret token now type (w : World num) auth u list :
  verifyToken secret token now = Ok (Some auth) ->
  prop auth "u" = Some (JStr u) ->
  isFavType (Str.toLowerCase type) = true ->
  fst (readFavorites u (Str.toLowerCase type) w) = Ok list ->
  favoritesList secret token now ("/api/favorites/" +:+ type) w
    = (SendJson 200 (JObj [("items", list)]), w).
Proof.
  intros Hver Hu Hfav Hread.
  unfold favoritesList, runApi, favoritesListBody.
  unfold bind at 1. unfold requireAuth. rewrite Hver. unfold ret at 1.
  rewrite dropPrefix_app, Hfav. cbn [negb].
  unfold bind at 1. unfold authUser. rewrite Hu. unfold ret at 1.
  unfold readFavorites, gets, bind, ret in *. cbn [fst] in Hread.
  by injection Hread as ->.
Qed.

(** X17: after a save that answers 200, the listing of that type
    shows the stored item first and, after it, what the listing showed
    before the save, for as long as the token is accepted. *)
Theorem favorites_add_then_list secret token now now' body (w w' : World num) item' :
  favoritesAdd secret token now body w
    = (SendJson 200 (JObj [("ok", JBool true); ("item", item')]), w') ->
  verifyToken secret token now' = verifyToken secret token now ->
  let path :=
    "/api/favorites/" +:+
    Str.toLowerCase (toStringOpt (orElse (prop body "type") (Some (JStr EmptyString)))) in
  exists old,
    fst (favoritesList secret token now path w)
      = SendJson 200 (JObj [("items", JArr old)]) /\
    fst (favoritesList secret token now' path w')
      = SendJson 200 (JObj [("items", JArr (item' :: old))]).
Proof.
  intros Hadd Hnow path.
  destruct (favoritesAdd_stored _ _ _ _ _ _ _ Hadd)
    as (auth & u & old & Hver & Hu & Hfav & Hold & Hnew).
  exists old. unfold path. split.
  - erewrite favoritesList_run; [done|exact Hver|exact Hu|..];
      by rewrite toLowerCase_idem.
  - erewrite favoritesList_run; [done|by rewrite Hnow|exact Hu|..];
      by rewrite toLowerCase_idem.
Qed.

End FavoritesFacts.

(** ** The file route *)

Section FileRouteFacts.

Context {num : Type} `{!JsNumber num} `{!Platform num}.

Lemma pathParts_segments l :
  l <> [] ->
  Forall (fun s => Str.split "/"%char s = [s] /\ Str.nonEmpty s = true) l ->
  pathParts ("/" +:+ Str.join "/" l) = l.
Proof.
  intros Hne Hall. unfold pathParts.
  change ("/" +:+ Str.join "/" l) with (String "/"%char (Str.join "/" l)).
  cbn [Str.split Ascii.eqb Bool.eqb]. cbn [List.filter Str.nonEmpty].
  rewrite split_join; [|done|by eapply Forall_impl; [exact Hall|intros ? []]].
  apply filter_all. intros s Hs.
  rewrite List.Forall_forall in Hall. by apply Hall.
Qed.

(** [path.join(root, rel)] under an absolute root, by segments. *)
Lemma join_root root segs extra :
  segs <> [] -> Forall Path.properSeg segs ->
  root = "/" +:+ Str.join "/" segs ->
  extra <> [] ->
  Forall (fun s => Str.split "/"%char s = [s]) extra ->
  Str.nonEmpty (Str.join "/" extra) = true ->
  Path.endsWithSlash (Str.join "/" extra) = false ->
  Path.join [root; Str.join "/" extra]
    = "/" +:+ Str.join "/" (Path.normalizeSegs false extra (rev segs)).
Proof.
  intros Hne Hsegs -> Hex Hall Hnonempty Hend.
  unfold Path.join. cbn [List.filter].
  assert (Hroot : Str.nonEmpty ("/" +:+ Str.join "/" segs) = true) by done.
  rewrite Hroot, Hnonempty. rewrite join_cons2.
  change (Str.join "/" [Str.join "/" extra]) with (Str.join "/" extra).
  replace (("/" +:+ Str.join "/" segs) +:+ "/" +:+ Str.join "/" extra)
    with ("/" +:+ Str.join "/" (segs ++ extra)).
  2:{ rewrite join_app by done. by rewrite !sapp_assoc. }
  rewrite normalize_absolute.
  - rewrite (normalizeSegs_proper false segs) by done. by rewrite app_nil_r.
  - by destruct segs.
  - apply Forall_app_intro; [by apply properSeg_split|done].
  - rewrite join_app by done.
    rewrite <- !sapp_assoc. by rewrite endsWithSlash_app.
Qed.

Lemma properSeg_nonEmpty_join l :
  l <> [] -> Forall Path.properSeg l -> Str.nonEmpty (Str.join "/" l) = true.
Proof.
  intros Hne Hall. destruct l as [|x l]; [done|].
  apply Forall_cons_1 in Hall as [(Hx & _) _].
  destruct l; [done|]. rewrite join_cons2. by destruct x.
Qed.

Lemma endsWithSlash_proper s : Path.properSeg s -> Path.endsWithSlash s = false.
Proof.
  intros (Hne & _ & _ & Hsplit).
  induction s as [|a s IH]; [done|].
  cbn [Path.endsWithSlash Str.split] in *.
  destruct (Ascii.eqb_spec a "/"%char) as [->|Hna]; [done|].
  destruct s as [|b s]; [done|].
  apply IH; [done|].
  destruct (Str.split "/"%char (String b s)) as [|hd [|h2 tl]] eqn:Hs; try done.
  injection Hsplit as Hsplit. by rewrite Hsplit.
Qed.

Lemma endsWithSlash_join l x :
  Path.properSeg x -> Path.endsWithSlash (Str.join "/" (l ++ [x])) = false.
Proof.
  intros Hx. destruct l as [|y l]; [by apply endsWithSlash_proper|].
  rewrite join_app by done. change (Str.join "/" [x]) with x.
  rewrite <- sapp_assoc.
  rewrite endsWithSlash_app by (by destruct Hx as [Hne _]).
  by apply endsWithSlash_proper.
Qed.

(** Under a root of kept segments, kept segments are added as they
    are. *)
Lemma join_root_proper root segs extra :
  segs <> [] -> Forall Path.properSeg segs ->
  root = "/" +:+ Str.join "/" segs ->
  extra <> [] -> Forall Path.properSeg extra ->
  Path.join [root; Str.join "/" extra] = root +:+ "/" +:+ Str.join "/" extra.
Proof.
  intros Hne Hsegs Hroot Hex Hextra.
  destruct (exists_last Hex) as (l & x & ->).
  apply Forall_app in Hextra as Hboth. destruct Hboth as [Hl Hx].
  apply Forall_cons_1 in Hx as [Hx _].
  rewrite (join_root root segs (l ++ [x]) Hne Hsegs Hroot Hex
             (properSeg_split _ Hextra) (properSeg_nonEmpty_join _ Hex Hextra)
             (endsWithSlash_join l x Hx)).
  pose proof (normalizeSegs_proper false (l ++ [x]) [] (rev segs) Hextra) as Hn.
  rewrite app_nil_r in Hn. rewrite Hn. cbn [Path.normalizeSegs].
  rewrite rev_app_distr, !rev_involutive.
  rewrite join_app by done. subst root. by rewrite !sapp_assoc.
Qed.

(** X18: the containment test of the file route is a test on the
    text of the path: for a user [u], a request whose decoded path goes
    up from [u] and down into a directory whose name starts with [u]
    passes it, and the route goes on to serve a file that is not below
    the user's root. *)
Theorem files_route_sibling_prefix secret token now (w : World num) segs auth u sfx file :
  segs <> [] -> Forall Path.properSeg segs ->
  USERS_ROOT = "/" +:+ Str.join "/" segs ->
  verifyToken secret token now = Ok (Some auth) ->
  prop auth "u" = Some (JStr u) ->
  Path.properSeg u -> Path.properSeg (u +:+ sfx) -> Path.properSeg file ->
  Str.nonEmpty sfx = true ->
  let served := USERS_ROOT +:+ "/" +:+ (u +:+ sfx) +:+ "/" +:+ file in
  fst (filesRoute secret token now
         ("/files/" +:+ u +:+ "/../" +:+ (u +:+ sfx) +:+ "/" +:+ file) w)
    = ServeFile served /\
  below (Path.join [USERS_ROOT; u]) served = false.
Proof.
  intros Hne Hsegs Hroot Hver Hu Hpu Hpus Hpf Hsfx served.
  assert (Huroot : Path.join [USERS_ROOT; u] = USERS_ROOT +:+ "/" +:+ u).
  { apply (join_root_proper USERS_ROOT segs [u] Hne Hsegs Hroot); [done|].
    by constructor. }
  split.
  2:{ rewrite Huroot. unfold below, served.
      replace (USERS_ROOT +:+ "/" +:+ (u +:+ sfx) +:+ "/" +:+ file)
        with ((USERS_ROOT +:+ "/" +:+ u) +:+ sfx +:+ "/" +:+ file)
        by (by rewrite !sapp_assoc).
      rewrite startsWith_app_both.
      destruct sfx as [|a sfx]; [done|]. rewrite sapp_cons. cbn [Str.startsWith].
      destruct (Ascii.eqb_spec "/"%char a) as [<-|_]; [|done].
      exfalso. destruct Hpus as (_ & _ & _ & Hsplit).
      rewrite split_app in Hsplit. destruct Hpu as (_ & _ & _ & Hsu).
      rewrite Hsu in Hsplit. pose proof (split_nonnil "/"%char sfx).
      by destruct (Str.split "/"%char sfx). }
  assert (Hparts :
    pathParts ("/files/" +:+ u +:+ "/../" +:+ (u +:+ sfx) +:+ "/" +:+ file)
      = ["files"; u; ".."; u +:+ sfx; file]).
  { rewrite <- (pathParts_segments ["files"; u; ".."; u +:+ sfx; file]); [|done|].
    - reflexivity.
    - destruct Hpu as (? & _ & _ & ?), Hpus as (? & _ & _ & ?), Hpf as (? & _ & _ & ?).
      by repeat (constructor; [done|]). }
  unfold filesRoute, runText, filesRouteBody. rewrite Hparts.
  cbn [lookup list_lookup drop].
  unfold bind at 1. unfold requireAuth. rewrite Hver. unfold ret at 1.
  unfold ensureUserOwnsPath. rewrite Hu, String.eqb_refl. cbn [orb negb].
  assert (Hfile :
    Path.join [Path.join [USERS_ROOT; u]; Str.join "/" [".."; u +:+ sfx; file]] = served).
  { assert (Hroot' : Path.join [USERS_ROOT; u] = "/" +:+ Str.join "/" (segs ++ [u])).
    { rewrite Huroot, Hroot, join_app by done. by rewrite !sapp_assoc. }
    rewrite (join_root _ (segs ++ [u]) [".."; u +:+ sfx; file]); try done.
    - rewrite rev_app_distr. cbn [rev app Path.normalizeSegs].
      destruct Hpus as (Hn1 & Hd1 & Hdd1 & _), Hpf as (Hn2 & Hd2 & Hdd2 & _),
               Hpu as (Hn0 & Hd0 & Hdd0 & _).
      cbn [Str.nonEmpty negb orb Path.isDot Path.isDotDot String.eqb Ascii.eqb Bool.eqb].
      unfold Path.isDot, Path.isDotDot in *.
      rewrite Hdd0, Hn1, Hd1, Hdd1, Hn2, Hd2, Hdd2. cbn [negb orb].
      cbn [rev app]. rewrite rev_involutive.
      rewrite <- List.app_assoc. cbn [app].
      rewrite join_app by done. unfold served. rewrite Hroot.
      rewrite join_cons2. cbn [Str.join]. by rewrite !sapp_assoc.
    - by destruct segs.
    - apply Forall_app_intro; [done|by constructor].
    - destruct Hpus as (_ & _ & _ & ?), Hpf as (_ & _ & _ & ?).
      by repeat (constructor; [done|]).
    - apply (endsWithSlash_join [".."; u +:+ sfx] file Hpf). }
  rewrite Hfile, Huroot. unfold served.
  replace (USERS_ROOT +:+ "/" +:+ (u +:+ sfx) +:+ "/" +:+ file)
    with ((USERS_ROOT +:+ "/" +:+ u) +:+ sfx +:+ "/" +:+ file)
    by (by rewrite !sapp_assoc).
  by rewrite startsWith_app.
Qed.

End FileRouteFacts.

(** ** Clearing and measuring *)

Section ClearFacts.

Context {num : Type} `{!JsNumber num} `{!Platform num}.

Lemma userDir_insert t (m : gmap string (UserDir num)) f u d :
  userDir {| w_tick := t; w_users := <[u := d]> m; w_files := f |} u = d.
Proof. unfold userDir. cbn [w_users]. by rewrite lookup_insert_eq. Qed.

Lemma clearGallery_dir u kind (w : World num) :
  let w1 := snd (clearGallery u kind w) in
  clearGallery u kind w = (Ok tt, w1) /\
  ud_usage (userDir w1 u) = ud_usage (userDir w u) /\
  ud_uploads (userDir w1 u) =
    (if String.eqb kind "uploads"
     then Some (removeDirContentsRecursive (default [] (ud_uploads (userDir w u))))
     else ud_uploads (userDir w u)) /\
  ud_generated (userDir w1 u) =
    (if String.eqb kind "generated"
     then Some (removeDirContentsRecursive (default [] (ud_generated (userDir w u))))
     else ud_generated (userDir w u)).
Proof.
  unfold clearGallery, modify. cbn [snd]. split; [done|].
  by rewrite !userDir_insert.
Qed.

(** X19: a clear of [all] by a signed-in user answers 200 with a
    usage of zero, stores that usage, and leaves no regular file in
    either gallery; whatever the case of the letters of [all]. *)
Theorem images_clear_all secret token now body (w : World num) auth u :
  verifyToken secret token now = Ok (Some auth) ->
  prop auth "u" = Some (JStr u) ->
  body <> JNull ->
  Str.toLowerCase (toStringOpt (orElse (prop body "kind") (Some (JStr EmptyString))))
    = "all" ->
  let zero := {| uploadsBytes := 0; generatedBytes := 0 |} in
  let w' := snd (imagesClear secret token now body w) in
  fst (imagesClear secret token now body w)
    = SendJson 200 (JObj [("ok", JBool true); ("usage", usageJson zero)]) /\
  ud_usage (userDir w' u) = Some zero /\
  diskUsage w' u = 0 /\
  fileCount (DDir (default [] (ud_uploads (userDir w' u)))) = 0%nat /\
  fileCount (DDir (default [] (ud_generated (userDir w' u)))) = 0%nat.
Proof.
  intros Hver Hu Hbody Hkind zero w'.
  assert (Hrun : imagesClearBody secret token now body w =
    (let* _ := forEach (clearGallery u) ["uploads"; "generated"] in
     let* usage := recomputeUsage u in
     ret (SendJson 200 (JObj [("ok", JBool true); ("usage", usageJson usage)])))%js w).
  { unfold imagesClearBody. unfold bind at 1. unfold requireAuth. rewrite Hver.
    unfold ret at 1. rewrite Hkind. cbn [String.eqb Ascii.eqb Bool.eqb forallb
      isGalleryKind orb andb negb].
    destruct body; try done; unfold bind at 1, authUser; by rewrite Hu. }
  set (w1 := snd (clearGallery u "uploads" w)).
  set (w2 := snd (clearGallery u "generated" w1)).
  destruct (clearGallery_dir u "uploads" w) as (_ & _ & Hup1 & Hgen1).
  destruct (clearGallery_dir u "generated" w1) as (_ & _ & Hup2 & Hgen2).
  fold w1 in Hup1, Hgen1. fold w2 in Hup2, Hgen2.
  cbn [String.eqb Ascii.eqb Bool.eqb] in Hup1, Hgen1, Hup2, Hgen2.
  rewrite Hup1 in Hup2.
  destruct (removeContents_empty (default [] (ud_uploads (userDir w u)))) as [Hu0 Hu1].
  destruct (removeContents_empty (default [] (ud_generated (userDir w1 u)))) as [Hg0 Hg1].
  destruct (recomputeUsage_spec w2 u) as (Hrec & Hus & _).
  rewrite Hup2, Hgen2, Hu0, Hg0 in Hrec, Hus.
  assert (Hall : imagesClear secret token now body w =
            (SendJson 200 (JObj [("ok", JBool true); ("usage", usageJson zero)]),
             recomputed w2 u)).
  { unfold imagesClear, runApi. rewrite Hrun.
    unfold bind at 1.
    change (forEach (clearGallery u) ["uploads"; "generated"] w) with (Ok tt, w2).
    cbv iota beta. unfold bind at 1. rewrite Hrec. reflexivity. }
  subst w'. rewrite Hall. cbn [fst snd].
  split; [done|]. split; [exact Hus|].
  assert (Hdirs : ud_uploads (userDir (recomputed w2 u) u) = ud_uploads (userDir w2 u) /\
                  ud_generated (userDir (recomputed w2 u) u) = ud_generated (userDir w2 u)).
  { unfold recomputed, recomputeUsage, bind, gets, writeUsage, modify, ret. cbn [snd].
    by rewrite userDir_set_eq. }
  destruct Hdirs as [Hd1 Hd2].
  unfold diskUsage. rewrite Hd1, Hd2, Hup2, Hgen2, Hu0, Hg0.
  cbn [default]. done.
Qed.

Lemma requireAuth_ok secret token now (w : World num) auth :
  verifyToken secret token now = Ok (Some auth) ->
  requireAuth secret token now w = (Ok (Some auth), w).
Proof. intros Hver. unfold requireAuth. by rewrite Hver. Qed.

Lemma getQuotaBytes_run (w : World num) u :
  exists q, getQuotaBytes u w = (Ok q, w).
Proof.
  unfold getQuotaBytes, bind, gets, ret.
  repeat case_match; by eexists.
Qed.

(** The usage route, step by step. *)
Lemma storageUsage_run secret token now (w : World num) auth u :
  verifyToken secret token now = Ok (Some auth) ->
  prop auth "u" = Some (JStr u) ->
  let heal :=
    (cachedUsage w u =? 0)
    && ((0 <? statDirBytes (ud_uploads (userDir w u)))
        || (0 <? statDirBytes (ud_generated (userDir w u)))) in
  let usage :=
    if heal
    then {| uploadsBytes := statDirBytesRecursive (ud_uploads (userDir w u));
            generatedBytes := statDirBytesRecursive (ud_generated (userDir w u)) |}
    else usageOf w u in
  exists quota,
    storageUsage secret token now w
      = (SendJson 200
           (JObj [("quotaBytes", quota);
                  ("usedBytes", JNum (num_of_Z (uploadsBytes usage + generatedBytes usage)));
                  ("uploadsBytes", JNum (num_of_Z (uploadsBytes usage)));
                  ("generatedBytes", JNum (num_of_Z (generatedBytes usage)))]),
         if heal then recomputed w u else w).
Proof.
  intros Hver Hu heal usage.
  unfold storageUsage, runApi, storageUsageBody.
  rewrite (bind_ok _ _ _ _ _ (requireAuth_ok _ _ _ w _ Hver)).
  unfold bind at 1, authUser. rewrite Hu. unfold ret at 1.
  destruct (getQuotaBytes_run w u) as [q Hq].
  rewrite (bind_ok _ _ _ _ _ Hq).
  destruct (readUsage_total w u) as (us & Hread & Hus).
  rewrite (bind_ok _ _ _ _ _ Hread).
  assert (Hus' : us = usageOf w u).
  { unfold readUsage, gets, usageOf in *. by injection Hread as <-. }
  subst usage heal. rewrite <- Hus.
  destruct (uploadsBytes us + generatedBytes us =? 0) eqn:Hzero; cbn [andb].
  - unfold bind at 1. unfold bind at 1. unfold gets at 1.
    destruct ((0 <? statDirBytes (ud_uploads (userDir w u)))
              || (0 <? statDirBytes (ud_generated (userDir w u)))) eqn:Hany.
    + destruct (recomputeUsage_spec w u) as (Hrec & _ & _).
      rewrite Hrec. cbv zeta. unfold ret. by eexists.
    + unfold ret. rewrite <- Hus'. by eexists.
  - unfold bind at 1. unfold ret. rewrite <- Hus'. by eexists.
Qed.

(** X20: the usage route reports the stored usage as long as its
    total is not zero; when the total is zero, a missing record
    included, and a gallery holds a non-empty file at its top level, it
    measures the disk, stores the result and reports that; so it reports
    zero bytes only when no gallery holds a non-empty file at its top
    level. *)
Theorem storage_usage_report secret token now (w : World num) auth u :
  verifyToken secret token now = Ok (Some auth) ->
  prop auth "u" = Some (JStr u) ->
  let flat :=
    statDirBytes (ud_uploads (userDir w u)) + statDirBytes (ud_generated (userDir w u)) in
  let w' := snd (storageUsage secret token now w) in
  exists quota usage,
    fst (storageUsage secret token now w)
      = SendJson 200
          (JObj [("quotaBytes", quota);
                 ("usedBytes", JNum (num_of_Z (uploadsBytes usage + generatedBytes usage)));
                 ("uploadsBytes", JNum (num_of_Z (uploadsBytes usage)));
                 ("generatedBytes", JNum (num_of_Z (generatedBytes usage)))]) /\
    (cachedUsage w u <> 0 -> usage = usageOf w u /\ w' = w) /\
    (cachedUsage w u = 0 -> 0 < flat ->
     uploadsBytes usage + generatedBytes usage = diskUsage w u /\
     cachedUsage w' u = diskUsage w u) /\
    (uploadsBytes usage + generatedBytes usage = 0 -> flat = 0).
Proof.
  intros Hver Hu flat w'.
  pose proof (statDirBytes_le (ud_uploads (userDir w u))) as Hup.
  pose proof (statDirBytes_le (ud_generated (userDir w u))) as Hgen.
  destruct (storageUsage_run secret token now w auth u Hver Hu) as [quota Hrun].
  cbv zeta in Hrun. subst w'. rewrite Hrun. cbn [fst snd]. clear Hrun.
  eexists quota, _. split; [reflexivity|].
  assert (Hcached : cachedUsage w u
                    = uploadsBytes (usageOf w u) + generatedBytes (usageOf w u)).
  { unfold cachedUsage, usageOf. by destruct (ud_usage (userDir w u)). }
  destruct (Z.eqb_spec (cachedUsage w u) 0) as [Hz|Hnz]; cbn [andb].
  - destruct (Z.ltb_spec 0 (statDirBytes (ud_uploads (userDir w u)))) as [Ha|Ha];
      destruct (Z.ltb_spec 0 (statDirBytes (ud_generated (userDir w u)))) as [Hb|Hb];
      cbn [orb uploadsBytes generatedBytes].
    4:{ split; [done|]. split; [intros _ Hflat; unfold flat in *; lia|].
        intros _. unfold flat. lia. }
    all: split; [done|]; split;
      [intros _ _; split; [done|]; by destruct (recomputeUsage_spec w u) as (_ & _ & ->)|].
    all: intros Hsum; unfold flat; lia.
  - split; [done|]. split; [done|]. intros Hsum. lia.
Qed.

End ClearFacts.

(** ** Remote images and copies *)

Section CopyFacts.

Context {num : Type} `{!JsNumber num} `{!Platform num}.

Variable c : FavCtx.

(** X21: a remote image is fetched and stored once in a save: the
    first occurrence of its URL writes the downloaded bytes to one file
    of the favorite's directory, and every later occurrence gets the URI
    of that file without another write. *)
Theorem remote_url_stored_once url (s : MatState num) buf contentType :
  ms_remoteUrlMap s !! url = None ->
  isHttpUrl url = true ->
  fetchUrlBuffer 3 MAX_DOWNLOAD_BYTES url = Ok (buf, contentType) ->
  Str.startsWith (contentMime contentType) "image/" = true ->
  exists fileName s1,
    materializeRemoteUrl c url s = (Ok (favFileUri c fileName), s1) /\
    w_files (ms_world s1) = (Path.join [fc_dir c; fileName], buf) :: w_files (ms_world s) /\
    forall s2 : MatState num,
      ms_remoteUrlMap s1 ⊆ ms_remoteUrlMap s2 ->
      materializeRemoteUrl c url s2 = (Ok (favFileUri c fileName), s2).
Proof.
  intros Hnew Hhttp Hfetch Himg.
  rewrite materializeRemoteUrl_run, Hnew, Hhttp, Hfetch. cbn [negb]. cbv zeta.
  rewrite Himg. cbn [negb].
  eexists _, _. split; [reflexivity|]. split; [reflexivity|].
  intros s2 Hsub. rewrite materializeRemoteUrl_run.
  cbn [ms_remoteUrlMap] in Hsub.
  by rewrite (lookup_weaken _ _ _ _ (lookup_insert_eq _ _ _) Hsub).
Qed.

Lemma join3 root u rel :
  Str.nonEmpty root = true -> Str.nonEmpty u = true -> Str.nonEmpty rel = true ->
  Path.join [root; u; rel] = Path.join [root; u +:+ "/" +:+ rel].
Proof.
  intros Hr Hu Hrel. unfold Path.join. cbn [List.filter].
  rewrite Hr, Hu, Hrel.
  assert (Hurel : Str.nonEmpty (u +:+ "/" +:+ rel) = true) by (by destruct u).
  rewrite Hurel. reflexivity.
Qed.

(** X22: [snapshotFileUri] resolves the reference below the user's
    directory and copies what it finds, without a test that the path
    stays there: a reference that goes up from the user's directory into
    another directory under the users' root makes a copy of that file in
    the favorite's directory, under a URI of the user. *)
Theorem snapshot_copies_outside segs (s : MatState num) v file buf :
  segs <> [] -> Forall Path.properSeg segs ->
  USERS_ROOT = "/" +:+ Str.join "/" segs ->
  Path.properSeg (fc_user c) -> Path.properSeg v -> Path.properSeg file ->
  let rel := "../" +:+ v +:+ "/" +:+ file in
  decodeURIComponent rel = Some rel ->
  readFile (USERS_ROOT +:+ "/" +:+ v +:+ "/" +:+ file) (w_files (ms_world s)) = Some buf ->
  exists fileName s1,
    snapshotFileUri c (userPrefix c +:+ rel) s = (Ok (favFileUri c fileName), s1) /\
    w_files (ms_world s1) = (Path.join [fc_dir c; fileName], buf) :: w_files (ms_world s).
Proof.
  intros Hne Hsegs Hroot Hpu Hpv Hpf rel Hdec Hread.
  rewrite snapshotFileUri_run by apply startsWith_app.
  rewrite dropPrefix_app, Hdec. cbv zeta.
  assert (Hsrc : Path.join [USERS_ROOT; fc_user c; rel]
                 = USERS_ROOT +:+ "/" +:+ v +:+ "/" +:+ file).
  { rewrite join3; [|by rewrite Hroot|by destruct Hpu|done].
    change (fc_user c +:+ "/" +:+ rel)
      with (Str.join "/" [fc_user c; ".."; v; file]).
    rewrite (join_root USERS_ROOT segs [fc_user c; ".."; v; file] Hne Hsegs Hroot).
    - destruct Hpu as (Hn0 & Hd0 & Hdd0 & _), Hpv as (Hn1 & Hd1 & Hdd1 & _),
               Hpf as (Hn2 & Hd2 & Hdd2 & _).
      cbn [Path.normalizeSegs]. unfold Path.isDot, Path.isDotDot in *.
      rewrite ?Hn0, ?Hd0, ?Hdd0, ?Hn1, ?Hd1, ?Hdd1, ?Hn2, ?Hd2, ?Hdd2.
      cbn [negb orb String.eqb Ascii.eqb Bool.eqb Str.nonEmpty].
      rewrite ?Hn0, ?Hd0, ?Hdd0, ?Hn1, ?Hd1, ?Hdd1, ?Hn2, ?Hd2, ?Hdd2.
      cbn [negb orb].
      cbn [rev app]. rewrite rev_involutive.
      rewrite <- List.app_assoc. cbn [app].
      rewrite join_app by done. rewrite Hroot.
      cbn [Str.join]. by rewrite !sapp_assoc.
    - done.
    - destruct Hpu as (_ & _ & _ & ?), Hpv as (_ & _ & _ & ?), Hpf as (_ & _ & _ & ?).
      by repeat (constructor; [done|]).
    - destruct Hpu as (? & _). by destruct (fc_user c).
    - apply (endsWithSlash_join [fc_user c; ".."; v] file Hpf). }
  rewrite Hsrc, Hread. eexists _, _. split; reflexivity.
Qed.

End CopyFacts.

(** ** The quota of an admin, and usage there and back *)

Section QuotaMore.

Context {num : Type} `{!JsNumber num}.

(** X23: for an admin the quota check always passes, whatever is
    stored and whatever comes in, and it neither reads nor rewrites the
    usage record. *)
Theorem admin_has_no_quota (w : World num) u kind n :
  ud_isAdmin (userDir w u) = true ->
  getQuotaBytes u w = (Ok None, w) /\
  assertGalleryHasSpace u kind n w = (Ok tt, w).
Proof.
  intros Hadm. split; [by apply getQuotaBytes_admin|].
  unfold assertGalleryHasSpace. destruct (negb (isGalleryKind kind)); [done|].
  unfold bind. by rewrite (getQuotaBytes_admin _ _ Hadm).
Qed.

(** X24: on a usage record that is not negative, and as long as the
    counter of the gallery with the bytes added stays within [2^53],
    where the sums of the code are exact, [changeUsage] by minus the
    bytes that [addUsage] has just added gives the record back: what is
    counted when a file is saved is taken off when it is deleted. *)
Theorem usage_add_then_remove (w : World num) u kind b :
  isGalleryKind kind = true ->
  0 <= b ->
  usageNonneg (usageOf w u) ->
  kindBytes (usageOf w u) kind + b <= EXACT_BYTES ->
  let w1 := snd (addUsage u kind (Fin b) w) in
  let w2 := snd (changeUsage u kind (Fin (- b)) w1) in
  usageOf w1 u =
    {| uploadsBytes := uploadsBytes (usageOf w u) + (if String.eqb kind "uploads" then b else 0);
       generatedBytes :=
         generatedBytes (usageOf w u) + (if String.eqb kind "generated" then b else 0) |} /\
  kindBytes (usageOf w1 u) kind <= EXACT_BYTES /\
  usageOf w2 u = usageOf w u.
Proof.
  intros Hkind Hb [Hup Hgen] Hexact w1 w2. subst w1 w2.
  rewrite (addUsage_stores _ _ _ _ Hkind).
  rewrite (changeUsage_stores _ _ _ _ Hkind).
  rewrite !usageOf_writeUsage. cbn [clampBytes finiteOrZero uploadsBytes generatedBytes].
  rewrite Z.max_r by done. split; [done|].
  unfold kindBytes in *. unfold isGalleryKind in Hkind.
  destruct (usageOf w u) as [up gen]. cbn [uploadsBytes generatedBytes] in *.
  split.
  - destruct (String.eqb_spec kind "uploads") as [->|Hne]; [cbn; lia|].
    cbn [orb] in Hkind. rewrite Hkind. cbn [uploadsBytes generatedBytes]. lia.
  - f_equal; repeat case_match; lia.
Qed.

End QuotaMore.

(** ** Directories as trees *)

Section TreeFacts.

Lemma entryOf_setEntry name e entries : entryOf name (setEntry name e entries) = Some e.
Proof.
  induction entries as [|[n e'] entries IH]; cbn [setEntry entryOf].
  - by rewrite String.eqb_refl.
  - destruct (String.eqb n name) eqn:Hn; cbn [entryOf]; by rewrite Hn.
Qed.

Lemma entryOf_setEntry_ne name other e entries :
  other <> name -> entryOf other (setEntry name e entries) = entryOf other entries.
Proof.
  intros Hne. induction entries as [|[n e'] entries IH]; cbn [setEntry entryOf].
  - destruct (String.eqb_spec name other); [congruence|done].
  - destruct (String.eqb_spec n name) as [->|Hn]; cbn [entryOf].
    + destruct (String.eqb_spec name other); [congruence|done].
    + by rewrite IH.
Qed.

Lemma setEntry_same name e entries :
  entryOf name entries = Some e -> setEntry name e entries = entries.
Proof.
  induction entries as [|[n e'] entries IH]; cbn [setEntry entryOf]; [done|].
  destruct (String.eqb n name); [by intros [= ->]|]. intros H. by rewrite IH.
Qed.

Lemma entryOf_removeEntry_ne name other entries :
  other <> name -> entryOf other (removeEntry name entries) = entryOf other entries.
Proof.
  intros Hne. induction entries as [|[n e'] entries IH]; cbn [removeEntry entryOf]; [done|].
  destruct (String.eqb_spec n name) as [->|Hn]; cbn [entryOf].
  - destruct (String.eqb_spec name other); [congruence|done].
  - by rewrite IH.
Qed.

Lemma entryOf_None name entries :
  entryOf name entries = None <-> ~ In name (List.map fst entries).
Proof.
  induction entries as [|[n e'] entries IH]; cbn [entryOf List.map fst In]; [tauto|].
  destruct (String.eqb_spec n name) as [->|Hn]; [split; [done|tauto]|].
  rewrite IH. tauto.
Qed.

Lemma entryOf_removeEntry name entries :
  NoDup (List.map fst entries) -> entryOf name (removeEntry name entries) = None.
Proof.
  induction entries as [|[n e'] entries IH]; cbn [removeEntry entryOf List.map fst]; [done|].
  intros [Hn Hnd]%NoDup_cons.
  destruct (String.eqb_spec n name) as [->|Hne]; cbn [entryOf].
  - apply entryOf_None. by rewrite <- list_elem_of_In.
  - destruct (String.eqb_spec n name); [done|]. by apply IH.
Qed.

Lemma bytes_cons n e entries :
  entryBytes (DDir ((n, e) :: entries)) = entryBytes e + entryBytes (DDir entries).
Proof. reflexivity. Qed.

Lemma bytes_setEntry name e entries :
  entryBytes (DDir (setEntry name e entries))
    = entryBytes (DDir entries) - bytesAt name entries + entryBytes e.
Proof.
  unfold bytesAt.
  induction entries as [|[n e'] entries IH]; cbn [setEntry entryOf].
  - rewrite bytes_cons. lia.
  - destruct (String.eqb n name); rewrite !bytes_cons; [lia|]. rewrite IH. lia.
Qed.

Lemma bytes_removeEntry name entries :
  entryBytes (DDir (removeEntry name entries))
    = entryBytes (DDir entries) - bytesAt name entries.
Proof.
  unfold bytesAt.
  induction entries as [|[n e'] entries IH]; cbn [removeEntry entryOf]; [done|].
  destruct (String.eqb n name); rewrite !bytes_cons; [lia|]. rewrite IH. lia.
Qed.






Lemma readFile_without p (files : list (string * list Z)) :
  readFile p (List.filter (fun pf => negb (String.eqb (fst pf) p)) files) = None.
Proof.
  induction files as [|[q bs] files IH]; [done|]. cbn [List.filter fst].
  destruct (String.eqb_spec q p) as [->|Hne]; cbn [negb]; [done|].
  cbn [readFile]. destruct (String.eqb_spec p q); [congruence|done].
Qed.

Lemma readFile_filter_None p f (files : list (string * list Z)) :
  readFile p files = None -> readFile p (List.filter f files) = None.
Proof.
  induction files as [|[q bs] files IH]; [done|]. cbn [readFile List.filter].
  destruct (String.eqb p q) eqn:Hpq; [done|]. intros H.
  destruct (f (q, bs)); [|by apply IH]. cbn [readFile]. rewrite Hpq. by apply IH.
Qed.

Lemma unlink_file segs : forall E n,
  statAt segs (DDir E) = FsOk (DFile n) ->
  exists E', unlinkAt segs E = FsOk E' /\
             entryBytes (DDir E') = entryBytes (DDir E) - Z.of_N n.
Proof.
  induction segs as [|name rest IH]; intros E n Hstat; [done|].
  cbn [statAt] in Hstat.
  destruct (entryOf name E) as [e|] eqn:He; [|done].
  destruct rest as [|next rest].
  - cbn [statAt] in Hstat. injection Hstat as ->. cbn [unlinkAt]. rewrite He.
    eexists. split; [reflexivity|].
    rewrite bytes_removeEntry. unfold bytesAt. by rewrite He.
  - destruct e as [size|sub|]; [done| |done].
    destruct (IH sub n Hstat) as (sub' & Hsub & Hbytes).
    change (unlinkAt (name :: next :: rest) E)
      with (match entryOf name E with
            | Some (DDir sub) =>
                match unlinkAt (next :: rest) sub with
                | FsOk sub' => FsOk (setEntry name (DDir sub') E)
                | FsErr e => FsErr e
                end
            | Some _ => FsErr ENOTDIR
            | None => FsErr ENOENT
            end).
    rewrite He, Hsub. eexists. split; [reflexivity|].
    rewrite bytes_setEntry. unfold bytesAt. rewrite He. lia.
Qed.

Lemma unlink_missing segs : forall E,
  statAt segs (DDir E) = FsErr ENOENT -> unlinkAt segs E = FsErr ENOENT.
Proof.
  induction segs as [|name rest IH]; intros E Hstat; [done|].
  cbn [statAt] in Hstat.
  destruct rest as [|next rest].
  - cbn [unlinkAt]. by destruct (entryOf name E).
  - change (unlinkAt (name :: next :: rest) E)
      with (match entryOf name E with
            | Some (DDir sub) =>
                match unlinkAt (next :: rest) sub with
                | FsOk sub' => FsOk (setEntry name (DDir sub') E)
                | FsErr e => FsErr e
                end
            | Some _ => FsErr ENOTDIR
            | None => FsErr ENOENT
            end).
    destruct (entryOf name E) as [[size|sub|]|]; [done| |done|done].
    by rewrite (IH sub Hstat).
Qed.

End TreeFacts.

(** ** [path.dirname] and [path.basename] *)

Section NodePathFacts.

Local Abbreviation noSlash := (fun a => negb (Ascii.eqb a "/"%char)).

Lemma nonEmpty_rev s : Str.nonEmpty (Text.rev s) = Str.nonEmpty s.
Proof. destruct s as [|a s]; [done|]. rewrite rev_cons. by destruct (Text.rev s). Qed.

(** [path.dirname] of a file in a directory that is not the root. *)
Lemma dirname_file c0 rest f :
  Str.nonEmpty rest = true -> Str.nonEmpty f = true ->
  Base64.allChars noSlash f = true ->
  NodePath.dirname (String c0 rest +:+ "/" +:+ f) = String c0 rest.
Proof.
  intros Hrest Hf Hslash. rewrite sapp_cons. unfold NodePath.dirname.
  change (rest +:+ "/" +:+ f) with (rest +:+ String "/"%char f).
  rewrite rev_app, rev_cons, sapp_assoc.
  change (Text.rev f +:+ "/" +:+ Text.rev rest)
    with (Text.rev f +:+ String "/"%char (Text.rev rest)).
  assert (Htrim : forall t,
            Text.trimStartBy (fun a => Ascii.eqb a "/"%char) (Text.rev f +:+ t)
              = Text.rev f +:+ t).
  { intros t. rewrite <- (nonEmpty_rev f) in Hf.
    pose proof Hslash as Hs. rewrite <- allChars_rev in Hs.
    destruct (Text.rev f) as [|a r]; [done|].
    rewrite sapp_cons. cbn [Base64.allChars Text.trimStartBy] in *.
    apply andb_prop in Hs as [Ha _]. apply negb_true_iff in Ha. by rewrite Ha. }
  rewrite Htrim, cut_app by (by rewrite allChars_rev).
  rewrite nonEmpty_rev, Hrest, andb_false_r. by rewrite rev_rev.
Qed.

Lemma length_sapp s t : String.length (s +:+ t) = (String.length s + String.length t)%nat.
Proof. induction s as [|a s IH]; [done|]. rewrite sapp_cons. cbn. by rewrite IH. Qed.

Lemma takeChars_app s t : NodePath.takeChars (String.length s) (s +:+ t) = s.
Proof. induction s as [|a s IH]; [by destruct t|]. rewrite sapp_cons. cbn. by rewrite IH. Qed.

Lemma endsWith_app s t : Text.endsWith (s +:+ t) t = true.
Proof. unfold Text.endsWith. rewrite rev_app. apply startsWith_app. Qed.

Lemma lastSegment_file dir f :
  Str.nonEmpty f = true -> Base64.allChars noSlash f = true ->
  Path.lastSegment (List.filter Str.nonEmpty (Str.split "/"%char (dir +:+ "/" +:+ f))) = f.
Proof.
  intros Hf Hslash.
  change (dir +:+ "/" +:+ f) with (dir +:+ String "/"%char f).
  rewrite split_app, (split_other "/"%char f) by done.
  rewrite List.filter_app. cbn [List.filter]. rewrite Hf. apply lastSegment_snoc.
Qed.

(** [path.basename(p, ext)] of a path whose last segment is
    [stem ++ ext]. *)
Lemma basename_file dir stem ext :
  Str.nonEmpty stem = true ->
  Base64.allChars noSlash (stem +:+ ext) = true ->
  NodePath.basename (dir +:+ "/" +:+ stem +:+ ext) ext = stem.
Proof.
  intros Hstem Hslash. unfold NodePath.basename.
  rewrite lastSegment_file by (try done; by destruct stem).
  assert (Hne : String.eqb (stem +:+ ext) ext = false).
  { apply String.eqb_neq. intros Heq. apply (f_equal String.length) in Heq.
    rewrite length_sapp in Heq. destruct stem; [done|]. cbn in Heq. lia. }
  assert (Hnp : String.eqb ext (dir +:+ "/" +:+ stem +:+ ext) = false).
  { apply String.eqb_neq. intros Heq. apply (f_equal String.length) in Heq.
    rewrite !length_sapp in Heq. cbn in Heq. lia. }
  rewrite endsWith_app, Hne, Hnp. cbn [negb andb].
  replace (String.length (stem +:+ ext) - String.length ext)%nat
    with (String.length stem) by (rewrite length_sapp; lia).
  rewrite takeChars_app.
  destruct (Str.nonEmpty ext) eqn:Hext; [|destruct ext; [by rewrite sapp_nil_r|done]].
  replace (String.length ext <=? String.length (dir +:+ "/" +:+ stem +:+ ext))%nat
    with true; [done|].
  symmetry. apply Nat.leb_le. rewrite !length_sapp. lia.
Qed.

End NodePathFacts.

(** ** The paths of a gallery *)

Section GalleryPaths.

Context {num : Type} `{!JsNumber num} `{!Platform num}.

Variable segs : list string.
Hypothesis Hsegs_ne : segs <> [].
Hypothesis Hsegs : Forall Path.properSeg segs.
Hypothesis Hroot : USERS_ROOT = "/" +:+ Str.join "/" segs.

Local Abbreviation noSlash := (fun a => negb (Ascii.eqb a "/"%char)).

(** The path of the segments [l] below [USERS_ROOT]. *)
Local Abbreviation under l := (USERS_ROOT +:+ "/" +:+ Str.join "/" l).

Lemma proper_nonEmpty l : Forall Path.properSeg l -> List.filter Str.nonEmpty l = l.
Proof.
  intros Hl. apply filter_all. intros s Hs.
  rewrite List.Forall_forall in Hl. by destruct (Hl s Hs).
Qed.

Lemma root_nonEmpty : Str.nonEmpty USERS_ROOT = true.
Proof. by rewrite Hroot. Qed.

Lemma join_under l :
  l <> [] -> Forall Path.properSeg l -> Path.join (USERS_ROOT :: l) = under l.
Proof.
  intros Hne Hl.
  rewrite <- (join_root_proper USERS_ROOT segs l Hsegs_ne Hsegs Hroot Hne Hl).
  unfold Path.join. cbn [List.filter].
  rewrite root_nonEmpty, (proper_nonEmpty l Hl), (properSeg_nonEmpty_join l Hne Hl).
  destruct l as [|x l]; [done|]. reflexivity.
Qed.

Lemma under_snoc l f : l <> [] -> under (l ++ [f]) = under l +:+ "/" +:+ f.
Proof. intros Hne. rewrite join_app by done. by rewrite !sapp_assoc. Qed.

Lemma under_nonEmpty l : Str.nonEmpty (under l) = true.
Proof. by rewrite Hroot. Qed.

Lemma join_below l extra :
  l <> [] -> extra <> [] -> Forall Path.properSeg l -> Forall Path.properSeg extra ->
  Path.join (under l :: extra) = under (l ++ extra).
Proof.
  intros Hl Hex Hpl Hpe.
  rewrite <- (join_under (l ++ extra)); [|by destruct l|by apply Forall_app].
  unfold Path.join. cbn [List.filter].
  rewrite root_nonEmpty, under_nonEmpty.
  rewrite (proper_nonEmpty extra Hpe).
  rewrite (proper_nonEmpty (l ++ extra)) by (by apply Forall_app).
  f_equal. destruct extra as [|x extra]; [done|].
  rewrite join_cons2.
  destruct l as [|y l]; [done|].
  change ((y :: l) ++ x :: extra)%list with (y :: (l ++ x :: extra))%list.
  destruct (l ++ x :: extra)%list as [|z t] eqn:Hl'; [by destruct l|].
  rewrite join_cons2. rewrite <- Hl'.
  change (y :: l ++ x :: extra)%list with ((y :: l) ++ x :: extra)%list.
  rewrite (join_app "/" (y :: l) (x :: extra)) by done.
  by rewrite !sapp_assoc.
Qed.

Lemma dirname_under l f :
  l <> [] -> Str.nonEmpty f = true -> Base64.allChars noSlash f = true ->
  NodePath.dirname (under (l ++ [f])) = under l.
Proof.
  intros Hl Hf Hslash. rewrite under_snoc by done.
  rewrite Hroot.
  change (("/" +:+ Str.join "/" segs) +:+ "/" +:+ Str.join "/" l)
    with (String "/"%char (Str.join "/" segs +:+ "/" +:+ Str.join "/" l)).
  apply dirname_file; [|done..].
  pose proof (properSeg_nonEmpty_join segs Hsegs_ne Hsegs) as Hne.
  by destruct (Str.join "/" segs).
Qed.

Lemma locate_gallery u kind rest :
  Forall (fun s => Str.split "/"%char s = [s] /\ Str.nonEmpty s = true) (u :: kind :: rest) ->
  isGalleryKind kind = true ->
  locate (under (u :: kind :: rest)) = InGallery u kind rest.
Proof.
  intros Hall Hkind. unfold locate.
  rewrite <- sapp_assoc, startsWith_app, dropPrefix_app.
  rewrite split_join; [|done|by eapply Forall_impl; [exact Hall|intros ? []]].
  rewrite filter_all.
  - by rewrite Hkind.
  - intros s Hs. rewrite List.Forall_forall in Hall. by destruct (Hall s Hs).
Qed.

Lemma name_noSlash s :
  Base64.allChars usernameChar s = true -> Base64.allChars noSlash s = true.
Proof. apply allChars_impl. intros a Ha. by apply usernameChar_cases. Qed.

Lemma name_noDot s :
  Base64.allChars usernameChar s = true ->
  Base64.allChars (fun a => negb (Ascii.eqb a "."%char)) s = true.
Proof.
  apply allChars_impl. intros a Ha.
  destruct (usernameChar_cases a Ha) as (_ & _ & _ & _ & Hdot).
  by destruct (Ascii.eqb_spec a "."%char).
Qed.


(** A file name [stem.ext] of letters, digits, [_] and [-]. *)
Lemma dotted_noSlash stem e :
  Base64.allChars usernameChar stem = true -> Base64.allChars usernameChar e = true ->
  Base64.allChars noSlash (stem +:+ "." +:+ e) = true.
Proof.
  intros Hs He. by rewrite !allChars_app, (name_noSlash _ Hs), (name_noSlash _ He).
Qed.


Lemma dotted_properSeg stem e :
  Base64.allChars usernameChar stem = true -> Str.nonEmpty stem = true ->
  Base64.allChars usernameChar e = true -> Str.nonEmpty e = true ->
  Path.properSeg (stem +:+ "." +:+ e).
Proof.
  intros Hs Hsne He Hene. unfold Path.properSeg, Path.isDot, Path.isDotDot.
  assert (Hlen : (3 <= String.length (stem +:+ "." +:+ e))%nat).
  { rewrite !length_sapp. destruct stem; [done|]. destruct e; [done|]. cbn. lia. }
  split; [by destruct stem|]. split; [|split].
  - apply String.eqb_neq. intros Heq. rewrite Heq in Hlen. cbn in Hlen. lia.
  - apply String.eqb_neq. intros Heq. rewrite Heq in Hlen. cbn in Hlen. lia.
  - apply split_other. by apply dotted_noSlash.
Qed.

Lemma kind_properSeg kind : isGalleryKind kind = true -> Path.properSeg kind.
Proof.
  unfold isGalleryKind. intros [->%String.eqb_eq | ->%String.eqb_eq]%orb_prop; repeat split.
Qed.

Lemma properSeg_plain s :
  Path.properSeg s -> Str.split "/"%char s = [s] /\ Str.nonEmpty s = true.
Proof. by intros (? & _ & _ & ?). Qed.

(** The thumbnail of an image of a gallery lies in its [thumbs]
    directory, under the name of the image with the extension [webp]. *)
Lemma thumbPath_under l stem e :
  l <> [] -> Forall Path.properSeg l ->
  Base64.allChars usernameChar stem = true -> Str.nonEmpty stem = true ->
  Base64.allChars usernameChar e = true -> Str.nonEmpty e = true ->
  getThumbPathForImagePath (under (l ++ [stem +:+ "." +:+ e]))
    = under (l ++ ["thumbs"; stem +:+ ".webp"]).
Proof.
  intros Hl Hpl Hs Hsne He Hene. unfold getThumbPathForImagePath.
  rewrite dirname_under; [|done|by destruct stem|by apply dotted_noSlash].
  rewrite under_snoc by done.
  rewrite (extname_file (under l) stem e Hsne (name_noSlash _ Hs) (name_noSlash _ He)
             (name_noDot _ He) Hene).
  rewrite (basename_file (under l) stem ("." +:+ e) Hsne (dotted_noSlash _ _ Hs He)).
  apply join_below; [done|done|done|].
  constructor; [repeat split|]. constructor; [|constructor].
  by apply (dotted_properSeg stem "webp").
Qed.

End GalleryPaths.

(** ** The steps of a save and of a delete *)

Section DiskSteps.

Context {num : Type} `{!JsNumber num} `{!Platform num}.

Lemma galleryOf_put u kind E (w : World num) :
  galleryOf (userDir (putGallery u kind E w) u) kind = Some E.
Proof.
  unfold putGallery, galleryOf. rewrite userDir_set_eq. cbn.
  by destruct (String.eqb kind "uploads").
Qed.

Lemma usageOf_put u kind E (w : World num) u' :
  usageOf (putGallery u kind E w) u' = usageOf w u'.
Proof.
  unfold putGallery, usageOf. destruct (decide (u = u')) as [->|Hne].
  - by rewrite userDir_set_eq.
  - by rewrite userDir_set_ne.
Qed.

Lemma galleryOf_writeUsage u us (w : World num) kind :
  galleryOf (userDir (snd (writeUsage u us w)) u) kind = galleryOf (userDir w u) kind.
Proof. unfold writeUsage, modify, galleryOf. cbn. by rewrite userDir_set_eq. Qed.


Lemma kindBytes_change u kind d (w : World num) :
  isGalleryKind kind = true ->
  exists w', changeUsage u kind d w = (Ok tt, w') /\
    galleryOf (userDir w' u) kind = galleryOf (userDir w u) kind /\
    kindBytes (usageOf w' u) kind
      = Z.max 0 (kindBytes (usageOf w u) kind + finiteOrZero d) /\
    w_files w' = w_files w.
Proof.
  intros Hkind. rewrite (changeUsage_stores w u kind d Hkind).
  match goal with |- context [writeUsage u ?us w] =>
    exists (snd (writeUsage u us w)) end.
  split; [reflexivity|]. split; [apply galleryOf_writeUsage|].
  split; [|done].
  rewrite usageOf_writeUsage. unfold kindBytes. cbn.
  unfold isGalleryKind in Hkind.
  destruct (String.eqb kind "uploads"); [done|]. cbn in Hkind. by rewrite Hkind.
Qed.





(** [removeCounted] of a regular file in a gallery. *)
Lemma removeCounted_file p u kind segs (w : World num) E n :
  isGalleryKind kind = true ->
  locate p = InGallery u kind segs ->
  galleryOf (userDir w u) kind = Some E ->
  statAt segs (DDir E) = FsOk (DFile n) ->
  exists E' w',
    unlinkAt segs E = FsOk E' /\
    entryBytes (DDir E') = entryBytes (DDir E) - Z.of_N n /\
    removeCounted u kind p w = (Ok tt, w') /\
    galleryOf (userDir w' u) kind = Some E' /\
    kindBytes (usageOf w' u) kind
      = (if Z.of_N n =? 0 then kindBytes (usageOf w u) kind
         else Z.max 0 (kindBytes (usageOf w u) kind - Z.of_N n)) /\
    w_files w'
      = List.filter (fun pf => negb (String.eqb (fst pf) p)) (w_files w).
Proof.
  intros Hkind Hp HE Hstat.
  destruct (unlink_file segs E n Hstat) as (E' & Hun & Hbytes).
  exists E'. unfold removeCounted.
  unfold bind at 1. unfold safeStatSize, bind at 1, fsStat, gets.
  rewrite Hp, HE, Hstat. unfold ret at 1.
  unfold bind at 1. unfold safeUnlink, bind at 1, fsUnlink.
  rewrite Hp, HE, Hun. unfold ret at 1. cbn [andb].
  destruct (Z.of_N n =? 0) eqn:Hn; cbn [negb].
  - eexists. split; [done|]. split; [done|]. split; [reflexivity|].
    split; [|split; [|done]].
    + unfold forget. apply galleryOf_put.
    + change (usageOf (forget p (putGallery u kind E' w)) u)
        with (usageOf (putGallery u kind E' w) u).
      by rewrite usageOf_put.
  - destruct (kindBytes_change u kind (Fin (- Z.of_N n))
                (forget p (putGallery u kind E' w)) Hkind)
      as (w' & Hrun & HG & HK & HF).
    exists w'. split; [done|]. split; [done|]. split; [exact Hrun|].
    split; [|split].
    + rewrite HG. unfold forget. apply galleryOf_put.
    + rewrite HK. cbn [finiteOrZero]. f_equal.
      change (usageOf (forget p (putGallery u kind E' w)) u)
        with (usageOf (putGallery u kind E' w) u).
      rewrite usageOf_put. lia.
    + by rewrite HF.
Qed.

(** [removeCounted] of a path where nothing is. *)
Lemma removeCounted_missing p u kind segs (w : World num) :
  locate p = InGallery u kind segs ->
  match galleryOf (userDir w u) kind with
  | Some E => statAt segs (DDir E) = FsErr ENOENT
  | None => True
  end ->
  removeCounted u kind p w = (Ok tt, w).
Proof.
  intros Hp Hstat. unfold removeCounted.
  unfold bind at 1. unfold safeStatSize, bind at 1, fsStat, gets. rewrite Hp.
  unfold bind at 1. unfold safeUnlink, bind at 1, fsUnlink. rewrite Hp.
  destruct (galleryOf (userDir w u) kind) as [E|] eqn:HE.
  - rewrite Hstat. unfold ret at 1. rewrite HE, (unlink_missing segs E Hstat). done.
  - unfold ret at 1. by rewrite HE.
Qed.

End DiskSteps.

(** ** The names the server draws *)

Section StemFacts.

Lemma pretty_char_name d : usernameChar (pretty_N_char d) = true.
Proof. unfold pretty_N_char. repeat case_match; done. Qed.

Lemma pretty_N_go_name x : forall s,
  Base64.allChars usernameChar s = true ->
  Base64.allChars usernameChar (pretty_N_go x s) = true.
Proof.
  induction (N.lt_wf_0 x) as [x _ IH]. intros s Hs.
  destruct (decide (0 < x)%N) as [Hx|Hx].
  - rewrite pretty_N_go_step by done. apply IH; [by apply N.div_lt|].
    cbn [Base64.allChars]. by rewrite pretty_char_name.
  - replace x with 0%N by lia. by rewrite pretty_N_go_0.
Qed.

Lemma pretty_N_name (x : N) : Base64.allChars usernameChar (pretty x) = true.
Proof.
  unfold pretty, pretty_N. destruct (decide (x = 0%N)); [done|].
  by apply pretty_N_go_name.
Qed.

(** The decimal digits of an integer, with its sign. *)
Lemma pretty_Z_name (z : Z) : Base64.allChars usernameChar (pretty z) = true.
Proof.
  destruct z as [|p|p]; [done|apply (pretty_N_name (N.pos p))|].
  change (pretty (Z.neg p)) with ("-" +:+ pretty (N.pos p)).
  rewrite allChars_app. by rewrite (pretty_N_name (N.pos p)).
Qed.


End StemFacts.

(** ** Saving an image *)

Section SaveFacts.

Context {num : Type} `{!JsNumber num} `{!Platform num}.

Variable segs : list string.
Hypothesis Hsegs_ne : segs <> [].
Hypothesis Hsegs : Forall Path.properSeg segs.
Hypothesis Hroot : USERS_ROOT = "/" +:+ Str.join "/" segs.



Lemma notNull_match {A} (body : json num) (x y : A) :
  body <> JNull -> match body with JNull => x | _ => y end = y.
Proof. by destruct body. Qed.




End SaveFacts.

(** ** The URI of a file *)

Section UriFacts.

Local Abbreviation noSlash := (fun a => negb (Ascii.eqb a "/"%char)).

Lemma startsWith_seg x r y :
  Base64.allChars noSlash x = true -> Base64.allChars noSlash y = true ->
  Str.startsWith (x +:+ String "/"%char r) (y +:+ "/") = true -> x = y.
Proof.
  intros Hx Hy [t Ht]%startsWith_spec.
  rewrite sapp_assoc in Ht. change ("/" +:+ t) with (String "/"%char t) in Ht.
  pose proof (cut_app "/"%char x r Hx) as H1.
  rewrite Ht, (cut_app "/"%char y t Hy) in H1. by injection H1 as ->.
Qed.

Lemma startsWith_noSlash x y :
  Base64.allChars noSlash x = true -> Str.startsWith x (y +:+ "/") = false.
Proof.
  intros Hx. destruct (Str.startsWith x (y +:+ "/")) eqn:Hs; [|done].
  apply startsWith_spec in Hs as [t ->].
  rewrite !allChars_app in Hx. cbn in Hx. by rewrite andb_false_r in Hx.
Qed.

Lemma includes_skip x r q :
  Base64.allChars noSlash x = true ->
  Str.includes (x +:+ String "/"%char r) (String "/"%char q)
    = Str.includes (String "/"%char r) (String "/"%char q).
Proof.
  induction x as [|a x IH]; [done|].
  cbn [Base64.allChars]. intros [Ha Hx]%andb_prop. apply negb_true_iff in Ha.
  rewrite sapp_cons. cbn [Str.includes Str.startsWith].
  rewrite Ascii.eqb_sym, Ha. cbn [andb orb]. by apply IH.
Qed.

(** A text between two slashes in a path is one of its segments. *)
Lemma includes_seg y l :
  Base64.allChars noSlash y = true ->
  Forall (fun s => Base64.allChars noSlash s = true) l ->
  Str.includes (Str.join "/" l) ("/" +:+ y +:+ "/") = true -> In y l.
Proof.
  intros Hy Hl. induction Hl as [|x l Hx Hl IH]; [done|].
  destruct l as [|x' l].
  - cbn [Str.join]. change ("/" +:+ y +:+ "/") with (String "/"%char (y +:+ "/")).
    by rewrite (allChars_not_includes noSlash x "/"%char).
  - rewrite join_cons2.
    change (x +:+ "/" +:+ Str.join "/" (x' :: l))
      with (x +:+ String "/"%char (Str.join "/" (x' :: l))).
    change ("/" +:+ y +:+ "/") with (String "/"%char (y +:+ "/")) in *.
    rewrite includes_skip by done.
    cbn [Str.includes Str.startsWith]. rewrite Ascii.eqb_refl. cbn [andb].
    intros [Hstart|Hrest]%orb_prop; [|right; by apply IH].
    right. left. apply Forall_cons_1 in Hl as [Hx' _].
    destruct l as [|x'' l].
    + cbn [Str.join] in Hstart. by rewrite startsWith_noSlash in Hstart.
    + rewrite join_cons2 in Hstart. by apply startsWith_seg in Hstart.
Qed.

(** The characters of a file name [stem.ext]. *)
Lemma fileChar_cases a :
  usernameChar a || Ascii.eqb a "."%char = true ->
  negb (Ascii.eqb a "?"%char || Ascii.eqb a "#"%char) = true /\
  negb (Ascii.eqb a "%"%char) = true /\
  negb (Ascii.eqb a "\"%char) = true /\
  negb (Ascii.eqb a "/"%char) = true.
Proof.
  intros Ha.
  assert (Hall : forallb (fun n =>
            let c := ascii_of_N (Z.to_N n) in
            negb (usernameChar c || Ascii.eqb c "."%char)
            || (negb (Ascii.eqb c "?"%char || Ascii.eqb c "#"%char)
                && negb (Ascii.eqb c "%"%char) && negb (Ascii.eqb c "\"%char)
                && negb (Ascii.eqb c "/"%char)))
            (seqZ 0 256) = true) by (vm_compute; reflexivity).
  rewrite forallb_forall in Hall.
  assert (Hin : In (Text.byte a) (seqZ 0 256)).
  { rewrite <- list_elem_of_In. apply elem_of_seqZ. unfold Text.byte.
    pose proof (N_ascii_bounded a). lia. }
  specialize (Hall _ Hin). cbv zeta in Hall.
  unfold Text.byte in Hall. rewrite N2Z.id, ascii_N_embedding in Hall.
  rewrite Ha in Hall. cbn [negb orb] in Hall.
  by repeat (apply andb_prop in Hall as [Hall ?]).
Qed.

Lemma dotted_fileChars stem e :
  Base64.allChars usernameChar stem = true -> Base64.allChars usernameChar e = true ->
  Base64.allChars (fun a => usernameChar a || Ascii.eqb a "."%char)
    (stem +:+ "." +:+ e) = true.
Proof.
  intros Hs He. rewrite !allChars_app.
  rewrite (allChars_impl usernameChar _ stem (fun a Ha => orb_true_intro _ _ (or_introl Ha)) Hs).
  rewrite (allChars_impl usernameChar _ e (fun a Ha => orb_true_intro _ _ (or_introl Ha)) He).
  done.
Qed.

End UriFacts.

(** ** Deleting an image *)

Section DeleteFacts.

Context {num : Type} `{!JsNumber num} `{!Platform num}.

Variable segs : list string.
Hypothesis Hsegs_ne : segs <> [].
Hypothesis Hsegs : Forall Path.properSeg segs.
Hypothesis Hroot : USERS_ROOT = "/" +:+ Str.join "/" segs.

Local Abbreviation noSlash := (fun a => negb (Ascii.eqb a "/"%char)).

(** The pattern of [fileUri] on the URI of a file whose names need no
    escape. *)
Lemma matchFileUri_plain u kind stem e :
  Base64.allChars usernameChar u = true -> Str.nonEmpty u = true ->
  isGalleryKind kind = true ->
  Base64.allChars usernameChar stem = true -> Str.nonEmpty stem = true ->
  Base64.allChars usernameChar e = true -> Str.nonEmpty e = true ->
  matchFileUri ("/files/" +:+ u +:+ "/" +:+ kind +:+ "/" +:+ stem +:+ "." +:+ e)
    = Some (u, kind, stem +:+ "." +:+ e).
Proof.
  intros Hname Hune Hgk Hstem Hstemne He Hene.
  set (fileName := stem +:+ "." +:+ e).
  pose proof (name_properSeg u Hname Hune) as Hpu.
  pose proof (kind_properSeg kind Hgk) as Hpk.
  pose proof (dotted_properSeg stem e Hstem Hstemne He Hene) as Hpf.
  pose proof (dotted_fileChars stem e Hstem He) as Hfc. fold fileName in Hfc.
  assert (Hfq : Base64.allChars
                  (fun a => negb (Ascii.eqb a "?"%char || Ascii.eqb a "#"%char)) fileName
                = true).
  { eapply allChars_impl; [|exact Hfc]. intros a Ha. by apply fileChar_cases. }
  unfold matchFileUri.
  change ("/files/" +:+ u +:+ "/" +:+ kind +:+ "/" +:+ fileName)
    with (Str.join "/" [EmptyString; "files"; u; kind; fileName]).
  rewrite split_join; [|done|].
  - assert (Hfne : Str.nonEmpty fileName = true) by apply Hpf.
    by rewrite Hune, Hgk, Hfq, Hfne.
  - repeat (constructor; [by first [done|apply Hpu|apply Hpk|apply Hpf]|]). constructor.
Qed.

(** A request to delete an image of the user's own reaches the two
    removals, of the image and of its thumbnail. *)
Lemma delete_reaches secret token now body (w : World num) auth u kind stem e :
  verifyToken secret token now = Ok (Some auth) ->
  prop auth "u" = Some (JStr u) ->
  Base64.allChars usernameChar u = true -> Str.nonEmpty u = true ->
  u <> "thumbs" ->
  body <> JNull ->
  (forall s, Str.includes s "%" = false -> decodeURIComponent s = Some s) ->
  isGalleryKind kind = true ->
  Base64.allChars usernameChar stem = true -> Str.nonEmpty stem = true ->
  Base64.allChars usernameChar e = true -> Str.nonEmpty e = true ->
  toStringOpt (orElse (prop body "fileUri") (Some (JStr EmptyString)))
    = "/files/" +:+ u +:+ "/" +:+ kind +:+ "/" +:+ stem +:+ "." +:+ e ->
  imagesDeleteBody secret token now body w
    = (removeCounted u kind
         (USERS_ROOT +:+ "/" +:+ Str.join "/" [u; kind; stem +:+ "." +:+ e]) ;;
       removeCounted u kind
         (USERS_ROOT +:+ "/" +:+ Str.join "/" [u; kind; "thumbs"; stem +:+ ".webp"]) ;;
       ret (SendJson 200 (JObj [("ok", JBool true)])))%js w.
Proof.
  intros Hver Hu Hname Hune Hnot Hbody Hdec Hgk Hstem Hstemne He Hene Huri.
  set (fileName := stem +:+ "." +:+ e).
  pose proof (name_properSeg u Hname Hune) as Hpu.
  pose proof (kind_properSeg kind Hgk) as Hpk.
  pose proof (dotted_properSeg stem e Hstem Hstemne He Hene) as Hpf.
  pose proof (dotted_fileChars stem e Hstem He) as Hfc. fold fileName in Hfc.
  assert (Hfq : Base64.allChars
                  (fun a => negb (Ascii.eqb a "?"%char || Ascii.eqb a "#"%char)) fileName
                = true).
  { eapply allChars_impl; [|exact Hfc]. intros a Ha. by apply fileChar_cases. }
  assert (Hfpct : Str.includes fileName "%" = false).
  { apply (allChars_not_includes (fun a => negb (Ascii.eqb a "%"%char))); [done|].
    eapply allChars_impl; [|exact Hfc]. intros a Ha. by apply fileChar_cases. }
  assert (Hfback : Str.includes fileName "\" = false).
  { apply (allChars_not_includes (fun a => negb (Ascii.eqb a "\"%char))); [done|].
    eapply allChars_impl; [|exact Hfc]. intros a Ha. by apply fileChar_cases. }
  assert (Hfslash : Str.includes fileName "/" = false).
  { apply (allChars_not_includes noSlash); [done|]. by apply dotted_noSlash. }
  assert (Hupct : Str.includes u "%" = false).
  { apply (allChars_not_includes (fun a => negb (Ascii.eqb a "%"%char))); [done|].
    eapply allChars_impl; [|exact Hname]. intros a Ha.
    apply fileChar_cases. by rewrite Ha. }
  pose proof (matchFileUri_plain u kind stem e Hname Hune Hgk Hstem Hstemne He Hene)
    as Hmatch.
  fold fileName in Hmatch.
  assert (Hthumbs : Str.includes ("/files/" +:+ u +:+ "/" +:+ kind +:+ "/" +:+ fileName)
                      "/thumbs/" = false).
  { destruct (Str.includes _ "/thumbs/") eqn:Hinc; [|done].
    change ("/files/" +:+ u +:+ "/" +:+ kind +:+ "/" +:+ fileName)
      with (Str.join "/" [EmptyString; "files"; u; kind; fileName]) in Hinc.
    apply (includes_seg "thumbs") in Hinc; [|done|].
    - destruct Hinc as [?|[?|[?|[?|[Heq|[]]]]]]; try done.
      + subst kind. done.
      + pose proof (name_noDot "thumbs" eq_refl) as Hd. rewrite <- Heq in Hd.
        unfold fileName in Hd. rewrite !allChars_app in Hd. cbn in Hd.
        by rewrite andb_false_r in Hd.
    - assert (Hks : Base64.allChars noSlash kind = true).
      { unfold isGalleryKind in Hgk.
        by apply orb_prop in Hgk as [->%String.eqb_eq | ->%String.eqb_eq]. }
      repeat (constructor; [first [done|by apply name_noSlash|by apply dotted_noSlash]|]).
      constructor. }
  assert (Hbase : Path.join [USERS_ROOT; u] = USERS_ROOT +:+ "/" +:+ Str.join "/" [u]).
  { apply (join_under segs Hsegs_ne Hsegs Hroot [u]); [done|by constructor]. }
  assert (Habs : Path.join [USERS_ROOT +:+ "/" +:+ Str.join "/" [u]; kind; fileName]
                 = USERS_ROOT +:+ "/" +:+ Str.join "/" [u; kind; fileName]).
  { apply (join_below segs Hsegs_ne Hsegs Hroot [u] [kind; fileName]);
      [done|done|by constructor|by repeat (constructor; [done|])]. }
  assert (Hthumb : getThumbPathForImagePath
                     (USERS_ROOT +:+ "/" +:+ Str.join "/" [u; kind; fileName])
                   = USERS_ROOT +:+ "/" +:+ Str.join "/" [u; kind; "thumbs"; stem +:+ ".webp"]).
  { apply (thumbPath_under segs Hsegs_ne Hsegs Hroot [u; kind] stem e); try done.
    by repeat (constructor; [done|]). }
  unfold imagesDeleteBody.
  rewrite (bind_ok _ _ _ _ _ (requireAuth_ok secret token now w auth Hver)).
  rewrite (notNull_match body _ _ Hbody).
  cbv zeta. fold fileName in Huri. rewrite Huri, Hmatch.
  rewrite (Hdec u Hupct), (Hdec fileName Hfpct).
  unfold isUser. rewrite Hu, String.eqb_refl. cbn [negb].
  rewrite Hfslash, Hfback, Hthumbs, andb_false_r. cbn [orb].
  rewrite Hbase, Habs, Hthumb.
  replace (Str.startsWith (USERS_ROOT +:+ "/" +:+ Str.join "/" [u; kind; fileName])
             (USERS_ROOT +:+ "/" +:+ Str.join "/" [u])) with true; [done|].
  symmetry. cbn [Str.join].
  replace (USERS_ROOT +:+ "/" +:+ u +:+ "/" +:+ kind +:+ "/" +:+ fileName)
    with ((USERS_ROOT +:+ "/" +:+ u) +:+ "/" +:+ kind +:+ "/" +:+ fileName)
    by (by rewrite !sapp_assoc).
  apply startsWith_app.
Qed.

Lemma delete_run secret token now body (w : World num) auth u kind stem e E n :
  verifyToken secret token now = Ok (Some auth) ->
  prop auth "u" = Some (JStr u) ->
  Base64.allChars usernameChar u = true -> Str.nonEmpty u = true ->
  u <> "thumbs" ->
  body <> JNull ->
  (forall s, Str.includes s "%" = false -> decodeURIComponent s = Some s) ->
  isGalleryKind kind = true ->
  Base64.allChars usernameChar stem = true -> Str.nonEmpty stem = true ->
  Base64.allChars usernameChar e = true -> Str.nonEmpty e = true ->
  let fileName := stem +:+ "." +:+ e in
  let tname := stem +:+ ".webp" in
  toStringOpt (orElse (prop body "fileUri") (Some (JStr EmptyString)))
    = "/files/" +:+ u +:+ "/" +:+ kind +:+ "/" +:+ fileName ->
  galleryOf (userDir w u) kind = Some E ->
  entryOf fileName E = Some (DFile n) ->
  let thumbStat := statAt ["thumbs"; tname] (DDir E) in
  (thumbStat = FsErr ENOENT \/ exists m, thumbStat = FsOk (DFile m)) ->
  let m := match thumbStat with FsOk (DFile m) => Z.of_N m | _ => 0 end in
  let E1 := removeEntry fileName E in
  let E' := match thumbStat with
            | FsOk _ =>
                setEntry "thumbs" (DDir (removeEntry tname (dirAt "thumbs" E))) E1
            | FsErr _ => E1
            end in
  let dir := USERS_ROOT +:+ "/" +:+ u +:+ "/" +:+ kind in
  let without p := List.filter (fun pf : string * list Z => negb (String.eqb (fst pf) p)) in
  let w' := snd (imagesDelete secret token now body w) in
  fst (imagesDelete secret token now body w) = SendJson 200 (JObj [("ok", JBool true)]) /\
  galleryOf (userDir w' u) kind = Some E' /\
  entryBytes (DDir E') = entryBytes (DDir E) - Z.of_N n - m /\
  kindBytes (usageOf w' u) kind
    = (let K1 := if Z.of_N n =? 0 then kindBytes (usageOf w u) kind
                 else Z.max 0 (kindBytes (usageOf w u) kind - Z.of_N n) in
       if m =? 0 then K1 else Z.max 0 (K1 - m)) /\
  w_files w'
    = match thumbStat with
      | FsOk _ =>
          without (dir +:+ "/thumbs/" +:+ tname)
            (without (dir +:+ "/" +:+ fileName) (w_files w))
      | FsErr _ => without (dir +:+ "/" +:+ fileName) (w_files w)
      end.
Proof.
  intros Hver Hu Hname Hune Hnot Hbody Hdec Hgk Hstem Hstemne He Hene fileName tname
    Huri HG Hfile thumbStat Hth m E1 E' dir without w'.
  pose proof (delete_reaches secret token now body w auth u kind stem e
                Hver Hu Hname Hune Hnot Hbody Hdec Hgk Hstem Hstemne He Hene Huri)
    as Hreach.
  fold fileName tname in Hreach.
  pose proof (name_properSeg u Hname Hune) as Hpu.
  pose proof (kind_properSeg kind Hgk) as Hpk.
  pose proof (dotted_properSeg stem e Hstem Hstemne He Hene) as Hpf.
  pose proof (dotted_properSeg stem "webp" Hstem Hstemne eq_refl eq_refl) as Hpt.
  assert (Hpth : Path.properSeg "thumbs") by repeat split.
  assert (Hplain : forall l, Forall Path.properSeg l ->
            Forall (fun s => Str.split "/"%char s = [s] /\ Str.nonEmpty s = true) l).
  { intros l Hl. eapply Forall_impl; [exact Hl|]. intros s. apply properSeg_plain. }
  set (pAbs := USERS_ROOT +:+ "/" +:+ Str.join "/" [u; kind; fileName]) in *.
  set (pThumb := USERS_ROOT +:+ "/" +:+ Str.join "/" [u; kind; "thumbs"; tname]) in *.
  assert (HlocAbs : locate pAbs = InGallery u kind [fileName]).
  { apply locate_gallery; [|done]. apply Hplain. by repeat (constructor; [done|]). }
  assert (HlocThumb : locate pThumb = InGallery u kind ["thumbs"; tname]).
  { apply locate_gallery; [|done]. apply Hplain. by repeat (constructor; [done|]). }
  assert (Hneq : "thumbs" <> fileName).
  { intros Heq. pose proof (name_noDot "thumbs" eq_refl) as Hd. rewrite Heq in Hd.
    unfold fileName in Hd. rewrite !allChars_app in Hd. cbn in Hd.
    by rewrite andb_false_r in Hd. }
  assert (Hstat1 : statAt [fileName] (DDir E) = FsOk (DFile n)).
  { cbn [statAt]. by rewrite Hfile. }
  destruct (removeCounted_file pAbs u kind [fileName] w E n Hgk HlocAbs HG Hstat1)
    as (E1x & w1 & Hun1 & Hb1 & Hrun1 & HG1 & HK1 & HF1).
  assert (E1x = E1) as ->.
  { cbn [unlinkAt] in Hun1. rewrite Hfile in Hun1. by injection Hun1. }
  assert (Hstat2 : statAt ["thumbs"; tname] (DDir E1) = thumbStat).
  { unfold thumbStat. cbn [statAt]. unfold E1. by rewrite entryOf_removeEntry_ne. }
  assert (HpAbs : pAbs = dir +:+ "/" +:+ fileName).
  { unfold pAbs, dir. cbn [Str.join]. by rewrite !sapp_assoc. }
  assert (HpThumb : pThumb = dir +:+ "/thumbs/" +:+ tname).
  { unfold pThumb, dir. cbn [Str.join]. by rewrite !sapp_assoc. }
  subst w'. unfold imagesDelete, runApi. rewrite Hreach.
  rewrite (bind_ok _ _ _ _ _ Hrun1).
  subst m E'. destruct Hth as [Hent | [m0 Hfile2]].
  - assert (Hrun2 : removeCounted u kind pThumb w1 = (Ok tt, w1)).
    { apply (removeCounted_missing pThumb u kind ["thumbs"; tname] w1 HlocThumb).
      by rewrite HG1, Hstat2. }
    rewrite (bind_ok _ _ _ _ _ Hrun2). unfold ret. cbn [fst snd].
    rewrite Hent. cbn [Z.eqb].
    split; [done|]. split; [done|]. split; [lia|]. split; [done|].
    rewrite HF1. unfold without. by rewrite HpAbs.
  - rewrite Hfile2 in Hstat2.
    destruct (removeCounted_file pThumb u kind ["thumbs"; tname] w1 E1 m0 Hgk HlocThumb
                HG1 Hstat2)
      as (E2 & w2 & Hun2 & Hb2 & Hrun2 & HG2 & HK2 & HF2).
    rewrite (bind_ok _ _ _ _ _ Hrun2). unfold ret. cbn [fst snd].
    rewrite Hfile2.
    assert (E2 = setEntry "thumbs" (DDir (removeEntry tname (dirAt "thumbs" E))) E1) as ->.
    { assert (Hsame : entryOf "thumbs" E1 = entryOf "thumbs" E)
        by (unfold E1; by rewrite entryOf_removeEntry_ne).
      cbn [unlinkAt] in Hun2. cbn [statAt] in Hstat2. rewrite Hsame in Hun2, Hstat2.
      unfold dirAt.
      destruct (entryOf "thumbs" E) as [[size|sub|]|]; [done| |done|done].
      destruct (entryOf tname sub) as [[size| |]|]; [|done|done|done].
      by injection Hun2. }
    split; [done|]. split; [done|]. split; [lia|]. split.
    + rewrite HK2, HK1. reflexivity.
    + rewrite HF2, HF1. unfold without. by rewrite HpAbs, HpThumb.
Qed.

(** X26: a signed-in user deletes an image of a gallery of their own:
    the answer is 200, the image and its thumbnail are no longer in the
    gallery nor readable, the gallery shrinks by the bytes of both, and
    a usage record that agreed with the disk still agrees. *)
Theorem images_delete_removes secret token now body (w : World num) auth u kind stem e
  E n :
  verifyToken secret token now = Ok (Some auth) ->
  prop auth "u" = Some (JStr u) ->
  Base64.allChars usernameChar u = true -> Str.nonEmpty u = true ->
  u <> "thumbs" ->
  body <> JNull ->
  (forall s, Str.includes s "%" = false -> decodeURIComponent s = Some s) ->
  isGalleryKind kind = true ->
  Base64.allChars usernameChar stem = true -> Str.nonEmpty stem = true ->
  Base64.allChars usernameChar e = true -> Str.nonEmpty e = true ->
  let fileName := stem +:+ "." +:+ e in
  let tname := stem +:+ ".webp" in
  toStringOpt (orElse (prop body "fileUri") (Some (JStr EmptyString)))
    = "/files/" +:+ u +:+ "/" +:+ kind +:+ "/" +:+ fileName ->
  galleryOf (userDir w u) kind = Some E ->
  NoDup (List.map fst E) -> NoDup (List.map fst (dirAt "thumbs" E)) ->
  entryOf fileName E = Some (DFile n) ->
  let thumbStat := statAt ["thumbs"; tname] (DDir E) in
  (thumbStat = FsErr ENOENT \/ exists m, thumbStat = FsOk (DFile m)) ->
  let m := match thumbStat with FsOk (DFile m) => Z.of_N m | _ => 0 end in
  let dir := USERS_ROOT +:+ "/" +:+ u +:+ "/" +:+ kind in
  let w' := snd (imagesDelete secret token now body w) in
  let E' := default [] (galleryOf (userDir w' u) kind) in
  fst (imagesDelete secret token now body w) = SendJson 200 (JObj [("ok", JBool true)]) /\
  statAt [fileName] (DDir E') = FsErr ENOENT /\
  statAt ["thumbs"; tname] (DDir E') = FsErr ENOENT /\
  readFile (dir +:+ "/" +:+ fileName) (w_files w') = None /\
  statDirBytesRecursive (galleryOf (userDir w' u) kind)
    = statDirBytesRecursive (galleryOf (userDir w u) kind) - Z.of_N n - m /\
  (synced w u kind -> synced w' u kind).
Proof.
  intros Hver Hu Hname Hune Hnot Hbody Hdec Hgk Hstem Hstemne He Hene fileName tname
    Huri HG Hnd Hndt Hfile thumbStat Hth m dir w' E'.
  destruct (delete_run secret token now body w auth u kind stem e E n
              Hver Hu Hname Hune Hnot Hbody Hdec Hgk Hstem Hstemne He Hene Huri HG
              Hfile Hth) as (Hresp & HG' & Hb & HK & HF).
  fold fileName tname thumbStat m dir w' in HG', Hb, HK, HF.
  assert (Hneq : "thumbs" <> fileName).
  { intros Heq. pose proof (name_noDot "thumbs" eq_refl) as Hd. rewrite Heq in Hd.
    unfold fileName in Hd. rewrite !allChars_app in Hd. cbn in Hd.
    by rewrite andb_false_r in Hd. }
  assert (Hgone1 : entryOf fileName (removeEntry fileName E) = None)
    by (by apply entryOf_removeEntry).
  assert (Hsame : entryOf "thumbs" (removeEntry fileName E) = entryOf "thumbs" E)
    by (by rewrite entryOf_removeEntry_ne).
  assert (HE' : E' = match thumbStat with
                     | FsOk _ =>
                         setEntry "thumbs"
                           (DDir (removeEntry tname (dirAt "thumbs" E)))
                           (removeEntry fileName E)
                     | FsErr _ => removeEntry fileName E
                     end) by (unfold E'; by rewrite HG').
  split; [exact Hresp|]. split; [|split; [|split; [|split]]].
  - rewrite HE'. cbn [statAt].
    destruct thumbStat; [|by rewrite Hgone1].
    rewrite entryOf_setEntry_ne by (by intros ->). by rewrite Hgone1.
  - rewrite HE'. destruct Hth as [Hent | [m0 Hm0]].
    + rewrite Hent. cbn [statAt]. rewrite Hsame. exact Hent.
    + rewrite Hm0. cbn [statAt]. rewrite entryOf_setEntry.
      by rewrite entryOf_removeEntry.
  - rewrite HF. destruct thumbStat.
    + apply readFile_filter_None, readFile_without.
    + apply readFile_without.
  - rewrite HG', HG. cbn [statDirBytesRecursive]. exact Hb.
  - unfold synced. rewrite HK, HG', HG. cbn [statDirBytesRecursive]. intros ->.
    rewrite Hb.
    assert (H0 : 0 <= entryBytes (DDir E) - Z.of_N n - m).
    { rewrite <- Hb. apply entryBytes_nonneg. }
    assert (Hm : 0 <= m).
    { unfold m. destruct thumbStat as [[size| |]|]; lia. }
    cbv zeta. destruct (Z.of_N n =? 0) eqn:Hn0; destruct (m =? 0) eqn:Hm0; lia.
Qed.

(** X27: deleting an image that is not there, and has no thumbnail,
    answers 200 all the same and changes nothing. *)
Theorem images_delete_missing secret token now body (w : World num) auth u kind stem e :
  verifyToken secret token now = Ok (Some auth) ->
  prop auth "u" = Some (JStr u) ->
  Base64.allChars usernameChar u = true -> Str.nonEmpty u = true ->
  u <> "thumbs" ->
  body <> JNull ->
  (forall s, Str.includes s "%" = false -> decodeURIComponent s = Some s) ->
  isGalleryKind kind = true ->
  Base64.allChars usernameChar stem = true -> Str.nonEmpty stem = true ->
  Base64.allChars usernameChar e = true -> Str.nonEmpty e = true ->
  toStringOpt (orElse (prop body "fileUri") (Some (JStr EmptyString)))
    = "/files/" +:+ u +:+ "/" +:+ kind +:+ "/" +:+ stem +:+ "." +:+ e ->
  match galleryOf (userDir w u) kind with
  | Some E =>
      statAt [stem +:+ "." +:+ e] (DDir E) = FsErr ENOENT /\
      statAt ["thumbs"; stem +:+ ".webp"] (DDir E) = FsErr ENOENT
  | None => True
  end ->
  imagesDelete secret token now body w = (SendJson 200 (JObj [("ok", JBool true)]), w).
Proof.
  intros Hver Hu Hname Hune Hnot Hbody Hdec Hgk Hstem Hstemne He Hene Huri Hmissing.
  pose proof (delete_reaches secret token now body w auth u kind stem e
                Hver Hu Hname Hune Hnot Hbody Hdec Hgk Hstem Hstemne He Hene Huri)
    as Hreach.
  pose proof (name_properSeg u Hname Hune) as Hpu.
  pose proof (kind_properSeg kind Hgk) as Hpk.
  pose proof (dotted_properSeg stem e Hstem Hstemne He Hene) as Hpf.
  pose proof (dotted_properSeg stem "webp" Hstem Hstemne eq_refl eq_refl) as Hpt.
  assert (Hpth : Path.properSeg "thumbs") by repeat split.
  assert (Hplain : forall l, Forall Path.properSeg l ->
            Forall (fun s => Str.split "/"%char s = [s] /\ Str.nonEmpty s = true) l).
  { intros l Hl. eapply Forall_impl; [exact Hl|]. intros s. apply properSeg_plain. }
  unfold imagesDelete, runApi. rewrite Hreach.
  rewrite (bind_ok _ _ _ tt w).
  - rewrite (bind_ok _ _ _ tt w); [done|].
    apply (removeCounted_missing _ u kind ["thumbs"; stem +:+ ".webp"]).
    + apply locate_gallery; [|done]. apply Hplain. by repeat (constructor; [done|]).
    + destruct (galleryOf (userDir w u) kind); [apply Hmissing|done].
  - apply (removeCounted_missing _ u kind [stem +:+ "." +:+ e]).
    + apply locate_gallery; [|done]. apply Hplain. by repeat (constructor; [done|]).
    + destruct (galleryOf (userDir w u) kind); [apply Hmissing|done].
Qed.

(** X29: a request to delete a file of another user is refused with
    403 and changes nothing. *)
Theorem images_delete_foreign secret token now body (w : World num) auth u other kind
  stem e :
  verifyToken secret token now = Ok (Some auth) ->
  prop auth "u" = Some (JStr u) ->
  other <> u ->
  body <> JNull ->
  (forall s, Str.includes s "%" = false -> decodeURIComponent s = Some s) ->
  Base64.allChars usernameChar other = true -> Str.nonEmpty other = true ->
  isGalleryKind kind = true ->
  Base64.allChars usernameChar stem = true -> Str.nonEmpty stem = true ->
  Base64.allChars usernameChar e = true -> Str.nonEmpty e = true ->
  toStringOpt (orElse (prop body "fileUri") (Some (JStr EmptyString)))
    = "/files/" +:+ other +:+ "/" +:+ kind +:+ "/" +:+ stem +:+ "." +:+ e ->
  imagesDelete secret token now body w = (SendJson 403 (errorBody "Forbidden"), w).
Proof.
  intros Hver Hu Hother Hbody Hdec Hname Hone Hgk Hstem Hstemne He Hene Huri.
  pose proof (dotted_fileChars stem e Hstem He) as Hfc.
  assert (Hfpct : Str.includes (stem +:+ "." +:+ e) "%" = false).
  { apply (allChars_not_includes (fun a => negb (Ascii.eqb a "%"%char))); [done|].
    eapply allChars_impl; [|exact Hfc]. intros a Ha. by apply fileChar_cases. }
  assert (Hopct : Str.includes other "%" = false).
  { apply (allChars_not_includes (fun a => negb (Ascii.eqb a "%"%char))); [done|].
    eapply allChars_impl; [|exact Hname]. intros a Ha.
    apply fileChar_cases. by rewrite Ha. }
  unfold imagesDelete, runApi, imagesDeleteBody.
  rewrite (bind_ok _ _ _ _ _ (requireAuth_ok secret token now w auth Hver)).
  rewrite (notNull_match body _ _ Hbody).
  cbv zeta. rewrite Huri.
  rewrite (matchFileUri_plain other kind stem e Hname Hone Hgk Hstem Hstemne He Hene).
  rewrite (Hdec other Hopct), (Hdec _ Hfpct).
  unfold isUser. rewrite Hu.
  destruct (String.eqb_spec u other); [congruence|done].
Qed.

End DeleteFacts.

(** ** The quota at the save; a save and its delete *)

Section SaveDelete.

Context {num : Type} `{!JsNumber num} `{!Platform num}.


Variable segs : list string.
Hypothesis Hsegs_ne : segs <> [].
Hypothesis Hsegs : Forall Path.properSeg segs.
Hypothesis Hroot : USERS_ROOT = "/" +:+ Str.join "/" segs.


End SaveDelete.

(** ** The quota error and its message *)

Section QuotaMessage.

Context {num : Type} `{!JsNumber num}.

Lemma digitValue_char (d : N) :
  (d < 10)%N -> digitValue (pretty_N_char d) = Some (Z.of_N d).
Proof.
  intros Hd.
  assert (Hcases : (d = 0 \/ d = 1 \/ d = 2 \/ d = 3 \/ d = 4 \/ d = 5 \/ d = 6 \/
                    d = 7 \/ d = 8 \/ d = 9)%N) by lia.
  by destruct_or!; subst d.
Qed.

Lemma digitsFrom_go (x : N) : forall s,
  digitsFrom 0 (pretty_N_go x s) = digitsFrom (Z.of_N x) s.
Proof.
  induction (N.lt_wf_0 x) as [x _ IH]. intros s.
  destruct (decide (0 < x)%N) as [Hx|Hx].
  - rewrite pretty_N_go_step by done. rewrite IH by (by apply N.div_lt).
    cbn [digitsFrom]. rewrite digitValue_char by (by apply N.mod_lt).
    f_equal. rewrite N2Z.inj_div, N2Z.inj_mod.
    pose proof (Z.div_mod (Z.of_N x) 10). lia.
  - replace x with 0%N by lia. by rewrite pretty_N_go_0.
Qed.

Lemma pretty_N_go_nonEmpty (x : N) : forall s,
  Str.nonEmpty s = true -> Str.nonEmpty (pretty_N_go x s) = true.
Proof.
  induction (N.lt_wf_0 x) as [x _ IH]. intros s Hs.
  destruct (decide (0 < x)%N) as [Hx|Hx].
  - rewrite pretty_N_go_step by done. by apply IH; [apply N.div_lt|].
  - replace x with 0%N by lia. by rewrite pretty_N_go_0.
Qed.

(** The decimal text of a number denotes it. *)
Lemma decimal_pretty (z : Z) : 0 <= z -> decimal (pretty z) = Some z.
Proof.
  intros Hz. destruct z as [|p|p]; [done| |lia].
  change (pretty (Z.pos p)) with (pretty (N.pos p)).
  unfold pretty, pretty_N. destruct (decide (N.pos p = 0%N)) as [|_]; [done|].
  unfold decimal.
  assert (Hne : Str.nonEmpty (pretty_N_go (N.pos p) "") = true).
  { rewrite pretty_N_go_step by lia. by apply pretty_N_go_nonEmpty. }
  rewrite Hne. by rewrite digitsFrom_go.
Qed.

Lemma pretty_digit (d : Z) :
  0 <= d < 10 ->
  exists a, pretty d = String a EmptyString /\ digitValue a = Some d.
Proof.
  intros Hd.
  assert (Hcases : d = 0 \/ d = 1 \/ d = 2 \/ d = 3 \/ d = 4 \/ d = 5 \/ d = 6 \/
                   d = 7 \/ d = 8 \/ d = 9) by lia.
  destruct_or!; subst d; by eexists.
Qed.

(** What [toFixed(2)] prints denotes the hundredths of a GiB nearest to
    the byte count, the upper ones at a tie. *)
Lemma toFixed2GB_hundredths (bytes : Z) :
  0 <= bytes ->
  exists h,
    hundredths (toFixed2GB bytes) = Some h /\
    h * 2 ^ 30 <= 100 * bytes + 2 ^ 29 < (h + 1) * 2 ^ 30.
Proof.
  intros Hb. unfold toFixed2GB. cbv zeta.
  set (n := (bytes * 200 + 2 ^ 30) / 2 ^ 31).
  assert (Hn : 0 <= n) by (apply Z.div_pos; lia).
  pose proof (Z.mod_pos_bound n 100 ltac:(lia)) as Hfrac.
  exists n. split.
  - destruct (pretty_digit (n mod 100 / 10)) as (a & -> & Ha).
    { split; [apply Z.div_pos; lia|]. apply Z.div_lt_upper_bound; lia. }
    destruct (pretty_digit (n mod 100 mod 10)) as (b & -> & Hb').
    { apply Z.mod_pos_bound. lia. }
    unfold hundredths.
    change (pretty (n / 100) +:+ "." +:+ String a "" +:+ String b "")
      with (pretty (n / 100) +:+ String "."%char (String a (String b ""))).
    rewrite cut_app.
    2:{ eapply allChars_impl; [|apply pretty_Z_name].
        intros c Hc. destruct (usernameChar_cases c Hc) as (_ & _ & _ & _ & Hdot).
        apply negb_true_iff. by apply Ascii.eqb_neq. }
    rewrite decimal_pretty by (apply Z.div_pos; lia).
    rewrite Ha, Hb'. f_equal.
    pose proof (Z.div_mod n 100). pose proof (Z.div_mod (n mod 100) 10). lia.
  - subst n. pose proof (Z.div_mod (bytes * 200 + 2 ^ 30) (2 ^ 31) ltac:(lia)) as Hdiv.
    pose proof (Z.mod_pos_bound (bytes * 200 + 2 ^ 30) (2 ^ 31) ltac:(lia)) as Hmod.
    lia.
Qed.

(** C4: for a user that is not an admin, with quota [Q], whose cached
    usage is the usage [U] on disk, and a gallery kind,
    [assertGalleryHasSpace] lets a write of [n] bytes pass, and leaves
    the record as it is, when [U + n <= Q].  Otherwise it measures the
    two galleries, stores the recursive sizes as the record, once, and
    throws the quota error, of status 507, whose message prints the
    headroom [max 0 (Q - U)] and the quota in GiB, each as the nearest
    number of hundredths.  With [U = Q - 10], 20 bytes are refused and 5
    bytes pass, and [addUsage] of those 5 bytes brings the record to
    [Q - 5]. *)
Theorem quota_enforcement (w : World num) u kind n Q U :
  isGalleryKind kind = true ->
  ud_isAdmin (userDir w u) = false ->
  quotaOf w u = Q ->
  cachedUsage w u = U ->
  diskUsage w u = U ->
  0 <= n ->
  (U + n <= Q -> assertGalleryHasSpace u kind (Fin n) w = (Ok tt, w)) /\
  (Q < U + n ->
     let e := QuotaExceeded (Z.max 0 (Q - U)) Q in
     let measured :=
       {| uploadsBytes := statDirBytesRecursive (ud_uploads (userDir w u));
          generatedBytes := statDirBytesRecursive (ud_generated (userDir w u)) |} in
     let w' := snd (writeUsage u measured w) in
     assertGalleryHasSpace u kind (Fin n) w = (Throw e, w') /\
     ud_usage (userDir w' u) = Some measured /\
     ud_uploads (userDir w' u) = ud_uploads (userDir w u) /\
     ud_generated (userDir w' u) = ud_generated (userDir w u) /\
     statusCode e = Some 507 /\
     message e = "图库容量不足：剩余 " +:+ toFixed2GB (Z.max 0 (Q - U)) +:+
                 "GB / 总 " +:+ toFixed2GB Q +:+ "GB" /\
     (exists left,
        hundredths (toFixed2GB (Z.max 0 (Q - U))) = Some left /\
        left * 2 ^ 30 <= 100 * Z.max 0 (Q - U) + 2 ^ 29 < (left + 1) * 2 ^ 30) /\
     (exists total,
        hundredths (toFixed2GB Q) = Some total /\
        total * 2 ^ 30 <= 100 * Q + 2 ^ 29 < (total + 1) * 2 ^ 30)) /\
  (U = Q - 10 ->
     fst (assertGalleryHasSpace u kind (Fin 20) w)
       = Throw (QuotaExceeded 10 Q) /\
     assertGalleryHasSpace u kind (Fin 5) w = (Ok tt, w) /\
     cachedUsage (snd (addUsage u kind (Fin 5) w)) u = Q - 5).
Proof.
  intros Hkind Hadm HQ HU HD Hn.
  split; [|split].
  - intros Hle. rewrite (assertGalleryHasSpace_spec _ _ _ _ Hkind Hadm Hn).
    rewrite HQ, HU. by rewrite (proj2 (Z.leb_le _ _) Hle).
  - intros Hgt. cbv zeta.
    assert (HQpos : 0 < Q) by (rewrite <- HQ; apply quotaOf_pos).
    split; [|split; [|split; [|split; [|split; [|split; [|split]]]]]].
    + rewrite (assertGalleryHasSpace_spec _ _ _ _ Hkind Hadm Hn).
      rewrite HQ, HU, HD. by rewrite (proj2 (Z.leb_gt _ _) Hgt).
    + cbn. by rewrite userDir_set_eq.
    + cbn. by rewrite userDir_set_eq.
    + cbn. by rewrite userDir_set_eq.
    + done.
    + done.
    + apply toFixed2GB_hundredths. lia.
    + apply toFixed2GB_hundredths. lia.
  - intros ->. split; [|split].
    + rewrite (assertGalleryHasSpace_spec _ _ _ _ Hkind Hadm) by lia.
      rewrite HQ, HU, HD.
      rewrite (proj2 (Z.leb_gt _ _)) by lia. simpl.
      do 2 f_equal. lia.
    + rewrite (assertGalleryHasSpace_spec _ _ _ _ Hkind Hadm) by lia.
      rewrite HQ, HU. by rewrite (proj2 (Z.leb_le _ _)) by lia.
    + destruct (addUsage_total w u kind 5 Hkind) as (w' & Hadd & Hc); [lia|].
      rewrite Hadd. simpl. rewrite Hc, HU. lia.
Qed.

End QuotaMessage.

(** ** Remote URLs that are not images *)

Section RemoteLeaf.

Context {num : Type} `{!JsNumber num} `{!Platform num}.

Section OneLeaf.

Variable c : FavCtx.

Section OneUrl.

Variable url : string.
Variable buf : list Z.
Variable contentType : string.
Hypothesis url_http : isHttpUrl url = true.
Hypothesis url_fetch : fetchUrlBuffer 3 MAX_DOWNLOAD_BYTES url = Ok (buf, contentType).
Hypothesis url_mime : Str.startsWith (contentMime contentType) "image/" = false.

(** A run does not record [url] in the map of the remote URLs. *)
Local Abbreviation keepsOut :=
  (fun (s : MatState num) (_ : option exn) (s' : MatState num) =>
     ms_remoteUrlMap s !! url = None -> ms_remoteUrlMap s' !! url = None).








End OneUrl.



End OneLeaf.



End RemoteLeaf.

(** * The server on concrete requests *)

Section Examples.

Import Demo.

(** A token signed by the server whose [exp] has passed is refused. *)
Lemma verifyToken_rejects_witness :
  invalidToken secret 2500 aliceToken /\
  verifyToken secret aliceToken 2500 = Ok None.
Proof.
  assert (Hbad : invalidToken secret 2500 aliceToken).
  { eapply TokenExpired; [vm_compute; reflexivity..]. }
  split; [exact Hbad|].
  exact (proj1 (verifyToken_rejects secret aliceToken 2500 Hbad)).
Defined.

(** C7 does not hold as the specification states it: a token signed by the server whose
    [exp] is 0, an instant long past at the time 1500, is accepted,
    because [payload.exp && ...] takes 0 for an absent expiry. *)
Lemma verifyToken_accepts_exp_zero :
  let payload : json Z := JObj [("u", JStr "alice"); ("a", JBool false); ("exp", JNum 0)] in
  prop payload "exp" = Some (JNum 0) /\
  gtNow 1500 (JNum 0 : json Z) = true /\
  verifyToken secret (createToken secret payload) 1500 = Ok (Some payload).
Proof. vm_compute. repeat split; reflexivity. Qed.

(** Quota 100 with 90 used, 88 of them in a file and 2 in its
    thumbnail: 20 more bytes are refused with the measured record
    stored, 5 bytes pass. *)
Lemma quota_enforcement_witness :
  cachedUsage quotaWorld "alice" = 90 /\
  diskUsage quotaWorld "alice" = 90 /\
  fst (assertGalleryHasSpace "alice" "uploads" (Fin 20) quotaWorld)
    = Throw (QuotaExceeded 10 100) /\
  ud_usage (userDir (snd (assertGalleryHasSpace "alice" "uploads" (Fin 20) quotaWorld))
              "alice")
    = Some {| uploadsBytes := 90; generatedBytes := 0 |} /\
  assertGalleryHasSpace "alice" "uploads" (Fin 5) quotaWorld = (Ok tt, quotaWorld) /\
  cachedUsage (snd (addUsage "alice" "uploads" (Fin 5) quotaWorld)) "alice" = 100 - 5.
Proof.
  split; [reflexivity|]. split; [reflexivity|].
  assert (Hn : 0 <= 20) by lia.
  destruct (quota_enforcement quotaWorld "alice" "uploads" 20 100 90
              eq_refl eq_refl eq_refl eq_refl eq_refl Hn)
    as (_ & Hover & Hten).
  destruct Hover as (Hrun & Hrecord & _); [lia|].
  destruct Hten as (_ & Hfive & Hadd); [lia|].
  rewrite Hrun. cbn [fst snd]. rewrite Hrecord.
  split; [reflexivity|]. split; [reflexivity|]. split; [exact Hfive|exact Hadd].
Defined.

(** Half a GiB left of two: the message of the error. *)
Lemma quota_message_example :
  message (QuotaExceeded (2 ^ 29) (2 ^ 31)) = "图库容量不足：剩余 0.50GB / 总 2.00GB" /\
  hundredths (toFixed2GB (2 ^ 29)) = Some 50 /\
  hundredths (toFixed2GB (2 ^ 31)) = Some 200 /\
  toFixed2GB 5368710 = "0.01" /\
  toFixed2GB 5368709 = "0.00".
Proof. vm_compute. repeat split; reflexivity. Qed.

(** C5 does not hold as the specification states it: with [usage.json] deleted, 100 bytes
    on disk and a quota of 50, a write of 10 bytes passes, and nothing is
    recomputed or stored. *)
Lemma quota_check_skips_recompute :
  ud_usage (userDir resetWorld "alice") = None /\
  diskUsage resetWorld "alice" = 100 /\
  quotaOf resetWorld "alice" = 50 /\
  fst (assertGalleryHasSpace "alice" "uploads" (Fin 10) resetWorld) = Ok tt /\
  ud_usage (userDir (snd (assertGalleryHasSpace "alice" "uploads" (Fin 10) resetWorld))
              "alice") = None.
Proof. vm_compute. repeat split; reflexivity. Qed.

(** The same world: only a write larger than the quota triggers the
    recomputation. *)
Lemma quota_check_after_reset_witness :
  ud_usage (userDir resetWorld "alice") = None /\
  ud_usage (userDir (recomputed resetWorld "alice") "alice") =
    Some {| uploadsBytes := 100; generatedBytes := 0 |} /\
  fst (assertGalleryHasSpace "alice" "uploads" (Fin 60) resetWorld)
    = Throw (QuotaExceeded 0 50).
Proof.
  split; [reflexivity|].
  destruct (quota_check_after_reset resetWorld "alice" "uploads" 60) as [_ H];
    [reflexivity | reflexivity | lia | left; reflexivity |].
  destruct H as [Hus Hres]; [vm_compute; reflexivity|].
  split; [exact Hus|]. rewrite Hres. reflexivity.
Defined.

(** A run of the accountant from the record of registration. *)
Lemma usage_never_negative_witness :
  usageOk (runOps [OpAdd "alice" "uploads" (Fin 7);
                   OpChange "alice" "uploads" (Fin (-50));
                   OpChange "alice" "generated" NegInf;
                   OpAdd "alice" "generated" NaN;
                   OpRecompute "alice"] world0).
Proof.
  apply (usage_never_negative world0).
  intros u d us Hd Hus. unfold world0 in Hd. simpl in Hd.
  apply lookup_singleton_Some in Hd as [_ <-]. simpl in Hus.
  injection Hus as <-. split; reflexivity.
Defined.

(** C6 does not hold as the specification states it: a request for
    the path without a cookie is answered 401, not 400, because the
    token is checked before the path. *)
Lemma files_traversal_not_always_400 :
  fst (filesRequest secret EmptyString 1500 "/files/alice/../bob/secret.png" world0)
    = SendText 401 "Unauthorized".
Proof. vm_compute. reflexivity. Qed.

(** To bob, whose token is valid, the same decoded path is forbidden. *)
Lemma files_traversal_forbidden_to_bob :
  fst (filesRequest secret ("banana_token=" +:+ bobToken) 1500
         "/files/alice/../bob/secret.png" world0)
    = SendText 403 "Forbidden".
Proof. vm_compute. reflexivity. Qed.

(** A cookie with a lone percent sign, before alice's own token or
    alone: the answer is 500. *)
Lemma files_traversal_malformed_cookie :
  fst (filesRequest secret ("theme=%; banana_token=" +:+ aliceToken) 1500
         "/files/alice/../bob/secret.png" world0)
    = SendText 500 "URI malformed" /\
  fst (filesRequest secret "theme=%" 1500 "/files/alice/../bob/secret.png" world0)
    = SendText 500 "URI malformed".
Proof. vm_compute. split; reflexivity. Qed.

(** With alice's own token, after another cookie, the answer is 400. *)
Lemma files_traversal_answer_witness :
  filesRequest secret ("theme=dark; banana_token=" +:+ aliceToken) 1500
    "/files/alice/../bob/secret.png" world0
    = (SendText 400 "Bad path", world0).
Proof.
  assert (Hne : ["srv"; "banana"; "data"; "users"] <> @nil string) by discriminate.
  assert (Hsegs : Forall Path.properSeg ["srv"; "banana"; "data"; "users"])
    by repeat constructor.
  assert (Hroot : USERS_ROOT = "/" +:+ Str.join "/" ["srv"; "banana"; "data"; "users"])
    by reflexivity.
  destruct (files_traversal_answer secret ("theme=dark; banana_token=" +:+ aliceToken)
              1500 world0 ["srv"; "banana"; "data"; "users"] Hne Hsegs Hroot)
    as [Hanswer _].
  rewrite Hanswer. vm_compute. reflexivity.
Defined.

(** Removing the chat 2, then a chat that is not there. *)
Lemma favorites_remove_filters_witness :
  fst (favoritesRemove secret aliceToken 1500 "/api/favorites/chats/2" favWorld)
    = SendJson 200 (JObj [("ok", JBool true)]) /\
  fst (readFavorites "alice" "chats"
         (snd (favoritesRemove secret aliceToken 1500 "/api/favorites/chats/2" favWorld)))
    = Ok (JArr [ JObj [("id", JNum 1); ("title", JStr "first")];
                 JObj [("title", JStr "no id")] ]).
Proof.
  destruct (favorites_remove_filters secret aliceToken 1500 "/api/favorites/chats/2"
              favWorld
              (JObj [("u", JStr "alice"); ("a", JBool false); ("exp", JNum 2000)])
              "alice" "chats" storedChats) as (H1 & H2 & _);
    [reflexivity..|].
  split; [exact H1|exact H2].
Defined.



(** The same save, computed: the answer and the list hold the chat with
    the link, and the one file of the image was written. *)
Lemma favorite_save_keeps_page_link :
  fst (favoritesAdd secret aliceToken 1500 linkBody world0)
    = SendJson 200 (JObj [("ok", JBool true); ("item", linkStored)]) /\
  fst (readFavorites "alice" "chats"
         (snd (favoritesAdd secret aliceToken 1500 linkBody world0)))
    = Ok (JArr [linkStored]) /\
  w_files (snd (favoritesAdd secret aliceToken 1500 linkBody world0))
    = [("/srv/banana/data/users/alice/favorites/chats/1/1000_000000000000.png",
        pngBytes)].
Proof. vm_compute. repeat split; reflexivity. Qed.

(** A link that is a field of an inline image part is not a place the
    traversal reaches: the part is replaced as a whole, and the link is
    not in what is stored. *)
Lemma remote_leaf_in_inline_part_dropped :
  fst (traverseAndMaterialize chatCtx
         (JObj [("inline_data",
                 JObj [("mime_type", JStr "image/png"); ("data", JStr "iVBORw==");
                       ("source", JStr "http://img.test/page")])])
         (start world0))
    = Ok (fileDataPart (JStr "image/png")
            "/files/alice/favorites/chats/1/1000_000000000000.png").
Proof. vm_compute. reflexivity. Qed.

(** A Content-Type with a no-break space before it, capitals and a
    parameter is an image: the bytes are stored. *)
Lemma remote_image_behind_blank_stored :
  contentMime (String "160"%char "Image/PNG ; q=1") = "image/png" /\
  traverseAndMaterialize chatCtx (JStr "http://img.test/odd.png") (start world0)
    = (Ok (JStr "/files/alice/favorites/chats/1/1000_000000000000.png"),
       {| ms_world :=
            {| w_tick := 1; w_users := w_users world0;
               w_files :=
                 [("/srv/banana/data/users/alice/favorites/chats/1/1000_000000000000.png",
                   pngBytes)] |};
          ms_dataUrlMap := ∅;
          ms_remoteUrlMap :=
            {[ "http://img.test/odd.png" :=
                 "/files/alice/favorites/chats/1/1000_000000000000.png" ]} |}).
Proof. vm_compute. split; reflexivity. Qed.

(** C9: a save that leaves the directory of the favorites.  Alice,
    whose [usage.json] is not there, saves a favorite with the [id]
    [../../usage.json]: the directory of the favorite is the path of
    her usage record, the save is answered 200, and the image of the
    favorite is written below that path, which is a directory from then
    on. *)
Lemma favorite_id_reaches_usage_record :
  ud_usage (userDir resetWorld "alice") = None /\
  Path.join [USERS_ROOT; "alice"; "favorites"; "chats"; "../../usage.json"]
    = "/srv/banana/data/users/alice/usage.json" /\
  fst (favoritesAdd secret aliceToken 1500 escapingBody resetWorld)
    = SendJson 200
        (JObj [("ok", JBool true);
               ("item",
                JObj [("id", JStr "../../usage.json");
                      ("cover",
                       JStr ("/files/alice/favorites/chats/..%2F..%2Fusage.json/"
                             +:+ "1000_000000000000.png"))])]) /\
  w_files (snd (favoritesAdd secret aliceToken 1500 escapingBody resetWorld))
    = [("/srv/banana/data/users/alice/usage.json/1000_000000000000.png", pngBytes)].
Proof. vm_compute. repeat split; reflexivity. Qed.

(** C1 does not hold as the specification states it: the item holds one inline PNG part,
    below an object that is itself a packed asset; the save rewrites the
    asset and leaves the part, with its [inline_data] key, as it was. *)
Lemma inline_part_below_asset_kept :
  reaches assetAround (inlinePngPart pngText) = false /\
  fst (favoritesAdd secret aliceToken 1500 assetBody world0) =
    SendJson 200
      (JObj [("ok", JBool true);
             ("item",
              JObj [("id", JNum 1); ("mime", JStr "image/png");
                    ("preview", inlinePngPart pngText);
                    ("file_uri",
                     JStr "/files/alice/favorites/chats/1/1000_000000000000.png")])]).
Proof. vm_compute. split; reflexivity. Qed.

(** The guard [!inline.data] of [convertInlineDataToDataUrl]: a part
    whose [data] is the empty text is not converted either. *)
Lemma inline_part_empty_kept :
  traverseAndMaterialize chatCtx (inlinePngPart EmptyString) (start world0)
    = (Ok (inlinePngPart EmptyString), start world0).
Proof. vm_compute. reflexivity. Qed.

(** The end-to-end scenario of the specification. *)
Lemma inline_part_materialized_witness :
  exists C' fileName stored,
    chatStored = plug C' (fileDataPart (JStr "image/png") (favFileUri chatCtx fileName)) /\
    holePath C' = holePath chatAround /\
    (ctxHasKey "inline_data" chatAround = false ->
     hasKey "inline_data" chatStored = false) /\
    In (Path.join [fc_dir chatCtx; fileName], stored)
       (w_files (ms_world (snd chatRun))) /\
    Base64.encode stored = pngText /\
    (NoDup (List.map fst (w_files (ms_world (snd chatRun)))) ->
     readFile (Path.join [fc_dir chatCtx; fileName])
       (w_files (ms_world (snd chatRun))) = Some stored).
Proof.
  apply (inline_part_materialized chatCtx chatAround pngText pngBytes
           (start world0) chatStored (snd chatRun)).
  - repeat constructor; unfold Base64.isByte; lia.
  - discriminate.
  - reflexivity.
  - reflexivity.
  - reflexivity.
  - vm_compute. reflexivity.
Defined.

(** The same save through the handler: the answer carries the rewritten
    item, the list of chats holds it first, and one file was written. *)
Lemma end_to_end_save :
  fst (favoritesAdd secret aliceToken 1500 chatBody world0)
    = SendJson 200 (JObj [("ok", JBool true); ("item", chatStored)]) /\
  fst (readFavorites "alice" "chats"
         (snd (favoritesAdd secret aliceToken 1500 chatBody world0)))
    = Ok (JArr [chatStored]) /\
  w_files (snd (favoritesAdd secret aliceToken 1500 chatBody world0))
    = [("/srv/banana/data/users/alice/favorites/chats/1/1000_000000000000.png",
        pngBytes)].
Proof. vm_compute. repeat split; reflexivity. Qed.

(** C2 does not hold as the specification states it: the same inline image at two places,
    the second below a packed asset; the first becomes a file
    reference, the second stays an inline part. *)
Lemma second_occurrence_below_asset_kept :
  fst (favoritesAdd secret aliceToken 1500 twiceBelowAssetBody world0) =
    SendJson 200
      (JObj [("ok", JBool true);
             ("item",
              JObj [("id", JNum 1);
                    ("a", fileDataPart (JStr "image/png")
                            "/files/alice/favorites/chats/1/1000_000000000000.png");
                    ("b", JObj [("mime", JStr "image/png");
                                ("thumb", inlinePngPart pngText);
                                ("file_uri",
                                 JStr "/files/alice/favorites/chats/1/1001_000000000001.png")])])]).
Proof. vm_compute. reflexivity. Qed.

(** Three places, one file. *)
Lemma dedup_one_file_witness :
  rewrittenBy (ms_dataUrlMap (snd thriceRun)) thrice thriceStored /\
  length (w_files (ms_world (snd thriceRun))) = 1%nat.
Proof.
  destruct (dedup_one_file chatCtx thrice (start world0) thriceStored (snd thriceRun))
    as (Hrw & _ & _ & _ & Hlen).
  - reflexivity.
  - reflexivity.
  - vm_compute. reflexivity.
  - split; [exact Hrw|]. rewrite Hlen. vm_compute. reflexivity.
Defined.

End Examples.

(** * The rest of the server on concrete requests *)

Section MoreExamples.

Import Demo.

(** Four bytes whose base64 text is [+/++Bw==] come back from [-_--Bw]. *)
Lemma base64url_round_trip_witness :
  Forall Base64.isByte oddBytes /\
  base64urlEncode oddBytes = "-_--Bw" /\
  base64urlDecodeToBuffer (base64urlEncode oddBytes) = oddBytes.
Proof.
  assert (H : Forall Base64.isByte oddBytes).
  { repeat constructor; unfold Base64.isByte; lia. }
  split; [exact H|]. split; [reflexivity|].
  exact (base64url_round_trip oddBytes H).
Defined.


Lemma verifyToken_sound_witness :
  verifyToken secret aliceToken 1500 = Ok (Some alicePayload) /\
  exists payloadB64,
    aliceToken = payloadB64 +:+ "." +:+ signToken secret payloadB64 /\
    JSON_parse (ofBytes (base64urlDecodeToBuffer payloadB64)) = Some alicePayload /\
    truthyOpt (prop alicePayload "u") = true /\
    (forall e, prop alicePayload "exp" = Some e -> truthy e = true ->
               gtNow 1500 e = false).
Proof.
  assert (H : verifyToken secret aliceToken 1500 = Ok (Some alicePayload))
    by (vm_compute; reflexivity).
  split; [exact H|].
  exact (verifyToken_sound secret aliceToken 1500 alicePayload H).
Defined.


(** A name with spaces around it is trimmed and kept; what is kept is
    kept again. *)
Lemma sanitizeUsername_safe_witness :
  sanitizeUsername (Some (JStr "  alice_01 " : json Z)) = Some "alice_01" /\
  Path.properSeg "alice_01" /\
  sanitizeUsername (Some (JStr "alice_01" : json Z)) = Some "alice_01".
Proof.
  assert (H : sanitizeUsername (Some (JStr "  alice_01 " : json Z)) = Some "alice_01")
    by (vm_compute; reflexivity).
  split; [exact H|].
  destruct (sanitizeUsername_safe _ _ H) as (_ & _ & Hseg & _ & Hagain).
  split; [exact Hseg|exact Hagain].
Defined.

(** Names that are refused: too short, a slash, a dot, a non-ASCII
    letter; and a number is taken for its digits. *)
Lemma sanitizeUsername_refuses :
  sanitizeUsername (Some (JStr "ab" : json Z)) = None /\
  sanitizeUsername (Some (JStr "../bob" : json Z)) = None /\
  sanitizeUsername (Some (JStr "a.b.c" : json Z)) = None /\
  sanitizeUsername (None : option (json Z)) = None /\
  sanitizeUsername (Some (JNum 12345 : json Z)) = Some "12345".
Proof. vm_compute. repeat split; reflexivity. Qed.

(** The two files of the start-up on an environment that sets the
    port: the port stays, the secret is that of [server/.env] without
    its quotes, and the mode comes from the root file. *)
Lemma env_files_example :
  let env := loadEnvFiles (Some serverEnvText) (Some rootEnvText) {[ "PORT" := "9000" ]} in
  env !! "PORT" = Some "9000" /\
  env !! "BANANA_SECRET" = Some "from-server" /\
  env !! "NODE_ENV" = Some "production" /\
  env !! "not a line" = None.
Proof. vm_compute. repeat split; reflexivity. Qed.

(** A file that names [constructor] and [toString]: neither is set,
    the variable has the value of its first line, and a second load
    changes nothing. *)
Lemma env_load_idempotent_witness :
  let env := loadEnvFileIfPresent (Some oddEnvText) {[ "PORT" := "9000" ]} in
  env !! "constructor" = None /\
  env !! "toString" = None /\
  env !! "A" = Some "1" /\
  env !! "PORT" = Some "9000" /\
  loadEnvFileIfPresent (Some oddEnvText) env = env.
Proof.
  cbv zeta.
  destruct (env_load_idempotent (Some oddEnvText) {[ "PORT" := "9000" ]})
    as (Hlookup & _ & _ & Hsame).
  split; [rewrite Hlookup; reflexivity|]. split; [rewrite Hlookup; reflexivity|].
  split; [rewrite Hlookup; reflexivity|]. split; [rewrite Hlookup; reflexivity|].
  exact Hsame.
Defined.

(** Clearing a directory with files, links and directories: the two
    links stay, each where it was, with the directories above the
    second. *)
Lemma removeDirContentsRecursive_empties_witness :
  removeDirContentsRecursive mixedTree
    = [("latest", DOther); ("old", DDir [("deep", DDir [("link", DOther)])])] /\
  otherPaths (DDir (removeDirContentsRecursive mixedTree))
    = [["latest"]; ["old"; "deep"; "link"]] /\
  statDirBytesRecursive (Some (removeDirContentsRecursive mixedTree)) = 0.
Proof.
  destruct (removeDirContentsRecursive_empties mixedTree) as (Hbytes & _ & Hpaths & _).
  split; [reflexivity|]. split; [rewrite Hpaths; reflexivity|exact Hbytes].
Defined.

(** A download that resolves: the four bytes of the page, in two
    chunks. *)
Lemma fetchUrlBuffer_ok_witness :
  fetchUrlBuffer 3 MAX_DOWNLOAD_BYTES "http://img.test/cat.png"
    = Ok (pngBytes, "image/png") /\
  Z.of_nat (length pngBytes) <= MAX_DOWNLOAD_BYTES.
Proof.
  assert (H : fetchUrlBuffer 3 MAX_DOWNLOAD_BYTES "http://img.test/cat.png"
              = Ok (pngBytes, "image/png")) by reflexivity.
  split; [exact H|].
  assert (Hmax : 0 <= MAX_DOWNLOAD_BYTES) by (unfold MAX_DOWNLOAD_BYTES; lia).
  exact (proj1 (fetchUrlBuffer_ok 3 MAX_DOWNLOAD_BYTES _ _ _ Hmax H)).
Defined.

(** An address that redirects to itself fails with 302, with three
    redirects to follow or with thirty. *)
Lemma fetchUrlBuffer_redirect_loop_witness :
  @fetchUrlBuffer Z loopPlatform 3 MAX_DOWNLOAD_BYTES "http://img.test/loop"
    = Throw (HttpStatus 302) /\
  @fetchUrlBuffer Z loopPlatform 30 MAX_DOWNLOAD_BYTES "http://img.test/loop"
    = Throw (HttpStatus 302).
Proof.
  pose (r := {| resp_status := 302; resp_location := Some "http://img.test/loop";
                resp_contentType := None; resp_chunks := [] |}).
  split.
  - apply (@fetchUrlBuffer_redirect_loop Z loopPlatform 3 MAX_DOWNLOAD_BYTES
             "http://img.test/loop" r "http://img.test/loop"); reflexivity.
  - apply (@fetchUrlBuffer_redirect_loop Z loopPlatform 30 MAX_DOWNLOAD_BYTES
             "http://img.test/loop" r "http://img.test/loop"); reflexivity.
Defined.

Lemma parseDataUrl_round_trip_witness :
  parseDataUrl ("data:" +:+ "image/jpeg" +:+ ";base64," +:+ Base64.encode oddBytes)
    = Some ("image/jpeg", oddBytes).
Proof.
  apply (parseDataUrl_round_trip "image/jpeg" oddBytes); try reflexivity.
  - repeat constructor; unfold Base64.isByte; lia.
  - discriminate.
Defined.

(** A data URL with a parameter before [;base64], or without bytes, is
    not read. *)
Lemma parseDataUrl_refuses :
  parseDataUrl "data:image/png;charset=utf-8;base64,iVBORw==" = None /\
  parseDataUrl "data:image/png;base64," = None /\
  parseDataUrl "DATA:image/png;base64,iVBORw==" = None.
Proof. vm_compute. repeat split; reflexivity. Qed.

(** What was saved as [image/JPG] is served as [image/jpeg]. *)
Lemma stored_image_content_type_witness :
  guessContentTypeByExt
    ("/srv/banana/data/users/alice/uploads" +:+ "/" +:+ "1000_000000000000" +:+ "."
       +:+ mimeToExt "image/JPG") = "image/jpeg".
Proof.
  exact (stored_image_content_type "/srv/banana/data/users/alice/uploads"
           "1000_000000000000" "image/JPG" eq_refl eq_refl).
Defined.

(** Three listed files in pages of two: the second call starts after
    [c.png], the third finds nothing more. *)
Lemma listUserImages_pages_witness :
  listUserImages someEntries (Fin 2) None
    = ([ {| fs_name := "b.png"; fs_mtimeMs := 30; fs_size := 200 |};
         {| fs_name := "c.png"; fs_mtimeMs := 30; fs_size := 300 |} ], Some "c.png") /\
  listUserImages someEntries (Fin 2) (Some "c.png")
    = ([ {| fs_name := "a.png"; fs_mtimeMs := 10; fs_size := 100 |} ], Some "a.png") /\
  listUserImages someEntries (Fin 2) (Some "a.png") = ([], None) /\
  allPages 6 someEntries (Fin 2) None = sortNewest (statFiles someEntries).
Proof.
  split; [reflexivity|]. split; [reflexivity|]. split; [reflexivity|].
  pose proof (listUserImages_pages someEntries (Fin 2) 6) as H. cbv zeta in H.
  destruct H as (Hall & _); [| | |exact Hall].
  - apply (bool_decide_unpack _). vm_compute. exact I.
  - repeat constructor.
  - cbn. lia.
Defined.

(** A saved chat is the first of the next listing. *)
Lemma favorites_add_then_list_witness :
  exists old,
    fst (favoritesList secret aliceToken 1500 "/api/favorites/chats" favWorld)
      = SendJson 200 (JObj [("items", JArr old)]) /\
    fst (favoritesList secret aliceToken 1600 "/api/favorites/chats"
           (snd (favoritesAdd secret aliceToken 1500 chatBody favWorld)))
      = SendJson 200 (JObj [("items", JArr (chatStored :: old))]).
Proof.
  apply (favorites_add_then_list secret aliceToken 1500 1600 chatBody favWorld
           (snd (favoritesAdd secret aliceToken 1500 chatBody favWorld)) chatStored).
  - vm_compute. reflexivity.
  - vm_compute. reflexivity.
Defined.

(** With her own token alice is served a file of [alice2]. *)
Lemma files_route_sibling_prefix_witness :
  fst (filesRoute secret aliceToken 1500 "/files/alice/../alice2/secret.png" world0)
    = ServeFile "/srv/banana/data/users/alice2/secret.png" /\
  below (Path.join [USERS_ROOT; "alice"]) "/srv/banana/data/users/alice2/secret.png" = false.
Proof.
  assert (Hne : rootSegs <> []) by discriminate.
  assert (Hsegs : Forall Path.properSeg rootSegs) by (repeat constructor).
  assert (Hver : verifyToken secret aliceToken 1500 = Ok (Some alicePayload))
    by (vm_compute; reflexivity).
  assert (Hu : Path.properSeg "alice") by (repeat constructor).
  assert (Hus : Path.properSeg ("alice" +:+ "2")) by (repeat constructor).
  assert (Hf : Path.properSeg "secret.png") by (repeat constructor).
  exact (files_route_sibling_prefix secret aliceToken 1500 world0 rootSegs
           alicePayload "alice" "2" "secret.png"
           Hne Hsegs eq_refl Hver eq_refl Hu Hus Hf eq_refl).
Defined.

(** Alice clears her galleries: 90 bytes on disk, none after. *)
Lemma images_clear_all_witness :
  diskUsage quotaWorld "alice" = 90 /\
  fst (imagesClear secret aliceToken 1500 (JObj [("kind", JStr "ALL")]) quotaWorld)
    = SendJson 200
        (JObj [("ok", JBool true);
               ("usage", JObj [("uploadsBytes", JNum 0); ("generatedBytes", JNum 0)])]) /\
  diskUsage (snd (imagesClear secret aliceToken 1500 (JObj [("kind", JStr "ALL")]) quotaWorld))
    "alice" = 0.
Proof.
  split; [reflexivity|].
  destruct (images_clear_all secret aliceToken 1500 (JObj [("kind", JStr "ALL")])
              quotaWorld alicePayload "alice") as (Hr & _ & Hd & _);
    [vm_compute; reflexivity|reflexivity|discriminate|reflexivity|].
  split; [exact Hr|exact Hd].
Defined.

(** After [usage.json] was lost the usage route measures the disk. *)
Lemma storage_usage_report_witness :
  cachedUsage resetWorld "alice" = 0 /\
  fst (storageUsage secret aliceToken 1500 resetWorld)
    = SendJson 200
        (JObj [("quotaBytes", JNum 50); ("usedBytes", JNum 100);
               ("uploadsBytes", JNum 100); ("generatedBytes", JNum 0)]) /\
  exists quota usage,
    fst (storageUsage secret aliceToken 1500 resetWorld)
      = SendJson 200
          (JObj [("quotaBytes", quota);
                 ("usedBytes", JNum (uploadsBytes usage + generatedBytes usage));
                 ("uploadsBytes", JNum (uploadsBytes usage));
                 ("generatedBytes", JNum (generatedBytes usage))]) /\
    (uploadsBytes usage + generatedBytes usage = 0 ->
     statDirBytes (ud_uploads (userDir resetWorld "alice"))
     + statDirBytes (ud_generated (userDir resetWorld "alice")) = 0).
Proof.
  split; [reflexivity|]. split; [vm_compute; reflexivity|].
  destruct (storage_usage_report secret aliceToken 1500 resetWorld alicePayload "alice")
    as (quota & usage & Hr & _ & _ & Hz); [vm_compute; reflexivity|reflexivity|].
  exists quota, usage. split; [exact Hr|exact Hz].
Defined.

(** The picture of the cat is stored once. *)
Lemma remote_url_stored_once_witness :
  exists fileName s1,
    materializeRemoteUrl chatCtx "http://img.test/cat.png" (start world0)
      = (Ok (favFileUri chatCtx fileName), s1) /\
    w_files (ms_world s1)
      = (Path.join [fc_dir chatCtx; fileName], pngBytes) :: w_files (ms_world (start world0)) /\
    forall s2 : MatState Z,
      ms_remoteUrlMap s1 ⊆ ms_remoteUrlMap s2 ->
      materializeRemoteUrl chatCtx "http://img.test/cat.png" s2
        = (Ok (favFileUri chatCtx fileName), s2).
Proof.
  apply (remote_url_stored_once chatCtx "http://img.test/cat.png" (start world0)
           pngBytes "image/png"); reflexivity.
Defined.

(** A reference of alice to [../bob/meta.json] copies the account file
    of bob into her favorite. *)
Lemma snapshot_copies_outside_witness :
  exists fileName s1,
    snapshotFileUri chatCtx ("/files/alice/" +:+ "../bob/meta.json") (start bobWorld)
      = (Ok (favFileUri chatCtx fileName), s1) /\
    w_files (ms_world s1)
      = (Path.join [fc_dir chatCtx; fileName], [123; 125]) :: w_files bobWorld.
Proof.
  apply (snapshot_copies_outside chatCtx rootSegs (start bobWorld) "bob" "meta.json"
           [123; 125]); try done.
  repeat constructor.
Defined.

(** An admin over a quota of 10 bytes with 500 on disk. *)
Lemma admin_has_no_quota_witness :
  getQuotaBytes "root" adminWorld = (Ok None, adminWorld) /\
  assertGalleryHasSpace "root" "uploads" (Fin 1000000) adminWorld = (Ok tt, adminWorld).
Proof. exact (admin_has_no_quota adminWorld "root" "uploads" (Fin 1000000) eq_refl). Defined.

(** Seven bytes added and taken off again. *)
Lemma usage_add_then_remove_witness :
  usageOf (snd (addUsage "alice" "uploads" (Fin 7) quotaWorld)) "alice"
    = {| uploadsBytes := 97; generatedBytes := 0 |} /\
  usageOf (snd (changeUsage "alice" "uploads" (Fin (-7))
                  (snd (addUsage "alice" "uploads" (Fin 7) quotaWorld)))) "alice"
    = usageOf quotaWorld "alice".
Proof.
  assert (Hb : 0 <= 7) by lia.
  assert (Hn : usageNonneg (usageOf quotaWorld "alice")) by (split; vm_compute; discriminate).
  assert (He : kindBytes (usageOf quotaWorld "alice") "uploads" + 7 <= EXACT_BYTES)
    by (vm_compute; discriminate).
  destruct (usage_add_then_remove quotaWorld "alice" "uploads" 7 eq_refl Hb Hn He)
    as (Hadd & _ & Hback).
  exact (conj Hadd Hback).
Defined.


(** Alice deletes [a.png], of 88 bytes, whose thumbnail has 2. *)
Lemma images_delete_removes_witness :
  fst (imagesDelete secret aliceToken 1500 (deleteBody "/files/alice/uploads/a.png")
         quotaWorld)
    = SendJson 200 (JObj [("ok", JBool true)]) /\
  statDirBytesRecursive
    (galleryOf
       (userDir (snd (imagesDelete secret aliceToken 1500
                        (deleteBody "/files/alice/uploads/a.png") quotaWorld))
          "alice") "uploads")
    = 90 - 88 - 2 /\
  synced (snd (imagesDelete secret aliceToken 1500
                 (deleteBody "/files/alice/uploads/a.png") quotaWorld))
    "alice" "uploads".
Proof.
  pose proof (images_delete_removes rootSegs ltac:(discriminate)
                ltac:(repeat constructor) eq_refl
                secret aliceToken 1500 (deleteBody "/files/alice/uploads/a.png")
                quotaWorld alicePayload "alice" "uploads" "a" "png"
                [("a.png", DFile 88); ("thumbs", DDir [("a.webp", DFile 2)])] 88%N) as H.
  cbv zeta in H.
  destruct H as (H1 & _ & _ & _ & H5 & H6);
    [first [discriminate | vm_compute; reflexivity
           | intros s Hs; cbn; by rewrite Hs
           | apply (bool_decide_unpack _); vm_compute; exact I
           | right; eexists; vm_compute; reflexivity]..|].
  split; [exact H1|]. split; [exact H5|].
  apply H6. vm_compute. reflexivity.
Defined.

(** Alice deletes an image that she does not have. *)
Lemma images_delete_missing_witness :
  imagesDelete secret aliceToken 1500 (deleteBody "/files/alice/uploads/zz.png")
    quotaWorld
    = (SendJson 200 (JObj [("ok", JBool true)]), quotaWorld).
Proof.
  apply (images_delete_missing rootSegs ltac:(discriminate)
           ltac:(repeat constructor) eq_refl
           secret aliceToken 1500 (deleteBody "/files/alice/uploads/zz.png")
           quotaWorld alicePayload "alice" "uploads" "zz" "png");
    first [discriminate | vm_compute; reflexivity
          | intros s Hs; cbn; by rewrite Hs
          | vm_compute; split; reflexivity].
Defined.


(** Bob asks to delete an image of alice. *)
Lemma images_delete_foreign_witness :
  imagesDelete secret bobToken 1500 (deleteBody "/files/alice/uploads/a.png") quotaWorld
    = (SendJson 403 (errorBody "Forbidden"), quotaWorld).
Proof.
  apply (images_delete_foreign secret bobToken 1500
           (deleteBody "/files/alice/uploads/a.png") quotaWorld
           (JObj [("u", JStr "bob"); ("a", JBool false); ("exp", JNum 2000)])
           "bob" "alice" "uploads" "a" "png");
    first [discriminate | vm_compute; reflexivity | intros s Hs; cbn; by rewrite Hs].
Defined.


End MoreExamples.
